(** * DocVerify: a shallow embedding of the document-verification heuristic

    The development follows three parts of the repository's source:

    - [src/components/DocumentUploader.tsx]: the uploader component
      (module [Uploader]);
    - the [gemini-verification] API route (module [GeminiRoute]);
    - the admin API routes [users] and [make-admin] (module [AdminRoutes]).

    Module [Pipeline] puts the uploader in front of the route, module
    [Samples] holds the files, browsers and servers of the concrete runs.

    JavaScript strings are sequences of UTF-16 code units, numbers are IEEE
    754 binary64 values (Rocq's primitive floats), timestamps and byte counts
    are integers.  Calls into the browser, the OCR engine, the image
    classifier, the identity provider, the document database and the hosted
    model are oracles collected in environment records; a computation
    returns, throws or never settles, and records the external steps it
    took. *)

Set Warnings "-inexact-float,-register-all".

From Stdlib Require Import List Bool Arith NArith ZArith Lia.
From Stdlib Require String Ascii DecimalString DecimalNat.
Import String.StringSyntax.
Delimit Scope string_scope with string.
From Stdlib Require Import Floats.PrimFloat.
Import ListNotations.

Local Open Scope list_scope.

(* ================================================================== *)
(** * JavaScript strings *)
(* ================================================================== *)

Module JS.

(** A string is the list of its UTF-16 code units. *)
Definition jsstring : Type := list N.

(** A string literal of the source (all literals of the source are ASCII). *)
Definition str (s : String.string) : jsstring :=
  map Ascii.N_of_ascii (String.list_ascii_of_string s).
Arguments str s%_string.

Definition jsstring_eqb (a b : jsstring) : bool :=
  if list_eq_dec N.eq_dec a b then true else false.

(** The double-quote character, for literals that contain it. *)
Definition dquote : jsstring := [34%N].

(** [s.startsWith(p)] *)
Fixpoint startsWith (s p : jsstring) : bool :=
  match p, s with
  | [], _ => true
  | _ :: _, [] => false
  | c :: p', d :: s' => N.eqb c d && startsWith s' p'
  end.

(** [s.includes(t)] *)
Fixpoint includes (s t : jsstring) : bool :=
  startsWith s t ||
  match s with
  | [] => false
  | _ :: s' => includes s' t
  end.

(** [parts.join(sep)] *)
Fixpoint join (sep : jsstring) (parts : list jsstring) : jsstring :=
  match parts with
  | [] => []
  | [p] => p
  | p :: rest => p ++ sep ++ join sep rest
  end.

(** Decimal rendering of a non-negative integer, as a template literal
    renders [s.length]. *)
Definition nat_to_string (n : nat) : jsstring :=
  str (DecimalString.NilEmpty.string_of_uint (Nat.to_uint n)).

(** ** Character classes of the regular expressions in the source *)

(** [\s]: WhiteSpace and LineTerminator code units. *)
Definition is_space (c : N) : bool :=
  ((9 <=? c) && (c <=? 13) || (c =? 32) || (c =? 160) || (c =? 5760)
   || ((8192 <=? c) && (c <=? 8202)) || (c =? 8232) || (c =? 8233)
   || (c =? 8239) || (c =? 8287) || (c =? 12288) || (c =? 65279))%N.

(** LineTerminator, which [.] does not match. *)
Definition is_line_terminator (c : N) : bool :=
  ((c =? 10) || (c =? 13) || (c =? 8232) || (c =? 8233))%N.

(** [\w], which decides [\b]: ASCII letters, digits and underscore. *)
Definition is_word (c : N) : bool :=
  ((65 <=? c) && (c <=? 90) || (97 <=? c) && (c <=? 122)
   || (48 <=? c) && (c <=? 57) || (c =? 95))%N.

(** Canonicalisation of an [/i] match without the [u] flag, restricted to
    what the patterns of the source need: every pattern character is an ASCII
    letter, and a code unit outside ASCII is never canonicalised into ASCII,
    so only the two cases of an ASCII letter match it. *)
Definition upper_ascii (c : N) : N :=
  if ((97 <=? c) && (c <=? 122))%N then (c - 32)%N else c.

Definition ci_char_eqb (p c : N) : bool := N.eqb (upper_ascii p) (upper_ascii c).

(** The literal [p] matches case-insensitively at the start of [s]; the
    result is the rest of [s] after the match. *)
Fixpoint ci_strip (p s : jsstring) : option jsstring :=
  match p, s with
  | [], _ => Some s
  | _ :: _, [] => None
  | c :: p', d :: s' => if ci_char_eqb c d then ci_strip p' s' else None
  end.

Definition ci_startsWith (s p : jsstring) : bool :=
  match ci_strip p s with Some _ => true | None => false end.

Fixpoint ci_includes (s t : jsstring) : bool :=
  ci_startsWith s t ||
  match s with
  | [] => false
  | _ :: s' => ci_includes s' t
  end.

(** [/w1|w2|...|wn/i.test(s)] for literal alternatives. *)
Definition test_any_ci (words : list jsstring) (s : jsstring) : bool :=
  existsb (ci_includes s) words.

(** ASCII lower-casing; it agrees with [String.prototype.toLowerCase] on
    ASCII strings and instantiates that built-in in concrete runs. *)
Definition lower_ascii (c : N) : N :=
  if ((65 <=? c) && (c <=? 90))%N then (c + 32)%N else c.

Definition asciiLower (s : jsstring) : jsstring := map lower_ascii s.

(** ** [s.replace(/\s+/g, ' ').trim()] *)

Fixpoint dropSpaces (s : jsstring) : jsstring :=
  match s with
  | c :: s' => if is_space c then dropSpaces s' else s
  | [] => []
  end.

(** [s.replace(/\s+/g, ' ')]: [inRun] tells that the previous code unit was
    white space, already replaced. *)
Fixpoint collapseSpaces (inRun : bool) (s : jsstring) : jsstring :=
  match s with
  | [] => []
  | c :: s' =>
      if is_space c
      then (if inRun then collapseSpaces true s' else 32%N :: collapseSpaces true s')
      else c :: collapseSpaces false s'
  end.

(** [s.trim()] *)
Definition trim (s : jsstring) : jsstring :=
  rev (dropSpaces (rev (dropSpaces s))).

(** ** [text.match(/\{[\s\S]*\}/)] *)

Fixpoint dropUntil (c : N) (s : jsstring) : option jsstring :=
  match s with
  | [] => None
  | d :: s' => if N.eqb c d then Some s' else dropUntil c s'
  end.

(** The longest prefix of [s] that ends with code unit [c]. *)
Fixpoint uptoLast (c : N) (s : jsstring) : option jsstring :=
  match s with
  | [] => None
  | d :: s' =>
      match uptoLast c s' with
      | Some r => Some (d :: r)
      | None => if N.eqb c d then Some [d] else None
      end
  end.

(** Element 0 of the match of [/\{[\s\S]*\}/]: from the first opening brace
    to the last closing brace after it. *)
Definition matchBraces (text : jsstring) : option jsstring :=
  match dropUntil 123 text with
  | None => None
  | Some rest =>
      match uptoLast 125 rest with
      | None => None
      | Some body => Some (123%N :: body)
      end
  end.

(** ** [/\b(not|non)[\s-]?(valid|official)\b/i.test(s)] *)

Definition boundary (prev next : option N) : bool :=
  xorb (match prev with Some c => is_word c | None => false end)
       (match next with Some c => is_word c | None => false end).

(** [(valid|official)\b] at the start of [s]; the code unit before each
    alternative's end is a letter. *)
Definition matchValidOfficial (s : jsstring) : bool :=
  existsb
    (fun w => match ci_strip w s with
              | Some rest => boundary (Some 100%N) (hd_error rest)
              | None => false
              end)
    [str "valid"; str "official"].

(** [(not|non)[\s-]?(valid|official)\b] at the start of [s].  The optional
    separator is greedy; giving it back cannot help, since neither word
    starts with a separator. *)
Definition matchDisclaimerHere (s : jsstring) : bool :=
  existsb
    (fun w => match ci_strip w s with
              | Some (c :: rest) =>
                  if is_space c || N.eqb c 45
                  then matchValidOfficial rest
                  else matchValidOfficial (c :: rest)
              | _ => false
              end)
    [str "not"; str "non"].

Fixpoint scanDisclaimer (prev : option N) (s : jsstring) : bool :=
  (boundary prev (hd_error s) && matchDisclaimerHere s) ||
  match s with
  | [] => false
  | c :: s' => scanDisclaimer (Some c) s'
  end.

Definition testDisclaimer (s : jsstring) : bool := scanDisclaimer None s.

(** ** [content.match(/\/Field\s*\((.*?)\)/)] *)

(** The literal [p] at the start of [s], case-sensitively; the result is the
    rest of [s]. *)
Fixpoint strip (p s : jsstring) : option jsstring :=
  match p, s with
  | [], _ => Some s
  | _ :: _, [] => None
  | c :: p', d :: s' => if N.eqb c d then strip p' s' else None
  end.

(** [(.*?)\)]: the shortest run of code units other than line terminators
    that a closing parenthesis follows; the result is the run. *)
Fixpoint lazyUntilParen (s : jsstring) : option jsstring :=
  match s with
  | [] => None
  | c :: s' =>
      if N.eqb c 41 then Some []
      else if is_line_terminator c then None
      else option_map (cons c) (lazyUntilParen s')
  end.

Definition matchFieldHere (field s : jsstring) : option jsstring :=
  match strip field s with
  | Some rest =>
      match dropSpaces rest with
      | 40%N :: body => lazyUntilParen body
      | _ => None
      end
  | None => None
  end.

(** Capture group 1 of the leftmost match of [/Field\s*\((.*?)\)/], where
    [field] is the literal with its leading slash. *)
Fixpoint matchField (field s : jsstring) : option jsstring :=
  match matchFieldHere field s with
  | Some g => Some g
  | None =>
      match s with
      | [] => None
      | _ :: s' => matchField field s'
      end
  end.

(** ** [s.replace(/\\([0-9a-f]{2})/g, '%$1')] *)

Definition is_lower_hex (c : N) : bool :=
  ((48 <=? c) && (c <=? 57) || (97 <=? c) && (c <=? 102))%N.

Fixpoint replaceHexEscapes (s : jsstring) : jsstring :=
  match s with
  | [] => []
  | c :: s' =>
      match s' with
      | h1 :: h2 :: rest =>
          if N.eqb c 92 && is_lower_hex h1 && is_lower_hex h2
          then 37%N :: h1 :: h2 :: replaceHexEscapes rest
          else c :: replaceHexEscapes s'
      | _ => c :: replaceHexEscapes s'
      end
  end.

(** ** [decodeURIComponent] *)

Definition hexval (c : N) : option N :=
  (if (48 <=? c) && (c <=? 57) then Some (c - 48)
   else if (97 <=? c) && (c <=? 102) then Some (c - 87)
   else if (65 <=? c) && (c <=? 70) then Some (c - 55)
   else None)%N.

(** Where the decoder stands inside an escape [%XY]. *)
Inductive escapeState : Type :=
| Outside
| AfterPercent
| AfterDigit (high : N).

(** An unfinished UTF-8 sequence: the continuation octets still expected, the
    bits read so far, and the least code point the sequence may encode. *)
Definition pendingUtf8 : Type := option (nat * N * N).

Definition utf16Encode (cp : N) : jsstring :=
  (if cp <? 65536 then [cp]
   else [55296 + (cp - 65536) / 1024; 56320 + (cp - 65536) mod 1024])%N.

Definition validCodePoint (cp least : N) : bool :=
  ((least <=? cp) && (cp <=? 1114111) && negb ((55296 <=? cp) && (cp <=? 57343)))%N.

(** The Decode operation of ECMAScript with an empty set of reserved code
    units, one code unit at a time; [None] is a thrown URIError. *)
Fixpoint decodeFrom (e : escapeState) (u : pendingUtf8) (s : jsstring)
  : option jsstring :=
  match s with
  | [] =>
      match e, u with
      | Outside, None => Some []
      | _, _ => None
      end
  | c :: s' =>
      match e with
      | Outside =>
          if N.eqb c 37 then decodeFrom AfterPercent u s'
          else match u with
               | None => option_map (cons c) (decodeFrom Outside None s')
               | Some _ => None
               end
      | AfterPercent =>
          match hexval c with
          | Some h => decodeFrom (AfterDigit h) u s'
          | None => None
          end
      | AfterDigit h =>
          match hexval c with
          | None => None
          | Some l =>
              let b := (16 * h + l)%N in
              match u with
              | None =>
                  if (b <? 128)%N
                  then option_map (cons b) (decodeFrom Outside None s')
                  else if ((192 <=? b) && (b <? 224))%N
                  then decodeFrom Outside (Some (1%nat, (b - 192)%N, 128%N)) s'
                  else if ((224 <=? b) && (b <? 240))%N
                  then decodeFrom Outside (Some (2%nat, (b - 224)%N, 2048%N)) s'
                  else if ((240 <=? b) && (b <? 248))%N
                  then decodeFrom Outside (Some (3%nat, (b - 240)%N, 65536%N)) s'
                  else None
              | Some (k, acc, least) =>
                  if ((128 <=? b) && (b <? 192))%N
                  then
                    let acc' := (acc * 64 + (b - 128))%N in
                    match k with
                    | O => None
                    | S O =>
                        if validCodePoint acc' least
                        then option_map (app (utf16Encode acc'))
                                        (decodeFrom Outside None s')
                        else None
                    | S k' => decodeFrom Outside (Some (k', acc', least)) s'
                    end
                  else None
              end
          end
      end
  end.

Definition decodeURIComponent (s : jsstring) : option jsstring :=
  decodeFrom Outside None s.

(** ** [s.split(sep)] *)

(** Element 0 of [s.split(sep)] for a non-empty [sep]: the text before the
    first occurrence of [sep]. *)
Fixpoint beforeSep (sep s : jsstring) : jsstring :=
  if startsWith s sep then []
  else match s with
       | [] => []
       | c :: s' => c :: beforeSep sep s'
       end.

(** [s.split(sep)[1]] for a string [s] that starts with the non-empty [sep]. *)
Definition secondPiece (sep s : jsstring) : jsstring :=
  beforeSep sep (skipn (length sep) s).

Fixpoint takeUntil (c : N) (s : jsstring) : jsstring :=
  match s with
  | [] => []
  | d :: s' => if N.eqb c d then [] else d :: takeUntil c s'
  end.

(** [s.split('.').pop()]: the text after the last full stop, the whole
    string when it has none. *)
Definition lastDotSegment (s : jsstring) : jsstring :=
  rev (takeUntil 46 (rev s)).

(** [s.substring(0, n)] *)
Definition substring0 (n : nat) (s : jsstring) : jsstring := firstn n s.

(** ** [JSON.stringify] of strings and of string records *)

Definition hexDigit (d : N) : N := (if d <? 10 then 48 + d else 87 + d)%N.

(** [\uXXXX] with lower-case digits. *)
Definition unicodeEscape (c : N) : jsstring :=
  [92; 117; hexDigit (c / 4096); hexDigit ((c / 256) mod 16);
   hexDigit ((c / 16) mod 16); hexDigit (c mod 16)]%N.

Definition isHighSurrogate (c : N) : bool := ((55296 <=? c) && (c <=? 56319))%N.
Definition isLowSurrogate (c : N) : bool := ((56320 <=? c) && (c <=? 57343))%N.

(** The body of QuoteJSONString: short escapes, [\u] escapes for the other
    control characters and for unpaired surrogates.  [afterHigh] tells that
    the previous code unit was a high surrogate that this one may complete. *)
Fixpoint quoteBody (afterHigh : bool) (s : jsstring) : jsstring :=
  match s with
  | [] => []
  | c :: s' =>
      if N.eqb c 8 then str "\b" ++ quoteBody false s'
      else if N.eqb c 9 then str "\t" ++ quoteBody false s'
      else if N.eqb c 10 then str "\n" ++ quoteBody false s'
      else if N.eqb c 12 then str "\f" ++ quoteBody false s'
      else if N.eqb c 13 then str "\r" ++ quoteBody false s'
      else if N.eqb c 34 then [92; 34]%N ++ quoteBody false s'
      else if N.eqb c 92 then [92; 92]%N ++ quoteBody false s'
      else if (c <? 32)%N then unicodeEscape c ++ quoteBody false s'
      else if isHighSurrogate c then
        match s' with
        | d :: _ =>
            if isLowSurrogate d then c :: quoteBody true s'
            else unicodeEscape c ++ quoteBody false s'
        | [] => unicodeEscape c
        end
      else if isLowSurrogate c then
        (if afterHigh then [c] else unicodeEscape c) ++ quoteBody false s'
      else c :: quoteBody false s'
  end.

(** [JSON.stringify(s)] for a string *)
Definition quoteJSON (s : jsstring) : jsstring :=
  dquote ++ quoteBody false s ++ dquote.

(** [JSON.stringify(o)] for an object whose values are strings *)
Definition stringifyRecord (o : list (jsstring * jsstring)) : jsstring :=
  str "{"
  ++ join (str ",") (map (fun kv => quoteJSON (fst kv) ++ str ":" ++ quoteJSON (snd kv)) o)
  ++ str "}".

(** ** The size of a [Blob] built from a string *)

(** The number of bytes of the UTF-8 encoding of a string: a surrogate
    pair is one code point of four bytes, and a surrogate without its
    partner is encoded as U+FFFD, in three bytes. *)
Fixpoint utf8Length (s : jsstring) : nat :=
  match s with
  | [] => 0
  | c :: s' =>
      if (c <? 128)%N then 1 + utf8Length s'
      else if (c <? 2048)%N then 2 + utf8Length s'
      else if isHighSurrogate c then
        match s' with
        | d :: s'' =>
            if isLowSurrogate d then 4 + utf8Length s'' else 3 + utf8Length s'
        | [] => 3
        end
      else 3 + utf8Length s'
  end.

(** ** [(n / 1024).toFixed(2)] for a byte count *)

Definition twoDigits (n : nat) : jsstring :=
  (if n <? 10 then str "0" else []) ++ nat_to_string n.

(** Dividing by 1024 is exact in binary64, and [toFixed] rounds the exact
    value to hundredths, a tie going up. *)
Definition kilobytes (n : Z) : jsstring :=
  let hundredths := Z.to_nat ((200 * n + 1024) / 2048) in
  nat_to_string (hundredths / 100) ++ str "." ++ twoDigits (hundredths mod 100).

End JS.
Export JS.

(* ================================================================== *)
(** * Numbers, objects and computations *)
(* ================================================================== *)

(** [Math.min] and [Math.max] on binary64 values: NaN is contagious and
    [-0] is below [+0]. *)
Definition Math_min (a b : float) : float :=
  if PrimFloat.is_nan a || PrimFloat.is_nan b then PrimFloat.nan
  else if PrimFloat.ltb a b then a
  else if PrimFloat.ltb b a then b
  else if PrimFloat.get_sign a then a else b.

Definition Math_max (a b : float) : float :=
  if PrimFloat.is_nan a || PrimFloat.is_nan b then PrimFloat.nan
  else if PrimFloat.ltb a b then b
  else if PrimFloat.ltb b a then a
  else if PrimFloat.get_sign a then b else a.

(** [if (c) score -= p;] *)
Definition penalise (c : bool) (p : float) (score : float) : float :=
  if c then (score - p)%float else score.

(** [if (c) list.push(x);] *)
Definition pushIf {A : Type} (c : bool) (x : A) (l : list A) : list A :=
  if c then l ++ [x] else l.

(** A JavaScript value that JSON can carry. *)
Inductive json : Type :=
| JNull
| JBool (b : bool)
| JNum (x : float)
| JStr (s : jsstring)
| JArr (items : list json)
| JObj (fields : list (jsstring * json)).

(** An object literal with string keys, in insertion order. *)
Definition object (V : Type) : Type := list (jsstring * V).

Fixpoint obj_get {V : Type} (k : jsstring) (o : object V) : option V :=
  match o with
  | [] => None
  | (k', v) :: o' => if jsstring_eqb k k' then Some v else obj_get k o'
  end.

(** [o[k] = v]: an existing key keeps its place, a new one goes last. *)
Fixpoint obj_set {V : Type} (k : jsstring) (v : V) (o : object V) : object V :=
  match o with
  | [] => [(k, v)]
  | (k', v') :: o' =>
      if jsstring_eqb k k' then (k, v) :: o' else (k', v') :: obj_set k v o'
  end.

(** [{ ...o, k1: v1, ..., kn: vn }] *)
Definition obj_extend {V : Type} (o : object V) (more : object V) : object V :=
  fold_left (fun acc kv => obj_set (fst kv) (snd kv) acc) more o.

(** ToBoolean *)
Definition truthy (v : json) : bool :=
  match v with
  | JNull => false
  | JBool b => b
  | JNum x => negb (PrimFloat.is_zero x || PrimFloat.is_nan x)
  | JStr s => negb (jsstring_eqb s [])
  | JArr _ | JObj _ => true
  end.

(** ToBoolean of a property that may be absent. *)
Definition truthyField (k : jsstring) (o : object json) : bool :=
  match obj_get k o with
  | Some v => truthy v
  | None => false
  end.

(** ToBoolean of a string that may be absent. *)
Definition nonEmpty (s : option jsstring) : bool :=
  match s with
  | Some (_ :: _) => true
  | _ => false
  end.

(** [value || fallback] for strings. *)
Definition orElse (s : option jsstring) (fallback : jsstring) : jsstring :=
  match s with
  | Some (c :: r) => c :: r
  | _ => fallback
  end.

Definition jsonOfRecord (m : object jsstring) : json :=
  JObj (map (fun kv => (fst kv, JStr (snd kv))) m).

(** The items of a list under their indices as property keys. *)
Definition indexed {A : Type} (items : list A) : object A :=
  combine (map nat_to_string (seq 0 (length items))) items.

(** [Object.entries(v)]: the own enumerable properties of a value, which
    are the fields of an object, the items of an array and the code units
    of a string under their indices, and none for a number or a boolean.
    [None] stands for the TypeError that [Object.keys] and
    [Object.entries] throw on [null]. *)
Definition entries (v : json) : option (object json) :=
  match v with
  | JNull => None
  | JBool _ | JNum _ => Some []
  | JStr s => Some (indexed (map (fun c => JStr [c]) s))
  | JArr items => Some (indexed items)
  | JObj fields => Some fields
  end.

(** [v.k] for a key that is neither an index nor [length] nor inherited:
    a field of an object, [undefined] ([None]) on any other value; on
    [null] the access throws, which the [try] around it answers like an
    absent field. *)
Definition field (k : jsstring) (v : json) : option json :=
  match v with
  | JObj fields => obj_get k fields
  | _ => None
  end.

(** What reading a [File] yields: its declared properties, the string
    [readFileHeader(file, 5)] builds from its first bytes once they are
    read, and the string [FileReader.readAsText] or [Blob.text] decodes
    ([None] when reading fails). *)
Record File : Type := {
  name : jsstring;
  size : Z;
  type : jsstring;
  lastModified : Z;
  header : jsstring;
  content : option jsstring
}.

(** The multipart body of a request to the verification route. *)
Record FormData : Type := {
  image : option File;
  features : option jsstring;
  metadata : option jsstring
}.

(** ** Computations *)

(** An asynchronous computation resolves, rejects with an [Error] (kept as
    its message), or never settles. *)
Inductive outcome (A : Type) : Type :=
| Returns (a : A)
| Throws (message : jsstring)
| Hangs.
Arguments Returns {A} a.
Arguments Throws {A} message.
Arguments Hangs {A}.

Section Run.
Context {E : Type}.

(** The external steps taken, oldest first, and how the computation ends. *)
Definition run (A : Type) : Type := (list E * outcome A)%type.

Definition ret {A} (a : A) : run A := ([], Returns a).
Definition throw {A} (message : jsstring) : run A := ([], Throws message).
Definition hang {A} : run A := ([], Hangs).
Definition emit (e : E) : run unit := ([e], Returns tt).

Definition bind {A B} (m : run A) (k : A -> run B) : run B :=
  match m with
  | (l, Returns a) => let (l', o) := k a in (l ++ l', o)
  | (l, Throws msg) => (l, Throws msg)
  | (l, Hangs) => (l, Hangs)
  end.

(** [try { m } catch (error) { handler(error.message) }] *)
Definition tryCatch {A} (m : run A) (handler : jsstring -> run A) : run A :=
  match m with
  | (l, Throws msg) => let (l', o) := handler msg in (l ++ l', o)
  | other => other
  end.

(** A built-in that returns or throws. *)
Definition lift {A} (r : jsstring + A) : run A :=
  match r with
  | inr a => ret a
  | inl msg => throw msg
  end.

Definition steps {A} (m : run A) : list E := fst m.
Definition result {A} (m : run A) : outcome A := snd m.
End Run.
Arguments run E A : clear implicits.

Declare Scope run_scope.
Delimit Scope run_scope with run.
Notation "x <- m ;; k" := (bind m (fun x => k))
  (at level 61, m at next level, right associativity) : run_scope.
Notation "m ;;; k" := (bind m (fun _ => k))
  (at level 61, right associativity) : run_scope.
Local Open Scope run_scope.

(** The response of the verification route as the uploader reads it
    (interface [GeminiVerificationResponse]). *)
Record RateLimit : Type := {
  callsInLastMinute : Z;
  resetInMs : Z
}.

Record GeminiVerificationResponse : Type := {
  status : jsstring;
  error : option bool;
  message : option jsstring;
  verification : option (object json);
  mockImplementation : option bool;
  mockReason : option jsstring;
  rateLimit : option RateLimit
}.

(** What [fetch] resolves with: the HTTP status, the body as text and the
    body as JSON (or the message of the error [response.json()] rejects
    with). *)
Record HttpResponse : Type := {
  httpStatus : nat;
  bodyText : jsstring;
  bodyJson : jsstring + GeminiVerificationResponse
}.

(** [response.ok] *)
Definition ok (r : HttpResponse) : bool :=
  (200 <=? httpStatus r) && (httpStatus r <=? 299).

(** The external steps of the verification pipeline. *)
Inductive Step : Type :=
| Recognize (f : File)            (** [Tesseract.recognize], in the browser *)
| Classify (f : File)             (** [model.classify], in the browser *)
| Fetch (form : FormData)         (** [fetch('/api/gemini-verification')] *)
| TextStub (f : File)             (** the route's own [extractTextFromImage] *)
| BuildPrompt (prompt : jsstring) (** [createOptimizedPrompt] *)
| Generate (prompt : jsstring)    (** [model.generateContent] *)
| MatchReply (reply : jsstring).  (** [text.match(/\{[\s\S]*\}/)] *)

Definition pdfType : jsstring := str "application/pdf".
Definition mswordType : jsstring := str "application/msword".
Definition docxType : jsstring :=
  str "application/vnd.openxmlformats-officedocument.wordprocessingml.document".
Definition jsonType : jsstring := str "application/json".

(** The two patterns of [suspiciousTextPatterns] and [suspiciousPatterns],
    each with its description. *)
Definition termsDescription : jsstring :=
  str "Contains terms like 'fake', 'copy', 'specimen'".
Definition disclaimerDescription : jsstring :=
  str "Contains disclaimers like 'not valid'".

(** [/fake|copy|specimen|sample|test/i.test(s)] *)
Definition testTerms (s : jsstring) : bool :=
  test_any_ci [str "fake"; str "copy"; str "specimen"; str "sample"; str "test"] s.

Definition suspiciousPatterns : list ((jsstring -> bool) * jsstring) :=
  [(testTerms, termsDescription); (testDisclaimer, disclaimerDescription)].

(** [/temp|untitled|unnamed|copy|fake|test|sample/i.test(s)] *)
Definition testSuspiciousName (s : jsstring) : bool :=
  test_any_ci [str "temp"; str "untitled"; str "unnamed"; str "copy";
               str "fake"; str "test"; str "sample"] s.

(* ================================================================== *)
(** * The uploader component ([DocumentUploader.tsx]) *)
(* ================================================================== *)

Module Uploader.

(** What [Tesseract.recognize] settles with: [result.data.text], which may
    be missing, and [result.data.confidence] on the scale 0 to 100. *)
Inductive Recognition : Type :=
| RecognizeFails (message : jsstring)
| Recognized (text : option jsstring) (confidence : float).

(** The browser around the component: the component's [model] state, the
    image decoder, the OCR engine, the classifier, [fetch], and the built-ins
    that render numbers, dates and JSON. *)
Record Browser : Type := {
  (** the state [model] holds a loaded MobileNet *)
  modelLoaded : bool;
  (** an [img] element fires [onload] for the file, not [onerror] *)
  imageLoads : File -> bool;
  (** the [FileReader] of [readFileHeader] fires [onload] for the first
      bytes of the file, not [onerror] *)
  headerLoads : File -> bool;
  recognize : File -> Recognition;
  (** the probabilities [model.classify] predicts, or the error it throws *)
  classify : File -> jsstring + list float;
  naturalWidth : File -> float;
  naturalHeight : File -> float;
  (** [fetch('/api/gemini-verification', { method: 'POST', body })] *)
  fetch : FormData -> run Step HttpResponse;
  toLowerCase : jsstring -> jsstring;
  (** the decimal rendering of [Math.round(x * 100)] *)
  percent : float -> jsstring;
  (** [new Date(ms).toLocaleString()] *)
  localeString : Z -> jsstring;
  stringifyNumbers : list float -> jsstring;
  (** [Date.now()] when the replacement file of a large PDF is built *)
  today : Z
}.

Record OcrResult : Type := {
  text : jsstring;
  confidence : float
}.

Record PdfAnalysis : Type := {
  pdfMetadata : object jsstring;
  anomalies : list jsstring;
  confidenceScore : float
}.

(** The result of the uploader's [analyzeWithGemini]. *)
Record GeminiResult : Type := {
  isGenuine : option json;
  details : object json
}.

(** The [setFiles] call that records a file's verification. *)
Inductive UpdateSite : Type :=
| ImageVerified       (** image branch, after [analyzeWithGemini] *)
| PdfVerified         (** PDF branch, after [analyzeWithGemini] *)
| DocumentHeuristic   (** document branch, the uploader's own verdict *)
| UnsupportedType     (** any other file type *)
| AnalysisFailed.     (** the [catch] of the per-file [try] *)

Inductive Moderation : Type := Safe | Flagged.

Record FileUpdate : Type := {
  site : UpdateSite;
  moderationStatus : Moderation;
  verificationDetails : object json
}.

Section WithBrowser.
Variable B : Browser.

Definition sizeLabel (f : File) : jsstring := kilobytes (size f) ++ str " KB".

Definition pdfPlaceholder : OcrResult :=
  {| text := str "PDF text extraction requires server-side processing.";
     confidence := 0.5 |}.

Definition noMeaningfulText : OcrResult :=
  {| text := str "No meaningful text could be extracted from this document.";
     confidence := 0.1 |}.

Definition extractionFailed : OcrResult :=
  {| text := str "Text extraction failed. The document may be encrypted, damaged, or in an unsupported format.";
     confidence := 0 |}.

(** The [try] block of [extractTextFromImage]. *)
Definition extractTextFromImage_try (file : File) : run Step OcrResult :=
  if jsstring_eqb (type file) pdfType then ret pdfPlaceholder
  else
    (if imageLoads B file then ret tt else throw (str "Failed to load image")) ;;;
    emit (Recognize file) ;;;
    match recognize B file with
    | RecognizeFails msg => throw msg
    | Recognized t c =>
        let confidence := (c / 100)%float in
        let extractedText := trim (collapseSpaces false (orElse t [])) in
        if (length extractedText <? 5)%nat && PrimFloat.ltb confidence 0.3
        then ret noMeaningfulText
        else ret {| text := extractedText; confidence := confidence |}
    end.

(** [extractTextFromImage]: the [catch] answers every error with the
    fallback result (the [finally] only clears the [isOcrRunning] flag). *)
Definition extractTextFromImage (file : File) : run Step OcrResult :=
  tryCatch (extractTextFromImage_try file) (fun _ => ret extractionFailed).

(** [extractImageFeatures].  The promise that awaits [img.onload] has no
    [onerror]: it never settles for a file the browser cannot decode. *)
Definition extractImageFeatures (file : File) : run Step (list float) :=
  if negb (modelLoaded B) then ret []
  else
    tryCatch
      ((if imageLoads B file then ret tt else hang) ;;;
       emit (Classify file) ;;;
       probabilities <- lift (classify B file) ;;
       ret (probabilities ++
            [(naturalWidth B file / 1000)%float;
             (naturalHeight B file / 1000)%float;
             (naturalWidth B file / naturalHeight B file)%float]))
      (fun _ => ret []).

(** [JSON.stringify({ fileName, fileType, fileSize, isPdf: true })] *)
Definition stringifyFileInfo (file : File) : jsstring :=
  str "{" ++ quoteJSON (str "fileName") ++ str ":" ++ quoteJSON (name file)
  ++ str "," ++ quoteJSON (str "fileType") ++ str ":" ++ quoteJSON (type file)
  ++ str "," ++ quoteJSON (str "fileSize") ++ str ":" ++ nat_to_string (Z.to_nat (size file))
  ++ str "," ++ quoteJSON (str "isPdf") ++ str ":true}".

(** The file a PDF above 500 kB is replaced with in the request: its
    size is the number of bytes of the JSON text in UTF-8. *)
Definition metadataFile (file : File) : File :=
  let body := stringifyFileInfo file in
  {| name := name file;
     size := Z.of_nat (utf8Length body);
     type := jsonType;
     lastModified := today B;
     header := firstn 5 body;
     content := Some body |}.

Definition skippedDetails : object json :=
  [(str "isLikelyGenuine", JBool true);
   (str "isLikelyAiGenerated", JBool false);
   (str "detectedAnomalies", JArr []);
   (str "confidenceScore", JNum 1);
   (str "analysisExplanation", JStr (str "Verification skipped or failed"))].

Definition moderationOf (genuine : bool) : json :=
  JStr (if genuine then str "safe" else str "flagged").

(** The uploader's [analyzeWithGemini]; its [catch] rethrows. *)
Definition analyzeWithGemini (file : File) (metadata : object jsstring)
  : run Step GeminiResult :=
  imageFeatures <-
    (if modelLoaded B && startsWith (type file) (str "image/")
     then extractImageFeatures file
     else ret []) ;;
  let form :=
    {| image :=
         Some (if jsstring_eqb (type file) pdfType && (500000 <? size file)%Z
               then metadataFile file
               else file);
       features :=
         if (0 <? length imageFeatures)%nat
         then Some (stringifyNumbers B imageFeatures)
         else None;
       metadata :=
         if (0 <? length metadata)%nat
         then Some (stringifyRecord metadata)
         else None |} in
  emit (Fetch form) ;;;
  response <- fetch B form ;;
  if negb (ok response)
  then throw (str "Gemini API returned " ++ nat_to_string (httpStatus response)
              ++ str ": " ++ bodyText response)
  else
    match bodyJson response with
    | inl syntaxError => throw syntaxError
    | inr data =>
        if match error data with Some true => true | _ => false end
        then throw (orElse (message data) (str "Unknown error from Gemini API"))
        else
          match verification data with
          | Some v =>
              if jsstring_eqb (status data) (str "success")
              then ret {| isGenuine := obj_get (str "isLikelyGenuine") v;
                          details :=
                            obj_set (str "moderationStatus")
                              (moderationOf (truthyField (str "isLikelyGenuine") v)) v |}
              else ret {| isGenuine := Some (JBool true); details := skippedDetails |}
          | None =>
              ret {| isGenuine := Some (JBool true); details := skippedDetails |}
          end
    end.

(** ** [extractPdfMetadata] *)

(** One of the four blocks that read a field of the PDF's information
    dictionary: [state] is the [metadata] object so far and whether the
    enclosing [try] is still running; [decodeURIComponent] may throw. *)
Definition extractField (pattern key : jsstring) (pdfContent : jsstring)
           (state : object jsstring * bool) : object jsstring * bool :=
  let (metadata, running) := state in
  if running then
    match matchField pattern pdfContent with
    | Some (c :: g) =>
        match decodeURIComponent (replaceHexEscapes (c :: g)) with
        | Some v => (obj_set key v metadata, true)
        | None => (metadata, false)
        end
    | _ => (metadata, true)
    end
  else state.

Definition suspiciousCreators : list jsstring :=
  [str "AI"; str "Generated"; str "GPT"; str "DALL-E"; str "Midjourney";
   str "Stable Diffusion"].
Definition suspiciousProducers : list jsstring :=
  [str "AI"; str "Generated"; str "GPT"; str "DALL-E"; str "Midjourney";
   str "Stable Diffusion"].

(** [metadata[key] && terms.some(term => metadata[key].includes(term))] *)
Definition suggestsAi (key : jsstring) (terms : list jsstring)
           (metadata : object jsstring) : bool :=
  match obj_get key metadata with
  | Some (c :: v) => existsb (includes (c :: v)) terms
  | _ => false
  end.

(** [['Title', 'Author', 'Creator', 'Producer'].filter(field => !metadata[field]).length] *)
Definition missingMetadataCount (metadata : object jsstring) : nat :=
  length (filter (fun field => negb (nonEmpty (obj_get field metadata)))
                 [str "Title"; str "Author"; str "Creator"; str "Producer"]).

Definition limitedExtraction (metadata : object jsstring) : object jsstring :=
  obj_set (str "Status") (str "Limited metadata extraction") metadata.

(** The inner [try] of [extractPdfMetadata] with its [catch]: the fields
    read from the content, then the checks on them.  An error of
    [readFileAsText] or [decodeURIComponent] leaves the checks out and
    marks the metadata. *)
Definition contentChecks (file : File) (hasPdfHeader : bool)
           (state : object jsstring * list jsstring * float)
  : object jsstring * list jsstring * float :=
  let '(metadata, anomalies, confidenceScore) := state in
  if hasPdfHeader then
    match content file with
    | None => (limitedExtraction metadata, anomalies, confidenceScore)
    | Some pdfContent =>
        let (metadata, completed) :=
          extractField (str "/Producer") (str "Producer") pdfContent
            (extractField (str "/Creator") (str "Creator") pdfContent
               (extractField (str "/Author") (str "Author") pdfContent
                  (extractField (str "/Title") (str "Title") pdfContent
                     (metadata, true)))) in
        if completed then
          let creator := suggestsAi (str "Creator") suspiciousCreators metadata in
          let producer := suggestsAi (str "Producer") suspiciousProducers metadata in
          let missing := (3 <=? missingMetadataCount metadata)%nat in
          (metadata,
           pushIf missing (str "Document is missing most standard metadata fields")
             (pushIf producer (str "Document producer suggests AI generation")
                (pushIf creator (str "Document creator suggests AI generation")
                   anomalies)),
           penalise missing 0.2
             (penalise producer 0.3
                (penalise creator 0.3 confidenceScore)))
        else (limitedExtraction metadata, anomalies, confidenceScore)
    end
  else state.

(** The checks of [extractPdfMetadata] on the file itself: size, header,
    MIME type and name, and the basic metadata. *)
Definition fileChecks (file : File) : object jsstring * list jsstring * float :=
  let isSuspiciouslySmall := (size file <? 10000)%Z in
  let hasPdfHeader := jsstring_eqb (header file) (str "%PDF-") in
  let hasCorrectType := jsstring_eqb (type file) pdfType in
  let fileName := toLowerCase B (name file) in
  let hasSuspiciousName := testSuspiciousName fileName in
  let anomalies :=
    pushIf hasSuspiciousName (str "Document has a potentially suspicious filename")
      (pushIf (negb hasCorrectType) (str "File does not have the correct PDF MIME type")
         (pushIf (negb hasPdfHeader) (str "File does not have a valid PDF header")
            (pushIf isSuspiciouslySmall (str "Unusually small file size for a PDF") []))) in
  let confidenceScore :=
    penalise hasSuspiciousName 0.2
      (penalise (negb hasCorrectType) 0.3
         (penalise (negb hasPdfHeader) 0.5
            (penalise isSuspiciouslySmall 0.2 0.95%float))) in
  let metadata :=
    [(str "File Name", name file);
     (str "File Size", sizeLabel file);
     (str "File Type", type file);
     (str "Valid PDF Header", if hasPdfHeader then str "Yes" else str "No");
     (str "Last Modified", localeString B (lastModified file))] in
  (metadata, anomalies, confidenceScore).

(** The metadata, the flags and the score of [extractPdfMetadata] before the
    final [Math.max(0.1, Math.min(1, confidenceScore))]. *)
Definition pdfHeuristic (file : File) : object jsstring * list jsstring * float :=
  contentChecks file (jsstring_eqb (header file) (str "%PDF-")) (fileChecks file).

Definition clampScore (confidenceScore : float) : float :=
  Math_max 0.1 (Math_min 1 confidenceScore).

Definition pdfAnalysisFailed (file : File) : PdfAnalysis :=
  {| pdfMetadata :=
       [(str "Error", str "Failed to analyze document structure");
        (str "File Size", sizeLabel file);
        (str "File Type", type file)];
     anomalies := [str "Error analyzing PDF structure"];
     confidenceScore := 0.5 |}.

(** [readFileHeader].  The promise is resolved by [reader.onload] alone:
    the reader has no [onerror], so the promise never settles for a file
    whose bytes cannot be read.  When it settles, it yields the string
    that [pdfHeuristic] reads as [header file]. *)
Definition readFileHeader (file : File) : run Step jsstring :=
  if headerLoads B file then ret (header file) else hang.

(** [extractPdfMetadata].  Nothing in its outer [try] throws (reading the
    header never rejects, and the inner [try] answers the rest); the outer
    [catch] is kept as the source has it. *)
Definition extractPdfMetadata (file : File) : run Step PdfAnalysis :=
  tryCatch
    (readFileHeader file ;;;
     let '(metadata, anomalies, confidenceScore) := pdfHeuristic file in
     ret {| pdfMetadata := metadata;
            anomalies := anomalies;
            confidenceScore := clampScore confidenceScore |})
    (fun _ => ret (pdfAnalysisFailed file)).

(** ** The per-file body of [handleFileUpload] *)

(** The variables [anomalies], [confidenceScore] and [metadata] of the
    document branch. *)
Record Findings : Type := {
  foundAnomalies : list jsstring;
  score : float;
  foundMetadata : object jsstring
}.

(** The loop over [suspiciousTextPatterns] of the image branch. *)
Definition textAnomalies (ocrText : jsstring) : list jsstring :=
  fold_left
    (fun (acc : list jsstring) (entry : (jsstring -> bool) * jsstring) =>
       pushIf (fst entry ocrText) (snd entry) acc)
    suspiciousPatterns [].

(** The loop over [suspiciousPatterns] of the PDF branch. *)
Definition applyTextPatterns (extractedText : jsstring)
           (state : list jsstring * float) : list jsstring * float :=
  fold_left
    (fun (st : list jsstring * float) (entry : (jsstring -> bool) * jsstring) =>
       if fst entry extractedText
       then (fst st ++ [snd entry], (snd st - 0.2)%float)
       else st)
    suspiciousPatterns state.

Definition charactersLabel (s : jsstring) : jsstring :=
  nat_to_string (length s) ++ str " characters".

Definition percentLabel (x : float) : jsstring := percent B x ++ str "%".

(** The image branch. *)
Definition verifyImage (file : File) : run Step FileUpdate :=
  ocrResult <- extractTextFromImage file ;;
  let metadata :=
    [(str "File Name", name file);
     (str "File Size", sizeLabel file);
     (str "File Type", type file);
     (str "OCR Text Length", charactersLabel (text ocrResult));
     (str "OCR Confidence", percentLabel (confidence ocrResult))] in
  let found := textAnomalies (text ocrResult) in
  let metadata :=
    if (0 <? length found)%nat
    then obj_set (str "Text Anomalies") (join (str ", ") found) metadata
    else metadata in
  geminiResult <- analyzeWithGemini file metadata ;;
  ret {| site := ImageVerified;
         moderationStatus :=
           if truthyField (str "isLikelyAiGenerated") (details geminiResult)
           then Flagged else Safe;
         verificationDetails :=
           obj_extend (details geminiResult)
             [(str "metadata", jsonOfRecord metadata);
              (str "extractedText", JStr (text ocrResult));
              (str "textConfidence", JNum (confidence ocrResult))] |}.

(** The keys every object literal inherits from [Object.prototype]. *)
Definition inheritedKeys : list jsstring :=
  [str "constructor"; str "__proto__"; str "hasOwnProperty";
   str "isPrototypeOf"; str "propertyIsEnumerable"; str "toLocaleString";
   str "toString"; str "valueOf"; str "__defineGetter__";
   str "__defineSetter__"; str "__lookupGetter__"; str "__lookupSetter__"].

(** [expectedType && expectedType !== file.type], where [expectedType] is
    the lookup of the lower-cased extension in the two-entry table; an
    inherited key yields a value that no string equals. *)
Definition hasTypeMismatch (file : File) : bool :=
  let declaredExtension := toLowerCase B (lastDotSegment (name file)) in
  if jsstring_eqb declaredExtension (str "doc")
  then negb (jsstring_eqb mswordType (type file))
  else if jsstring_eqb declaredExtension (str "docx")
  then negb (jsstring_eqb docxType (type file))
  else existsb (jsstring_eqb declaredExtension) inheritedKeys.

(** The branch for Word documents: size, name and extension checks. *)
Definition documentHeuristic (file : File) : Findings :=
  let isSuspiciousSize := (size file <? 10000)%Z in
  let hasSuspiciousName := testSuspiciousName (name file) in
  let mismatch := hasTypeMismatch file in
  {| foundAnomalies :=
       pushIf mismatch (str "File extension doesn't match the actual file type")
         (pushIf hasSuspiciousName (str "Document has a potentially suspicious filename")
            (pushIf isSuspiciousSize (str "Unusually small file size for a document") []));
     score :=
       penalise mismatch 0.4
         (penalise hasSuspiciousName 0.2
            (penalise isSuspiciousSize 0.3 0.9%float));
     foundMetadata :=
       [(str "File Size", sizeLabel file);
        (str "File Type", type file);
        (str "File Name", name file)] |}.

(** [anomalies.some(...)]: the anomalies that flag a document. *)
Definition critical (anomaly : jsstring) : bool :=
  includes anomaly (str "does not have a valid PDF header")
  || includes anomaly (str "File extension doesn't match")
  || includes anomaly (str "fake")
  || includes anomaly (str "specimen").

Definition explanation (anomalies : list jsstring) (isLikelyGenuine : bool)
  : jsstring :=
  if (0 <? length anomalies)%nat
  then str "Document verification found " ++ nat_to_string (length anomalies)
       ++ str " potential issue"
       ++ (if (length anomalies =? 1)%nat then [] else str "s")
       ++ str ", but "
       ++ (if isLikelyGenuine
           then str "these are not critical to authenticity"
           else str "some critical issues were detected")
       ++ str "."
  else str "Document appears to be genuine based on file characteristics.".

(** From the clamp of the score to the [setFiles] of the document branch. *)
Definition localVerdict (found : Findings) (extractedText : jsstring)
           (textConfidence : float) : FileUpdate :=
  let confidenceScore := clampScore (score found) in
  let isLikelyAiGenerated := existsb critical (foundAnomalies found) in
  let isLikelyGenuine := negb isLikelyAiGenerated in
  {| site := DocumentHeuristic;
     moderationStatus := if isLikelyAiGenerated then Flagged else Safe;
     verificationDetails :=
       [(str "isLikelyGenuine", JBool isLikelyGenuine);
        (str "isLikelyAiGenerated", JBool isLikelyAiGenerated);
        (str "detectedAnomalies", JArr (map JStr (foundAnomalies found)));
        (str "confidenceScore", JNum confidenceScore);
        (str "analysisExplanation",
         JStr (explanation (foundAnomalies found) isLikelyGenuine));
        (str "metadata", jsonOfRecord (foundMetadata found));
        (str "extractedText", JStr extractedText);
        (str "textConfidence", JNum textConfidence)] |}.

(** The findings on a PDF once its metadata analysis is back: the OCR
    entries of the metadata and the text patterns, when there is text. *)
Definition pdfFindings (pdfAnalysis : PdfAnalysis) (extractedText : jsstring)
           (textConfidence : float) : Findings :=
  match extractedText with
  | [] =>
      {| foundAnomalies := anomalies pdfAnalysis;
         score := confidenceScore pdfAnalysis;
         foundMetadata := pdfMetadata pdfAnalysis |}
  | _ :: _ =>
      let (anomalies, confidenceScore) :=
        applyTextPatterns extractedText
          (anomalies pdfAnalysis, confidenceScore pdfAnalysis) in
      {| foundAnomalies := anomalies;
         score := confidenceScore;
         foundMetadata :=
           obj_set (str "OCR Confidence") (percentLabel textConfidence)
             (obj_set (str "OCR Text Length") (charactersLabel extractedText)
                (pdfMetadata pdfAnalysis)) |}
  end.

(** The [catch (pdfError)] of the PDF branch.  It could only run for an
    error of [extractPdfMetadata], before [anomalies] is assigned. *)
Definition pdfStructureFailed (file : File) : Findings :=
  {| foundAnomalies := [str "Could not fully analyze PDF structure"];
     score := 0.7;
     foundMetadata :=
       [(str "File Name", name file);
        (str "File Size", sizeLabel file);
        (str "File Type", type file);
        (str "Status", str "Limited analysis - PDF may be encrypted or damaged")] |}.

(** The PDF branch up to its [continue]: [inl] is the update made before
    [continue], [inr] the findings the rest of the branch goes on with. *)
Definition pdfStage (file : File) (extractedText : jsstring)
           (textConfidence : float) : run Step (FileUpdate + Findings) :=
  tryCatch
    (pdfAnalysis <- extractPdfMetadata file ;;
     let found := pdfFindings pdfAnalysis extractedText textConfidence in
     tryCatch
       (geminiResult <- analyzeWithGemini file (foundMetadata found) ;;
        ret (inl {| site := PdfVerified;
                    moderationStatus :=
                      if truthyField (str "isLikelyAiGenerated") (details geminiResult)
                      then Flagged else Safe;
                    verificationDetails :=
                      obj_extend (details geminiResult)
                        [(str "metadata", jsonOfRecord (foundMetadata found));
                         (str "extractedText", JStr extractedText);
                         (str "textConfidence", JNum textConfidence)] |}))
       (fun _ => ret (inr found)))
    (fun _ => ret (inr (pdfStructureFailed file))).

(** The branch for PDFs and Word documents. *)
Definition verifyDocument (file : File) : run Step FileUpdate :=
  if jsstring_eqb (type file) pdfType then
    ocr <- tryCatch
             (ocrResult <- extractTextFromImage file ;;
              ret (text ocrResult, confidence ocrResult))
             (fun _ =>
                ret (str "Text extraction from PDF requires server-side processing.",
                     0.5%float)) ;;
    stage <- pdfStage file (fst ocr) (snd ocr) ;;
    match stage with
    | inl update => ret update
    | inr found => ret (localVerdict found (fst ocr) (snd ocr))
    end
  else ret (localVerdict (documentHeuristic file) [] 0).

Definition unsupported (file : File) : FileUpdate :=
  {| site := UnsupportedType;
     moderationStatus := Safe;
     verificationDetails :=
       [(str "isLikelyGenuine", JBool true);
        (str "isLikelyAiGenerated", JBool false);
        (str "detectedAnomalies", JArr []);
        (str "confidenceScore", JNum 0.5);
        (str "analysisExplanation",
         JStr (str "This file type (" ++ type file
               ++ str ") cannot be verified automatically."))] |}.

Definition failed (message : jsstring) : FileUpdate :=
  {| site := AnalysisFailed;
     moderationStatus := Flagged;
     verificationDetails :=
       [(str "isLikelyGenuine", JBool false);
        (str "isLikelyAiGenerated", JBool false);
        (str "detectedAnomalies", JArr [JStr (str "Analysis failed")]);
        (str "confidenceScore", JNum 0);
        (str "analysisExplanation",
         JStr (str "Error analyzing document: " ++ message))] |}.

Definition isDocumentType (t : jsstring) : bool :=
  jsstring_eqb t pdfType || jsstring_eqb t mswordType || jsstring_eqb t docxType.

(** One turn of the second loop of [handleFileUpload]: the verification of
    one uploaded file, ending in the [setFiles] call that records it. *)
Definition processFile (file : File) : run Step FileUpdate :=
  tryCatch
    (if startsWith (type file) (str "image/") then verifyImage file
     else if isDocumentType (type file) then verifyDocument file
     else ret (unsupported file))
    (fun message => ret (failed message)).

End WithBrowser.
End Uploader.

(* ================================================================== *)
(** * The [gemini-verification] route *)
(* ================================================================== *)

Module GeminiRoute.

(** What the race of [model.generateContent(prompt)] against the 30 second
    timer settles with. *)
Inductive Generation : Type :=
| GenerateRejects (message : option jsstring)
| GenerateTimesOut
| Generated (text : option jsstring).  (** [None]: [response.text()] throws *)

(** The uses of a value that throw a TypeError when the value is not of
    the type its variable declares. *)
Inductive Misuse : Type :=
| KeysOfNull      (** [Object.keys(null)], [Object.entries(null)] *)
| LengthOfNull    (** [null.length] *)
| SliceMissing    (** [value.slice(...)] where [value.slice] is no function *)
| JoinMissing.    (** [value.slice(...).join(...)] on a string *)

(** The server process: its configuration, the client library of the hosted
    model, and the built-ins that parse JSON, convert numbers and word
    the errors. *)
Record Server : Type := {
  (** [process.env.GOOGLE_GEMINI_API_KEY || ''] *)
  GEMINI_API_KEY : jsstring;
  (** [new GoogleGenerativeAI(key)] returns *)
  clientConstructs : bool;
  (** [genAI.getGenerativeModel(...)] returns *)
  modelCreated : bool;
  generateContent : jsstring -> Generation;
  (** [JSON.parse]: any JSON value, whatever the type of the variable
      that receives it; [None] is a thrown SyntaxError *)
  parse : jsstring -> option json;
  (** [JSON.parse] of the match of a reply, which starts with a brace: an
      object whenever it parses *)
  parseObject : jsstring -> option (object json);
  numberToString : float -> jsstring;
  (** the number a string converts to *)
  stringToNumber : jsstring -> float;
  toFixed2 : float -> jsstring;
  (** the message of the TypeError the engine throws *)
  typeError : Misuse -> jsstring
}.

(** The module-level variables [apiCallsInLastMinute] and [lastResetTime]. *)
Record State : Type := {
  apiCallsInLastMinute : Z;
  lastResetTime : Z
}.

(** One request: what [request.formData()] settles with, the two readings
    of [Date.now()] (on entry, and when a mock response is built), the
    successive values of [Math.random()], and the requests that arrive
    while this one is awaited, each by its own reading of [Date.now()]:
    those that arrive before the handler reads the counter again (while it
    awaits the form data and the text of the file), and those that arrive
    after that and before it answers (while it awaits the bytes of the
    file and the analysis). *)
Record Request : Type := {
  formData : jsstring + FormData;
  now : Z;
  nowAtMock : Z;
  random : nat -> float;
  arrivalsBeforeCheck : list Z;
  arrivalsBeforeAnswer : list Z
}.

(** The request served alone: no other request arrives meanwhile. *)
Definition alone (req : Request) : Request :=
  {| formData := formData req;
     now := now req;
     nowAtMock := nowAtMock req;
     random := random req;
     arrivalsBeforeCheck := [];
     arrivalsBeforeAnswer := [] |}.

(** The request after [n] values of [Math.random()] have been drawn. *)
Definition laterDraws (n : nat) (req : Request) : Request :=
  {| formData := formData req;
     now := now req;
     nowAtMock := nowAtMock req;
     random := fun i => random req (n + i);
     arrivalsBeforeCheck := arrivalsBeforeCheck req;
     arrivalsBeforeAnswer := arrivalsBeforeAnswer req |}.

Record Response : Type := {
  httpCode : nat;
  body : GeminiVerificationResponse
}.

Definition RATE_LIMIT_RESET_INTERVAL : Z := 60000.

Definition promptHead : jsstring :=
  str "
  I need you to analyze a document for authenticity verification.
  
  Document type: ".

Definition promptSummary : jsstring :=
  str "
  
  Extracted text summary: ".

Definition promptGap : jsstring :=
  str "
  
  ".

Definition promptCriteria : jsstring :=
  str "
  
  Please analyze this document for authenticity using the following criteria:
  
  1. ASSUME THE DOCUMENT IS AUTHENTIC BY DEFAULT unless there are clear indicators otherwise.
  2. Look for specific signs of AI generation such as:
     - Unnatural or inconsistent lighting, shadows, or reflections
     - Irregular or impossible geometry
     - Unusual artifacts or distortions
     - Inconsistent text formatting or alignment
  3. Consider the document metadata:
     - Check for suspicious creators or producers that might indicate AI generation
     - Examine creation and modification dates for inconsistencies
     - Verify that metadata is consistent with document content
  4. DO NOT flag a document as non-authentic simply due to:
     - Low quality or resolution
     - Lack of some metadata (this is normal for many legitimate documents)
     - Simple or basic content
  
  Provide your analysis in JSON format with the following structure:
  {
    "
  ++ dquote ++ str "isLikelyGenuine"
  ++ dquote ++ str ": boolean, // Default to true unless clear evidence suggests otherwise
    "
  ++ dquote ++ str "isLikelyAiGenerated"
  ++ dquote ++ str ": boolean, // Only true if specific AI generation indicators are present
    "
  ++ dquote ++ str "detectedAnomalies"
  ++ dquote ++ str ": [list of specific anomalies found, if any],
    "
  ++ dquote ++ str "confidenceScore"
  ++ dquote ++ str ": number (0-1), // Start at 0.9 and reduce only for specific issues
    "
  ++ dquote ++ str "analysisExplanation"
  ++ dquote ++ str ": string // Brief explanation of your assessment
  }
  
  Be conservative in flagging documents as non-authentic. Only flag if there are clear indicators of manipulation or AI generation.
  ".

Definition importantMetadataFields : list jsstring :=
  [str "Title"; str "Author"; str "Creator"; str "Producer";
   str "Creation Date"; str "File Type"; str "Valid PDF Header"].

Definition isImportant (entry : jsstring * jsstring) : bool :=
  existsb (jsstring_eqb (fst entry)) importantMetadataFields.

Section WithServer.
Variable S : Server.

(** The value of [genAI] after the module's initialisation. *)
Definition genAI : bool :=
  negb (jsstring_eqb (GEMINI_API_KEY S) []) && clientConstructs S.

(** ** Values of any type *)

(** [String(v)], as a template literal converts a value. *)
Fixpoint toText (v : json) : jsstring :=
  match v with
  | JNull => str "null"
  | JBool b => if b then str "true" else str "false"
  | JNum x => numberToString S x
  | JStr s => s
  | JArr items =>
      join (str ",")
        (map (fun item => match item with JNull => [] | _ => toText item end) items)
  | JObj _ => str "[object Object]"
  end.

(** The text of an item in [Array.prototype.join]: empty for [null]. *)
Definition itemText (item : json) : jsstring :=
  match item with
  | JNull => []
  | _ => toText item
  end.

(** The number a value converts to; [None] is [undefined]. *)
Definition toNumber (v : option json) : float :=
  match v with
  | None => PrimFloat.nan
  | Some JNull => 0
  | Some (JBool b) => if b then 1 else 0
  | Some (JNum x) => x
  | Some (JStr s) => stringToNumber S s
  | Some other => stringToNumber S (toText other)
  end.

(** [v.length > 0] *)
Definition hasItems (v : json) : Misuse + bool :=
  match v with
  | JNull => inl LengthOfNull
  | JStr s => inr (0 <? length s)%nat
  | JArr items => inr (0 <? length items)%nat
  | JObj fields => inr (PrimFloat.ltb 0 (toNumber (obj_get (str "length") fields)))
  | JBool _ | JNum _ => inr false
  end.

(** [v.length > 0 ? v.slice(0, n).join(', ') : ...]: the text of the first
    [n] items of an array that has items, [None] for a value without
    items; a string has no [join] and any other value no [slice]. *)
Definition firstItems (n : nat) (v : json) : Misuse + option jsstring :=
  match hasItems v with
  | inl e => inl e
  | inr false => inr None
  | inr true =>
      match v with
      | JArr items => inr (Some (join (str ", ") (map itemText (firstn n items))))
      | JStr _ => inl JoinMissing
      | _ => inl SliceMissing
      end
  end.

(** The entries of a value with their values as a template literal prints
    them. *)
Definition printed (fields : object json) : object jsstring :=
  map (fun e => (fst e, toText (snd e))) fields.

(** ** The prompt *)

(** The template of [createOptimizedPrompt], around the text of the first
    five image features ([None] when there are no features). *)
Definition promptWith (imageType extractedText : jsstring)
           (featuresText : option jsstring) (documentMetadata : object jsstring)
  : jsstring :=
  let trimmedText :=
    if (1000 <? length extractedText)%nat
    then substring0 1000 extractedText ++ str "... (text truncated for brevity)"
    else extractedText in
  let prioritizedMetadata :=
    firstn 10 (filter isImportant documentMetadata
               ++ firstn 5 (filter (fun e => negb (isImportant e)) documentMetadata)) in
  let metadataString :=
    if (0 <? length prioritizedMetadata)%nat
    then str "Document metadata:" ++ [10%N]
         ++ join [10%N]
              (map (fun e => fst e ++ str ": " ++ snd e) prioritizedMetadata)
    else str "No metadata available for this document." in
  promptHead ++ imageType ++ promptSummary ++ trimmedText ++ promptGap
  ++ metadataString ++ promptGap
  ++ match featuresText with
     | Some first => str "
  Image features extracted using neural network (first 5 values):
  " ++ first ++ str "
  "
     | None => str "No AI feature extraction available for this image."
     end
  ++ promptCriteria.

(** [createOptimizedPrompt], on arguments of the types it declares. *)
Definition createOptimizedPrompt (imageType extractedText : jsstring)
           (imageFeatures : list float) (documentMetadata : object jsstring)
  : jsstring :=
  promptWith imageType extractedText
    (if (0 <? length imageFeatures)%nat
     then Some (join (str ", ") (map (numberToString S) (firstn 5 imageFeatures)))
     else None)
    documentMetadata.

(** [createOptimizedPrompt] on the values the handler passes, which are
    whatever [JSON.parse] returned: the metadata is read through
    [Object.entries] and the features through [length], [slice] and
    [join]; [inl] is the message of a TypeError. *)
Definition createOptimizedPrompt_any (imageType extractedText : jsstring)
           (imageFeatures documentMetadata : json) : jsstring + jsstring :=
  match entries documentMetadata with
  | None => inl (typeError S KeysOfNull)
  | Some metadataEntries =>
      match firstItems 5 imageFeatures with
      | inl misuse => inl (typeError S misuse)
      | inr featuresText =>
          inr (promptWith imageType extractedText featuresText
                 (printed metadataEntries))
      end
  end.

(** The route's [extractTextFromImage]: a stub that returns a fixed text. *)
Definition extractTextFromImage (imageFile : File) : run Step jsstring :=
  emit (TextStub imageFile) ;;;
  ret (str "Sample extracted text from document").

(** The call of the hosted model with the prompt built, and the reading
    of its reply. *)
Definition sendPrompt (optimizedPrompt : jsstring) : run Step (object json) :=
  emit (BuildPrompt optimizedPrompt) ;;;
  emit (Generate optimizedPrompt) ;;;
  text <-
    match generateContent S optimizedPrompt with
    | GenerateRejects message =>
        throw (str "Gemini API call failed: " ++ orElse message (str "Unknown error"))
    | GenerateTimesOut =>
        throw (str "Gemini API call failed: API call timed out after 30 seconds")
    | Generated None => throw (str "Failed to get response text from Gemini API")
    | Generated (Some text) => ret text
    end ;;
  emit (MatchReply text) ;;;
  match matchBraces text with
  | None => throw (str "Failed to parse Gemini API response")
  | Some jsonMatch =>
      match parseObject S jsonMatch with
      | Some analysisResult => ret analysisResult
      | None => throw (str "Failed to parse Gemini API JSON response")
      end
  end.

(** The [try] block of the route's [analyzeWithGemini], on arguments of the
    types it declares.  The first prompt it builds is never sent; the
    model receives the optimised one. *)
Definition analyzeWithGemini_try (imageType extractedText : jsstring)
           (imageFeatures : list float) (documentMetadata : object jsstring)
  : run Step (object json) :=
  (if genAI then ret tt else throw (str "Gemini API not initialized")) ;;;
  (if modelCreated S then ret tt
   else throw (str "Failed to create Gemini model instance")) ;;;
  sendPrompt
    (createOptimizedPrompt imageType extractedText imageFeatures documentMetadata).

Definition mockPrefix : jsstring :=
  str "This is a mock verification result. Reason: ".

(** The object the [catch] of [analyzeWithGemini] returns. *)
Definition fallbackAnalysis (message : jsstring) : object json :=
  let userFriendlyError :=
    if includes message (str "429 Too Many Requests") || includes message (str "quota")
    then str "API rate limit reached"
    else if includes message (str "401") || includes message (str "403")
    then str "API authentication error"
    else if includes message (str "timeout")
    then str "API request timed out"
    else str "API connection issue" in
  [(str "isLikelyGenuine", JBool true);
   (str "isLikelyAiGenerated", JBool false);
   (str "detectedAnomalies", JArr []);
   (str "confidenceScore", JNum 0.9);
   (str "analysisExplanation", JStr (mockPrefix ++ userFriendlyError))].

(** The route's [analyzeWithGemini]: every error of the [try] block is
    answered with the fallback object. *)
Definition analyzeWithGemini (imageType extractedText : jsstring)
           (imageFeatures : list float) (documentMetadata : object jsstring)
  : run Step (object json) :=
  tryCatch
    (analyzeWithGemini_try imageType extractedText imageFeatures documentMetadata)
    (fun message => ret (fallbackAnalysis message)).

(** The prompt that [analyzeWithGemini] builds first and never sends.  On
    values of the declared types its construction cannot fail; on others
    it throws the TypeError of [Object.keys], [length], [slice] or
    [join]. *)
Definition firstPrompt (imageFeatures documentMetadata : json) : run Step unit :=
  match entries documentMetadata with
  | None => throw (typeError S KeysOfNull)
  | Some _ =>
      match firstItems 10 imageFeatures with
      | inl misuse => throw (typeError S misuse)
      | inr _ => ret tt
      end
  end.

(** The [try] block of [analyzeWithGemini] on the values the handler
    passes.  An error of [createOptimizedPrompt] is thrown inside the
    [try] around the call of the model, whose [catch] words it anew. *)
Definition analyzeWithGemini_try_any (imageType extractedText : jsstring)
           (imageFeatures documentMetadata : json) : run Step (object json) :=
  (if genAI then ret tt else throw (str "Gemini API not initialized")) ;;;
  (if modelCreated S then ret tt
   else throw (str "Failed to create Gemini model instance")) ;;;
  firstPrompt imageFeatures documentMetadata ;;;
  match createOptimizedPrompt_any imageType extractedText imageFeatures
          documentMetadata with
  | inl message =>
      throw (str "Gemini API call failed: "
             ++ orElse (Some message) (str "Unknown error"))
  | inr optimizedPrompt => sendPrompt optimizedPrompt
  end.

(** [analyzeWithGemini] on the values the handler passes. *)
Definition analyzeWithGemini_any (imageType extractedText : jsstring)
           (imageFeatures documentMetadata : json) : run Step (object json) :=
  tryCatch
    (analyzeWithGemini_try_any imageType extractedText imageFeatures
       documentMetadata)
    (fun message => ret (fallbackAnalysis message)).

Definition rateLimitAt (callCount : Z) (st : State) (time : Z) : RateLimit :=
  {| callsInLastMinute := callCount;
     resetInMs := RATE_LIMIT_RESET_INTERVAL - (time - lastResetTime st) |}.

(** [provideMockResponse], on a metadata of the type it declares; [st]
    holds the module variables when it runs. *)
Definition provideMockResponse (st : State) (req : Request) (callCount : Z)
           (reason : jsstring) (metadata : object jsstring) : Response :=
  let userFriendlyReason :=
    if includes reason (str "API key missing") || includes reason (str "empty")
    then str "API configuration issue"
    else if includes reason (str "Rate limit") || includes reason (str "429")
            || includes reason (str "quota")
    then str "API rate limit reached"
    else if includes reason (str "timeout")
    then str "API request timed out - document may be too complex"
    else str "API temporarily unavailable" in
  let isTimeout := includes reason (str "timeout") in
  let shouldFlag :=
    if isTimeout then PrimFloat.ltb (random req 0) 0.05
    else PrimFloat.ltb (random req 0) 0.2 in
  let mockAnalysis :=
    if shouldFlag
    then [(str "isLikelyGenuine", JBool false);
          (str "isLikelyAiGenerated", JBool (PrimFloat.ltb (random req 1) 0.7));
          (str "detectedAnomalies",
           JArr [JStr (str "Inconsistent text formatting");
                 JStr (str "Potential digital manipulation detected");
                 JStr (str "Unusual metadata patterns")]);
          (str "confidenceScore", JNum (0.75 + random req 2 * 0.2)%float);
          (str "analysisExplanation",
           JStr (mockPrefix ++ userFriendlyReason
                 ++ str ". The document contains some suspicious elements that warrant further review."));
          (str "moderationStatus", JStr (str "flagged"))]
    else [(str "isLikelyGenuine", JBool true);
          (str "isLikelyAiGenerated", JBool false);
          (str "detectedAnomalies", JArr []);
          (str "confidenceScore", JNum (0.85 + random req 1 * 0.15)%float);
          (str "analysisExplanation",
           JStr (mockPrefix ++ userFriendlyReason
                 ++ str ". Based on available metadata"
                 ++ (if (0 <? length metadata)%nat
                     then str " and document properties" else [])
                 ++ str ", no suspicious elements were detected."));
          (str "moderationStatus", JStr (str "safe"))] in
  {| httpCode := 200;
     body :=
       {| status := str "success";
          error := None;
          message := None;
          verification := Some mockAnalysis;
          mockImplementation := Some true;
          mockReason := Some reason;
          rateLimit := Some (rateLimitAt callCount st (nowAtMock req)) |} |}.

(** The response to a request that carries no [image] entry. *)
Definition noImageResponse : Response :=
  {| httpCode := 200;
     body :=
       {| status := str "success";
          error := Some true;
          message := Some (str "No image file provided");
          verification :=
            Some [(str "isLikelyGenuine", JBool false);
                  (str "isLikelyAiGenerated", JBool false);
                  (str "detectedAnomalies", JArr [JStr (str "No image provided")]);
                  (str "confidenceScore", JNum 0);
                  (str "analysisExplanation",
                   JStr (str "No image file was provided for verification."));
                  (str "moderationStatus", JStr (str "flagged"))];
          mockImplementation := Some true;
          mockReason := None;
          rateLimit := None |} |}.

(** [provideMockResponse] on the metadata the handler passes.  The
    response that flags the document does not read the metadata; the other
    one reads [Object.keys(metadata)] after its confidence score has drawn
    the second random number, and throws a TypeError when the metadata is
    [null]. *)
Definition provideMockResponse_any (st : State) (req : Request) (callCount : Z)
           (reason : jsstring) (metadata : json) : jsstring + Response :=
  let shouldFlag :=
    if includes reason (str "timeout") then PrimFloat.ltb (random req 0) 0.05
    else PrimFloat.ltb (random req 0) 0.2 in
  if shouldFlag then inr (provideMockResponse st req callCount reason [])
  else
    match entries metadata with
    | Some metadataEntries =>
        inr (provideMockResponse st req callCount reason (printed metadataEntries))
    | None => inl (typeError S KeysOfNull)
    end.

(** [let x = d; if (s) { try { x = JSON.parse(s); console.log(...) } catch {} }]:
    the variable keeps the value parsed, of whatever type, also when the
    logging statement after the assignment throws. *)
Definition parsedOr {A : Type} (parse : jsstring -> option A) (d : A)
           (s : option jsstring) : A :=
  match s with
  | Some (c :: r) =>
      match parse (c :: r) with
      | Some v => v
      | None => d
      end
  | _ => d
  end.





(** [if (!m[k]) m[k] = v] *)
Definition setIfMissing (k : jsstring) (v : json) (m : object json) : object json :=
  if truthyField k m then m else obj_set k v m.

(** The four assignments to [documentMetadata] for a large PDF.  On an
    object they set the properties; so they do on an array, which is
    carried on as the object of its entries (the handler reads the
    metadata through its keys and entries only).  On [null] the first
    reading throws, and a string, a number or a boolean takes no
    property: [None]. *)
Definition describeFile (fileName : json) (fileSize : option json)
           (fileType : jsstring) (documentMetadata : json) : option json :=
  let described (m : object json) : json :=
    JObj (obj_set (str "Optimized") (JStr (str "Yes - Large PDF file"))
            (setIfMissing (str "File Type") (JStr fileType)
               (setIfMissing (str "File Size")
                  (JStr (toFixed2 S (toNumber fileSize / 1024)%float ++ str " KB"))
                  (setIfMissing (str "File Name") fileName m)))) in
  match documentMetadata with
  | JObj fields => Some (described fields)
  | JArr items => Some (described (indexed items))
  | _ => None
  end.

(** The block that recognises the replacement of a large PDF: whether the
    file is one, and the metadata with the file's properties added.  The
    block is a [try] with an empty [catch]: an error after the assignment
    of [isOptimizedPdf] leaves the flag set and the metadata as they
    were. *)
Definition optimizedPdf (imageFile : File) (documentMetadata : json)
  : bool * json :=
  if jsstring_eqb (type imageFile) jsonType then
    match content imageFile with
    | None => (false, documentMetadata)
    | Some jsonContent =>
        match parse S jsonContent with
        | Some fileInfo =>
            match field (str "isPdf") fileInfo, field (str "fileName") fileInfo,
                  field (str "fileType") fileInfo with
            | Some isPdf, Some fileName, Some (JStr fileType) =>
                if truthy isPdf && truthy fileName && jsstring_eqb fileType pdfType
                then (true,
                      match describeFile fileName (field (str "fileSize") fileInfo)
                              fileType documentMetadata with
                      | Some described => described
                      | None => documentMetadata
                      end)
                else (false, documentMetadata)
            | _, _, _ => (false, documentMetadata)
            end
        | None => (false, documentMetadata)
        end
    end
  else (false, documentMetadata).

(** The counter and the reset time after the first statements of [POST]. *)
Definition tick (st : State) (time : Z) : State :=
  let st' :=
    if (RATE_LIMIT_RESET_INTERVAL <? time - lastResetTime st)%Z
    then {| apiCallsInLastMinute := 0; lastResetTime := time |}
    else st in
  {| apiCallsInLastMinute := apiCallsInLastMinute st' + 1;
     lastResetTime := lastResetTime st' |}.

(** The module variables after other requests have arrived: each runs the
    first statements of [POST] before its own first [await]. *)
Definition overlapped (st : State) (arrivals : list Z) : State :=
  fold_left tick arrivals st.

(** The [catch] of the outer [try] of [POST], for an error that reaches it
    while the module variables are [st] and after [drawn] values of
    [Math.random()]. *)
Definition caught (st : State) (drawn : nat) (req : Request)
           (m : run Step Response) : run Step Response :=
  tryCatch m
    (fun message =>
       ret (provideMockResponse st (laterDraws drawn req) (apiCallsInLastMinute st)
              (orElse (Some message) (str "Unknown error")) [])).

(** The [try] block of [POST] with its [catch], run with the module
    variables [st] as they are after the counter has been advanced.  The
    handler reads the module variables again after it has awaited the form
    data, and again when it answers; the [catch] reads them when the error
    arrives. *)
Definition POST_try (st : State) (req : Request) : run Step Response :=
  if jsstring_eqb (GEMINI_API_KEY S) []
  then ret (provideMockResponse st req (apiCallsInLastMinute st)
              (str "API key missing") [])
  else
    let atCheck := overlapped st (arrivalsBeforeCheck req) in
    caught atCheck 0 req
      (form <- lift (formData req) ;;
       match image form with
       | None => ret noImageResponse
       | Some imageFile =>
           let imageFeatures := parsedOr (parse S) (JArr []) (features form) in
           let parsedMetadata := parsedOr (parse S) (JObj []) (metadata form) in
           let (isOptimizedPdf, documentMetadata) :=
             optimizedPdf imageFile parsedMetadata in
           if (10 <? apiCallsInLastMinute atCheck)%Z
           then
             caught atCheck 2 req
               (lift (provideMockResponse_any atCheck req
                        (apiCallsInLastMinute atCheck)
                        (str "Rate limit exceeded") documentMetadata))
           else
             let atAnswer := overlapped atCheck (arrivalsBeforeAnswer req) in
             caught atAnswer 0 req
               (extractedText <-
                  (if isOptimizedPdf
                   then ret (str "Large PDF document - metadata-only analysis")
                   else
                     match content imageFile with
                     | None => throw (str "The requested file could not be read")
                     | Some _ => extractTextFromImage imageFile
                     end) ;;
                tryCatch
                  (analysisResult <-
                     analyzeWithGemini_any
                       (if isOptimizedPdf then pdfType else type imageFile)
                       extractedText imageFeatures documentMetadata ;;
                   ret {| httpCode := 200;
                          body :=
                            {| status := str "success";
                               error := None;
                               message := None;
                               verification :=
                                 Some (obj_set (str "moderationStatus")
                                         (JStr (if truthyField (str "isLikelyGenuine") analysisResult
                                                then str "safe" else str "flagged"))
                                         analysisResult);
                               mockImplementation := None;
                               mockReason := None;
                               rateLimit :=
                                 Some (rateLimitAt (apiCallsInLastMinute atAnswer)
                                         atAnswer (now req)) |} |})
                  (fun message =>
                     caught atAnswer 2 req
                       (lift (provideMockResponse_any atAnswer req
                                (apiCallsInLastMinute atAnswer)
                                (orElse (Some message) (str "Unknown error"))
                                documentMetadata))))
       end).

(** The module variables when the handler returns. *)
Definition settled (st : State) (req : Request) : State :=
  if jsstring_eqb (GEMINI_API_KEY S) [] then st
  else
    let atCheck := overlapped st (arrivalsBeforeCheck req) in
    match formData req with
    | inl _ => atCheck
    | inr form =>
        match image form with
        | None => atCheck
        | Some _ =>
            if (10 <? apiCallsInLastMinute atCheck)%Z then atCheck
            else overlapped atCheck (arrivalsBeforeAnswer req)
        end
    end.

(** The handler [POST]: the module variables when it returns, and the
    steps taken with the response. *)
Definition POST (st : State) (req : Request) : State * run Step Response :=
  let st' := tick st (now req) in
  (settled st' req, POST_try st' req).

End WithServer.
End GeminiRoute.

(* ================================================================== *)
(** * The admin routes [users] and [make-admin] *)
(* ================================================================== *)

Module AdminRoutes.

(** A record of the identity provider, as the [users] route reads it. *)
Record UserRecord : Type := {
  uid : jsstring;
  email : option jsstring;
  displayName : option jsstring;
  photoURL : option jsstring;
  emailVerified : bool;
  disabled : bool;
  creationTime : option jsstring;
  lastSignInTime : option jsstring
}.

(** The calls a route makes to the identity provider and the database. *)
Inductive Action : Type :=
| VerifyIdToken (token : jsstring)
| ReadUserDocument (userId : jsstring)
| ListUsers                            (** [adminAuth.listUsers(100)] *)
| ReadUsersCollection                  (** [collection('users').limit(100).get()] *)
| GetUser (targetUserId : json)
| GrantAdmin (targetUserId : json) (updatedAt updatedBy : jsstring).
                                       (** [doc(target).set({ isAdmin: true, ... }, { merge: true })] *)

(** The identity provider and the document database: each call returns, or
    rejects with a message. *)
Record Firebase : Type := {
  verifyIdToken : jsstring -> jsstring + jsstring;
  (** [userDoc.data()]: [None] when the document does not exist *)
  userDocument : jsstring -> jsstring + option (object json);
  listUsers : jsstring + list UserRecord;
  usersCollection : jsstring + list (jsstring * object json);
  getUser : json -> jsstring + UserRecord;
  setAdmin : json -> jsstring + unit
}.

Record Request : Type := {
  (** [request.headers.get('authorization')] *)
  authorization : option jsstring;
  (** [request.json()] *)
  jsonBody : jsstring + json;
  (** [new Date().toISOString()] when the grant is written *)
  isoTime : jsstring
}.

Inductive Payload : Type :=
| ErrorPayload (error : jsstring)
  (** each listed account with the data of its Firestore document, which
      the route spreads over the account's properties *)
| UsersPayload (users : list (UserRecord * object json))
| SuccessPayload (message : jsstring).

Record Response : Type := {
  statusCode : nat;
  payload : Payload
}.

Definition respond (code : nat) (error : jsstring) : Response :=
  {| statusCode := code; payload := ErrorPayload error |}.

Section WithFirebase.
Variable F : Firebase.

(** [isAdmin] *)
Definition isAdmin (userId : jsstring) : run Action bool :=
  tryCatch
    (emit (ReadUserDocument userId) ;;;
     userData <- lift (userDocument F userId) ;;
     ret match userData with
         | Some data =>
             match obj_get (str "isAdmin") data with
             | Some (JBool true) => true
             | _ => false
             end
         | None => false
         end)
    (fun _ => ret false).

(** The statements both routes start with: the header check, the token
    verification and the admin check.  [inl] is the response that ends the
    request, [inr] the verified administrator's user id. *)
Definition authorize (request : Request) : run Action (Response + jsstring) :=
  match authorization request with
  | Some (c :: h) =>
      let authHeader := c :: h in
      if startsWith authHeader (str "Bearer ") then
        let token := secondPiece (str "Bearer ") authHeader in
        emit (VerifyIdToken token) ;;;
        userId <- lift (verifyIdToken F token) ;;
        adminStatus <- isAdmin userId ;;
        if adminStatus then ret (inr userId)
        else ret (inl (respond 403 (str "Forbidden")))
      else ret (inl (respond 401 (str "Unauthorized")))
  | _ => ret (inl (respond 401 (str "Unauthorized")))
  end.

Definition internalError : Response := respond 500 (str "Internal server error").

(** [GET] of the [users] route *)
Definition GET (request : Request) : run Action Response :=
  tryCatch
    (checked <- authorize request ;;
     match checked with
     | inl response => ret response
     | inr _ =>
         emit ListUsers ;;;
         listUsersResult <- lift (listUsers F) ;;
         emit ReadUsersCollection ;;;
         usersSnapshot <- lift (usersCollection F) ;;
         ret {| statusCode := 200;
                payload :=
                  UsersPayload
                    (map (fun user =>
                            (user,
                             match find (fun doc => jsstring_eqb (fst doc) (uid user))
                                        usersSnapshot with
                             | Some doc => snd doc
                             | None => []
                             end))
                         listUsersResult) |}
     end)
    (fun _ => ret internalError).

(** [const { targetUserId } = await request.json()]: [None] is [undefined];
    destructuring [null] throws. *)
Definition targetOf (parsed : json) : jsstring + option json :=
  match parsed with
  | JNull => inl (str "Cannot destructure property 'targetUserId' of null")
  | JObj fields => inr (obj_get (str "targetUserId") fields)
  | _ => inr None
  end.

(** [POST] of the [make-admin] route *)
Definition POST (request : Request) : run Action Response :=
  tryCatch
    (checked <- authorize request ;;
     match checked with
     | inl response => ret response
     | inr userId =>
         parsed <- lift (jsonBody request) ;;
         target <- lift (targetOf parsed) ;;
         match target with
         | Some targetUserId =>
             if truthy targetUserId then
               found <- tryCatch
                          (emit (GetUser targetUserId) ;;;
                           lift (getUser F targetUserId) ;;;
                           ret true)
                          (fun _ => ret false) ;;
               if found then
                 emit (GrantAdmin targetUserId (isoTime request) userId) ;;;
                 lift (setAdmin F targetUserId) ;;;
                 ret {| statusCode := 200;
                        payload :=
                          SuccessPayload (str "User has been granted admin privileges") |}
               else ret (respond 404 (str "User not found"))
             else ret (respond 400 (str "Target user ID is required"))
         | None => ret (respond 400 (str "Target user ID is required"))
         end
     end)
    (fun _ => ret internalError).

End WithFirebase.
End AdminRoutes.

(* ================================================================== *)
(** * The uploader served by the route *)
(* ================================================================== *)

Module Pipeline.




(** The clock and the random source of the server while it serves one
    request. *)
Record Moment : Type := {
  entry : Z;
  mockTime : Z;
  randomness : nat -> float
}.

(** [fetch] answered by the route: the form arrives as sent, the handler
    runs on the module variables [st] while no other request arrives, and
    its JSON body is read back as built.  [bodyAsText] renders the body
    for [response.text()]. *)
Definition routeFetch (S : GeminiRoute.Server) (st : GeminiRoute.State)
           (m : Moment) (bodyAsText : GeminiVerificationResponse -> jsstring)
           (form : FormData) : run Step HttpResponse :=
  response <-
    snd (GeminiRoute.POST S st
           {| GeminiRoute.formData := inr form;
              GeminiRoute.now := entry m;
              GeminiRoute.nowAtMock := mockTime m;
              GeminiRoute.random := randomness m;
              GeminiRoute.arrivalsBeforeCheck := [];
              GeminiRoute.arrivalsBeforeAnswer := [] |}) ;;
  ret {| httpStatus := GeminiRoute.httpCode response;
         bodyText := bodyAsText (GeminiRoute.body response);
         bodyJson := inr (GeminiRoute.body response) |}.


End Pipeline.

(* ================================================================== *)
(** * Sample environments, for concrete runs *)
(* ================================================================== *)

Module Samples.

(** A photograph the browser decodes, on which the OCR engine reads an
    invoice number with confidence 87 and the classifier predicts two
    classes. *)
Definition photo : File :=
  {| name := str "scan.png";
     size := 20000;
     type := str "image/png";
     lastModified := 0;
     header := [137%N; 80%N; 78%N; 71%N; 13%N];
     content := Some [] |}.

(** What [extractImageFeatures] computes for the photograph, and its JSON. *)
Definition photoFeatures : list float :=
  [0.5; 0.25; 800 / 1000; 600 / 1000; 800 / 600]%float.
Definition photoFeaturesJson : jsstring :=
  str "[0.5,0.25,0.8,0.6,1.3333333333333333]".

(** The metadata the image branch builds for the photograph. *)
Definition photoMetadata : object jsstring :=
  [(str "File Name", str "scan.png");
   (str "File Size", str "19.53 KB");
   (str "File Type", str "image/png");
   (str "OCR Text Length", str "12 characters");
   (str "OCR Confidence", str "87%")].

(** The reply of the hosted model: a JSON verdict inside a sentence. *)
Definition verdictText : jsstring :=
  str "{ " ++ dquote ++ str "isLikelyGenuine" ++ dquote ++ str ": true }".
Definition reply : jsstring :=
  str "Here is my analysis: " ++ verdictText ++ str " Done.".
Definition verdict : object json := [(str "isLikelyGenuine", JBool true)].

(** The messages of the TypeErrors, as V8 words them. *)
Definition typeError (misuse : GeminiRoute.Misuse) : jsstring :=
  match misuse with
  | GeminiRoute.KeysOfNull => str "Cannot convert undefined or null to object"
  | GeminiRoute.LengthOfNull => str "Cannot read properties of null (reading 'length')"
  | GeminiRoute.SliceMissing => str "imageFeatures.slice is not a function"
  | GeminiRoute.JoinMissing => str "imageFeatures.slice(...).join is not a function"
  end.

(** A server with a key whose hosted model answers every prompt with
    [reply]; its built-ins parse and print the values of the sample run. *)
Definition server : GeminiRoute.Server :=
  {| GeminiRoute.GEMINI_API_KEY := str "key";
     GeminiRoute.clientConstructs := true;
     GeminiRoute.modelCreated := true;
     GeminiRoute.generateContent := fun _ => GeminiRoute.Generated (Some reply);
     GeminiRoute.parse :=
       fun s => if jsstring_eqb s photoFeaturesJson
                then Some (JArr (map JNum photoFeatures))
                else if jsstring_eqb s (stringifyRecord photoMetadata)
                then Some (jsonOfRecord photoMetadata)
                else if jsstring_eqb s (str "null") then Some JNull
                else None;
     GeminiRoute.parseObject :=
       fun s => if jsstring_eqb s verdictText then Some verdict else None;
     GeminiRoute.numberToString :=
       fun x => if PrimFloat.eqb x 0.5 then str "0.5"
                else if PrimFloat.eqb x 0.25 then str "0.25"
                else if PrimFloat.eqb x 0.8 then str "0.8"
                else if PrimFloat.eqb x 0.6 then str "0.6"
                else str "1.3333333333333333";
     GeminiRoute.stringToNumber := fun _ => PrimFloat.nan;
     GeminiRoute.toFixed2 := fun _ => str "0.00";
     GeminiRoute.typeError := typeError |}.

Definition moment : Pipeline.Moment :=
  {| Pipeline.entry := 61000;
     Pipeline.mockTime := 61001;
     Pipeline.randomness := fun _ => 0.5%float |}.

(** The module variables of a server that has just started. *)
Definition freshState : GeminiRoute.State :=
  {| GeminiRoute.apiCallsInLastMinute := 0; GeminiRoute.lastResetTime := 60000 |}.


(** A browser with a loaded model whose requests the sample server answers;
    its renderers print the values of the sample run. *)
Definition browser : Uploader.Browser :=
  {| Uploader.modelLoaded := true;
     Uploader.imageLoads := fun _ => true;
     Uploader.headerLoads := fun _ => true;
     Uploader.recognize := fun _ => Uploader.Recognized (Some (str "  Invoice   4711 ")) 87;
     Uploader.classify := fun _ => inr [0.5%float; 0.25%float];
     Uploader.naturalWidth := fun _ => 800%float;
     Uploader.naturalHeight := fun _ => 600%float;
     Uploader.fetch := Pipeline.routeFetch server freshState moment (fun _ => []);
     Uploader.toLowerCase := asciiLower;
     Uploader.percent := fun _ => str "87";
     Uploader.localeString := fun _ => str "1/1/1970, 12:00:00 AM";
     Uploader.stringifyNumbers := fun _ => photoFeaturesJson;
     Uploader.today := 61000 |}.

(** A request the eleventh in its minute, with and without an image. *)
Definition photoRequest : GeminiRoute.Request :=
  {| GeminiRoute.formData :=
       inr {| image := Some photo;
              features := Some photoFeaturesJson;
              metadata := Some (stringifyRecord photoMetadata) |};
     GeminiRoute.now := 61000;
     GeminiRoute.nowAtMock := 61001;
     GeminiRoute.random := fun _ => 0.5%float;
     GeminiRoute.arrivalsBeforeCheck := [];
     GeminiRoute.arrivalsBeforeAnswer := [] |}.


(** A Word document of 20000 bytes whose extension says [.doc] while its
    MIME type is the one of [.docx]. *)
Definition wordFile : File :=
  {| name := str "report.doc";
     size := 20000;
     type := docxType;
     lastModified := 0;
     header := [80%N; 75%N; 3%N; 4%N; 20%N];
     content := None |}.

(** A text file of 20000 bytes renamed to [.pdf]: the browser reports the
    PDF MIME type, the first bytes are not [%PDF-]. *)
Definition renamedPdf : File :=
  {| name := str "notes.pdf";
     size := 20000;
     type := pdfType;
     lastModified := 0;
     header := str "Dear ";
     content := Some (str "Dear reader, these are my notes.") |}.

(** A small PDF whose information dictionary names an AI tool as creator
    and has a per cent sign in the producer. *)
Definition producerPdfText : jsstring :=
  str "%PDF-1.4" ++ [10%N]
  ++ str "1 0 obj << /Title (Invoice) /Creator (AI Writer) /Producer (100% Pure PDF) >> endobj"
  ++ [10%N].

Definition producerPdf : File :=
  {| name := str "invoice.pdf";
     size := Z.of_nat (length producerPdfText);
     type := pdfType;
     lastModified := 0;
     header := firstn 5 producerPdfText;
     content := Some producerPdfText |}.

(** The same PDF with a producer that decodes. *)
Definition aiPdfText : jsstring :=
  str "%PDF-1.4" ++ [10%N]
  ++ str "1 0 obj << /Title (Invoice) /Creator (AI Writer) /Producer (Stable Diffusion PDF) >> endobj"
  ++ [10%N].

Definition aiPdf : File :=
  {| name := str "invoice.pdf";
     size := Z.of_nat (length aiPdfText);
     type := pdfType;
     lastModified := 0;
     header := firstn 5 aiPdfText;
     content := Some aiPdfText |}.

(** An image on which the OCR engine reads a short text with low
    confidence. *)
Definition faintBrowser : Uploader.Browser :=
  {| Uploader.modelLoaded := false;
     Uploader.imageLoads := fun _ => true;
     Uploader.headerLoads := fun _ => true;
     Uploader.recognize := fun _ => Uploader.Recognized (Some (str " x ")) 12;
     Uploader.classify := fun _ => inl (str "no model");
     Uploader.naturalWidth := fun _ => 800%float;
     Uploader.naturalHeight := fun _ => 600%float;
     Uploader.fetch := fun _ => throw (str "Failed to fetch");
     Uploader.toLowerCase := asciiLower;
     Uploader.percent := fun _ => str "10";
     Uploader.localeString := fun _ => str "1/1/1970, 12:00:00 AM";
     Uploader.stringifyNumbers := fun _ => str "[]";
     Uploader.today := 61000 |}.

(** A server whose environment holds no API key. *)
Definition keylessServer : GeminiRoute.Server :=
  {| GeminiRoute.GEMINI_API_KEY := [];
     GeminiRoute.clientConstructs := true;
     GeminiRoute.modelCreated := true;
     GeminiRoute.generateContent := fun _ => GeminiRoute.Generated (Some reply);
     GeminiRoute.parse := fun _ => None;
     GeminiRoute.parseObject := fun _ => None;
     GeminiRoute.numberToString := fun _ => str "0";
     GeminiRoute.stringToNumber := fun _ => PrimFloat.nan;
     GeminiRoute.toFixed2 := fun _ => str "0.00";
     GeminiRoute.typeError := typeError |}.

(** An identity provider and a database that know an administrator
    [admin1] and a plain user [user1]. *)
Definition account (id : jsstring) : AdminRoutes.UserRecord :=
  {| AdminRoutes.uid := id;
     AdminRoutes.email := Some (id ++ str "@example.org");
     AdminRoutes.displayName := None;
     AdminRoutes.photoURL := None;
     AdminRoutes.emailVerified := true;
     AdminRoutes.disabled := false;
     AdminRoutes.creationTime := Some (str "Mon, 01 Jan 2024 00:00:00 GMT");
     AdminRoutes.lastSignInTime := None |}.

Definition firebase : AdminRoutes.Firebase :=
  {| AdminRoutes.verifyIdToken :=
       fun token =>
         if jsstring_eqb token (str "token-of-admin1") then inr (str "admin1")
         else if jsstring_eqb token (str "token-of-user1") then inr (str "user1")
         else inl (str "Decoding Firebase ID token failed");
     AdminRoutes.userDocument :=
       fun id =>
         if jsstring_eqb id (str "admin1")
         then inr (Some [(str "isAdmin", JBool true)])
         else if jsstring_eqb id (str "user1")
         then inr (Some [(str "email", JStr (str "user1@example.org"))])
         else inr None;
     AdminRoutes.listUsers := inr [account (str "admin1"); account (str "user1")];
     AdminRoutes.usersCollection :=
       inr [(str "admin1", [(str "isAdmin", JBool true)]);
            (str "user1", [(str "email", JStr (str "user1@example.org"))])];
     AdminRoutes.getUser :=
       fun target =>
         match target with
         | JStr id =>
             if jsstring_eqb id (str "admin1") || jsstring_eqb id (str "user1")
             then inr (account id)
             else inl (str "There is no user record corresponding to the provided identifier")
         | _ => inl (str "The uid must be a non-empty string")
         end;
     AdminRoutes.setAdmin := fun _ => inr tt |}.

Definition adminRequest (header : option jsstring) (body : json)
  : AdminRoutes.Request :=
  {| AdminRoutes.authorization := header;
     AdminRoutes.jsonBody := inr body;
     AdminRoutes.isoTime := str "2024-01-01T00:00:00.000Z" |}.

Definition target (id : jsstring) : json :=
  JObj [(str "targetUserId", JStr id)].

End Samples.


(* ================================================================== *)
(** * The route over successive requests *)
(* ================================================================== *)

Module Service.

(** The variables [apiCallsInLastMinute] and [lastResetTime] belong to the
    module, not to a request: a request finds them as the previous one
    left them.  [serve] handles requests one after the other: each is
    answered before the next one arrives. *)
Fixpoint serve (S : GeminiRoute.Server) (st : GeminiRoute.State)
         (requests : list GeminiRoute.Request)
  : GeminiRoute.State * list (run Step GeminiRoute.Response) :=
  match requests with
  | [] => (st, [])
  | req :: rest =>
      let (st', answer) := GeminiRoute.POST S st (GeminiRoute.alone req) in
      let (st'', answers) := serve S st' rest in
      (st'', answer :: answers)
  end.

Definition isGenerate (s : Step) : bool :=
  match s with
  | Generate _ => true
  | _ => false
  end.

(** The number of calls of [model.generateContent] in a run. *)
Definition modelCalls {A : Type} (m : run Step A) : nat :=
  length (filter isGenerate (steps m)).

Fixpoint totalModelCalls {A : Type} (runs : list (run Step A)) : nat :=
  match runs with
  | [] => 0
  | m :: rest => modelCalls m + totalModelCalls rest
  end.

End Service.

(* ================================================================== *)
(** * The admin route [documents] *)
(* ================================================================== *)

Module DocumentsRoute.

(** The calls of the route: those of the guard it shares with the other
    admin routes, the query for a page of documents, the lookup of a
    document's user, and the count. *)
Inductive Action : Type :=
| Guard (a : AdminRoutes.Action)
| QueryDocuments (userId : option jsstring) (limit offset : float)
    (** [orderBy('createdAt', 'desc').limit(limit).offset(offset).get()],
        after [where('userId', '==', userId)] when there is a filter *)
| LookUpUser (userId : json)   (** [adminAuth.getUser(data.userId)] *)
| CountDocuments (userId : option jsstring).

(** The database of documents and the built-ins on numbers. *)
Record Store : Type := {
  firebase : AdminRoutes.Firebase;
  queryDocuments :
    option jsstring -> float -> float -> jsstring + list (jsstring * object json);
  countDocuments : option jsstring -> jsstring + float;
  parseInt : jsstring -> float;
  ceil : float -> float
}.

(** The request: its headers, and the search parameters of its URL. *)
Record Request : Type := {
  headers : AdminRoutes.Request;
  userIdParam : option jsstring;
  limitParam : option jsstring;
  pageParam : option jsstring
}.

(** [userData]: [{ email: 'Unknown' }], or the three properties of the
    user record. *)
Inductive UserData : Type :=
| Unknown
| Known (email displayName photoURL : option jsstring).

(** [{ id: doc.id, ...data, user: userData }] *)
Record Listed : Type := {
  id : jsstring;
  data : object json;
  user : UserData
}.

Record Pagination : Type := {
  total : float;
  pages : float;
  currentPage : float;
  limit : float
}.

Inductive Payload : Type :=
| ErrorPayload (error : jsstring)
| DocumentsPayload (documents : list Listed) (pagination : Pagination).

Record Response : Type := {
  statusCode : nat;
  payload : Payload
}.

Definition respond (code : nat) (error : jsstring) : Response :=
  {| statusCode := code; payload := ErrorPayload error |}.

(** The answer of the guard, as this route gives it. *)
Definition ofGuard (r : AdminRoutes.Response) : Response :=
  {| statusCode := AdminRoutes.statusCode r;
     payload :=
       ErrorPayload match AdminRoutes.payload r with
                    | AdminRoutes.ErrorPayload error => error
                    | _ => []
                    end |}.

(** The calls of the guard, as calls of this route. *)
Definition guarded {A : Type} (m : run AdminRoutes.Action A) : run Action A :=
  (map Guard (steps m), result m).

Section WithStore.
Variable S : Store.

(** The body of the loop over [documentsSnapshot.docs]. *)
Definition withUser (doc : jsstring * object json) : run Action Listed :=
  userData <-
    match obj_get (str "userId") (snd doc) with
    | Some userId =>
        if truthy userId then
          tryCatch
            (emit (LookUpUser userId) ;;;
             userRecord <- lift (AdminRoutes.getUser (firebase S) userId) ;;
             ret (Known (AdminRoutes.email userRecord)
                        (AdminRoutes.displayName userRecord)
                        (AdminRoutes.photoURL userRecord)))
            (fun _ => ret Unknown)
        else ret Unknown
    | None => ret Unknown
    end ;;
  ret {| id := fst doc; data := snd doc; user := userData |}.

Fixpoint listAll (docs : list (jsstring * object json)) : run Action (list Listed) :=
  match docs with
  | [] => ret []
  | doc :: rest =>
      listed <- withUser doc ;;
      others <- listAll rest ;;
      ret (listed :: others)
  end.

(** [GET] of the [documents] route *)
Definition GET (request : Request) : run Action Response :=
  tryCatch
    (checked <- guarded (AdminRoutes.authorize (firebase S) (headers request)) ;;
     match checked with
     | inl response => ret (ofGuard response)
     | inr _ =>
         let userIdFilter :=
           if nonEmpty (userIdParam request) then userIdParam request else None in
         let limit := parseInt S (orElse (limitParam request) (str "50")) in
         let page := parseInt S (orElse (pageParam request) (str "1")) in
         let offset := ((page - 1) * limit)%float in
         emit (QueryDocuments userIdFilter limit offset) ;;;
         docs <- lift (queryDocuments S userIdFilter limit offset) ;;
         documents <- listAll docs ;;
         emit (CountDocuments userIdFilter) ;;;
         totalCount <- lift (countDocuments S userIdFilter) ;;
         ret {| statusCode := 200;
                payload :=
                  DocumentsPayload documents
                    {| total := totalCount;
                       pages := ceil S (totalCount / limit)%float;
                       currentPage := page;
                       limit := limit |} |}
     end)
    (fun _ => ret (respond 500 (str "Internal server error"))).

End WithStore.
End DocumentsRoute.

(* ================================================================== *)
(** * The admin page of users ([handleMakeAdmin]) *)
(* ================================================================== *)

Module UsersPage.

(** A user as the page holds it (interface [User]). *)
Record User : Type := {
  uid : jsstring;
  email : option jsstring;
  displayName : option jsstring;
  photoURL : option jsstring;
  emailVerified : bool;
  disabled : bool;
  createdAt : jsstring;
  lastSignIn : jsstring;
  isAdmin : option bool;
  documents : option float
}.

(** The browser around the page: the signed-in user, as what its
    [getIdToken()] settles with ([None]: nobody is signed in), and [fetch]
    on the [make-admin] route, from the [Authorization] header and the
    body the route reads to the route's calls and its response. *)
Record Browser : Type := {
  currentUser : option (jsstring + jsstring);
  fetch : jsstring -> json -> run AdminRoutes.Action AdminRoutes.Response
}.

(** What [handleMakeAdmin] does to the page and to the world. *)
Inductive Effect : Type :=
| Call (a : AdminRoutes.Action)
| SetActionLoading (b : bool)
| SetActionError (e : option jsstring)
| SetActionSuccess (s : option jsstring)
| MarkAdmin (userId : jsstring)
    (** [setUsers(prev => prev.map(u => u.uid === user.uid ? { ...u, isAdmin: true } : u))] *)
| SetShowModal (b : bool).

(** The states of the page that [handleMakeAdmin] writes. *)
Record View : Type := {
  users : list User;
  showModal : bool;
  actionLoading : bool;
  actionSuccess : option jsstring;
  actionError : option jsstring
}.

(** [{ ...u, isAdmin: true }] *)
Definition asAdmin (u : User) : User :=
  {| uid := uid u;
     email := email u;
     displayName := displayName u;
     photoURL := photoURL u;
     emailVerified := emailVerified u;
     disabled := disabled u;
     createdAt := createdAt u;
     lastSignIn := lastSignIn u;
     isAdmin := Some true;
     documents := documents u |}.

Definition markAdmin (userId : jsstring) (prev : list User) : list User :=
  map (fun u => if jsstring_eqb (uid u) userId then asAdmin u else u) prev.

Definition perform (v : View) (e : Effect) : View :=
  match e with
  | Call _ => v
  | SetActionLoading b =>
      {| users := users v; showModal := showModal v; actionLoading := b;
         actionSuccess := actionSuccess v; actionError := actionError v |}
  | SetActionError e =>
      {| users := users v; showModal := showModal v;
         actionLoading := actionLoading v;
         actionSuccess := actionSuccess v; actionError := e |}
  | SetActionSuccess s =>
      {| users := users v; showModal := showModal v;
         actionLoading := actionLoading v;
         actionSuccess := s; actionError := actionError v |}
  | MarkAdmin userId =>
      {| users := markAdmin userId (users v); showModal := showModal v;
         actionLoading := actionLoading v;
         actionSuccess := actionSuccess v; actionError := actionError v |}
  | SetShowModal b =>
      {| users := users v; showModal := b; actionLoading := actionLoading v;
         actionSuccess := actionSuccess v; actionError := actionError v |}
  end.

(** The page after the effects [l], applied in order. *)
Definition after (l : list Effect) (v : View) : View := fold_left perform l v.

(** The calls of the route, seen from the page. *)
Definition called {A : Type} (m : run AdminRoutes.Action A) : run Effect A :=
  (map Call (steps m), result m).

(** [response.ok] *)
Definition ok (response : AdminRoutes.Response) : bool :=
  (200 <=? AdminRoutes.statusCode response)
  && (AdminRoutes.statusCode response <=? 299).

(** [errorData.error] *)
Definition errorOf (response : AdminRoutes.Response) : option jsstring :=
  match AdminRoutes.payload response with
  | AdminRoutes.ErrorPayload error => Some error
  | _ => None
  end.

Definition failure : jsstring := str "Failed to make user an admin".

(** [handleMakeAdmin].  The body the route reads is the one the page
    writes, [{ targetUserId: user.uid }]. *)
Definition handleMakeAdmin (B : Browser) (user : User) : run Effect unit :=
  match currentUser B with
  | None => ret tt
  | Some getIdToken =>
      tryCatch
        (emit (SetActionLoading true) ;;;
         emit (SetActionError None) ;;;
         emit (SetActionSuccess None) ;;;
         token <- lift getIdToken ;;
         response <-
           called (fetch B (str "Bearer " ++ token)
                     (JObj [(str "targetUserId", JStr (uid user))])) ;;
         (if negb (ok response)
          then throw (orElse (errorOf response) failure)
          else ret tt) ;;;
         emit (MarkAdmin (uid user)) ;;;
         emit (SetActionSuccess
                 (Some (orElse (email user) (uid user) ++ str " is now an admin"))) ;;;
         emit (SetShowModal false))
        (fun message => emit (SetActionError (Some (orElse (Some message) failure)))) ;;;
      emit (SetActionLoading false)
  end.

End UsersPage.

(* ================================================================== *)
(** * The [register] route *)
(* ================================================================== *)

Module Registration.

(** The calls the route makes to the database. *)
Inductive Action : Type :=
| Connect                          (** [dbConnect()] *)
| FindOne (uid : json)             (** [User.findOne({ uid })] *)
| Save (document : object json).   (** [document.save()] *)

(** The database behind the [User] model: each call returns, or rejects
    with a message.  A document is the object of its fields; the casts,
    the defaults and the validation of the schema are the model's, inside
    [save]. *)
Record Database : Type := {
  dbConnect : jsstring + unit;
  (** [None]: no document has the uid *)
  findOne : json -> jsstring + option (object json);
  save : object json -> jsstring + unit
}.

Record Request : Type := {
  (** [request.json()] *)
  jsonBody : jsstring + json;
  (** [new Date()] when a login is recorded *)
  date : json
}.

Inductive Payload : Type :=
| ErrorPayload (error : jsstring) (details : option jsstring)
  (** [{ success: true, message, user }] *)
| UserPayload (message : jsstring) (user : object json).

Record Response : Type := {
  statusCode : nat;
  payload : Payload
}.

(** [const { uid, email, displayName, photoURL } = body]: a property that
    is absent is [undefined] ([None]); destructuring [null] throws. *)
Definition property (k : jsstring) (body : json) : option json :=
  match body with
  | JObj fields => obj_get k fields
  | _ => None
  end.

Definition destructure (body : json) : jsstring + json :=
  match body with
  | JNull => inl (str "Cannot destructure property 'uid' of 'body' as it is null.")
  | _ => inr body
  end.

(** [if (v) document[k] = v;] for a value that may be [undefined] *)
Definition setIfGiven (k : jsstring) (v : option json) (document : object json)
  : object json :=
  match v with
  | Some x => if truthy x then obj_set k x document else document
  | None => document
  end.

(** [v || ''] *)
Definition orEmpty (v : option json) : json :=
  match v with
  | Some x => if truthy x then x else JStr []
  | None => JStr []
  end.

(** The three assignments to the document found:
    [existingUser.lastLoginAt = new Date()], then the display name and the
    photo URL, each when the request gives one. *)
Definition recordLogin (now : json) (displayName photoURL : option json)
           (existingUser : object json) : object json :=
  setIfGiven (str "photoURL") photoURL
    (setIfGiven (str "displayName") displayName
       (obj_set (str "lastLoginAt") now existingUser)).

(** [new User({ uid, email, displayName: displayName || '', photoURL: photoURL || '' })] *)
Definition newUser (uid email : json) (displayName photoURL : option json)
  : object json :=
  [(str "uid", uid);
   (str "email", email);
   (str "displayName", orEmpty displayName);
   (str "photoURL", orEmpty photoURL)].

Definition missingFields : Response :=
  {| statusCode := 400;
     payload := ErrorPayload (str "Missing required fields") None |}.

Definition succeeded (message : jsstring) (user : object json) : Response :=
  {| statusCode := 200; payload := UserPayload message user |}.

Definition failed (message : jsstring) : Response :=
  {| statusCode := 500;
     payload := ErrorPayload (str "Failed to register user") (Some message) |}.

Section WithDatabase.
Variable D : Database.

(** [POST] of the [register] route *)
Definition POST (request : Request) : run Action Response :=
  tryCatch
    (emit Connect ;;;
     lift (dbConnect D) ;;;
     parsed <- lift (jsonBody request) ;;
     body <- lift (destructure parsed) ;;
     let displayName := property (str "displayName") body in
     let photoURL := property (str "photoURL") body in
     match property (str "uid") body, property (str "email") body with
     | Some uid, Some email =>
         if negb (truthy uid) || negb (truthy email)
         then ret missingFields
         else
           emit (FindOne uid) ;;;
           existingUser <- lift (findOne D uid) ;;
           match existingUser with
           | Some stored =>
               let updated := recordLogin (date request) displayName photoURL stored in
               emit (Save updated) ;;;
               lift (save D updated) ;;;
               ret (succeeded (str "User login recorded") updated)
           | None =>
               let created := newUser uid email displayName photoURL in
               emit (Save created) ;;;
               lift (save D created) ;;;
               ret (succeeded (str "User registered successfully") created)
           end
     | _, _ => ret missingFields
     end)
    (fun message => ret (failed message)).

End WithDatabase.
End Registration.

(* ================================================================== *)
(** * The uploader's list of files ([handleFileUpload], [deleteFile]) *)
(* ================================================================== *)

Module Batch.

(** [moderationStatus: 'pending' | 'safe' | 'flagged'] *)
Inductive Status : Type :=
| Pending
| Settled (moderation : Uploader.Moderation).

(** An entry of the state [files] (interface [UploadedFile]); its [name],
    [size] and [type] are those of [file]. *)
Record UploadedFile : Type := {
  id : jsstring;
  file : File;
  url : jsstring;
  moderationStatus : Status;
  verificationDetails : option (object json)
}.

(** The updaters the component passes to [setFiles]. *)
Inductive Updater : Type :=
| Append (newFiles : list UploadedFile)
    (** [prev => [...prev, ...newFiles]] *)
| Verified (fileId : jsstring) (update : Uploader.FileUpdate)
    (** [prev => prev.map(f => f.id === fileId ? { ...f, moderationStatus, verificationDetails } : f)] *)
| Delete (fileId : jsstring).
    (** [prev => prev.filter(file => file.id !== id)] *)

(** [{ ...f, moderationStatus, verificationDetails }] *)
Definition withVerdict (update : Uploader.FileUpdate) (f : UploadedFile)
  : UploadedFile :=
  {| id := id f;
     file := file f;
     url := url f;
     moderationStatus := Settled (Uploader.moderationStatus update);
     verificationDetails := Some (Uploader.verificationDetails update) |}.

Definition apply (u : Updater) (prev : list UploadedFile) : list UploadedFile :=
  match u with
  | Append newFiles => prev ++ newFiles
  | Verified fileId update =>
      map (fun f => if jsstring_eqb (id f) fileId then withVerdict update f else f) prev
  | Delete fileId => filter (fun f => negb (jsstring_eqb (id f) fileId)) prev
  end.

(** What [handleFileUpload] does to the component and to the world. *)
Inductive Effect : Type :=
| External (s : Step)
| SetFiles (u : Updater)
| SetModerationError (e : option jsstring)
| SetIsUploading (b : bool)
| SetIsAnalyzing (b : bool).

(** The states of the component that [handleFileUpload] writes. *)
Record View : Type := {
  files : list UploadedFile;
  moderationError : option jsstring;
  isUploading : bool;
  isAnalyzing : bool
}.

Definition perform (v : View) (e : Effect) : View :=
  match e with
  | External _ => v
  | SetFiles u =>
      {| files := apply u (files v);
         moderationError := moderationError v;
         isUploading := isUploading v;
         isAnalyzing := isAnalyzing v |}
  | SetModerationError e =>
      {| files := files v;
         moderationError := e;
         isUploading := isUploading v;
         isAnalyzing := isAnalyzing v |}
  | SetIsUploading b =>
      {| files := files v;
         moderationError := moderationError v;
         isUploading := b;
         isAnalyzing := isAnalyzing v |}
  | SetIsAnalyzing b =>
      {| files := files v;
         moderationError := moderationError v;
         isUploading := isUploading v;
         isAnalyzing := b |}
  end.

(** The component after the effects [l], applied in order. *)
Definition after (l : list Effect) (v : View) : View := fold_left perform l v.

(** A computation of the verification pipeline, run inside the handler. *)
Definition external {A : Type} (m : run Step A) : run Effect A :=
  (map External (steps m), result m).

(** The decimal rendering of an integer, as a template literal renders
    [Date.now()]. *)
Definition integerString (z : Z) : jsstring :=
  (if (z <? 0)%Z then str "-" else [])
  ++ str (DecimalString.NilEmpty.string_of_uint (N.to_uint (Z.abs_N z))).

Section WithBrowser.
(** The browser while the file at index [i] is processed. *)
Variable B : nat -> Uploader.Browser.
(** [Date.now()] and [URL.createObjectURL(file)] in turn [i] of the first
    loop. *)
Variable now : nat -> Z.
Variable createObjectURL : nat -> File -> jsstring.

(** [`file-${Date.now()}-${i}`] *)
Definition fileId (i : nat) : jsstring :=
  str "file-" ++ integerString (now i) ++ str "-" ++ nat_to_string i.

(** The first loop, from index [i] on: the entries of [newFiles]. *)
Fixpoint newFiles (i : nat) (uploadedFiles : list File) : list UploadedFile :=
  match uploadedFiles with
  | [] => []
  | f :: rest =>
      {| id := fileId i;
         file := f;
         url := createObjectURL i f;
         moderationStatus := Pending;
         verificationDetails := None |} :: newFiles (S i) rest
  end.

(** The second loop, from index [i] on.  The [catch] of a turn, which
    [processFile] ends with, also sets the error banner. *)
Fixpoint analyzeFrom (i : nat) (uploadedFiles : list File) : run Effect unit :=
  match uploadedFiles with
  | [] => ret tt
  | f :: rest =>
      update <- external (Uploader.processFile (B i) f) ;;
      match Uploader.site update with
      | Uploader.AnalysisFailed =>
          emit (SetModerationError
                  (Some (str "Failed to analyze " ++ name f
                         ++ str ". Please try again.")))
      | _ => ret tt
      end ;;;
      emit (SetFiles (Verified (fileId i) update)) ;;;
      analyzeFrom (S i) rest
  end.

(** [handleFileUpload]; [None] is a [FileList] that is [null]. *)
Definition handleFileUpload (uploadedFiles : option (list File)) : run Effect unit :=
  match uploadedFiles with
  | None | Some [] => ret tt
  | Some (f :: rest) =>
      tryCatch
        (emit (SetModerationError None) ;;;
         emit (SetIsUploading true) ;;;
         emit (SetFiles (Append (newFiles 0 (f :: rest)))) ;;;
         emit (SetIsAnalyzing true) ;;;
         analyzeFrom 0 (f :: rest))
        (fun _ =>
           emit (SetModerationError
                   (Some (str "Failed to upload files. Please try again.")))) ;;;
      emit (SetIsUploading false) ;;;
      emit (SetIsAnalyzing false)
  end.

(** [deleteFile] *)
Definition deleteFile (fileId : jsstring) : run Effect unit :=
  emit (SetFiles (Delete fileId)).

End WithBrowser.
End Batch.

(* ================================================================== *)
(** * Further sample environments *)
(* ================================================================== *)

Module Cases.

(** A server whose hosted model never answers within 30 seconds. *)
Definition slowServer : GeminiRoute.Server :=
  {| GeminiRoute.GEMINI_API_KEY := str "key";
     GeminiRoute.clientConstructs := true;
     GeminiRoute.modelCreated := true;
     GeminiRoute.generateContent := fun _ => GeminiRoute.GenerateTimesOut;
     GeminiRoute.parse := fun _ => None;
     GeminiRoute.parseObject := fun _ => None;
     GeminiRoute.numberToString := fun _ => str "0";
     GeminiRoute.stringToNumber := fun _ => PrimFloat.nan;
     GeminiRoute.toFixed2 := fun _ => str "0.00";
     GeminiRoute.typeError := Samples.typeError |}.

(** A browser with a loaded model that can decode no image and reach no
    server. *)
Definition blindBrowser : Uploader.Browser :=
  {| Uploader.modelLoaded := true;
     Uploader.imageLoads := fun _ => false;
     Uploader.headerLoads := fun _ => true;
     Uploader.recognize := fun _ => Uploader.RecognizeFails (str "no image");
     Uploader.classify := fun _ => inl (str "no image");
     Uploader.naturalWidth := fun _ => 0%float;
     Uploader.naturalHeight := fun _ => 0%float;
     Uploader.fetch := fun _ => throw (str "Failed to fetch");
     Uploader.toLowerCase := asciiLower;
     Uploader.percent := fun _ => str "0";
     Uploader.localeString := fun _ => str "1/1/1970, 12:00:00 AM";
     Uploader.stringifyNumbers := fun _ => str "[]";
     Uploader.today := 61000 |}.

(** A browser without model whose requests are answered without a verdict:
    HTTP status 200 and a body with status [busy] and nothing else. *)
Definition unansweredBrowser : Uploader.Browser :=
  {| Uploader.modelLoaded := false;
     Uploader.imageLoads := fun _ => true;
     Uploader.headerLoads := fun _ => true;
     Uploader.recognize := fun _ => Uploader.Recognized (Some (str "Invoice 4711")) 87;
     Uploader.classify := fun _ => inl (str "no model");
     Uploader.naturalWidth := fun _ => 800%float;
     Uploader.naturalHeight := fun _ => 600%float;
     Uploader.fetch :=
       fun _ =>
         ret {| httpStatus := 200;
                bodyText := str "{}";
                bodyJson :=
                  inr {| status := str "busy";
                         error := None;
                         message := None;
                         verification := None;
                         mockImplementation := None;
                         mockReason := None;
                         rateLimit := None |} |};
     Uploader.toLowerCase := asciiLower;
     Uploader.percent := fun _ => str "87";
     Uploader.localeString := fun _ => str "1/1/1970, 12:00:00 AM";
     Uploader.stringifyNumbers := fun _ => str "[]";
     Uploader.today := 61000 |}.

(** A PDF of 600000 bytes. *)
Definition largePdf : File :=
  {| name := str "manual.pdf";
     size := 600000;
     type := pdfType;
     lastModified := 0;
     header := str "%PDF-";
     content := Some (str "%PDF-1.7") |}.

(** A PDF of 600000 bytes whose name has two letters outside ASCII
    (r, e acute, s, u, m, e acute). *)
Definition accentedPdf : File :=
  {| name := [114; 233; 115; 117; 109; 233]%N ++ str ".pdf";
     size := 600000;
     type := pdfType;
     lastModified := 0;
     header := str "%PDF-";
     content := Some (str "%PDF-1.7") |}.

(** A server that reads the description of the large PDF. *)
Definition readingServer : GeminiRoute.Server :=
  {| GeminiRoute.GEMINI_API_KEY := str "key";
     GeminiRoute.clientConstructs := true;
     GeminiRoute.modelCreated := true;
     GeminiRoute.generateContent := fun _ => GeminiRoute.Generated (Some Samples.reply);
     GeminiRoute.parse :=
       fun s =>
         if jsstring_eqb s (Uploader.stringifyFileInfo largePdf)
         then Some (JObj [(str "fileName", JStr (name largePdf));
                          (str "fileType", JStr (type largePdf));
                          (str "fileSize", JNum 600000);
                          (str "isPdf", JBool true)])
         else if jsstring_eqb s (str "null") then Some JNull
         else None;
     GeminiRoute.parseObject :=
       fun s => if jsstring_eqb s Samples.verdictText then Some Samples.verdict else None;
     GeminiRoute.numberToString := fun _ => str "0";
     GeminiRoute.stringToNumber := fun _ => PrimFloat.nan;
     GeminiRoute.toFixed2 := fun _ => str "585.94";
     GeminiRoute.typeError := Samples.typeError |}.

(** The request the sample browser sends for the large PDF. *)
Definition largePdfRequest : GeminiRoute.Request :=
  {| GeminiRoute.formData :=
       inr {| image := Some (Uploader.metadataFile Samples.browser largePdf);
              features := None;
              metadata := None |};
     GeminiRoute.now := 61000;
     GeminiRoute.nowAtMock := 61001;
     GeminiRoute.random := fun _ => 0.5%float;
     GeminiRoute.arrivalsBeforeCheck := [];
     GeminiRoute.arrivalsBeforeAnswer := [] |}.



(** A database of two documents, one of the user [user1] and one of a
    user whom the identity provider does not know, read with the sample
    identity provider; [parseInt] reads the two defaults. *)
Definition store : DocumentsRoute.Store :=
  {| DocumentsRoute.firebase := Samples.firebase;
     DocumentsRoute.queryDocuments :=
       fun _ _ _ =>
         inr [(str "d1", [(str "name", JStr (str "a.pdf"));
                          (str "userId", JStr (str "user1"))]);
              (str "d2", [(str "name", JStr (str "b.pdf"));
                          (str "userId", JStr (str "ghost"))])];
     DocumentsRoute.countDocuments := fun _ => inr 2%float;
     DocumentsRoute.parseInt :=
       fun s => if jsstring_eqb s (str "50") then 50%float else 1%float;
     DocumentsRoute.ceil := fun _ => 1%float |}.

Definition documentsRequest (header : option jsstring) : DocumentsRoute.Request :=
  {| DocumentsRoute.headers := Samples.adminRequest header JNull;
     DocumentsRoute.userIdParam := None;
     DocumentsRoute.limitParam := None;
     DocumentsRoute.pageParam := None |}.

(** The page of the administrator [admin1], served by the sample identity
    provider, and the user [user1] as the page lists it. *)
Definition adminBrowser : UsersPage.Browser :=
  {| UsersPage.currentUser := Some (inr (str "token-of-admin1"));
     UsersPage.fetch :=
       fun header body =>
         AdminRoutes.POST Samples.firebase
           {| AdminRoutes.authorization := Some header;
              AdminRoutes.jsonBody := inr body;
              AdminRoutes.isoTime := str "2024-01-01T00:00:00.000Z" |} |}.

Definition listedUser : UsersPage.User :=
  {| UsersPage.uid := str "user1";
     UsersPage.email := Some (str "user1@example.org");
     UsersPage.displayName := None;
     UsersPage.photoURL := None;
     UsersPage.emailVerified := true;
     UsersPage.disabled := false;
     UsersPage.createdAt := str "Mon, 01 Jan 2024 00:00:00 GMT";
     UsersPage.lastSignIn := [];
     UsersPage.isAdmin := None;
     UsersPage.documents := None |}.

Definition usersView : UsersPage.View :=
  {| UsersPage.users := [listedUser];
     UsersPage.showModal := true;
     UsersPage.actionLoading := false;
     UsersPage.actionSuccess := None;
     UsersPage.actionError := None |}.

(** A database that holds one user, [u1]. *)
Definition storedUser : object json :=
  [(str "uid", JStr (str "u1"));
   (str "email", JStr (str "first@example.org"));
   (str "displayName", JStr (str "First Name"));
   (str "photoURL", JStr []);
   (str "lastLoginAt", JStr (str "2024-01-01T00:00:00.000Z"))].

Definition database : Registration.Database :=
  {| Registration.dbConnect := inr tt;
     Registration.findOne :=
       fun uid =>
         match uid with
         | JStr id => inr (if jsstring_eqb id (str "u1") then Some storedUser else None)
         | _ => inl (str "Cast to string failed for value at path uid")
         end;
     Registration.save := fun _ => inr tt |}.

(** A login of [u1] that gives another e-mail address and no name. *)
Definition loginRequest : Registration.Request :=
  {| Registration.jsonBody :=
       inr (JObj [(str "uid", JStr (str "u1"));
                  (str "email", JStr (str "second@example.org"));
                  (str "displayName", JStr [])]);
     Registration.date := JStr (str "2024-06-01T00:00:00.000Z") |}.



(** The sample browser when the OCR engine reads a specimen notice on the
    photograph; the server without API key answers it. *)
Definition specimenBrowser : Uploader.Browser :=
  {| Uploader.modelLoaded := true;
     Uploader.imageLoads := fun _ => true;
     Uploader.headerLoads := fun _ => true;
     Uploader.recognize :=
       fun _ => Uploader.Recognized (Some (str "SPECIMEN - not valid for travel")) 90;
     Uploader.classify := fun _ => inr [0.5%float; 0.25%float];
     Uploader.naturalWidth := fun _ => 800%float;
     Uploader.naturalHeight := fun _ => 600%float;
     Uploader.fetch :=
       Pipeline.routeFetch Samples.keylessServer Samples.freshState Samples.moment
         (fun _ => []);
     Uploader.toLowerCase := asciiLower;
     Uploader.percent := fun _ => str "90";
     Uploader.localeString := fun _ => str "1/1/1970, 12:00:00 AM";
     Uploader.stringifyNumbers := fun _ => Samples.photoFeaturesJson;
     Uploader.today := 61000 |}.


End Cases.

(* ================================================================== *)
(** * Vocabulary of the statements *)
(* ================================================================== *)

(** The text [extractTextFromImage] keeps of what the OCR engine read:
    white space collapsed and trimmed. *)
Definition cleanedText (t : option jsstring) : jsstring :=
  trim (collapseSpaces false (orElse t [])).

(** [0.1 <= x <= 1] on binary64 values. *)
Definition inUnitRange (x : float) : Prop :=
  PrimFloat.leb 0.1 x = true /\ PrimFloat.leb x 1 = true.

(** [start - p1 - ... - pn], subtracting from the left as the assignments
    [score -= p] do. *)
Definition subtractAll (start : float) (penalties : list float) : float :=
  fold_left (fun s p => (s - p)%float) penalties start.

(** The descriptions of the text patterns that match [t], in the order of
    the pattern table. *)
Definition matchingDescriptions (t : jsstring) : list jsstring :=
  (if testTerms t then [termsDescription] else [])
  ++ (if testDisclaimer t then [disclaimerDescription] else []).

(** The raw score of the PDF metadata analysis as a function of its seven
    flags. *)
Definition pdfScoreOf (small noHeader wrongType badName creator producer missing : bool)
  : float :=
  penalise missing 0.2
    (penalise producer 0.3
       (penalise creator 0.3
          (penalise badName 0.2
             (penalise wrongType 0.3
                (penalise noHeader 0.5
                   (penalise small 0.2 0.95%float)))))).

(** A score is explained by a start value and a set of allowed penalties
    when it is the start value minus one allowed penalty per recorded
    anomaly. *)
Definition explainedBy (start : float) (allowed : list float)
           (anomalies : list jsstring) (score : float) : Prop :=
  exists penalties,
    length penalties = length anomalies
    /\ Forall (fun p => In p allowed) penalties
    /\ score = subtractAll start penalties.

Definition ifFlag (c : bool) (p : float) : list float := if c then [p] else [].

(** The header check passes: the header is present and starts with
    [Bearer ]. *)
Definition headerAccepted (request : AdminRoutes.Request) : bool :=
  match AdminRoutes.authorization request with
  | Some h => startsWith h (str "Bearer ")
  | None => false
  end.

(** The token the routes verify. *)
Definition bearerToken (request : AdminRoutes.Request) : jsstring :=
  secondPiece (str "Bearer ") (orElse (AdminRoutes.authorization request) []).

(** The Firestore record of the user is read and has [isAdmin === true]. *)
Definition recordedAdmin (F : AdminRoutes.Firebase) (userId : jsstring) : bool :=
  match AdminRoutes.userDocument F userId with
  | inr (Some data) =>
      match obj_get (str "isAdmin") data with
      | Some (JBool true) => true
      | _ => false
      end
  | _ => false
  end.


Definition unauthorized : AdminRoutes.Response :=
  AdminRoutes.respond 401 (str "Unauthorized").
Definition forbidden : AdminRoutes.Response :=
  AdminRoutes.respond 403 (str "Forbidden").

(** A verification object is a mock when its explanation says so. *)
Definition isMockVerification (v : object json) : Prop :=
  exists reason,
    obj_get (str "analysisExplanation") v
    = Some (JStr (GeminiRoute.mockPrefix ++ reason)).

(** The hosted model's answer to prompt [p] yields no verdict: the call
    fails or times out, the reply has no text, no match, or a match that
    does not parse. *)
Definition replyUnusable (S : GeminiRoute.Server) (p : jsstring) : Prop :=
  match GeminiRoute.generateContent S p with
  | GeminiRoute.Generated (Some text) =>
      match matchBraces text with
      | Some m => GeminiRoute.parseObject S m = None
      | None => True
      end
  | _ => True
  end.

(** The module variables as the handler reads them after it has awaited
    the form data, and as it reads them when it answers. *)
Definition atCheck (st0 : GeminiRoute.State) (req : GeminiRoute.Request)
  : GeminiRoute.State :=
  GeminiRoute.overlapped (GeminiRoute.tick st0 (GeminiRoute.now req))
    (GeminiRoute.arrivalsBeforeCheck req).

Definition atAnswer (st0 : GeminiRoute.State) (req : GeminiRoute.Request)
  : GeminiRoute.State :=
  GeminiRoute.overlapped (atCheck st0 req) (GeminiRoute.arrivalsBeforeAnswer req).

(** The response of the [catch] of [POST] for an error with [message] that
    arrives while the module variables are [st] and after [drawn] random
    numbers. *)
Definition caughtResponse (st : GeminiRoute.State) (drawn : nat)
           (req : GeminiRoute.Request) (message : jsstring) : GeminiRoute.Response :=
  GeminiRoute.provideMockResponse st (GeminiRoute.laterDraws drawn req)
    (GeminiRoute.apiCallsInLastMinute st)
    (orElse (Some message) (str "Unknown error")) [].

(** The mock response for [reason] and the metadata parsed, or the
    response of the [catch] when building the mock response throws. *)
Definition mockOr (S : GeminiRoute.Server) (st : GeminiRoute.State)
           (req : GeminiRoute.Request) (reason : jsstring) (metadata : json)
  : GeminiRoute.Response :=
  match GeminiRoute.provideMockResponse_any S st req
          (GeminiRoute.apiCallsInLastMinute st) reason metadata with
  | inr response => response
  | inl message => caughtResponse st 2 req message
  end.

(** The response the handler builds from the result of the analysis. *)
Definition answerOf (st : GeminiRoute.State) (req : GeminiRoute.Request)
           (analysisResult : object json) : GeminiRoute.Response :=
  {| GeminiRoute.httpCode := 200;
     GeminiRoute.body :=
       {| status := str "success";
          error := None;
          message := None;
          verification :=
            Some (obj_set (str "moderationStatus")
                    (JStr (if truthyField (str "isLikelyGenuine") analysisResult
                           then str "safe" else str "flagged"))
                    analysisResult);
          mockImplementation := None;
          mockReason := None;
          rateLimit :=
            Some (GeminiRoute.rateLimitAt (GeminiRoute.apiCallsInLastMinute st)
                    st (GeminiRoute.now req)) |} |}.

(** The misuse, if any, that the construction of a prompt meets on the
    values parsed: [null] as metadata, or features that have a length
    above 0 and are no array. *)
Definition promptError (S : GeminiRoute.Server)
           (imageFeatures documentMetadata : json) : option GeminiRoute.Misuse :=
  match entries documentMetadata with
  | None => Some GeminiRoute.KeysOfNull
  | Some _ =>
      match GeminiRoute.firstItems S 10 imageFeatures with
      | inl misuse => Some misuse
      | inr _ => None
      end
  end.

(** The prompt [createOptimizedPrompt] returns for the values parsed, when
    it returns. *)
Definition promptFor (S : GeminiRoute.Server) (imageType extractedText : jsstring)
           (imageFeatures documentMetadata : json) : jsstring :=
  match GeminiRoute.createOptimizedPrompt_any S imageType extractedText
          imageFeatures documentMetadata with
  | inr optimizedPrompt => optimizedPrompt
  | inl _ => []
  end.

(** What the route's [analyzeWithGemini] returns for the values parsed. *)
Definition verdictOf (S : GeminiRoute.Server) (imageType extractedText : jsstring)
           (imageFeatures documentMetadata : json) : object json :=
  match result (GeminiRoute.analyzeWithGemini_any S imageType extractedText
                  imageFeatures documentMetadata) with
  | Returns analysisResult => analysisResult
  | _ => []
  end.

(** The form the uploader's [analyzeWithGemini] sends for [file] with the
    image features and the metadata given. *)
Definition formFor (B : Uploader.Browser) (file : File)
           (imageFeatures : list float) (md : object jsstring) : FormData :=
  {| image :=
       Some (if jsstring_eqb (type file) pdfType && (500000 <? size file)%Z
             then Uploader.metadataFile B file
             else file);
     features :=
       if (0 <? length imageFeatures)%nat
       then Some (Uploader.stringifyNumbers B imageFeatures)
       else None;
     metadata :=
       if (0 <? length md)%nat then Some (stringifyRecord md) else None |}.

(** What [extractPdfMetadata] resolves with. *)
Definition pdfAnalysisOf (B : Uploader.Browser) (file : File) : Uploader.PdfAnalysis :=
  {| Uploader.pdfMetadata := fst (fst (Uploader.pdfHeuristic B file));
     Uploader.anomalies := snd (fst (Uploader.pdfHeuristic B file));
     Uploader.confidenceScore :=
       Uploader.clampScore (snd (Uploader.pdfHeuristic B file)) |}.

(** The findings of the PDF branch when the request to the route is made:
    the metadata analysis and the text the uploader has for a PDF. *)
Definition pdfFound (B : Uploader.Browser) (file : File) : Uploader.Findings :=
  Uploader.pdfFindings B (pdfAnalysisOf B file)
    (Uploader.text Uploader.pdfPlaceholder)
    (Uploader.confidence Uploader.pdfPlaceholder).

(** The update of the image and PDF branches for the route's verdict. *)
Definition verified (branch : Uploader.UpdateSite) (g : Uploader.GeminiResult)
           (md : object jsstring) (extractedText : jsstring)
           (textConfidence : float) : Uploader.FileUpdate :=
  {| Uploader.site := branch;
     Uploader.moderationStatus :=
       if truthyField (str "isLikelyAiGenerated") (Uploader.details g)
       then Uploader.Flagged else Uploader.Safe;
     Uploader.verificationDetails :=
       obj_extend (Uploader.details g)
         [(str "metadata", jsonOfRecord md);
          (str "extractedText", JStr extractedText);
          (str "textConfidence", JNum textConfidence)] |}.

(** The metadata the image branch sends and records for [file] once the
    text extraction has resolved with [ocr]. *)
Definition imageMetadata (B : Uploader.Browser) (file : File)
           (ocr : Uploader.OcrResult) : object jsstring :=
  let metadata :=
    [(str "File Name", name file);
     (str "File Size", Uploader.sizeLabel file);
     (str "File Type", type file);
     (str "OCR Text Length", Uploader.charactersLabel (Uploader.text ocr));
     (str "OCR Confidence", Uploader.percentLabel B (Uploader.confidence ocr))] in
  let found := Uploader.textAnomalies (Uploader.text ocr) in
  if (0 <? length found)%nat
  then obj_set (str "Text Anomalies") (join (str ", ") found) metadata
  else metadata.

(** What [extractImageFeatures] resolves with when it resolves. *)
Definition imageFeaturesOf (B : Uploader.Browser) (file : File) : list float :=
  if Uploader.modelLoaded B then
    match Uploader.classify B file with
    | inr probabilities =>
        probabilities ++
        [(Uploader.naturalWidth B file / 1000)%float;
         (Uploader.naturalHeight B file / 1000)%float;
         (Uploader.naturalWidth B file / Uploader.naturalHeight B file)%float]
    | inl _ => []
    end
  else [].

(** The route's answer tells nothing about the document: it carries no
    error flag, and no verification or a status other than [success]. *)
Definition withoutVerdict (response : HttpResponse) : Prop :=
  ok response = true
  /\ exists data,
      bodyJson response = inr data
      /\ error data <> Some true
      /\ (verification data = None \/ status data <> str "success").

(** How the uploader's [analyzeWithGemini] reads the route's answer. *)
Definition readAnswer (response : HttpResponse) : run Step Uploader.GeminiResult :=
  if negb (ok response)
  then throw (str "Gemini API returned " ++ nat_to_string (httpStatus response)
              ++ str ": " ++ bodyText response)
  else
    match bodyJson response with
    | inl syntaxError => throw syntaxError
    | inr data =>
        if match error data with Some true => true | _ => false end
        then throw (orElse (message data) (str "Unknown error from Gemini API"))
        else
          match verification data with
          | Some v =>
              if jsstring_eqb (status data) (str "success")
              then ret {| Uploader.isGenuine := obj_get (str "isLikelyGenuine") v;
                          Uploader.details :=
                            obj_set (str "moderationStatus")
                              (Uploader.moderationOf
                                 (truthyField (str "isLikelyGenuine") v)) v |}
              else ret {| Uploader.isGenuine := Some (JBool true);
                          Uploader.details := Uploader.skippedDetails |}
          | None =>
              ret {| Uploader.isGenuine := Some (JBool true);
                     Uploader.details := Uploader.skippedDetails |}
          end
    end.

(** The request of the uploader's [analyzeWithGemini], from the form to the
    reading of the answer. *)
Definition request (B : Uploader.Browser) (file : File) (md : object jsstring)
           (imageFeatures : list float) : run Step Uploader.GeminiResult :=
  emit (Fetch (formFor B file imageFeatures md)) ;;;
  response <- Uploader.fetch B (formFor B file imageFeatures md) ;;
  readAnswer response.

(** The image features the request carries. *)
Definition featuresSent (B : Uploader.Browser) (file : File) : list float :=
  if Uploader.modelLoaded B && startsWith (type file) (str "image/")
  then imageFeaturesOf B file
  else [].

(** The browser reads of the file what the uploader waits for without an
    error handler: the image decodes whenever the uploader has it
    classified, and the header is read whenever the file is a PDF. *)
Definition decodable (B : Uploader.Browser) (file : File) : Prop :=
  (Uploader.modelLoaded B = true ->
   startsWith (type file) (str "image/") = true ->
   Uploader.imageLoads B file = true)
  /\ (type file = pdfType -> Uploader.headerLoads B file = true).

(** HTTP white space, which [fetch] strips from both ends of a header
    value: tab, line feed, carriage return and space. *)
Definition isHttpSpace (c : N) : bool :=
  ((c =? 9) || (c =? 10) || (c =? 13) || (c =? 32))%N.

Fixpoint dropHttpSpaces (s : jsstring) : jsstring :=
  match s with
  | [] => []
  | c :: s' => if isHttpSpace c then dropHttpSpaces s' else s
  end.

Definition stripHttpSpaces (s : jsstring) : jsstring :=
  rev (dropHttpSpaces (rev (dropHttpSpaces s))).

(** A code unit that a header value may hold: a byte other than NUL, line
    feed and carriage return. *)
Definition isHeaderByte (c : N) : bool :=
  ((c <=? 255) && negb (c =? 0) && negb (c =? 10) && negb (c =? 13))%N.

(** The value of a header that is set to [raw], as [headers.get] returns
    it on the server: [raw] without the HTTP white space at its ends.
    [None] when [fetch] throws a TypeError instead of sending the request,
    the value being no header value. *)
Definition headerValue (raw : jsstring) : option jsstring :=
  let value := stripHttpSpaces raw in
  if forallb isHeaderByte value then Some value else None.

(** The request the admin pages send to the admin routes, if [fetch] sends
    one: the header is set to the template literal [`Bearer ${token}`]. *)
Definition pageRequest (token : jsstring) (body : jsstring + json)
           (time : jsstring) : option AdminRoutes.Request :=
  match headerValue (str "Bearer " ++ token) with
  | Some value =>
      Some {| AdminRoutes.authorization := Some value;
              AdminRoutes.jsonBody := body;
              AdminRoutes.isoTime := time |}
  | None => None
  end.

(** Every check of the [make-admin] route passes for [request]: the caller
    [userId] is a recorded administrator, the body names a target the
    identity provider knows, and the write succeeds. *)
Definition grantPasses (F : AdminRoutes.Firebase) (request : AdminRoutes.Request)
           (userId : jsstring) (target : json) : Prop :=
  headerAccepted request = true
  /\ AdminRoutes.verifyIdToken F (bearerToken request) = inr userId
  /\ recordedAdmin F userId = true
  /\ (exists parsed,
         AdminRoutes.jsonBody request = inr parsed
         /\ AdminRoutes.targetOf parsed = inr (Some target))
  /\ truthy target = true
  /\ (exists account, AdminRoutes.getUser F target = inr account)
  /\ AdminRoutes.setAdmin F target = inr tt.


(** The entry [handleFileUpload] creates for the file at index [i]. *)
Definition newEntry (now : nat -> Z) (createObjectURL : nat -> File -> jsstring)
           (i : nat) (f : File) : Batch.UploadedFile :=
  {| Batch.id := Batch.fileId now i;
     Batch.file := f;
     Batch.url := createObjectURL i f;
     Batch.moderationStatus := Batch.Pending;
     Batch.verificationDetails := None |}.

(** The list of files after the verdicts [updates] of the turns [i], [i+1],
    ... have been recorded. *)
Fixpoint recordAll (now : nat -> Z) (i : nat) (updates : list Uploader.FileUpdate)
         (l : list Batch.UploadedFile) : list Batch.UploadedFile :=
  match updates with
  | [] => l
  | u :: rest =>
      recordAll now (S i) rest (Batch.apply (Batch.Verified (Batch.fileId now i) u) l)
  end.

(** A per cent sign of [s] is stray when it is the last code unit of [s] or
    the code unit after it is no hexadecimal digit. *)
Definition strayPercent (s : jsstring) : Prop :=
  exists a b,
    s = a ++ 37%N :: b
    /\ match b with
       | [] => True
       | c :: _ => hexval c = None
       end.

(** The four fields that [extractPdfMetadata] reads from the information
    dictionary, each with its key in the metadata. *)
Definition infoFields : list (jsstring * jsstring) :=
  [(str "/Title", str "Title"); (str "/Author", str "Author");
   (str "/Creator", str "Creator"); (str "/Producer", str "Producer")].

(** White space in normal form: every white-space code unit is a space,
    no two of them are adjacent, and the first code unit is none when
    [afterSpace] holds. *)
Fixpoint spacesCollapsed (afterSpace : bool) (s : jsstring) : bool :=
  match s with
  | [] => true
  | c :: s' =>
      if is_space c
      then N.eqb c 32 && negb afterSpace && spacesCollapsed true s'
      else spacesCollapsed false s'
  end.

(** The first code unit of [s], if any, is no white space. *)
Definition startsWithText (s : jsstring) : Prop :=
  match s with
  | [] => True
  | c :: _ => is_space c = false
  end.

(** A text is normalised when its only white space are single spaces
    between other code units, none of them first or last, and cleaning it
    as the text of the OCR engine is cleaned changes nothing. *)
Definition normalised (s : jsstring) : Prop :=
  (forall c, In c s -> is_space c = true -> c = 32%N)
  /\ (forall a b,
         s = a ++ 32%N :: b ->
         a <> [] /\ exists c b', b = c :: b' /\ is_space c = false)
  /\ cleanedText (Some s) = s.

(** The entries of the metadata that [createOptimizedPrompt] puts into the
    prompt: the important ones, then five of the others, ten at most. *)
Definition prioritizedMetadata (documentMetadata : object jsstring)
  : object jsstring :=
  firstn 10 (filter GeminiRoute.isImportant documentMetadata
             ++ firstn 5 (filter (fun e => negb (GeminiRoute.isImportant e))
                            documentMetadata)).

(** The server reads the description of a large PDF as the uploader wrote
    it: [JSON.parse] undoes the uploader's [JSON.stringify]. *)
Definition readsDescription (S : GeminiRoute.Server) (file : File) : Prop :=
  exists fileSize,
    GeminiRoute.parse S (Uploader.stringifyFileInfo file)
    = Some (JObj [(str "fileName", JStr (name file));
                  (str "fileType", JStr (type file));
                  (str "fileSize", JNum fileSize);
                  (str "isPdf", JBool true)]).


(** The user id a document names, when it is truthy. *)
Definition ownerOf (doc : jsstring * object json) : option json :=
  match obj_get (str "userId") (snd doc) with
  | Some userId => if truthy userId then Some userId else None
  | None => None
  end.

(** The entry the [documents] route lists for a document: the user's
    properties when the document names a user whom the identity provider
    knows, [Unknown] otherwise. *)
Definition listedAs (S : DocumentsRoute.Store) (doc : jsstring * object json)
  : DocumentsRoute.Listed :=
  {| DocumentsRoute.id := fst doc;
     DocumentsRoute.data := snd doc;
     DocumentsRoute.user :=
       match ownerOf doc with
       | Some userId =>
           match AdminRoutes.getUser (DocumentsRoute.firebase S) userId with
           | inr userRecord =>
               DocumentsRoute.Known (AdminRoutes.email userRecord)
                 (AdminRoutes.displayName userRecord)
                 (AdminRoutes.photoURL userRecord)
           | inl _ => DocumentsRoute.Unknown
           end
       | None => DocumentsRoute.Unknown
       end |}.

(** The lookups the route makes for a page of documents: one for every
    document that names a user. *)
Fixpoint lookups (docs : list (jsstring * object json)) : list DocumentsRoute.Action :=
  match docs with
  | [] => []
  | doc :: rest =>
      match ownerOf doc with
      | Some userId => DocumentsRoute.LookUpUser userId :: lookups rest
      | None => lookups rest
      end
  end.

(** A call of the [documents] route that reads the database of documents
    or looks a user up. *)
Definition readsDocuments (a : DocumentsRoute.Action) : bool :=
  match a with
  | DocumentsRoute.Guard _ => false
  | _ => true
  end.

(** The filter, the page size and the page of a request, as the route
    reads them from the search parameters. *)
Definition filterOf (request : DocumentsRoute.Request) : option jsstring :=
  if nonEmpty (DocumentsRoute.userIdParam request)
  then DocumentsRoute.userIdParam request else None.
Definition limitOf (S : DocumentsRoute.Store) (request : DocumentsRoute.Request)
  : float :=
  DocumentsRoute.parseInt S (orElse (DocumentsRoute.limitParam request) (str "50")).
Definition pageOf (S : DocumentsRoute.Store) (request : DocumentsRoute.Request)
  : float :=
  DocumentsRoute.parseInt S (orElse (DocumentsRoute.pageParam request) (str "1")).

(** The page's browser is served by the [make-admin] route over [F], at
    the time [time] of the server. *)
Definition pageServedBy (B : UsersPage.Browser) (F : AdminRoutes.Firebase)
           (time : jsstring) : Prop :=
  forall header body,
    UsersPage.fetch B header body
    = AdminRoutes.POST F {| AdminRoutes.authorization := Some header;
                            AdminRoutes.jsonBody := inr body;
                            AdminRoutes.isoTime := time |}.

(** The request the route handles when the page asks to make [user] an
    administrator with the token [token]. *)
Definition makeAdminRequest (token : jsstring) (user : UsersPage.User)
           (time : jsstring) : AdminRoutes.Request :=
  {| AdminRoutes.authorization := Some (str "Bearer " ++ token);
     AdminRoutes.jsonBody :=
       inr (JObj [(str "targetUserId", JStr (UsersPage.uid user))]);
     AdminRoutes.isoTime := time |}.

(* ================================================================== *)
(** * Basic facts *)
(* ================================================================== *)

Lemma jsstring_eqb_eq (a b : jsstring) : jsstring_eqb a b = true <-> a = b.
Proof.
  unfold jsstring_eqb. destruct (list_eq_dec N.eq_dec a b); split; congruence.
Qed.

Lemma jsstring_eqb_refl (a : jsstring) : jsstring_eqb a a = true.
Proof. now apply jsstring_eqb_eq. Qed.

Lemma jsstring_eqb_neq (a b : jsstring) : jsstring_eqb a b = false <-> a <> b.
Proof.
  unfold jsstring_eqb. destruct (list_eq_dec N.eq_dec a b); split; congruence.
Qed.

Lemma bind_ret {E A B : Type} (a : A) (k : A -> run E B) : bind (ret a) k = k a.
Proof. unfold bind, ret. destruct (k a) as [l o]. reflexivity. Qed.

Lemma in_steps_bind {E A B : Type} (x : E) (m : run E A) (k : A -> run E B) :
  In x (steps m) -> In x (steps (bind m k)).
Proof.
  destruct m as [l [a|msg|]]; simpl; auto.
  destruct (k a) as [l' o]. simpl. intros H. apply in_or_app. now left.
Qed.

Lemma in_steps_bind_after {E A B : Type} (x : E) (l : list E) (a : A)
      (k : A -> run E B) :
  In x (steps (k a)) -> In x (steps (bind (l, Returns a) k)).
Proof.
  simpl. destruct (k a) as [l' o]. simpl. intros H. apply in_or_app. now right.
Qed.

Lemma in_steps_tryCatch {E A : Type} (x : E) (m : run E A)
      (h : jsstring -> run E A) :
  In x (steps m) -> In x (steps (tryCatch m h)).
Proof.
  destruct m as [l [a|msg|]]; simpl; auto.
  destruct (h msg) as [l' o]. simpl. intros H. apply in_or_app. now left.
Qed.

Lemma extractImageFeatures_run (B : Uploader.Browser) (file : File) :
  Uploader.extractImageFeatures B file
  = if negb (Uploader.modelLoaded B) then ([], Returns [])
    else if Uploader.imageLoads B file
    then ([Classify file],
          Returns match Uploader.classify B file with
                  | inr probabilities =>
                      probabilities ++
                      [(Uploader.naturalWidth B file / 1000)%float;
                       (Uploader.naturalHeight B file / 1000)%float;
                       (Uploader.naturalWidth B file / Uploader.naturalHeight B file)%float]
                  | inl _ => []
                  end)
    else ([], Hangs).
Proof.
  unfold Uploader.extractImageFeatures.
  destruct (Uploader.modelLoaded B); [|reflexivity]. simpl.
  destruct (Uploader.imageLoads B file); [|reflexivity]. simpl.
  destruct (Uploader.classify B file); reflexivity.
Qed.

Lemma dropSpaces_length (s : jsstring) : length (dropSpaces s) <= length s.
Proof.
  induction s as [|c s IH]; simpl; [lia|].
  destruct (is_space c); simpl; lia.
Qed.

Lemma collapseSpaces_length (s : jsstring) (inRun : bool) :
  length (collapseSpaces inRun s) <= length s.
Proof.
  revert inRun. induction s as [|c s IH]; intros inRun; simpl; [lia|].
  pose proof (IH true). pose proof (IH false).
  destruct (is_space c); [destruct inRun|]; simpl; lia.
Qed.

Lemma trim_length (s : jsstring) : length (trim s) <= length s.
Proof.
  unfold trim. rewrite length_rev.
  pose proof (dropSpaces_length (rev (dropSpaces s))) as H1.
  rewrite length_rev in H1.
  pose proof (dropSpaces_length s). lia.
Qed.

Lemma cleanedText_length (t : option jsstring) :
  length (cleanedText t) <= length (orElse t []).
Proof.
  unfold cleanedText.
  pose proof (trim_length (collapseSpaces false (orElse t []))).
  pose proof (collapseSpaces_length (orElse t []) false). lia.
Qed.

(* ================================================================== *)
(** * The uploader's OCR step *)
(* ================================================================== *)

(** C10.  [extractTextFromImage] never rejects and never stays pending: for
    every file and every behaviour of the browser and of the OCR engine it
    resolves with a text and a confidence.  A PDF gets the fixed placeholder
    "PDF text extraction requires server-side processing." with confidence
    0.5; a file whose image does not load, or on which the OCR engine
    throws, gets the fallback message "Text extraction failed. ..." with
    confidence 0; an OCR result of fewer than 5 characters (after the
    clean-up, hence also before it) with confidence below 0.3 gets the
    fixed message "No meaningful text could be extracted from this
    document." with confidence 0.1; any other OCR result is passed on,
    cleaned, with its confidence divided by 100. *)
Theorem extractTextFromImage_never_rejects (B : Uploader.Browser) (file : File) :
  exists r : Uploader.OcrResult,
    result (Uploader.extractTextFromImage B file) = Returns r
    /\ (type file = pdfType ->
        r = {| Uploader.text :=
                 str "PDF text extraction requires server-side processing.";
               Uploader.confidence := 0.5 |})
    /\ (type file <> pdfType ->
        Uploader.imageLoads B file = false
        \/ (exists msg, Uploader.recognize B file = Uploader.RecognizeFails msg) ->
        r = {| Uploader.text :=
                 str "Text extraction failed. The document may be encrypted, damaged, or in an unsupported format.";
               Uploader.confidence := 0 |})
    /\ (forall t c,
          type file <> pdfType ->
          Uploader.imageLoads B file = true ->
          Uploader.recognize B file = Uploader.Recognized t c ->
          (PrimFloat.ltb (c / 100) 0.3 = true ->
           length (cleanedText t) < 5 \/ length (orElse t []) < 5 ->
           r = {| Uploader.text :=
                    str "No meaningful text could be extracted from this document.";
                  Uploader.confidence := 0.1 |})
          /\ (PrimFloat.ltb (c / 100) 0.3 = false \/ 5 <= length (cleanedText t) ->
              r = {| Uploader.text := cleanedText t;
                     Uploader.confidence := (c / 100)%float |})).
Proof.
  unfold Uploader.extractTextFromImage, Uploader.extractTextFromImage_try.
  destruct (jsstring_eqb (type file) pdfType) eqn:Epdf.
  - apply jsstring_eqb_eq in Epdf.
    exists Uploader.pdfPlaceholder. repeat split; try reflexivity; intros; congruence.
  - apply jsstring_eqb_neq in Epdf.
    destruct (Uploader.imageLoads B file) eqn:Eload.
    + destruct (Uploader.recognize B file) as [msg|t c] eqn:Erec.
      * exists Uploader.extractionFailed.
        repeat split; try reflexivity; intros; congruence.
      * fold (cleanedText t).
        pose proof (cleanedText_length t) as Hlen.
        destruct (length (cleanedText t) <? 5) eqn:Eshort;
          [apply Nat.ltb_lt in Eshort | apply Nat.ltb_ge in Eshort];
          destruct (PrimFloat.ltb (c / 100) 0.3) eqn:Elow; simpl;
          eexists; (split; [reflexivity|]);
          (split; [intros; congruence|]);
          (split; [intros _ [H|[msg H]]; congruence|]);
          intros t' c' _ _ Heq; injection Heq as <- <-;
          rewrite ?Elow; (split; [intros H1 H2|intros H1]);
          try reflexivity; try discriminate.
        -- exfalso. destruct H1 as [H1|H1]; [discriminate | lia].
        -- exfalso. destruct H2 as [H2|H2]; lia.
    + exists Uploader.extractionFailed.
      repeat split; try reflexivity; intros; congruence.
Qed.

(* ================================================================== *)
(** * The uploader's own scores *)
(* ================================================================== *)

Lemma pdfHeuristic_score_shape (B : Uploader.Browser) (file : File) :
  exists creator producer missing,
    snd (Uploader.pdfHeuristic B file) =
    pdfScoreOf (size file <? 10000)%Z
               (negb (jsstring_eqb (header file) (str "%PDF-")))
               (negb (jsstring_eqb (type file) pdfType))
               (testSuspiciousName (Uploader.toLowerCase B (name file)))
               creator producer missing.
Proof.
  unfold Uploader.pdfHeuristic, Uploader.contentChecks, Uploader.fileChecks.
  destruct (jsstring_eqb (header file) (str "%PDF-")).
  - destruct (content file) as [pdfContent|].
    + destruct (Uploader.extractField _ _ pdfContent _) as [m completed].
      destruct completed.
      * do 3 eexists. reflexivity.
      * exists false, false, false. reflexivity.
    + exists false, false, false. reflexivity.
  - exists false, false, false. reflexivity.
Qed.

Lemma pdfScoreOf_clamped (b1 b2 b3 b4 b5 b6 b7 t1 t2 : bool) :
  inUnitRange (Uploader.clampScore (pdfScoreOf b1 b2 b3 b4 b5 b6 b7))
  /\ inUnitRange
       (Uploader.clampScore
          (penalise t2 0.2
             (penalise t1 0.2
                (Uploader.clampScore (pdfScoreOf b1 b2 b3 b4 b5 b6 b7))))).
Proof.
  destruct b1, b2, b3, b4, b5, b6, b7, t1, t2; vm_compute; repeat split; reflexivity.
Qed.

Lemma applyTextPatterns_unrolled (t : jsstring) (a : list jsstring) (s : float) :
  Uploader.applyTextPatterns t (a, s) =
  (a ++ matchingDescriptions t,
   penalise (testDisclaimer t) 0.2 (penalise (testTerms t) 0.2 s)).
Proof.
  unfold Uploader.applyTextPatterns, matchingDescriptions, suspiciousPatterns.
  simpl. destruct (testTerms t), (testDisclaimer t); simpl;
    rewrite <- ?app_assoc, ?app_nil_r; reflexivity.
Qed.

Lemma textAnomalies_unrolled (t : jsstring) :
  Uploader.textAnomalies t = matchingDescriptions t.
Proof.
  unfold Uploader.textAnomalies, matchingDescriptions, suspiciousPatterns.
  simpl. destruct (testTerms t), (testDisclaimer t); reflexivity.
Qed.

Lemma extractPdfMetadata_returns (B : Uploader.Browser) (file : File) :
  Uploader.headerLoads B file = true ->
  Uploader.extractPdfMetadata B file =
  ([], Returns
         {| Uploader.pdfMetadata := fst (fst (Uploader.pdfHeuristic B file));
            Uploader.anomalies := snd (fst (Uploader.pdfHeuristic B file));
            Uploader.confidenceScore :=
              Uploader.clampScore (snd (Uploader.pdfHeuristic B file)) |}).
Proof.
  intros Hloads.
  unfold Uploader.extractPdfMetadata, Uploader.readFileHeader. rewrite Hloads.
  destruct (Uploader.pdfHeuristic B file) as [[m a] s]. reflexivity.
Qed.

Lemma extractPdfMetadata_hangs (B : Uploader.Browser) (file : File) :
  Uploader.headerLoads B file = false ->
  Uploader.extractPdfMetadata B file = ([], Hangs).
Proof.
  intros Hloads.
  unfold Uploader.extractPdfMetadata, Uploader.readFileHeader. rewrite Hloads.
  reflexivity.
Qed.

Lemma documentHeuristic_clamped (B : Uploader.Browser) (file : File) :
  inUnitRange (Uploader.clampScore (Uploader.score (Uploader.documentHeuristic B file))).
Proof.
  unfold Uploader.documentHeuristic. simpl.
  destruct (Uploader.hasTypeMismatch B file), (testSuspiciousName (name file)),
    (size file <? 10000)%Z; vm_compute; split; reflexivity.
Qed.

Lemma pdfFindings_clamped (B : Uploader.Browser) (file : File)
      (t : jsstring) (c : float) (a : Uploader.PdfAnalysis) :
  result (Uploader.extractPdfMetadata B file) = Returns a ->
  inUnitRange (Uploader.clampScore (Uploader.score (Uploader.pdfFindings B a t c))).
Proof.
  destruct (Uploader.headerLoads B file) eqn:Hloads;
    [|rewrite (extractPdfMetadata_hangs B file Hloads); discriminate].
  rewrite (extractPdfMetadata_returns B file Hloads). simpl.
  intros H. injection H as <-.
  destruct (pdfHeuristic_score_shape B file) as (cr & pr & mi & Hs).
  unfold Uploader.pdfFindings. simpl. rewrite Hs.
  destruct t as [|ch t].
  - simpl. apply (pdfScoreOf_clamped _ _ _ _ _ _ _ false false).
  - rewrite applyTextPatterns_unrolled. simpl.
    apply pdfScoreOf_clamped.
Qed.

Lemma localVerdict_confidence (found : Uploader.Findings)
      (t : jsstring) (c : float) :
  Uploader.site (Uploader.localVerdict found t c) = Uploader.DocumentHeuristic
  /\ obj_get (str "confidenceScore")
             (Uploader.verificationDetails (Uploader.localVerdict found t c))
     = Some (JNum (Uploader.clampScore (Uploader.score found))).
Proof. split; reflexivity. Qed.

Lemma documentType_cases (t : jsstring) :
  Uploader.isDocumentType t = true ->
  t = pdfType \/ t = mswordType \/ t = docxType.
Proof.
  unfold Uploader.isDocumentType. intros H.
  apply orb_true_iff in H as [H|H]; [apply orb_true_iff in H as [H|H]|];
    apply jsstring_eqb_eq in H; auto.
Qed.

Lemma documentType_not_image (t : jsstring) :
  Uploader.isDocumentType t = true -> startsWith t (str "image/") = false.
Proof.
  intros H. destruct (documentType_cases t H) as [->|[->| ->]]; reflexivity.
Qed.

(** The uploader's [analyzeWithGemini] settles for a file that is not an
    image as soon as [fetch] does. *)
Lemma analyzeWithGemini_settles (B : Uploader.Browser) (file : File)
      (md : object jsstring) :
  startsWith (type file) (str "image/") = false ->
  (forall form, result (Uploader.fetch B form) <> Hangs) ->
  result (Uploader.analyzeWithGemini B file md) <> Hangs.
Proof.
  intros Himg Hfetch. unfold Uploader.analyzeWithGemini.
  rewrite Himg, andb_false_r. cbn [bind ret emit app].
  match goal with
  | |- context [Uploader.fetch B ?form] =>
      specialize (Hfetch form);
      destruct (Uploader.fetch B form) as [l [response|msg|]]
  end; simpl in *; try discriminate; [|now elim Hfetch].
  destruct (ok response); simpl; [|discriminate].
  destruct (bodyJson response) as [e|data]; simpl; [discriminate|].
  destruct (error data) as [[|]|]; simpl; try discriminate;
    destruct (verification data); simpl;
    try destruct (jsstring_eqb (status data) (str "success")); discriminate.
Qed.

(** C8.  Every confidence score the uploader computes itself is clamped
    into [0.1, 1] before it is reported.  The PDF metadata analysis, once
    the header of the file is read, resolves with the score
    [Math.max(0.1, Math.min(1, score))] of the score it has computed, in
    that interval.  For every PDF or Word document whose processing
    resolves, the entry carries either the hosted model's verdict (for a
    PDF) or the uploader's own, and the confidence score of the
    uploader's own verdict is [Math.max(0.1, Math.min(1, score))] of the
    score of the findings on this file (for a PDF the metadata analysis
    with the text patterns applied, for a Word document the size, name and
    extension checks), in that interval.  The processing resolves as soon
    as the header of a PDF is read and the request to the route settles;
    a Word document is judged at once. *)
Theorem local_confidence_is_clamped (B : Uploader.Browser) (file : File) :
  let found :=
    if jsstring_eqb (type file) pdfType
    then pdfFound B file
    else Uploader.documentHeuristic B file in
  (Uploader.headerLoads B file = true ->
   exists a,
     Uploader.extractPdfMetadata B file = ([], Returns a)
     /\ Uploader.confidenceScore a
        = Math_max 0.1 (Math_min 1 (snd (Uploader.pdfHeuristic B file)))
     /\ inUnitRange (Uploader.confidenceScore a))
  /\ (Uploader.isDocumentType (type file) = true ->
      (forall u,
          result (Uploader.processFile B file) = Returns u ->
          Uploader.site u = Uploader.PdfVerified
          \/ (Uploader.site u = Uploader.DocumentHeuristic
              /\ obj_get (str "confidenceScore") (Uploader.verificationDetails u)
                 = Some (JNum (Math_max 0.1 (Math_min 1 (Uploader.score found))))
              /\ inUnitRange (Math_max 0.1 (Math_min 1 (Uploader.score found)))))
      /\ ((type file = pdfType -> Uploader.headerLoads B file = true) ->
          (forall form, result (Uploader.fetch B form) <> Hangs) ->
          exists u, result (Uploader.processFile B file) = Returns u)
      /\ (type file <> pdfType ->
          exists u,
            Uploader.processFile B file = ([], Returns u)
            /\ Uploader.site u = Uploader.DocumentHeuristic)).
Proof.
  intros found. split.
  - intros Hloads. rewrite (extractPdfMetadata_returns B file Hloads).
    eexists. split; [reflexivity|]. simpl.
    split; [reflexivity|].
    destruct (pdfHeuristic_score_shape B file) as (cr & pr & mi & Hs).
    rewrite Hs. apply (pdfScoreOf_clamped _ _ _ _ _ _ _ false false).
  - intros Hdoc.
    pose proof (documentType_not_image _ Hdoc) as Himg.
    unfold Uploader.processFile.
    rewrite Himg, Hdoc.
    unfold Uploader.verifyDocument. subst found.
    destruct (jsstring_eqb (type file) pdfType) eqn:Epdf.
    + unfold Uploader.extractTextFromImage, Uploader.extractTextFromImage_try.
      rewrite Epdf. simpl.
      unfold Uploader.pdfStage.
      apply jsstring_eqb_eq in Epdf.
      destruct (Uploader.headerLoads B file) eqn:Hloads.
      * pose proof (pdfFindings_clamped B file
                      (Uploader.text Uploader.pdfPlaceholder)
                      (Uploader.confidence Uploader.pdfPlaceholder)) as Hrange.
        rewrite (extractPdfMetadata_returns B file Hloads) in *. simpl in *.
        specialize (Hrange _ eq_refl).
        match goal with
        | |- context [Uploader.analyzeWithGemini B file ?md] =>
            pose proof (analyzeWithGemini_settles B file md Himg) as Hsettles;
            destruct (Uploader.analyzeWithGemini B file md) as [l [g|msg|]]
        end; simpl in *.
        -- split; [|split; [intros _ _; eexists; reflexivity|congruence]].
           intros u H. injection H as <-. left. reflexivity.
        -- split; [|split; [intros _ _; eexists; reflexivity|congruence]].
           intros u H. injection H as <-.
           right. split; [reflexivity|]. split; [reflexivity|]. exact Hrange.
        -- split; [discriminate|]. split; [|congruence].
           intros _ Hfetch. now elim (Hsettles Hfetch).
      * rewrite (extractPdfMetadata_hangs B file Hloads). simpl.
        split; [discriminate|]. split; [|congruence].
        intros H. specialize (H Epdf). discriminate H.
    + simpl. split; [|split; [intros _ _; eexists; reflexivity|]].
      * intros u H. injection H as <-.
        right. split; [reflexivity|]. split; [reflexivity|].
        apply documentHeuristic_clamped.
      * intros _. eexists. split; reflexivity.
Qed.

(* ================================================================== *)
(** * Start values and penalties *)
(* ================================================================== *)

(** Two binary64 values that compare unequal are different, unless both are
    NaN. *)
Lemma float_neq (x y : float) :
  PrimFloat.eqb x y = false -> PrimFloat.eqb y y = true -> x <> y.
Proof. intros H Hy E. subst y. congruence. Qed.

Lemma explainedBy_one (start : float) (allowed : list float)
      (anomaly : jsstring) (score : float) :
  explainedBy start allowed [anomaly] score ->
  exists p, In p allowed /\ score = (start - p)%float.
Proof.
  intros (ps & Hlen & Hall & Hs).
  destruct ps as [|p [|q ps]]; try discriminate.
  exists p. split; [now inversion Hall|exact Hs].
Qed.

(** C3, as stated, fails.  A Word document of 20000 bytes named
    [report.doc] with the MIME type of [.docx] triggers one flag, the
    extension mismatch, and its score is 0.5: neither 0.9 - 0.2 nor
    0.9 - 0.3.  A text file of 20000 bytes renamed to [.pdf] triggers one
    flag, the invalid header, and the score of its metadata analysis is
    0.95 - 0.5. *)
Lemma scores_are_not_09_minus_02_or_03 :
  (Uploader.foundAnomalies (Uploader.documentHeuristic Samples.browser Samples.wordFile)
   = [str "File extension doesn't match the actual file type"]
   /\ Uploader.score (Uploader.documentHeuristic Samples.browser Samples.wordFile)
      = 0.5%float
   /\ ~ explainedBy 0.9 [0.2; 0.3]%float
          (Uploader.foundAnomalies
             (Uploader.documentHeuristic Samples.browser Samples.wordFile))
          (Uploader.score
             (Uploader.documentHeuristic Samples.browser Samples.wordFile)))
  /\ (snd (fst (Uploader.pdfHeuristic Samples.browser Samples.renamedPdf))
      = [str "File does not have a valid PDF header"]
      /\ snd (Uploader.pdfHeuristic Samples.browser Samples.renamedPdf)
         = (0.95 - 0.5)%float
      /\ ~ explainedBy 0.9 [0.2; 0.3]%float
             (snd (fst (Uploader.pdfHeuristic Samples.browser Samples.renamedPdf)))
             (snd (Uploader.pdfHeuristic Samples.browser Samples.renamedPdf))).
Proof.
  split.
  - split; [reflexivity|]. split; [reflexivity|].
    change (Uploader.foundAnomalies
              (Uploader.documentHeuristic Samples.browser Samples.wordFile))
      with [str "File extension doesn't match the actual file type"].
    change (Uploader.score (Uploader.documentHeuristic Samples.browser Samples.wordFile))
      with 0.5%float.
    intros H. apply explainedBy_one in H as (p & Hp & Hs).
    simpl in Hp. destruct Hp as [<-|[<-|[]]]; revert Hs;
      apply float_neq; reflexivity.
  - assert (Ha : snd (fst (Uploader.pdfHeuristic Samples.browser Samples.renamedPdf))
                 = [str "File does not have a valid PDF header"])
      by (vm_compute; reflexivity).
    assert (Hs : snd (Uploader.pdfHeuristic Samples.browser Samples.renamedPdf)
                 = (0.95 - 0.5)%float)
      by (vm_compute; reflexivity).
    split; [exact Ha|]. split; [exact Hs|].
    rewrite Ha, Hs.
    intros H. apply explainedBy_one in H as (p & Hp & Hs').
    simpl in Hp. destruct Hp as [<-|[<-|[]]]; revert Hs';
      apply float_neq; reflexivity.
Qed.

(** C3, amended.  A Word document starts at 0.9 and loses 0.3 for a small
    size, 0.2 for a suspicious name and 0.4 for an extension mismatch; the
    PDF metadata analysis starts at 0.95 and loses 0.2, 0.5, 0.3 or 0.2 per
    flag on the file and 0.3, 0.3 or 0.2 per flag on its content; the PDF
    branch then takes 0.2 off the analysis' score per matching text
    pattern.  In each of the three, one penalty is subtracted per anomaly
    recorded. *)
Theorem scores_start_and_penalties (B : Uploader.Browser) (file : File) :
  (Uploader.score (Uploader.documentHeuristic B file)
   = penalise (Uploader.hasTypeMismatch B file) 0.4
       (penalise (testSuspiciousName (name file)) 0.2
          (penalise (size file <? 10000)%Z 0.3 0.9%float))
   /\ explainedBy 0.9 [0.3; 0.2; 0.4]%float
        (Uploader.foundAnomalies (Uploader.documentHeuristic B file))
        (Uploader.score (Uploader.documentHeuristic B file)))
  /\ (snd (Uploader.fileChecks B file)
      = penalise (testSuspiciousName (Uploader.toLowerCase B (name file))) 0.2
          (penalise (negb (jsstring_eqb (type file) pdfType)) 0.3
             (penalise (negb (jsstring_eqb (header file) (str "%PDF-"))) 0.5
                (penalise (size file <? 10000)%Z 0.2 0.95%float)))
      /\ explainedBy 0.95 [0.2; 0.5; 0.3]%float
           (snd (fst (Uploader.pdfHeuristic B file)))
           (snd (Uploader.pdfHeuristic B file)))
  /\ (forall (a : Uploader.PdfAnalysis) (t : jsstring) (c : float),
        exists added,
          Uploader.foundAnomalies (Uploader.pdfFindings B a t c)
          = Uploader.anomalies a ++ added
          /\ explainedBy (Uploader.confidenceScore a) [0.2]%float added
               (Uploader.score (Uploader.pdfFindings B a t c))).
Proof.
  split; [split; [reflexivity|]|split; [split; [reflexivity|]|]].
  - unfold Uploader.documentHeuristic. simpl.
    exists (ifFlag (size file <? 10000)%Z 0.3 ++ ifFlag (testSuspiciousName (name file)) 0.2
            ++ ifFlag (Uploader.hasTypeMismatch B file) 0.4)%float.
    destruct (Uploader.hasTypeMismatch B file), (testSuspiciousName (name file)),
      (size file <? 10000)%Z; simpl;
      (split; [reflexivity|]); (split; [|reflexivity]);
      repeat (apply Forall_cons || apply Forall_nil); simpl; auto 10.
  - unfold Uploader.pdfHeuristic, Uploader.contentChecks, Uploader.fileChecks.
    set (small := (size file <? 10000)%Z).
    set (hdr := jsstring_eqb (header file) (str "%PDF-")).
    set (typ := jsstring_eqb (type file) pdfType).
    set (nam := testSuspiciousName (Uploader.toLowerCase B (name file))).
    assert (Hbase :
      forall cr pr mi,
        explainedBy 0.95 [0.2; 0.5; 0.3]%float
          (pushIf mi (str "Document is missing most standard metadata fields")
             (pushIf pr (str "Document producer suggests AI generation")
                (pushIf cr (str "Document creator suggests AI generation")
                   (pushIf nam (str "Document has a potentially suspicious filename")
                      (pushIf (negb typ) (str "File does not have the correct PDF MIME type")
                         (pushIf (negb hdr) (str "File does not have a valid PDF header")
                            (pushIf small (str "Unusually small file size for a PDF") [])))))))
          (penalise mi 0.2
             (penalise pr 0.3
                (penalise cr 0.3
                   (penalise nam 0.2
                      (penalise (negb typ) 0.3
                         (penalise (negb hdr) 0.5
                            (penalise small 0.2 0.95%float)))))))).
    { intros cr pr mi.
      exists (ifFlag small 0.2 ++ ifFlag (negb hdr) 0.5 ++ ifFlag (negb typ) 0.3
              ++ ifFlag nam 0.2 ++ ifFlag cr 0.3 ++ ifFlag pr 0.3 ++ ifFlag mi 0.2)%float.
      destruct small, hdr, typ, nam, cr, pr, mi; simpl;
        (split; [reflexivity|]); (split; [|reflexivity]);
        repeat (apply Forall_cons || apply Forall_nil); simpl; auto 10. }
    destruct hdr eqn:Ehdr.
    + destruct (content file) as [pdfContent|].
      * destruct (Uploader.extractField _ _ pdfContent _) as [m completed].
        destruct completed; simpl.
        -- apply Hbase.
        -- apply (Hbase false false false).
      * apply (Hbase false false false).
    + apply (Hbase false false false).
  - intros a t c. unfold Uploader.pdfFindings.
    destruct t as [|ch t].
    + exists []. simpl. rewrite app_nil_r. split; [reflexivity|].
      exists []. repeat split. constructor.
    + rewrite applyTextPatterns_unrolled. simpl.
      exists (matchingDescriptions (ch :: t)). split; [reflexivity|].
      unfold matchingDescriptions.
      exists (ifFlag (testTerms (ch :: t)) 0.2 ++ ifFlag (testDisclaimer (ch :: t)) 0.2)%float.
      destruct (testTerms (ch :: t)), (testDisclaimer (ch :: t)); simpl;
        (split; [reflexivity|]); (split; [|reflexivity]);
        repeat (apply Forall_cons || apply Forall_nil); simpl; auto 10.
Qed.

(* ================================================================== *)
(** * Objects *)
(* ================================================================== *)

Lemma obj_get_set_same {V : Type} (k : jsstring) (v : V) (o : object V) :
  obj_get k (obj_set k v o) = Some v.
Proof.
  induction o as [|[k' v'] o IH]; simpl.
  - now rewrite jsstring_eqb_refl.
  - destruct (jsstring_eqb k k') eqn:E; simpl; rewrite ?jsstring_eqb_refl, ?E; auto.
Qed.

Lemma obj_get_set_other {V : Type} (k k' : jsstring) (v : V) (o : object V) :
  jsstring_eqb k k' = false ->
  obj_get k (obj_set k' v o) = obj_get k o.
Proof.
  intros Hne. induction o as [|[k'' v''] o IH]; simpl.
  - now rewrite Hne.
  - destruct (jsstring_eqb k' k'') eqn:E; simpl.
    + apply jsstring_eqb_eq in E. subst k''. now rewrite Hne.
    + destruct (jsstring_eqb k k''); auto.
Qed.

Lemma extractTextFromImage_returns (B : Uploader.Browser) (file : File) :
  exists l r, Uploader.extractTextFromImage B file = (l, Returns r).
Proof.
  destruct (extractTextFromImage_never_rejects B file) as (r & Hr & _).
  destruct (Uploader.extractTextFromImage B file) as [l o]. simpl in Hr. subst o.
  now exists l, r.
Qed.

(* ================================================================== *)
(** * The metadata pattern check *)
(* ================================================================== *)

(** C6, as stated, fails: the sample PDF names "AI Writer" as its creator,
    and the field is extracted; its producer "100% Pure PDF" makes
    [decodeURIComponent] throw, the [catch] of the content checks takes
    over, and neither the anomaly nor the penalty of 0.3 is recorded: the
    only anomaly is the small size, and the score is 0.95 - 0.2. *)
Lemma creator_check_skipped_when_producer_fails_to_decode :
  exists a,
    result (Uploader.extractPdfMetadata Samples.browser Samples.producerPdf) = Returns a
    /\ obj_get (str "Creator") (Uploader.pdfMetadata a) = Some (str "AI Writer")
    /\ existsb (includes (str "AI Writer")) Uploader.suspiciousCreators = true
    /\ ~ In (str "Document creator suggests AI generation") (Uploader.anomalies a)
    /\ Uploader.anomalies a = [str "Unusually small file size for a PDF"]
    /\ Uploader.confidenceScore a = (0.95 - 0.2)%float.
Proof.
  eexists. split; [reflexivity|]. simpl.
  split; [reflexivity|]. split; [reflexivity|]. split; [|split; reflexivity].
  vm_compute. intros [H|[]]. discriminate H.
Qed.

Lemma limitedExtraction_status (m : object jsstring) :
  obj_get (str "Status") (Uploader.limitedExtraction m) <> None.
Proof.
  unfold Uploader.limitedExtraction. rewrite obj_get_set_same. discriminate.
Qed.

Lemma in_pushIf {A : Type} (c : bool) (x y : A) (l : list A) :
  In y l -> In y (pushIf c x l).
Proof.
  unfold pushIf. destruct c; [|auto]. intros H. apply in_or_app. now left.
Qed.

Lemma in_pushIf_true {A : Type} (x : A) (l : list A) : In x (pushIf true x l).
Proof. unfold pushIf. apply in_or_app. right. simpl. auto. Qed.

(** C6, amended.  Whenever the PDF metadata analysis ends without the mark
    [Status] on its metadata (the content was read and every field
    decoded; the analysis resolves once the header of the file is read), a
    Creator field that contains one of the six terms records
    "Document creator suggests AI generation", a Producer field that does
    records "Document producer suggests AI generation", and on a file with
    a valid header each of the two takes 0.3 off the score of the file
    checks (and missing metadata 0.2) before the clamp. *)
Theorem suspicious_creator_and_producer_are_flagged
        (B : Uploader.Browser) (file : File)
        (m : object jsstring) (a : list jsstring) (s : float) :
  Uploader.pdfHeuristic B file = (m, a, s) ->
  obj_get (str "Status") m = None ->
  (Uploader.headerLoads B file = true ->
   result (Uploader.extractPdfMetadata B file)
   = Returns {| Uploader.pdfMetadata := m;
                Uploader.anomalies := a;
                Uploader.confidenceScore := Uploader.clampScore s |})
  /\ (Uploader.suggestsAi (str "Creator") Uploader.suspiciousCreators m = true ->
      In (str "Document creator suggests AI generation") a)
  /\ (Uploader.suggestsAi (str "Producer") Uploader.suspiciousProducers m = true ->
      In (str "Document producer suggests AI generation") a)
  /\ (header file = str "%PDF-" ->
      s = penalise (3 <=? Uploader.missingMetadataCount m) 0.2
            (penalise (Uploader.suggestsAi (str "Producer") Uploader.suspiciousProducers m) 0.3
               (penalise (Uploader.suggestsAi (str "Creator") Uploader.suspiciousCreators m) 0.3
                  (snd (Uploader.fileChecks B file))))).
Proof.
  intros Hh Hstatus. split.
  { intros Hloads. rewrite (extractPdfMetadata_returns B file Hloads), Hh.
    reflexivity. }
  revert Hh. unfold Uploader.pdfHeuristic, Uploader.contentChecks.
  destruct (Uploader.fileChecks B file) as [[m0 a0] s0] eqn:Hchecks.
  destruct (jsstring_eqb (header file) (str "%PDF-")) eqn:Ehdr.
  - destruct (content file) as [pdfContent|].
    + destruct (Uploader.extractField _ _ pdfContent _) as [m' completed].
      destruct completed; intros H; injection H as <- <- <-.
      * repeat split.
        -- intros ->. apply in_pushIf, in_pushIf, in_pushIf_true.
        -- intros ->. apply in_pushIf, in_pushIf_true.
      * exfalso. now apply (limitedExtraction_status m').
    + intros H; injection H as <- <- <-.
      exfalso. now apply (limitedExtraction_status m0).
  - intros H; injection H as <- <- <-.
    unfold Uploader.fileChecks in Hchecks. injection Hchecks as <- <- <-.
    apply jsstring_eqb_neq in Ehdr.
    repeat split; try discriminate. intros Hd. now elim Ehdr.
Qed.

(** The sample PDF whose producer decodes: both anomalies are recorded and
    the raw score is 0.95 - 0.2 - 0.3 - 0.3. *)
Lemma suspicious_creator_and_producer_are_flagged_witness :
  In (str "Document creator suggests AI generation")
     (snd (fst (Uploader.pdfHeuristic Samples.browser Samples.aiPdf)))
  /\ In (str "Document producer suggests AI generation")
        (snd (fst (Uploader.pdfHeuristic Samples.browser Samples.aiPdf)))
  /\ snd (Uploader.pdfHeuristic Samples.browser Samples.aiPdf)
     = (0.95 - 0.2 - 0.3 - 0.3)%float.
Proof.
  destruct (Uploader.pdfHeuristic Samples.browser Samples.aiPdf) as [[m a] s] eqn:E.
  destruct (suspicious_creator_and_producer_are_flagged
              Samples.browser Samples.aiPdf m a s E) as (_ & Hc & Hp & Hs).
  - vm_compute in E. injection E as <- _ _. reflexivity.
  - vm_compute in E. injection E as Em Ea Es. subst m. simpl.
    split; [apply Hc; reflexivity|]. split; [apply Hp; reflexivity|].
    rewrite Hs by reflexivity. reflexivity.
Defined.

(* ================================================================== *)
(** * The admin routes *)
(* ================================================================== *)

Lemma isAdmin_run (F : AdminRoutes.Firebase) (userId : jsstring) :
  AdminRoutes.isAdmin F userId
  = ([AdminRoutes.ReadUserDocument userId], Returns (recordedAdmin F userId)).
Proof.
  unfold AdminRoutes.isAdmin, recordedAdmin.
  destruct (AdminRoutes.userDocument F userId) as [e|[data|]]; reflexivity.
Qed.

Lemma authorize_rejects_header (F : AdminRoutes.Firebase) (request : AdminRoutes.Request) :
  headerAccepted request = false ->
  AdminRoutes.authorize F request = ([], Returns (inl unauthorized)).
Proof.
  unfold headerAccepted, AdminRoutes.authorize.
  destruct (AdminRoutes.authorization request) as [[|c h]|]; try reflexivity.
  intros ->. reflexivity.
Qed.

Lemma authorize_checks_token (F : AdminRoutes.Firebase) (request : AdminRoutes.Request) :
  headerAccepted request = true ->
  AdminRoutes.authorize F request
  = match AdminRoutes.verifyIdToken F (bearerToken request) with
    | inl e => ([AdminRoutes.VerifyIdToken (bearerToken request)], Throws e)
    | inr userId =>
        ([AdminRoutes.VerifyIdToken (bearerToken request);
          AdminRoutes.ReadUserDocument userId],
         Returns (if recordedAdmin F userId then inr userId else inl forbidden))
    end.
Proof.
  unfold headerAccepted, bearerToken, AdminRoutes.authorize.
  destruct (AdminRoutes.authorization request) as [[|c h]|]; try discriminate.
  intros ->. simpl orElse.
  destruct (AdminRoutes.verifyIdToken F _) as [e|userId]; [reflexivity|].
  simpl. rewrite isAdmin_run. simpl.
  destruct (recordedAdmin F userId); reflexivity.
Qed.


(* ================================================================== *)
(** * The match of the reply *)
(* ================================================================== *)








(* ================================================================== *)
(** * The route's analysis *)
(* ================================================================== *)

(** The call of the model and the reading of its reply, case by case. *)
Lemma sendPrompt_run (S : GeminiRoute.Server) (p : jsstring) :
  GeminiRoute.sendPrompt S p
  = match GeminiRoute.generateContent S p with
    | GeminiRoute.GenerateRejects message =>
        ([BuildPrompt p; Generate p],
         Throws (str "Gemini API call failed: "
                 ++ orElse message (str "Unknown error")))
    | GeminiRoute.GenerateTimesOut =>
        ([BuildPrompt p; Generate p],
         Throws (str "Gemini API call failed: API call timed out after 30 seconds"))
    | GeminiRoute.Generated None =>
        ([BuildPrompt p; Generate p],
         Throws (str "Failed to get response text from Gemini API"))
    | GeminiRoute.Generated (Some text) =>
        ([BuildPrompt p; Generate p; MatchReply text],
         match matchBraces text with
         | None => Throws (str "Failed to parse Gemini API response")
         | Some jsonMatch =>
             match GeminiRoute.parseObject S jsonMatch with
             | Some analysisResult => Returns analysisResult
             | None => Throws (str "Failed to parse Gemini API JSON response")
             end
         end)
    end.
Proof.
  unfold GeminiRoute.sendPrompt. simpl.
  destruct (GeminiRoute.generateContent S p) as [message| |[text|]]; try reflexivity.
  simpl. destruct (matchBraces text) as [m|]; [|reflexivity].
  destruct (GeminiRoute.parseObject S m); reflexivity.
Qed.

(** The run of the [try] block of the route's [analyzeWithGemini], case by
    case. *)
Lemma analyzeWithGemini_try_run (S : GeminiRoute.Server)
      (imageType extractedText : jsstring) (imageFeatures : list float)
      (documentMetadata : object jsstring) :
  GeminiRoute.analyzeWithGemini_try S imageType extractedText imageFeatures
    documentMetadata
  = let p := GeminiRoute.createOptimizedPrompt S imageType extractedText
               imageFeatures documentMetadata in
    if negb (GeminiRoute.genAI S)
    then ([], Throws (str "Gemini API not initialized"))
    else if negb (GeminiRoute.modelCreated S)
    then ([], Throws (str "Failed to create Gemini model instance"))
    else
      match GeminiRoute.generateContent S p with
      | GeminiRoute.GenerateRejects message =>
          ([BuildPrompt p; Generate p],
           Throws (str "Gemini API call failed: "
                   ++ orElse message (str "Unknown error")))
      | GeminiRoute.GenerateTimesOut =>
          ([BuildPrompt p; Generate p],
           Throws (str "Gemini API call failed: API call timed out after 30 seconds"))
      | GeminiRoute.Generated None =>
          ([BuildPrompt p; Generate p],
           Throws (str "Failed to get response text from Gemini API"))
      | GeminiRoute.Generated (Some text) =>
          ([BuildPrompt p; Generate p; MatchReply text],
           match matchBraces text with
           | None => Throws (str "Failed to parse Gemini API response")
           | Some jsonMatch =>
               match GeminiRoute.parseObject S jsonMatch with
               | Some analysisResult => Returns analysisResult
               | None => Throws (str "Failed to parse Gemini API JSON response")
               end
           end)
      end.
Proof.
  unfold GeminiRoute.analyzeWithGemini_try.
  generalize (GeminiRoute.createOptimizedPrompt S imageType extractedText
                imageFeatures documentMetadata). intros p. cbv zeta.
  destruct (GeminiRoute.genAI S); [|reflexivity].
  destruct (GeminiRoute.modelCreated S); [|reflexivity].
  rewrite sendPrompt_run. simpl.
  destruct (GeminiRoute.generateContent S p) as [message| |[text|]]; reflexivity.
Qed.



(* ================================================================== *)
(** * The route's handler *)
(* ================================================================== *)

Lemma fallbackAnalysis_is_mock (message : jsstring) (status : json) :
  isMockVerification
    (obj_set (str "moderationStatus") status (GeminiRoute.fallbackAnalysis message)).
Proof.
  unfold isMockVerification. rewrite obj_get_set_other by reflexivity.
  eexists. reflexivity.
Qed.

Lemma provideMockResponse_shape (st : GeminiRoute.State) (req : GeminiRoute.Request)
      (callCount : Z) (reason : jsstring) (md : object jsstring) :
  let r := GeminiRoute.provideMockResponse st req callCount reason md in
  GeminiRoute.httpCode r = 200
  /\ status (GeminiRoute.body r) = str "success"
  /\ mockImplementation (GeminiRoute.body r) = Some true
  /\ mockReason (GeminiRoute.body r) = Some reason
  /\ rateLimit (GeminiRoute.body r)
     = Some {| callsInLastMinute := callCount;
               resetInMs :=
                 GeminiRoute.RATE_LIMIT_RESET_INTERVAL
                 - (GeminiRoute.nowAtMock req - GeminiRoute.lastResetTime st) |}
  /\ exists v, verification (GeminiRoute.body r) = Some v /\ isMockVerification v.
Proof.
  unfold GeminiRoute.provideMockResponse. cbv zeta. simpl.
  repeat (split; [reflexivity|]).
  eexists. split; [reflexivity|].
  unfold isMockVerification.
  match goal with
  | |- context [if ?c then _ else _] => destruct c
  end; eexists; reflexivity.
Qed.

(** How the route's [analyzeWithGemini] ends: with the fallback object when
    the client library is missing, the model cannot be created or the
    reply is unusable; with the parsed reply otherwise. *)
Lemma analyzeWithGemini_outcome (S : GeminiRoute.Server)
      (imageType extractedText : jsstring) (imageFeatures : list float)
      (documentMetadata : object jsstring) :
  let p := GeminiRoute.createOptimizedPrompt S imageType extractedText
             imageFeatures documentMetadata in
  exists l v,
    GeminiRoute.analyzeWithGemini S imageType extractedText imageFeatures
      documentMetadata = (l, Returns v)
    /\ (((exists message, v = GeminiRoute.fallbackAnalysis message)
         /\ (GeminiRoute.genAI S = false \/ GeminiRoute.modelCreated S = false
             \/ replyUnusable S p))
        \/ (GeminiRoute.genAI S = true /\ GeminiRoute.modelCreated S = true
            /\ exists text m,
                GeminiRoute.generateContent S p = GeminiRoute.Generated (Some text)
                /\ l = [BuildPrompt p; Generate p; MatchReply text]
                /\ matchBraces text = Some m
                /\ GeminiRoute.parseObject S m = Some v)).
Proof.
  intros p. unfold GeminiRoute.analyzeWithGemini.
  rewrite analyzeWithGemini_try_run. fold p. cbv zeta.
  unfold replyUnusable.
  destruct (GeminiRoute.genAI S); simpl;
    [|do 2 eexists; split; [reflexivity|left; split; eauto]].
  destruct (GeminiRoute.modelCreated S); simpl;
    [|do 2 eexists; split; [reflexivity|left; split; eauto]].
  destruct (GeminiRoute.generateContent S p) as [message| |[text|]]; simpl;
    try (do 2 eexists; split; [reflexivity|left; split; eauto]).
  destruct (matchBraces text) as [m|] eqn:Hm; simpl;
    [|do 2 eexists; split; [reflexivity|left; split; eauto]].
  destruct (GeminiRoute.parseObject S m) as [v|] eqn:Hv; simpl;
    [|do 2 eexists; split; [reflexivity|left; split; eauto]].
  do 2 eexists. split; [reflexivity|]. right. repeat split.
  exists text, m. repeat split; auto.
Qed.

(** The response of the handler's [catch] is a mock response that carries
    the counter and the reset time as the [catch] reads them. *)
Lemma caughtResponse_shape (st : GeminiRoute.State) (drawn : nat)
      (req : GeminiRoute.Request) (message : jsstring) :
  let r := caughtResponse st drawn req message in
  GeminiRoute.httpCode r = 200
  /\ status (GeminiRoute.body r) = str "success"
  /\ mockImplementation (GeminiRoute.body r) = Some true
  /\ mockReason (GeminiRoute.body r) = Some (orElse (Some message) (str "Unknown error"))
  /\ rateLimit (GeminiRoute.body r)
     = Some {| callsInLastMinute := GeminiRoute.apiCallsInLastMinute st;
               resetInMs :=
                 60000 - (GeminiRoute.nowAtMock req - GeminiRoute.lastResetTime st) |}
  /\ exists v, verification (GeminiRoute.body r) = Some v /\ isMockVerification v.
Proof.
  apply (provideMockResponse_shape st (GeminiRoute.laterDraws drawn req)).
Qed.

(** The mock response at the rate limit.  Its reason is the one given
    unless the metadata parsed is [null] and the first random number does
    not flag the document: then building the response throws, and the
    reason is the message of the TypeError. *)
Lemma mockOr_shape (S : GeminiRoute.Server) (st : GeminiRoute.State)
      (req : GeminiRoute.Request) (reason : jsstring) (metadata : json) :
  let r := mockOr S st req reason metadata in
  let flags :=
    if includes reason (str "timeout")
    then PrimFloat.ltb (GeminiRoute.random req 0) 0.05
    else PrimFloat.ltb (GeminiRoute.random req 0) 0.2 in
  GeminiRoute.httpCode r = 200
  /\ status (GeminiRoute.body r) = str "success"
  /\ mockImplementation (GeminiRoute.body r) = Some true
  /\ rateLimit (GeminiRoute.body r)
     = Some {| callsInLastMinute := GeminiRoute.apiCallsInLastMinute st;
               resetInMs :=
                 60000 - (GeminiRoute.nowAtMock req - GeminiRoute.lastResetTime st) |}
  /\ (exists v, verification (GeminiRoute.body r) = Some v /\ isMockVerification v)
  /\ (metadata <> JNull \/ flags = true ->
      mockReason (GeminiRoute.body r) = Some reason)
  /\ (metadata = JNull -> flags = false ->
      mockReason (GeminiRoute.body r)
      = Some (orElse (Some (GeminiRoute.typeError S GeminiRoute.KeysOfNull))
                (str "Unknown error"))).
Proof.
  intros r flags. subst r. unfold mockOr, GeminiRoute.provideMockResponse_any.
  fold flags. destruct flags.
  - destruct (provideMockResponse_shape st req (GeminiRoute.apiCallsInLastMinute st)
                reason []) as (H1 & H2 & H3 & H4 & H5 & H6).
    repeat (split; [assumption|]). split; [auto|]. intros _ H. discriminate H.
  - destruct metadata; cbn [entries];
      try (match goal with
           | |- context [GeminiRoute.provideMockResponse st req ?c reason ?md] =>
               destruct (provideMockResponse_shape st req c reason md)
                 as (H1 & H2 & H3 & H4 & H5 & H6)
           end;
           repeat (split; [assumption|]); split; [auto|]; intros H; discriminate H).
    destruct (caughtResponse_shape st 2 req
                (GeminiRoute.typeError S GeminiRoute.KeysOfNull))
      as (H1 & H2 & H3 & H4 & H5 & H6).
    repeat (split; [assumption|]). split; [|auto].
    intros [H|H]; [now elim H|discriminate H].
Qed.


(** ** Values of any type *)

Lemma firstItems_error (S : GeminiRoute.Server) (n m : nat) (v : json) :
  match GeminiRoute.firstItems S n v with
  | inl misuse => GeminiRoute.firstItems S m v = inl misuse
  | inr None => GeminiRoute.firstItems S m v = inr None
  | inr (Some _) => exists t, GeminiRoute.firstItems S m v = inr (Some t)
  end.
Proof.
  unfold GeminiRoute.firstItems.
  destruct (GeminiRoute.hasItems S v) as [e|[|]]; try reflexivity.
  destruct v; try reflexivity. eexists. reflexivity.
Qed.

Lemma createOptimizedPrompt_any_run (S : GeminiRoute.Server)
      (imageType extractedText : jsstring) (imageFeatures documentMetadata : json) :
  GeminiRoute.createOptimizedPrompt_any S imageType extractedText imageFeatures
    documentMetadata
  = match promptError S imageFeatures documentMetadata with
    | Some misuse => inl (GeminiRoute.typeError S misuse)
    | None => inr (promptFor S imageType extractedText imageFeatures documentMetadata)
    end.
Proof.
  unfold promptFor, promptError, GeminiRoute.createOptimizedPrompt_any.
  destruct (entries documentMetadata) as [es|]; [|reflexivity].
  pose proof (firstItems_error S 10 5 imageFeatures) as H.
  destruct (GeminiRoute.firstItems S 10 imageFeatures) as [e|[t|]].
  - rewrite H. reflexivity.
  - destruct H as [t' ->]. reflexivity.
  - rewrite H. reflexivity.
Qed.

(** The run of the route's [analyzeWithGemini] on the values parsed. *)
Lemma analyzeWithGemini_any_run (S : GeminiRoute.Server)
      (imageType extractedText : jsstring) (imageFeatures documentMetadata : json) :
  GeminiRoute.analyzeWithGemini_any S imageType extractedText imageFeatures
    documentMetadata
  = if negb (GeminiRoute.genAI S)
    then ([], Returns (GeminiRoute.fallbackAnalysis (str "Gemini API not initialized")))
    else if negb (GeminiRoute.modelCreated S)
    then ([], Returns (GeminiRoute.fallbackAnalysis
                         (str "Failed to create Gemini model instance")))
    else
      match promptError S imageFeatures documentMetadata with
      | Some misuse =>
          ([], Returns (GeminiRoute.fallbackAnalysis (GeminiRoute.typeError S misuse)))
      | None =>
          tryCatch
            (GeminiRoute.sendPrompt S
               (promptFor S imageType extractedText imageFeatures documentMetadata))
            (fun message => ret (GeminiRoute.fallbackAnalysis message))
      end.
Proof.
  unfold GeminiRoute.analyzeWithGemini_any, GeminiRoute.analyzeWithGemini_try_any.
  rewrite createOptimizedPrompt_any_run.
  destruct (GeminiRoute.genAI S); [|reflexivity].
  destruct (GeminiRoute.modelCreated S); [|reflexivity].
  unfold GeminiRoute.firstPrompt, promptError.
  destruct (entries documentMetadata) as [es|]; [|reflexivity].
  destruct (GeminiRoute.firstItems S 10 imageFeatures) as [e|t]; [reflexivity|].
  cbn [negb bind ret app].
  destruct (GeminiRoute.sendPrompt S _) as [l o]. reflexivity.
Qed.

Lemma sendPrompt_caught (S : GeminiRoute.Server) (p : jsstring) :
  exists l v,
    tryCatch (GeminiRoute.sendPrompt S p)
      (fun message => ret (GeminiRoute.fallbackAnalysis message))
    = (l, Returns v)
    /\ (((exists message, v = GeminiRoute.fallbackAnalysis message)
         /\ replyUnusable S p
         /\ (l = [BuildPrompt p; Generate p]
             \/ exists text, l = [BuildPrompt p; Generate p; MatchReply text]))
        \/ exists text m,
            GeminiRoute.generateContent S p = GeminiRoute.Generated (Some text)
            /\ l = [BuildPrompt p; Generate p; MatchReply text]
            /\ matchBraces text = Some m
            /\ GeminiRoute.parseObject S m = Some v).
Proof.
  rewrite sendPrompt_run. unfold replyUnusable.
  destruct (GeminiRoute.generateContent S p) as [message| |[text|]]; simpl;
    try (do 2 eexists; split; [reflexivity|left; split; [eauto|split; auto]]).
  destruct (matchBraces text) as [m|] eqn:Hm; simpl;
    [|do 2 eexists; split; [reflexivity|left; split; [eauto|split; eauto]]].
  destruct (GeminiRoute.parseObject S m) as [v|] eqn:Hv; simpl;
    [|do 2 eexists; split; [reflexivity|left; split; [eauto|split; eauto]]].
  do 2 eexists. split; [reflexivity|]. right.
  exists text, m. repeat split; auto.
Qed.

(** How the route's analysis ends on the values parsed: with the fallback
    object when the client library is missing, the model cannot be
    created, the values cannot be put into a prompt or the reply is
    unusable; with the parsed reply otherwise. *)
Lemma analyzeWithGemini_any_outcome (S : GeminiRoute.Server)
      (imageType extractedText : jsstring) (imageFeatures documentMetadata : json) :
  let p := promptFor S imageType extractedText imageFeatures documentMetadata in
  exists l,
    GeminiRoute.analyzeWithGemini_any S imageType extractedText imageFeatures
      documentMetadata
    = (l, Returns (verdictOf S imageType extractedText imageFeatures documentMetadata))
    /\ (((exists message,
             verdictOf S imageType extractedText imageFeatures documentMetadata
             = GeminiRoute.fallbackAnalysis message)
         /\ (GeminiRoute.genAI S = false \/ GeminiRoute.modelCreated S = false
             \/ promptError S imageFeatures documentMetadata <> None
             \/ replyUnusable S p)
         /\ (l = []
             \/ (GeminiRoute.genAI S = true /\ GeminiRoute.modelCreated S = true
                 /\ promptError S imageFeatures documentMetadata = None
                 /\ (l = [BuildPrompt p; Generate p]
                     \/ exists text, l = [BuildPrompt p; Generate p; MatchReply text]))))
        \/ (GeminiRoute.genAI S = true /\ GeminiRoute.modelCreated S = true
            /\ promptError S imageFeatures documentMetadata = None
            /\ exists text m,
                GeminiRoute.generateContent S p = GeminiRoute.Generated (Some text)
                /\ l = [BuildPrompt p; Generate p; MatchReply text]
                /\ matchBraces text = Some m
                /\ GeminiRoute.parseObject S m
                   = Some (verdictOf S imageType extractedText imageFeatures
                             documentMetadata))).
Proof.
  intros p. unfold verdictOf. rewrite analyzeWithGemini_any_run. fold p.
  destruct (GeminiRoute.genAI S); simpl;
    [|eexists; split; [reflexivity|left; split; [eexists; reflexivity|split; auto]]].
  destruct (GeminiRoute.modelCreated S); simpl;
    [|eexists; split; [reflexivity|left; split; [eexists; reflexivity|split; auto]]].
  destruct (promptError S imageFeatures documentMetadata) as [e|] eqn:He.
  { eexists. split; [reflexivity|]. left. split; [eexists; reflexivity|].
    split; [|auto]. right. right. left. discriminate. }
  destruct (sendPrompt_caught S p) as (l & v & Hrun & Hcases).
  rewrite Hrun. cbn [result snd]. exists l. split; [reflexivity|].
  destruct Hcases as [(Hf & Hu & Hl)|(text & m & Hg & Hl & Hm & Hp)].
  - left. split; [exact Hf|]. split; [auto|]. right. auto.
  - right. repeat split. exists text, m. auto.
Qed.

(** ** Values of the declared types *)

Lemma printed_record (S : GeminiRoute.Server) (md : object jsstring) :
  GeminiRoute.printed S (map (fun kv => (fst kv, JStr (snd kv))) md) = md.
Proof.
  unfold GeminiRoute.printed.
  induction md as [|[k v] md IH]; [reflexivity|].
  simpl. rewrite IH. reflexivity.
Qed.

Lemma itemText_numbers (S : GeminiRoute.Server) (fs : list float) :
  map (GeminiRoute.itemText S) (map JNum fs) = map (GeminiRoute.numberToString S) fs.
Proof. rewrite map_map. reflexivity. Qed.

Lemma firstItems_numbers (S : GeminiRoute.Server) (n : nat) (fs : list float) :
  GeminiRoute.firstItems S n (JArr (map JNum fs))
  = inr (if (0 <? length fs)%nat
         then Some (join (str ", ")
                      (map (GeminiRoute.numberToString S) (firstn n fs)))
         else None).
Proof.
  unfold GeminiRoute.firstItems, GeminiRoute.hasItems. rewrite length_map.
  destruct (0 <? length fs)%nat; [|reflexivity].
  rewrite <- !firstn_map, itemText_numbers. reflexivity.
Qed.


Lemma promptFor_typed (S : GeminiRoute.Server) (imageType extractedText : jsstring)
      (fs : list float) (md : object jsstring) :
  promptFor S imageType extractedText (JArr (map JNum fs)) (jsonOfRecord md)
  = GeminiRoute.createOptimizedPrompt S imageType extractedText fs md.
Proof.
  unfold promptFor, GeminiRoute.createOptimizedPrompt_any,
    GeminiRoute.createOptimizedPrompt.
  cbn [entries jsonOfRecord].
  rewrite firstItems_numbers, printed_record. reflexivity.
Qed.





(** ** The run of the handler *)

(** The run of the handler, case by case. *)
Lemma POST_run (S : GeminiRoute.Server) (st0 : GeminiRoute.State)
      (req : GeminiRoute.Request) :
  snd (GeminiRoute.POST S st0 req)
  = let st := GeminiRoute.tick st0 (GeminiRoute.now req) in
    if jsstring_eqb (GeminiRoute.GEMINI_API_KEY S) []
    then ([], Returns (GeminiRoute.provideMockResponse st req
                         (GeminiRoute.apiCallsInLastMinute st)
                         (str "API key missing") []))
    else
      match GeminiRoute.formData req with
      | inl e => ([], Returns (caughtResponse (atCheck st0 req) 0 req e))
      | inr form =>
          match image form with
          | None => ([], Returns GeminiRoute.noImageResponse)
          | Some imageFile =>
              let imageFeatures :=
                GeminiRoute.parsedOr (GeminiRoute.parse S) (JArr []) (features form) in
              let recognised :=
                GeminiRoute.optimizedPdf S imageFile
                  (GeminiRoute.parsedOr (GeminiRoute.parse S) (JObj [])
                     (metadata form)) in
              if (10 <? GeminiRoute.apiCallsInLastMinute (atCheck st0 req))%Z
              then ([], Returns (mockOr S (atCheck st0 req) req
                                   (str "Rate limit exceeded") (snd recognised)))
              else if fst recognised
              then
                (steps (GeminiRoute.analyzeWithGemini_any S pdfType
                          (str "Large PDF document - metadata-only analysis")
                          imageFeatures (snd recognised)),
                 Returns (answerOf (atAnswer st0 req) req
                            (verdictOf S pdfType
                               (str "Large PDF document - metadata-only analysis")
                               imageFeatures (snd recognised))))
              else
                match content imageFile with
                | None =>
                    ([], Returns (caughtResponse (atAnswer st0 req) 0 req
                                    (str "The requested file could not be read")))
                | Some _ =>
                    (TextStub imageFile
                     :: steps (GeminiRoute.analyzeWithGemini_any S (type imageFile)
                                 (str "Sample extracted text from document")
                                 imageFeatures (snd recognised)),
                     Returns (answerOf (atAnswer st0 req) req
                                (verdictOf S (type imageFile)
                                   (str "Sample extracted text from document")
                                   imageFeatures (snd recognised))))
                end
          end
      end.
Proof.
  unfold GeminiRoute.POST. cbv zeta. cbn [snd].
  unfold atAnswer, atCheck.
  set (st := GeminiRoute.tick st0 (GeminiRoute.now req)). clearbody st.
  unfold GeminiRoute.POST_try. cbv zeta.
  destruct (jsstring_eqb (GeminiRoute.GEMINI_API_KEY S) []); [reflexivity|].
  set (c := GeminiRoute.overlapped st (GeminiRoute.arrivalsBeforeCheck req)).
  clearbody c.
  destruct (GeminiRoute.formData req) as [e|form]; [reflexivity|].
  cbn [lift]. rewrite bind_ret.
  destruct (image form) as [imageFile|]; [|reflexivity].
  destruct (GeminiRoute.optimizedPdf S imageFile _) as [isOptimizedPdf md].
  cbn [fst snd].
  destruct (10 <? GeminiRoute.apiCallsInLastMinute c)%Z.
  { unfold mockOr, GeminiRoute.caught.
    destruct (GeminiRoute.provideMockResponse_any S c req _ _ md) as [message|r];
      reflexivity. }
  set (a := GeminiRoute.overlapped c (GeminiRoute.arrivalsBeforeAnswer req)).
  clearbody a.
  assert (Hgo :
    forall imageType extractedText,
      tryCatch
        (bind (GeminiRoute.analyzeWithGemini_any S imageType extractedText
                 (GeminiRoute.parsedOr (GeminiRoute.parse S) (JArr []) (features form))
                 md)
           (fun analysisResult => ret (answerOf a req analysisResult)))
        (fun message =>
           GeminiRoute.caught a 2 req
             (lift (GeminiRoute.provideMockResponse_any S a req
                      (GeminiRoute.apiCallsInLastMinute a)
                      (orElse (Some message) (str "Unknown error")) md)))
      = (steps (GeminiRoute.analyzeWithGemini_any S imageType extractedText
                  (GeminiRoute.parsedOr (GeminiRoute.parse S) (JArr []) (features form))
                  md),
         Returns (answerOf a req
                    (verdictOf S imageType extractedText
                       (GeminiRoute.parsedOr (GeminiRoute.parse S) (JArr [])
                          (features form)) md)))).
  { intros imageType extractedText.
    destruct (analyzeWithGemini_any_outcome S imageType extractedText
                (GeminiRoute.parsedOr (GeminiRoute.parse S) (JArr []) (features form))
                md) as (l & Hrun & _).
    rewrite Hrun. cbn [steps fst bind ret tryCatch]. rewrite app_nil_r.
    reflexivity. }
  unfold answerOf in Hgo.
  destruct isOptimizedPdf.
  - unfold GeminiRoute.caught. rewrite bind_ret, Hgo. reflexivity.
  - destruct (content imageFile) as [bytes|]; [|reflexivity].
    unfold GeminiRoute.caught, GeminiRoute.extractTextFromImage.
    cbn [bind emit ret app]. rewrite Hgo. reflexivity.
Qed.

(** C4.  The handler never throws and never stays pending: whatever the
    request, the configuration and the hosted model do, it answers with
    HTTP status 200, [status: 'success'] and a verification object.  When
    the API key is missing, when the request body cannot be read, and, for
    a request with an image, when the client library is not initialised,
    the model cannot be created or the model's answer is unusable (the
    call fails or times out, the reply has no text, no JSON match or a
    match that does not parse), that object is a mock verification.  The
    only responses that are not mocks are the one for a request without an
    image and the one built from a reply that parsed. *)
Theorem route_failures_become_mock_responses (S : GeminiRoute.Server)
        (st0 : GeminiRoute.State) (req : GeminiRoute.Request) :
  exists r v,
    result (snd (GeminiRoute.POST S st0 req)) = Returns r
    /\ GeminiRoute.httpCode r = 200
    /\ status (GeminiRoute.body r) = str "success"
    /\ verification (GeminiRoute.body r) = Some v
    /\ (GeminiRoute.GEMINI_API_KEY S = [] ->
        isMockVerification v /\ mockImplementation (GeminiRoute.body r) = Some true)
    /\ (forall e,
           GeminiRoute.formData req = inl e ->
           isMockVerification v /\ mockImplementation (GeminiRoute.body r) = Some true)
    /\ (forall form imageFile,
           GeminiRoute.formData req = inr form ->
           image form = Some imageFile ->
           GeminiRoute.genAI S = false \/ GeminiRoute.modelCreated S = false
           \/ (forall p, replyUnusable S p) ->
           isMockVerification v)
    /\ (isMockVerification v
        \/ r = GeminiRoute.noImageResponse
        \/ exists text m analysis,
            In (MatchReply text) (steps (snd (GeminiRoute.POST S st0 req)))
            /\ matchBraces text = Some m
            /\ GeminiRoute.parseObject S m = Some analysis
            /\ v = obj_set (str "moderationStatus")
                     (JStr (if truthyField (str "isLikelyGenuine") analysis
                            then str "safe" else str "flagged"))
                     analysis).
Proof.
  rewrite POST_run. cbv zeta.
  set (st := GeminiRoute.tick st0 (GeminiRoute.now req)).
  assert (Hmock :
    forall r : GeminiRoute.Response,
      GeminiRoute.httpCode r = 200 ->
      status (GeminiRoute.body r) = str "success" ->
      mockImplementation (GeminiRoute.body r) = Some true ->
      (exists v, verification (GeminiRoute.body r) = Some v /\ isMockVerification v) ->
      exists r' v,
        result (@pair (list Step) _ [] (Returns r)) = Returns r'
        /\ GeminiRoute.httpCode r' = 200
        /\ status (GeminiRoute.body r') = str "success"
        /\ verification (GeminiRoute.body r') = Some v
        /\ isMockVerification v
        /\ mockImplementation (GeminiRoute.body r') = Some true).
  { intros r H1 H2 H3 (v & H4 & H5). exists r, v. repeat split; assumption. }
  destruct (jsstring_eqb (GeminiRoute.GEMINI_API_KEY S) []) eqn:Ek.
  { (* no API key *)
    destruct (provideMockResponse_shape st req (GeminiRoute.apiCallsInLastMinute st)
                (str "API key missing") [])
      as (H200 & Hs & Hm & _ & _ & Hv).
    destruct (Hmock _ H200 Hs Hm Hv) as (r & v & Hr & H1 & H2 & H3 & H4 & H5).
    exists r, v. repeat (split; [assumption|]). repeat split; auto. }
  apply jsstring_eqb_neq in Ek.
  destruct (GeminiRoute.formData req) as [e|form] eqn:Ef.
  { (* the body cannot be read *)
    destruct (caughtResponse_shape (atCheck st0 req) 0 req e)
      as (H200 & Hs & Hm & _ & _ & Hv).
    destruct (Hmock _ H200 Hs Hm Hv) as (r & v & Hr & H1 & H2 & H3 & H4 & H5).
    exists r, v. repeat (split; [assumption|]).
    repeat split; auto; try discriminate. }
  destruct (image form) as [imageFile|] eqn:Ei.
  2:{ (* no image *)
    do 2 eexists. split; [reflexivity|]. repeat (split; [reflexivity|]).
    split; [intros H; now elim Ek|]. split; [intros; discriminate|].
    split; [intros ? ? [= <-] H; congruence|]. right. left. reflexivity. }
  set (imageFeatures :=
         GeminiRoute.parsedOr (GeminiRoute.parse S) (JArr []) (features form)).
  set (recognised := GeminiRoute.optimizedPdf S imageFile _).
  destruct (10 <? GeminiRoute.apiCallsInLastMinute (atCheck st0 req))%Z.
  { (* rate limit *)
    destruct (mockOr_shape S (atCheck st0 req) req (str "Rate limit exceeded")
                (snd recognised)) as (H200 & Hs & Hm & _ & Hv & _).
    destruct (Hmock _ H200 Hs Hm Hv) as (r & v & Hr & H1 & H2 & H3 & H4 & H5).
    exists r, v. repeat (split; [assumption|]).
    split; [intros H; now elim Ek|]. split; [intros; discriminate|].
    split; auto. }
  (* the analysis runs *)
  assert (Hgo :
    forall (pre : list Step) (imageType extractedText : jsstring),
    exists r v,
      result (pre ++ steps (GeminiRoute.analyzeWithGemini_any S imageType
                              extractedText imageFeatures (snd recognised)),
              Returns (answerOf (atAnswer st0 req) req
                         (verdictOf S imageType extractedText imageFeatures
                            (snd recognised)))) = Returns r
      /\ GeminiRoute.httpCode r = 200
      /\ status (GeminiRoute.body r) = str "success"
      /\ verification (GeminiRoute.body r) = Some v
      /\ (GeminiRoute.GEMINI_API_KEY S = [] ->
          isMockVerification v /\ mockImplementation (GeminiRoute.body r) = Some true)
      /\ (forall e : jsstring,
             @inr jsstring FormData form = inl e ->
             isMockVerification v /\ mockImplementation (GeminiRoute.body r) = Some true)
      /\ (forall form' imageFile',
             @inr jsstring FormData form = inr form' ->
             image form' = Some imageFile' ->
             GeminiRoute.genAI S = false \/ GeminiRoute.modelCreated S = false
             \/ (forall p, replyUnusable S p) ->
             isMockVerification v)
      /\ (isMockVerification v
          \/ r = GeminiRoute.noImageResponse
          \/ exists text m analysis,
              In (MatchReply text)
                 (steps (pre ++ steps (GeminiRoute.analyzeWithGemini_any S imageType
                                         extractedText imageFeatures (snd recognised)),
                         Returns (answerOf (atAnswer st0 req) req
                                    (verdictOf S imageType extractedText imageFeatures
                                       (snd recognised)))))
              /\ matchBraces text = Some m
              /\ GeminiRoute.parseObject S m = Some analysis
              /\ v = obj_set (str "moderationStatus")
                       (JStr (if truthyField (str "isLikelyGenuine") analysis
                              then str "safe" else str "flagged"))
                       analysis)).
  { intros pre imageType extractedText.
    destruct (analyzeWithGemini_any_outcome S imageType extractedText imageFeatures
                (snd recognised)) as (l & Hrun & Hcases).
    rewrite Hrun. cbn [steps fst].
    do 2 eexists. split; [reflexivity|]. repeat (split; [reflexivity|]).
    split; [intros H; now elim Ek|]. split; [intros; discriminate|].
    destruct Hcases as [((message & ->) & _ & _)
                       |(Hg & Hc & He & text & m & Hgen & -> & Hm & Hp)].
    - split; [intros; apply fallbackAnalysis_is_mock|left; apply fallbackAnalysis_is_mock].
    - split.
      + intros form' imageFile' _ _ [H|[H|H]]; try congruence.
        exfalso. specialize (H (promptFor S imageType extractedText imageFeatures
                                  (snd recognised))).
        unfold replyUnusable in H. rewrite Hgen, Hm, Hp in H. discriminate H.
      + right. right. exists text, m. eexists.
        split; [apply in_or_app; right; simpl; auto|].
        split; [exact Hm|]. split; [exact Hp|reflexivity]. }
  destruct (fst recognised).
  - apply (Hgo []).
  - destruct (content imageFile) as [bytes|].
    + apply (Hgo [TextStub imageFile]).
    + destruct (caughtResponse_shape (atAnswer st0 req) 0 req
                  (str "The requested file could not be read"))
        as (H200 & Hs & Hm & _ & _ & Hv).
      destruct (Hmock _ H200 Hs Hm Hv) as (r & v & Hr & H1 & H2 & H3 & H4 & H5).
      exists r, v. repeat (split; [assumption|]).
      split; [intros H; now elim Ek|]. split; [intros; discriminate|].
      split; auto.
Qed.

(* ================================================================== *)
(** * The rate limit *)
(* ================================================================== *)




(* ================================================================== *)
(** * The order of the pipeline *)
(* ================================================================== *)

Lemma image_type_is_not_a_document (t : jsstring) :
  startsWith t (str "image/") = true ->
  jsstring_eqb t pdfType = false /\ jsstring_eqb t jsonType = false.
Proof.
  intros H. destruct t as [|c t]; [discriminate|].
  change (startsWith (c :: t) (str "image/"))
    with (N.eqb 105 c && startsWith t (str "mage/")) in H.
  apply andb_true_iff in H as [Hc _]. apply N.eqb_eq in Hc. subst c.
  split; apply jsstring_eqb_neq; discriminate.
Qed.




(** The image branch sends its request whatever the route answers. *)
Lemma image_request_is_sent (B : Uploader.Browser) (file : File)
      (ocr : Uploader.OcrResult) :
  startsWith (type file) (str "image/") = true ->
  Uploader.modelLoaded B = true ->
  Uploader.imageLoads B file = true ->
  Uploader.extractTextFromImage B file = ([Recognize file], Returns ocr) ->
  In (Fetch (formFor B file (imageFeaturesOf B file) (imageMetadata B file ocr)))
     (steps (Uploader.processFile B file)).
Proof.
  intros Himg Hmodel Hloads Hocr.
  destruct (image_type_is_not_a_document _ Himg) as [Hnpdf _].
  unfold Uploader.processFile. rewrite Himg.
  apply in_steps_tryCatch.
  unfold Uploader.verifyImage. rewrite Hocr.
  apply in_steps_bind_after. apply in_steps_bind.
  fold (imageMetadata B file ocr).
  unfold Uploader.analyzeWithGemini.
  rewrite extractImageFeatures_run, Hmodel, Himg, Hnpdf, Hloads.
  unfold imageFeaturesOf, formFor. rewrite Hmodel, Hnpdf.
  cbn [negb andb].
  apply in_steps_bind_after. apply in_steps_bind. left. reflexivity.
Qed.







(* ================================================================== *)
(** * Concrete runs *)
(* ================================================================== *)

(** On the sample photograph read as " x " with confidence 12, the OCR step
    resolves with the "No meaningful text" result. *)
Lemma extractTextFromImage_never_rejects_witness :
  result (Uploader.extractTextFromImage Samples.faintBrowser Samples.photo)
  = Returns {| Uploader.text :=
                 str "No meaningful text could be extracted from this document.";
               Uploader.confidence := 0.1 |}.
Proof.
  destruct (extractTextFromImage_never_rejects Samples.faintBrowser Samples.photo)
    as (r & Hr & _ & _ & H).
  rewrite Hr. f_equal.
  assert (Hnpdf : type Samples.photo <> pdfType)
    by (apply jsstring_eqb_neq; reflexivity).
  destruct (H (Some (str " x ")) 12%float Hnpdf eq_refl eq_refl) as [Hshort _].
  apply Hshort; [reflexivity|]. left. vm_compute. lia.
Defined.

(** The sample Word document, whose extension contradicts its type, is
    recorded with the uploader's own verdict: the score 0.9 - 0.4,
    clamped. *)
Lemma local_confidence_is_clamped_witness :
  exists u,
    result (Uploader.processFile Samples.browser Samples.wordFile) = Returns u
    /\ Uploader.site u = Uploader.DocumentHeuristic
    /\ obj_get (str "confidenceScore") (Uploader.verificationDetails u)
       = Some (JNum (Math_max 0.1 (Math_min 1 (0.9 - 0.4))))
    /\ inUnitRange (Math_max 0.1 (Math_min 1 (0.9 - 0.4))).
Proof.
  eexists. split; [reflexivity|].
  destruct (proj1 (proj2 (local_confidence_is_clamped Samples.browser Samples.wordFile)
                     eq_refl) _ eq_refl) as [H|[Hs H]].
  - discriminate H.
  - split; [exact Hs|exact H].
Defined.


(** A server without an API key answers the sample request with a mock. *)
Lemma route_failures_become_mock_responses_witness :
  exists r v,
    result (snd (GeminiRoute.POST Samples.keylessServer Samples.freshState
                   Samples.photoRequest)) = Returns r
    /\ GeminiRoute.httpCode r = 200
    /\ verification (GeminiRoute.body r) = Some v
    /\ isMockVerification v
    /\ mockImplementation (GeminiRoute.body r) = Some true.
Proof.
  destruct (route_failures_become_mock_responses Samples.keylessServer
              Samples.freshState Samples.photoRequest)
    as (r & v & Hr & H200 & _ & Hv & Hkey & _).
  exists r, v. destruct (Hkey eq_refl) as [Hmock Hflag]. repeat split; assumption.
Defined.

(* ================================================================== *)
(** * The verification route: model calls and the rate limit *)
(* ================================================================== *)

Lemma steps_bind {E A B : Type} (l : list E) (a : A) (k : A -> run E B) :
  steps (bind (l, Returns a) k) = l ++ steps (k a).
Proof. unfold bind, steps. destruct (k a) as [l' o]. reflexivity. Qed.

(** The steps of the route's [analyzeWithGemini]: none when the client
    library or the model is missing, else the prompt, the call and, when
    the call yields a text, the match. *)
Lemma analyzeWithGemini_trace (S : GeminiRoute.Server)
      (imageType extractedText : jsstring) (imageFeatures : list float)
      (documentMetadata : object jsstring) :
  exists l v,
    GeminiRoute.analyzeWithGemini S imageType extractedText imageFeatures
      documentMetadata = (l, Returns v)
    /\ (l = []
        \/ (GeminiRoute.genAI S = true /\ GeminiRoute.modelCreated S = true
            /\ exists p,
                l = [BuildPrompt p; Generate p]
                \/ exists text, l = [BuildPrompt p; Generate p; MatchReply text])).
Proof.
  unfold GeminiRoute.analyzeWithGemini.
  rewrite analyzeWithGemini_try_run. cbv zeta.
  destruct (GeminiRoute.genAI S); simpl;
    [|do 2 eexists; split; [reflexivity|left; reflexivity]].
  destruct (GeminiRoute.modelCreated S); simpl;
    [|do 2 eexists; split; [reflexivity|left; reflexivity]].
  match goal with
  | |- context [GeminiRoute.generateContent S ?q] =>
      set (p := q); destruct (GeminiRoute.generateContent S p) as [message| |[text|]]
  end; simpl.
  - do 2 eexists. split; [reflexivity|]. right. repeat split. exists p. left. reflexivity.
  - do 2 eexists. split; [reflexivity|]. right. repeat split. exists p. left. reflexivity.
  - destruct (matchBraces text) as [m|]; simpl;
      [destruct (GeminiRoute.parseObject S m); simpl|];
      (do 2 eexists; split; [reflexivity|]; right; repeat split; exists p; right;
       exists text; reflexivity).
  - do 2 eexists. split; [reflexivity|]. right. repeat split. exists p. left. reflexivity.
Qed.

(** The steps of one request: the text stub at most once, then the prompt,
    the call of the model and the match of its reply; the model is called
    only with a client library, a model and a counter of at most 10 when
    the handler reads it after the form data. *)
Lemma POST_trace (S : GeminiRoute.Server) (st0 : GeminiRoute.State)
      (req : GeminiRoute.Request) :
  exists pre mid,
    steps (snd (GeminiRoute.POST S st0 req)) = pre ++ mid
    /\ (pre = [] \/ exists f, pre = [TextStub f])
    /\ (mid = []
        \/ (GeminiRoute.genAI S = true /\ GeminiRoute.modelCreated S = true
            /\ (GeminiRoute.apiCallsInLastMinute (atCheck st0 req) <= 10)%Z
            /\ exists p,
                mid = [BuildPrompt p; Generate p]
                \/ exists text, mid = [BuildPrompt p; Generate p; MatchReply text])).
Proof.
  rewrite POST_run. cbv zeta.
  destruct (jsstring_eqb (GeminiRoute.GEMINI_API_KEY S) []);
    [exists [], []; simpl; auto|].
  destruct (GeminiRoute.formData req) as [e|form]; [exists [], []; simpl; auto|].
  destruct (image form) as [imageFile|]; [|exists [], []; simpl; auto].
  set (imageFeatures :=
         GeminiRoute.parsedOr (GeminiRoute.parse S) (JArr []) (features form)).
  set (recognised := GeminiRoute.optimizedPdf S imageFile _).
  destruct (10 <? GeminiRoute.apiCallsInLastMinute (atCheck st0 req))%Z eqn:Hlimit;
    [exists [], []; simpl; auto|].
  apply Z.ltb_ge in Hlimit.
  assert (Hgo :
    forall imageType extractedText,
      let mid := steps (GeminiRoute.analyzeWithGemini_any S imageType extractedText
                          imageFeatures (snd recognised)) in
      mid = []
      \/ (GeminiRoute.genAI S = true /\ GeminiRoute.modelCreated S = true
          /\ (GeminiRoute.apiCallsInLastMinute (atCheck st0 req) <= 10)%Z
          /\ exists p,
              mid = [BuildPrompt p; Generate p]
              \/ exists text, mid = [BuildPrompt p; Generate p; MatchReply text])).
  { intros imageType extractedText mid. subst mid.
    destruct (analyzeWithGemini_any_outcome S imageType extractedText imageFeatures
                (snd recognised)) as (l & Hrun & Hcases).
    rewrite Hrun. cbn [steps fst].
    destruct Hcases as [(_ & _ & [->|(Hg & Hc & _ & Hl)])
                       |(Hg & Hc & _ & text & m & _ & -> & _)].
    - left. reflexivity.
    - right. repeat (split; [assumption|]). eexists. exact Hl.
    - right. repeat (split; [assumption|]). eexists. right. eexists. reflexivity. }
  destruct (fst recognised).
  - exists [], (steps (GeminiRoute.analyzeWithGemini_any S pdfType
                         (str "Large PDF document - metadata-only analysis")
                         imageFeatures (snd recognised))).
    split; [reflexivity|]. split; [auto|apply Hgo].
  - destruct (content imageFile) as [bytes|]; [|exists [], []; simpl; auto].
    exists [TextStub imageFile],
      (steps (GeminiRoute.analyzeWithGemini_any S (type imageFile)
                (str "Sample extracted text from document")
                imageFeatures (snd recognised))).
    split; [reflexivity|]. split; [right; eauto|apply Hgo].
Qed.

Lemma modelCalls_POST (S : GeminiRoute.Server) (st0 : GeminiRoute.State)
      (req : GeminiRoute.Request) :
  Service.modelCalls (snd (GeminiRoute.POST S st0 req)) <= 1
  /\ ((10 < GeminiRoute.apiCallsInLastMinute (atCheck st0 req))%Z ->
      Service.modelCalls (snd (GeminiRoute.POST S st0 req)) = 0).
Proof.
  destruct (POST_trace S st0 req) as (pre & mid & Hsteps & Hpre & Hmid).
  set (c := GeminiRoute.apiCallsInLastMinute _) in *. clearbody c.
  unfold Service.modelCalls. rewrite Hsteps, filter_app, length_app.
  assert (Hp : length (filter Service.isGenerate pre) = 0)
    by (destruct Hpre as [->|[f ->]]; reflexivity).
  rewrite Hp. simpl.
  destruct Hmid as [->|(_ & _ & Hle & p & [->|[text ->]])]; simpl; split; lia.
Qed.

(** X1.  The model is called at most once per request, with the prompt built
    just before, and only with a client library, a model and a counter of
    at most 10 when the handler reads it after it has awaited the form
    data: the request's own count and those of the requests that arrived
    meanwhile.  A server without API key takes no step at all. *)
Theorem model_is_called_at_most_once (S : GeminiRoute.Server)
        (st0 : GeminiRoute.State) (req : GeminiRoute.Request) :
  let answer := snd (GeminiRoute.POST S st0 req) in
  let seen :=
    fold_left GeminiRoute.tick (GeminiRoute.arrivalsBeforeCheck req)
      (GeminiRoute.tick st0 (GeminiRoute.now req)) in
  Service.modelCalls answer <= 1
  /\ (forall p,
         In (Generate p) (steps answer) ->
         GeminiRoute.GEMINI_API_KEY S <> []
         /\ GeminiRoute.clientConstructs S = true
         /\ GeminiRoute.modelCreated S = true
         /\ (GeminiRoute.apiCallsInLastMinute seen <= 10)%Z
         /\ exists pre post,
             steps answer = pre ++ BuildPrompt p :: Generate p :: post
             /\ (pre = [] \/ exists f, pre = [TextStub f])
             /\ (post = [] \/ exists text, post = [MatchReply text]))
  /\ ((10 < GeminiRoute.apiCallsInLastMinute seen)%Z ->
      Service.modelCalls answer = 0)
  /\ (GeminiRoute.GEMINI_API_KEY S = [] -> steps answer = []).
Proof.
  intros answer seen. subst answer seen.
  split; [apply modelCalls_POST|]. split; [|split].
  - intros p Hin.
    destruct (POST_trace S st0 req) as (pre & mid & Hsteps & Hpre & Hmid).
    rewrite Hsteps in Hin |- *.
    assert (Hnot : ~ In (Generate p) pre).
    { destruct Hpre as [->|[f ->]]; simpl; intuition discriminate. }
    apply in_app_or in Hin. destruct Hin as [Hin|Hin]; [contradiction|].
    destruct Hmid as [->|(Hg & Hm & Hle & q & Hq)]; [destruct Hin|].
    unfold GeminiRoute.genAI in Hg. apply andb_prop in Hg. destruct Hg as [Hkey Hc].
    apply negb_true_iff, jsstring_eqb_neq in Hkey.
    assert (Hpq : q = p /\ (mid = [BuildPrompt p; Generate p]
                            \/ exists text, mid = [BuildPrompt p; Generate p; MatchReply text])).
    { destruct Hq as [->|[text ->]]; simpl in Hin;
        repeat (destruct Hin as [Hin|Hin]; try discriminate Hin; try contradiction);
        injection Hin as ->; split; eauto. }
    destruct Hpq as [-> Hshape].
    repeat (split; [assumption|]).
    destruct Hshape as [->|[text ->]].
    + exists pre, []. repeat split; auto.
    + exists pre, [MatchReply text]. repeat split; eauto.
  - apply modelCalls_POST.
  - intros Hkey. rewrite POST_run. cbv zeta.
    apply jsstring_eqb_eq in Hkey. rewrite Hkey. reflexivity.
Qed.

Lemma tick_within_window (st : GeminiRoute.State) (time : Z) :
  (time - GeminiRoute.lastResetTime st <= 60000)%Z ->
  GeminiRoute.tick st time
  = {| GeminiRoute.apiCallsInLastMinute := GeminiRoute.apiCallsInLastMinute st + 1;
       GeminiRoute.lastResetTime := GeminiRoute.lastResetTime st |}.
Proof.
  intros H. unfold GeminiRoute.tick, GeminiRoute.RATE_LIMIT_RESET_INTERVAL.
  apply Z.ltb_ge in H. rewrite H. reflexivity.
Qed.

(** X2.  As long as no request arrives more than 60000 ms after the last reset,
    requests served one after the other reach the model at most
    [10 - apiCallsInLastMinute] times in total, however many they are;
    every request, served by the model or not, advances the counter. *)
Theorem model_calls_within_a_window (S : GeminiRoute.Server)
        (st : GeminiRoute.State) (requests : list GeminiRoute.Request) :
  (forall req, In req requests ->
               (GeminiRoute.now req - GeminiRoute.lastResetTime st <= 60000)%Z) ->
  (Z.of_nat (Service.totalModelCalls (snd (Service.serve S st requests)))
   <= Z.max 0 (10 - GeminiRoute.apiCallsInLastMinute st))%Z
  /\ fst (Service.serve S st requests)
     = {| GeminiRoute.apiCallsInLastMinute :=
            GeminiRoute.apiCallsInLastMinute st + Z.of_nat (length requests);
          GeminiRoute.lastResetTime := GeminiRoute.lastResetTime st |}.
Proof.
  revert st. induction requests as [|req rest IH]; intros st Hwin.
  - simpl. split; [lia|]. destruct st. simpl. f_equal. lia.
  - assert (Hreq : (GeminiRoute.now req - GeminiRoute.lastResetTime st <= 60000)%Z)
      by (apply Hwin; left; reflexivity).
    pose proof (tick_within_window st _ Hreq) as Htick.
    destruct (modelCalls_POST S st (GeminiRoute.alone req)) as [Hone Hnone].
    change (atCheck st (GeminiRoute.alone req))
      with (GeminiRoute.tick st (GeminiRoute.now req)) in Hnone.
    rewrite Htick in Hnone.
    cbn [GeminiRoute.apiCallsInLastMinute] in Hnone.
    assert (Hfst : fst (GeminiRoute.POST S st (GeminiRoute.alone req))
                   = {| GeminiRoute.apiCallsInLastMinute :=
                          GeminiRoute.apiCallsInLastMinute st + 1;
                        GeminiRoute.lastResetTime := GeminiRoute.lastResetTime st |}).
    { rewrite <- Htick. unfold GeminiRoute.POST, GeminiRoute.settled.
      cbn [fst GeminiRoute.alone GeminiRoute.formData GeminiRoute.now
           GeminiRoute.arrivalsBeforeCheck GeminiRoute.arrivalsBeforeAnswer
           GeminiRoute.overlapped fold_left].
      destruct (jsstring_eqb (GeminiRoute.GEMINI_API_KEY S) []); [reflexivity|].
      destruct (GeminiRoute.formData req) as [e|form]; [reflexivity|].
      destruct (image form); [|reflexivity].
      destruct (10 <? _)%Z; reflexivity. }
    change (Service.serve S st (req :: rest))
      with (let (st', answer) := GeminiRoute.POST S st (GeminiRoute.alone req) in
            let (st'', answers) := Service.serve S st' rest in
            (st'', answer :: answers)).
    destruct (GeminiRoute.POST S st (GeminiRoute.alone req)) as [st' answer].
    cbn [fst snd] in Hfst, Hone, Hnone. subst st'.
    match goal with
    | |- context [Service.serve S ?s rest] => specialize (IH s)
    end.
    cbn [GeminiRoute.apiCallsInLastMinute GeminiRoute.lastResetTime] in IH.
    destruct (Service.serve S _ rest) as [st'' answers].
    destruct IH as [IHcalls IHst].
    { intros r Hr. apply Hwin. right. exact Hr. }
    cbn [fst snd Service.totalModelCalls length] in IHcalls, IHst |- *. split.
    + destruct (Z_lt_dec 10 (GeminiRoute.apiCallsInLastMinute st + 1)) as [Hgt|Hle].
      * rewrite (Hnone Hgt). lia.
      * lia.
    + rewrite IHst. f_equal. lia.
Qed.

Lemma model_calls_within_a_window_witness :
  ((Z.of_nat (Service.totalModelCalls
                (snd (Service.serve Samples.server Samples.freshState
                        (repeat Samples.photoRequest 12))))
    <= Z.max 0 (10 - 0))%Z
   /\ fst (Service.serve Samples.server Samples.freshState
             (repeat Samples.photoRequest 12))
      = {| GeminiRoute.apiCallsInLastMinute := 0 + Z.of_nat 12;
           GeminiRoute.lastResetTime := 60000 |})
  /\ Service.totalModelCalls
       (snd (Service.serve Samples.server Samples.freshState
               (repeat Samples.photoRequest 12))) = 10.
Proof.
  split.
  - apply (model_calls_within_a_window Samples.server Samples.freshState
             (repeat Samples.photoRequest 12)).
    intros req Hin. apply repeat_spec in Hin. subst req. vm_compute. discriminate.
  - vm_compute. reflexivity.
Defined.

(** X3.  When the race against the 30 second timer is lost, the error message
    says [timed out], which the test for [timeout] does not match: the
    explanation of the fallback verdict names a connection issue, and the
    verdict is genuine with confidence 0.9. *)
Theorem timed_out_call_is_reported_as_connection_issue (S : GeminiRoute.Server)
        (imageType extractedText : jsstring) (imageFeatures : list float)
        (documentMetadata : object jsstring) :
  GeminiRoute.genAI S = true ->
  GeminiRoute.modelCreated S = true ->
  GeminiRoute.generateContent S
    (GeminiRoute.createOptimizedPrompt S imageType extractedText imageFeatures
       documentMetadata)
  = GeminiRoute.GenerateTimesOut ->
  exists v,
    result (GeminiRoute.analyzeWithGemini S imageType extractedText imageFeatures
              documentMetadata) = Returns v
    /\ obj_get (str "analysisExplanation") v
       = Some (JStr (GeminiRoute.mockPrefix ++ str "API connection issue"))
    /\ obj_get (str "isLikelyGenuine") v = Some (JBool true)
    /\ obj_get (str "confidenceScore") v = Some (JNum 0.9).
Proof.
  intros Hg Hm Hgen.
  unfold GeminiRoute.analyzeWithGemini.
  rewrite analyzeWithGemini_try_run. cbv zeta. rewrite Hg, Hm, Hgen. simpl.
  eexists. split; [reflexivity|].
  repeat split; vm_compute; reflexivity.
Qed.

(* ================================================================== *)
(** * The uploader: how a file's processing ends *)
(* ================================================================== *)

(** The uploader's [analyzeWithGemini] on a file that is not an image: the
    request without features, then whatever [fetch] does. *)
Lemma analyzeWithGemini_document (B : Uploader.Browser) (file : File)
      (md : object jsstring) :
  startsWith (type file) (str "image/") = false ->
  let form := formFor B file [] md in
  steps (Uploader.analyzeWithGemini B file md)
  = Fetch form :: steps (Uploader.fetch B form)
  /\ (forall msg, result (Uploader.fetch B form) = Throws msg ->
                  result (Uploader.analyzeWithGemini B file md) = Throws msg)
  /\ (result (Uploader.fetch B form) = Hangs ->
      result (Uploader.analyzeWithGemini B file md) = Hangs).
Proof.
  intros Himg form. unfold Uploader.analyzeWithGemini.
  rewrite Himg, andb_false_r. rewrite bind_ret.
  match goal with
  | |- context [Uploader.fetch B ?f] => change f with form
  end.
  destruct (Uploader.fetch B form) as [l [response|msg|]].
  - split; [|split; discriminate].
    unfold emit. rewrite !steps_bind.
    match goal with
    | |- context [steps ?m] =>
        assert (Hnone : steps m = [])
    end.
    { destruct (ok response); simpl; [|reflexivity].
      destruct (bodyJson response) as [e|data]; simpl; [reflexivity|].
      destruct (error data) as [[|]|]; simpl; try reflexivity;
        destruct (verification data); simpl; try reflexivity;
        destruct (jsstring_eqb (status data) _); reflexivity. }
    rewrite Hnone, app_nil_r. reflexivity.
  - split; [reflexivity|]. split; [intros m H; injection H as ->; reflexivity|discriminate].
  - split; [reflexivity|]. split; [discriminate|reflexivity].
Qed.

(** A PDF's processing, once the header of the file is read: the metadata
    analysis, the request, and the uploader's own verdict when the request
    fails.  A PDF whose header cannot be read stays pending, without any
    external step. *)
Lemma processFile_pdf (B : Uploader.Browser) (file : File) :
  type file = pdfType ->
  Uploader.processFile B file
  = if Uploader.headerLoads B file
    then
      match Uploader.analyzeWithGemini B file
              (Uploader.foundMetadata (pdfFound B file)) with
      | (l, Returns g) =>
          (l, Returns (verified Uploader.PdfVerified g
                         (Uploader.foundMetadata (pdfFound B file))
                         (Uploader.text Uploader.pdfPlaceholder)
                         (Uploader.confidence Uploader.pdfPlaceholder)))
      | (l, Throws _) =>
          (l, Returns (Uploader.localVerdict (pdfFound B file)
                         (Uploader.text Uploader.pdfPlaceholder)
                         (Uploader.confidence Uploader.pdfPlaceholder)))
      | (l, Hangs) => (l, Hangs)
      end
    else ([], Hangs).
Proof.
  intros Htype.
  assert (Epdf : jsstring_eqb (type file) pdfType = true)
    by (apply jsstring_eqb_eq; exact Htype).
  assert (Hdoc : Uploader.isDocumentType (type file) = true)
    by (unfold Uploader.isDocumentType; rewrite Epdf; reflexivity).
  pose proof (documentType_not_image _ Hdoc) as Himg.
  unfold Uploader.processFile. rewrite Himg, Hdoc.
  unfold Uploader.verifyDocument. rewrite Epdf.
  unfold Uploader.extractTextFromImage, Uploader.extractTextFromImage_try.
  rewrite Epdf.
  change (tryCatch (ret Uploader.pdfPlaceholder)
            (fun _ : jsstring => ret Uploader.extractionFailed))
    with (@ret Step _ Uploader.pdfPlaceholder).
  rewrite bind_ret.
  change (tryCatch
            (ret (Uploader.text Uploader.pdfPlaceholder,
                  Uploader.confidence Uploader.pdfPlaceholder))
            (fun _ : jsstring =>
               ret (str "Text extraction from PDF requires server-side processing.",
                    0.5%float)))
    with (@ret Step _ (Uploader.text Uploader.pdfPlaceholder,
                       Uploader.confidence Uploader.pdfPlaceholder)).
  rewrite bind_ret. cbn [fst snd].
  unfold Uploader.pdfStage.
  destruct (Uploader.headerLoads B file) eqn:Hloads;
    [|rewrite (extractPdfMetadata_hangs B file Hloads); reflexivity].
  rewrite (extractPdfMetadata_returns B file Hloads).
  fold (pdfAnalysisOf B file).
  change (@pair (list Step) _ [] (Returns (pdfAnalysisOf B file)))
    with (@ret Step _ (pdfAnalysisOf B file)).
  rewrite bind_ret.
  fold (pdfFound B file).
  destruct (Uploader.analyzeWithGemini B file _) as [l [g|msg|]];
    cbn [bind tryCatch ret app]; rewrite ?app_nil_r; reflexivity.
Qed.

(** The text the uploader has for a PDF matches neither text pattern: the
    findings of the PDF branch are those of the metadata analysis. *)
Lemma pdfFound_unfolded (B : Uploader.Browser) (file : File) :
  pdfFound B file
  = {| Uploader.foundAnomalies := snd (fst (Uploader.pdfHeuristic B file));
       Uploader.score := Uploader.clampScore (snd (Uploader.pdfHeuristic B file));
       Uploader.foundMetadata :=
         obj_set (str "OCR Confidence") (Uploader.percentLabel B 0.5)
           (obj_set (str "OCR Text Length") (str "52 characters")
              (fst (fst (Uploader.pdfHeuristic B file)))) |}.
Proof.
  unfold pdfFound, Uploader.pdfFindings.
  change (Uploader.text Uploader.pdfPlaceholder)
    with (80%N :: tl (Uploader.text Uploader.pdfPlaceholder)).
  cbv iota beta.
  change (80%N :: tl (Uploader.text Uploader.pdfPlaceholder))
    with (Uploader.text Uploader.pdfPlaceholder).
  rewrite applyTextPatterns_unrolled.
  replace (matchingDescriptions (Uploader.text Uploader.pdfPlaceholder))
    with (@nil jsstring) by (vm_compute; reflexivity).
  replace (testTerms (Uploader.text Uploader.pdfPlaceholder))
    with false by (vm_compute; reflexivity).
  replace (testDisclaimer (Uploader.text Uploader.pdfPlaceholder))
    with false by (vm_compute; reflexivity).
  replace (Uploader.charactersLabel (Uploader.text Uploader.pdfPlaceholder))
    with (str "52 characters") by (vm_compute; reflexivity).
  rewrite app_nil_r. reflexivity.
Qed.

(** The anomalies of the metadata analysis as a function of its flags. *)
Lemma pdfHeuristic_anomalies_shape (B : Uploader.Browser) (file : File) :
  exists creator producer missing,
    snd (fst (Uploader.pdfHeuristic B file))
    = pushIf missing (str "Document is missing most standard metadata fields")
        (pushIf producer (str "Document producer suggests AI generation")
           (pushIf creator (str "Document creator suggests AI generation")
              (pushIf (testSuspiciousName (Uploader.toLowerCase B (name file)))
                 (str "Document has a potentially suspicious filename")
                 (pushIf (negb (jsstring_eqb (type file) pdfType))
                    (str "File does not have the correct PDF MIME type")
                    (pushIf (negb (jsstring_eqb (header file) (str "%PDF-")))
                       (str "File does not have a valid PDF header")
                       (pushIf (size file <? 10000)%Z
                          (str "Unusually small file size for a PDF") [])))))).
Proof.
  unfold Uploader.pdfHeuristic, Uploader.contentChecks, Uploader.fileChecks.
  destruct (jsstring_eqb (header file) (str "%PDF-")).
  - destruct (content file) as [pdfContent|].
    + destruct (Uploader.extractField _ _ pdfContent _) as [m completed].
      destruct completed.
      * do 3 eexists. reflexivity.
      * exists false, false, false. reflexivity.
    + exists false, false, false. reflexivity.
  - exists false, false, false. reflexivity.
Qed.

(** Of the anomalies of the metadata analysis only the missing PDF header
    is critical. *)
Lemma critical_pdf_flags (small noHeader wrongType badName creator producer missing : bool) :
  existsb Uploader.critical
    (pushIf missing (str "Document is missing most standard metadata fields")
       (pushIf producer (str "Document producer suggests AI generation")
          (pushIf creator (str "Document creator suggests AI generation")
             (pushIf badName (str "Document has a potentially suspicious filename")
                (pushIf wrongType (str "File does not have the correct PDF MIME type")
                   (pushIf noHeader (str "File does not have a valid PDF header")
                      (pushIf small (str "Unusually small file size for a PDF") [])))))))
  = noHeader.
Proof.
  destruct small, noHeader, wrongType, badName, creator, producer, missing;
    vm_compute; reflexivity.
Qed.

Lemma critical_pdf_anomalies (B : Uploader.Browser) (file : File) :
  existsb Uploader.critical (snd (fst (Uploader.pdfHeuristic B file)))
  = negb (jsstring_eqb (header file) (str "%PDF-")).
Proof.
  destruct (pdfHeuristic_anomalies_shape B file) as (cr & pr & mi & ->).
  apply critical_pdf_flags.
Qed.

(** Of the anomalies of the Word branch only the extension mismatch is
    critical. *)
Lemma critical_word_flags (small badName mismatch : bool) :
  existsb Uploader.critical
    (pushIf mismatch (str "File extension doesn't match the actual file type")
       (pushIf badName (str "Document has a potentially suspicious filename")
          (pushIf small (str "Unusually small file size for a document") [])))
  = mismatch.
Proof. destruct small, badName, mismatch; vm_compute; reflexivity. Qed.

(** X4.  A file that is neither an image nor a PDF never leaves the browser: its
    processing takes no external step.  A Word document is flagged exactly
    when its extension contradicts its MIME type (a small size or a
    suspicious name lower the score but leave it safe); any other type is
    recorded as safe. *)
Theorem other_files_are_judged_in_the_browser (B : Uploader.Browser) (file : File) :
  startsWith (type file) (str "image/") = false ->
  type file <> pdfType ->
  exists u,
    Uploader.processFile B file = ([], Returns u)
    /\ (Uploader.isDocumentType (type file) = true ->
        Uploader.site u = Uploader.DocumentHeuristic
        /\ (Uploader.moderationStatus u = Uploader.Flagged
            <-> Uploader.hasTypeMismatch B file = true))
    /\ (Uploader.isDocumentType (type file) = false ->
        u = Uploader.unsupported file
        /\ Uploader.moderationStatus u = Uploader.Safe).
Proof.
  intros Himg Hpdf. apply jsstring_eqb_neq in Hpdf.
  unfold Uploader.processFile. rewrite Himg.
  destruct (Uploader.isDocumentType (type file)) eqn:Hdoc.
  - unfold Uploader.verifyDocument. rewrite Hpdf.
    eexists. split; [reflexivity|]. split; [|discriminate].
    intros _. split; [reflexivity|].
    unfold Uploader.localVerdict. cbn [Uploader.moderationStatus].
    unfold Uploader.documentHeuristic. cbn [Uploader.foundAnomalies].
    rewrite critical_word_flags.
    destruct (Uploader.hasTypeMismatch B file); split; congruence.
  - eexists. split; [reflexivity|]. split; [discriminate|].
    intros _. split; reflexivity.
Qed.

Lemma other_files_are_judged_in_the_browser_witness :
  exists u,
    Uploader.processFile Samples.browser Samples.wordFile = ([], Returns u)
    /\ Uploader.moderationStatus u = Uploader.Flagged.
Proof.
  destruct (other_files_are_judged_in_the_browser Samples.browser Samples.wordFile)
    as (u & Hrun & Hdoc & _).
  - vm_compute. reflexivity.
  - intros H. vm_compute in H. discriminate H.
  - exists u. split; [exact Hrun|].
    apply Hdoc; vm_compute; reflexivity.
Defined.

(** X5.  When the request for a PDF fails (the network, an HTTP error status, a
    body that is not JSON or that carries an error flag; the request is
    made once the header of the file is read), the PDF is judged by the
    uploader: the recorded verdict is built from the anomalies of
    the metadata analysis alone, since the text the uploader has for a PDF
    matches no text pattern, and the PDF is flagged exactly when its first
    five bytes are not [%PDF-]. *)
Theorem pdf_is_judged_locally_when_the_request_fails
        (B : Uploader.Browser) (file : File) (msg : jsstring) :
  type file = pdfType ->
  Uploader.headerLoads B file = true ->
  result (Uploader.analyzeWithGemini B file
            (Uploader.foundMetadata (pdfFound B file))) = Throws msg ->
  exists u,
    result (Uploader.processFile B file) = Returns u
    /\ Uploader.site u = Uploader.DocumentHeuristic
    /\ obj_get (str "detectedAnomalies") (Uploader.verificationDetails u)
       = Some (JArr (map JStr (snd (fst (Uploader.pdfHeuristic B file)))))
    /\ obj_get (str "confidenceScore") (Uploader.verificationDetails u)
       = Some (JNum (Uploader.clampScore
                       (Uploader.clampScore (snd (Uploader.pdfHeuristic B file)))))
    /\ (Uploader.moderationStatus u = Uploader.Flagged
        <-> header file <> str "%PDF-").
Proof.
  intros Htype Hloads Hfail. rewrite (processFile_pdf B file Htype), Hloads.
  destruct (Uploader.analyzeWithGemini B file _) as [l [g|m|]];
    simpl in Hfail; try discriminate Hfail.
  eexists. split; [reflexivity|]. split; [reflexivity|].
  rewrite pdfFound_unfolded.
  split; [reflexivity|]. split; [reflexivity|].
  unfold Uploader.localVerdict.
  cbn [Uploader.moderationStatus Uploader.foundAnomalies].
  rewrite critical_pdf_anomalies.
  destruct (jsstring_eqb (header file) (str "%PDF-")) eqn:E; simpl.
  - apply jsstring_eqb_eq in E. split; [discriminate|]. intros H. now elim H.
  - apply jsstring_eqb_neq in E. split; auto.
Qed.

Lemma pdf_is_judged_locally_when_the_request_fails_witness :
  exists u,
    result (Uploader.processFile Samples.faintBrowser Samples.renamedPdf) = Returns u
    /\ Uploader.moderationStatus u = Uploader.Flagged.
Proof.
  destruct (pdf_is_judged_locally_when_the_request_fails
              Samples.faintBrowser Samples.renamedPdf (str "Failed to fetch"))
    as (u & Hrun & _ & _ & _ & Hflag).
  - reflexivity.
  - reflexivity.
  - vm_compute. reflexivity.
  - exists u. split; [exact Hrun|].
    apply Hflag. intros H. vm_compute in H. discriminate H.
Defined.

Lemma result_bind {E A B : Type} (l : list E) (a : A) (k : A -> run E B) :
  result (bind (l, Returns a) k) = result (k a).
Proof. unfold bind, result. destruct (k a) as [l' o]. reflexivity. Qed.

Lemma analyzeWithGemini_request (B : Uploader.Browser) (file : File)
      (md : object jsstring) :
  Uploader.analyzeWithGemini B file md
  = bind (if Uploader.modelLoaded B && startsWith (type file) (str "image/")
          then Uploader.extractImageFeatures B file
          else ret [])
      (request B file md).
Proof. reflexivity. Qed.

Lemma readAnswer_steps (response : HttpResponse) :
  steps (readAnswer response) = [] /\ result (readAnswer response) <> Hangs.
Proof.
  unfold readAnswer.
  destruct (ok response); simpl; [|split; [reflexivity|discriminate]].
  destruct (bodyJson response) as [e|data]; simpl; [split; [reflexivity|discriminate]|].
  destruct (error data) as [[|]|]; simpl; try (split; [reflexivity|discriminate]);
    destruct (verification data); simpl; try (split; [reflexivity|discriminate]);
    destruct (jsstring_eqb (status data) _); split; (reflexivity || discriminate).
Qed.

Lemma readAnswer_withoutVerdict (response : HttpResponse) :
  withoutVerdict response ->
  readAnswer response
  = ret {| Uploader.isGenuine := Some (JBool true);
           Uploader.details := Uploader.skippedDetails |}.
Proof.
  intros (Hok & data & Hjson & Herr & Hnone).
  unfold readAnswer. rewrite Hok, Hjson. simpl.
  assert (He : match error data with Some true => true | _ => false end = false).
  { destruct (error data) as [[|]|]; try reflexivity. now elim Herr. }
  rewrite He.
  destruct (verification data) as [v|]; [|reflexivity].
  destruct Hnone as [Hnone|Hstatus]; [discriminate Hnone|].
  apply jsstring_eqb_neq in Hstatus. rewrite Hstatus. reflexivity.
Qed.

(** The request: its steps, and how it ends for each way [fetch] ends. *)
Lemma request_run (B : Uploader.Browser) (file : File) (md : object jsstring)
      (imageFeatures : list float) :
  let form := formFor B file imageFeatures md in
  steps (request B file md imageFeatures) = Fetch form :: steps (Uploader.fetch B form)
  /\ (forall msg, result (Uploader.fetch B form) = Throws msg ->
                  result (request B file md imageFeatures) = Throws msg)
  /\ (result (Uploader.fetch B form) = Hangs <->
      result (request B file md imageFeatures) = Hangs)
  /\ (forall response,
         result (Uploader.fetch B form) = Returns response ->
         result (request B file md imageFeatures) = result (readAnswer response)).
Proof.
  intros form. unfold request. fold form.
  destruct (Uploader.fetch B form) as [l [response|msg|]].
  - destruct (readAnswer_steps response) as [Hs Hr].
    unfold emit. rewrite !steps_bind, Hs, app_nil_r.
    split; [reflexivity|]. split; [discriminate|].
    rewrite !result_bind. split.
    + split; [discriminate|]. intros H. now elim Hr.
    + intros r H. injection H as <-. reflexivity.
  - split; [reflexivity|]. split; [intros m H; injection H as ->; reflexivity|].
    split; [split; discriminate|discriminate].
  - split; [reflexivity|]. split; [discriminate|].
    split; [split; reflexivity|discriminate].
Qed.

(** The classification that precedes the request. *)
Lemma analyzeWithGemini_run (B : Uploader.Browser) (file : File)
      (md : object jsstring) :
  decodable B file ->
  exists pre,
    (pre = [] \/ pre = [Classify file])
    /\ steps (Uploader.analyzeWithGemini B file md)
       = pre ++ steps (request B file md (featuresSent B file))
    /\ result (Uploader.analyzeWithGemini B file md)
       = result (request B file md (featuresSent B file)).
Proof.
  intros [Hdec _]. rewrite analyzeWithGemini_request.
  unfold featuresSent in *.
  destruct (Uploader.modelLoaded B) eqn:Hm;
    destruct (startsWith (type file) (str "image/")) eqn:Himg; cbn [andb].
  - rewrite extractImageFeatures_run, Hm, (Hdec eq_refl eq_refl). simpl negb.
    cbv iota. unfold imageFeaturesOf. rewrite Hm.
    exists [Classify file]. split; [auto|].
    rewrite steps_bind, result_bind. split; reflexivity.
  - rewrite bind_ret. exists []. auto.
  - rewrite bind_ret. exists []. auto.
  - rewrite bind_ret. exists []. auto.
Qed.

(** An image's processing: the text extraction, the request, and the
    update for each way the request ends. *)
Lemma processFile_image (B : Uploader.Browser) (file : File) :
  startsWith (type file) (str "image/") = true ->
  exists l ocr,
    Uploader.extractTextFromImage B file = (l, Returns ocr)
    /\ Uploader.processFile B file
       = match Uploader.analyzeWithGemini B file (imageMetadata B file ocr) with
         | (l', Returns g) =>
             (l ++ l',
              Returns (verified Uploader.ImageVerified g (imageMetadata B file ocr)
                         (Uploader.text ocr) (Uploader.confidence ocr)))
         | (l', Throws msg) => (l ++ l', Returns (Uploader.failed msg))
         | (l', Hangs) => (l ++ l', Hangs)
         end.
Proof.
  intros Himg.
  destruct (extractTextFromImage_returns B file) as (l & ocr & Hocr).
  exists l, ocr. split; [exact Hocr|].
  unfold Uploader.processFile. rewrite Himg.
  unfold Uploader.verifyImage. rewrite Hocr.
  cbn [bind]. cbv zeta.
  fold (imageMetadata B file ocr).
  destruct (Uploader.analyzeWithGemini B file (imageMetadata B file ocr))
    as [l' [g|msg|]]; cbn [bind tryCatch ret app]; rewrite ?app_nil_r; reflexivity.
Qed.

Lemma processFile_other (B : Uploader.Browser) (file : File) :
  startsWith (type file) (str "image/") = false ->
  type file <> pdfType ->
  exists u, Uploader.processFile B file = ([], Returns u).
Proof.
  intros Himg Hpdf. apply jsstring_eqb_neq in Hpdf.
  unfold Uploader.processFile. rewrite Himg.
  destruct (Uploader.isDocumentType (type file)).
  - unfold Uploader.verifyDocument. rewrite Hpdf. eexists. reflexivity.
  - eexists. reflexivity.
Qed.

(** X6.  The processing of a file never rejects: an error of any branch is
    recorded as a failed analysis.  It resolves with an update as soon as
    every request settles, the image decodes whenever the uploader has it
    classified, and the header of a PDF is read.  A PDF whose header
    cannot be read is never recorded: [readFileHeader] has no error
    handler, and the processing stays pending before any request is
    made. *)
Theorem file_processing_settles (B : Uploader.Browser) (file : File) :
  (forall msg, result (Uploader.processFile B file) <> Throws msg)
  /\ (decodable B file ->
      (forall form, result (Uploader.fetch B form) <> Hangs) ->
      exists u, result (Uploader.processFile B file) = Returns u)
  /\ (type file = pdfType ->
      Uploader.headerLoads B file = false ->
      Uploader.processFile B file = ([], Hangs)).
Proof.
  split; [|split].
  - intros msg. unfold Uploader.processFile.
    match goal with
    | |- context [tryCatch ?m _] => destruct m as [l [u|e|]]
    end; discriminate.
  - intros Hdec Hfetch.
    assert (Hreq : forall md,
               result (Uploader.analyzeWithGemini B file md) <> Hangs).
    { intros md.
      destruct (analyzeWithGemini_run B file md Hdec) as (pre & _ & _ & ->).
      destruct (request_run B file md (featuresSent B file)) as (_ & _ & Hh & _).
      intros H. apply Hh in H. now apply Hfetch in H. }
    destruct (startsWith (type file) (str "image/")) eqn:Himg.
    + destruct (processFile_image B file Himg) as (l & ocr & _ & ->).
      specialize (Hreq (imageMetadata B file ocr)).
      destruct (Uploader.analyzeWithGemini B file _) as [l' [g|msg|]];
        [eexists; reflexivity|eexists; reflexivity|now elim Hreq].
    + destruct (jsstring_eqb (type file) pdfType) eqn:Epdf.
      * apply jsstring_eqb_eq in Epdf.
        rewrite (processFile_pdf B file Epdf), (proj2 Hdec Epdf).
        specialize (Hreq (Uploader.foundMetadata (pdfFound B file))).
        destruct (Uploader.analyzeWithGemini B file _) as [l' [g|msg|]];
          [eexists; reflexivity|eexists; reflexivity|now elim Hreq].
      * apply jsstring_eqb_neq in Epdf.
        destruct (processFile_other B file Himg Epdf) as (u & ->).
        exists u. reflexivity.
  - intros Epdf Hloads. rewrite (processFile_pdf B file Epdf), Hloads.
    reflexivity.
Qed.

(** X7.  With the model loaded, an image the browser cannot decode is never
    recorded: the text extraction answers its error with the fallback text,
    the feature extraction then waits for a load event that does not come,
    and the processing neither resolves nor takes any external step. *)
Theorem undecodable_image_is_never_recorded (B : Uploader.Browser) (file : File) :
  Uploader.modelLoaded B = true ->
  startsWith (type file) (str "image/") = true ->
  Uploader.imageLoads B file = false ->
  Uploader.extractTextFromImage B file = ([], Returns Uploader.extractionFailed)
  /\ Uploader.processFile B file = ([], Hangs).
Proof.
  intros Hm Himg Hload.
  assert (Hocr : Uploader.extractTextFromImage B file
                 = ([], Returns Uploader.extractionFailed)).
  { unfold Uploader.extractTextFromImage, Uploader.extractTextFromImage_try.
    destruct (image_type_is_not_a_document _ Himg) as [-> _].
    rewrite Hload. reflexivity. }
  split; [exact Hocr|].
  destruct (processFile_image B file Himg) as (l & ocr & Hocr' & ->).
  rewrite Hocr in Hocr'. injection Hocr' as <- <-.
  rewrite analyzeWithGemini_request, Hm, Himg.
  rewrite extractImageFeatures_run, Hm, Hload. reflexivity.
Qed.

Lemma undecodable_image_is_never_recorded_witness :
  Uploader.extractTextFromImage Cases.blindBrowser Samples.photo
  = ([], Returns Uploader.extractionFailed)
  /\ Uploader.processFile Cases.blindBrowser Samples.photo = ([], Hangs).
Proof.
  apply (undecodable_image_is_never_recorded Cases.blindBrowser Samples.photo);
    reflexivity.
Defined.

(** X8.  When the request for an image is rejected, the image is recorded as a
    failed analysis: flagged, with confidence 0 and the error's message in
    the explanation. *)
Theorem failed_image_request_is_recorded_as_failed
        (B : Uploader.Browser) (file : File) (msg : jsstring) :
  startsWith (type file) (str "image/") = true ->
  decodable B file ->
  (forall form, result (Uploader.fetch B form) = Throws msg) ->
  exists u,
    result (Uploader.processFile B file) = Returns u
    /\ Uploader.site u = Uploader.AnalysisFailed
    /\ Uploader.moderationStatus u = Uploader.Flagged
    /\ obj_get (str "confidenceScore") (Uploader.verificationDetails u)
       = Some (JNum 0)
    /\ obj_get (str "analysisExplanation") (Uploader.verificationDetails u)
       = Some (JStr (str "Error analyzing document: " ++ msg)).
Proof.
  intros Himg Hdec Hfetch.
  destruct (processFile_image B file Himg) as (l & ocr & _ & ->).
  destruct (analyzeWithGemini_run B file (imageMetadata B file ocr) Hdec)
    as (pre & _ & _ & Hres).
  destruct (request_run B file (imageMetadata B file ocr) (featuresSent B file))
    as (_ & Hthrow & _ & _).
  rewrite (Hthrow msg (Hfetch _)) in Hres.
  destruct (Uploader.analyzeWithGemini B file _) as [l' [g|m|]];
    simpl in Hres; try discriminate Hres.
  injection Hres as ->.
  eexists. split; [reflexivity|]. repeat split; reflexivity.
Qed.

Lemma failed_image_request_is_recorded_as_failed_witness :
  exists u,
    result (Uploader.processFile Samples.faintBrowser Samples.photo) = Returns u
    /\ Uploader.moderationStatus u = Uploader.Flagged
    /\ obj_get (str "analysisExplanation") (Uploader.verificationDetails u)
       = Some (JStr (str "Error analyzing document: Failed to fetch")).
Proof.
  destruct (failed_image_request_is_recorded_as_failed
              Samples.faintBrowser Samples.photo (str "Failed to fetch"))
    as (u & Hrun & _ & Hflag & _ & Hwhy).
  - reflexivity.
  - split; intros H; discriminate H.
  - intros form. reflexivity.
  - exists u. repeat split; assumption.
Defined.

(** X9.  An answer of the route without verdict counts as genuine: when the
    response is successful and carries no error flag, but no verification
    or a status other than [success], an image or a PDF is recorded as
    safe, with confidence 1. *)
Theorem missing_verdict_counts_as_genuine (B : Uploader.Browser) (file : File) :
  startsWith (type file) (str "image/") = true \/ type file = pdfType ->
  decodable B file ->
  (forall form, exists response,
      result (Uploader.fetch B form) = Returns response
      /\ withoutVerdict response) ->
  exists u,
    result (Uploader.processFile B file) = Returns u
    /\ (Uploader.site u = Uploader.ImageVerified
        \/ Uploader.site u = Uploader.PdfVerified)
    /\ Uploader.moderationStatus u = Uploader.Safe
    /\ obj_get (str "isLikelyGenuine") (Uploader.verificationDetails u)
       = Some (JBool true)
    /\ obj_get (str "confidenceScore") (Uploader.verificationDetails u)
       = Some (JNum 1)
    /\ obj_get (str "analysisExplanation") (Uploader.verificationDetails u)
       = Some (JStr (str "Verification skipped or failed")).
Proof.
  intros Htype Hdec Hfetch.
  assert (Hreq : forall md,
             result (Uploader.analyzeWithGemini B file md)
             = Returns {| Uploader.isGenuine := Some (JBool true);
                          Uploader.details := Uploader.skippedDetails |}).
  { intros md.
    destruct (analyzeWithGemini_run B file md Hdec) as (pre & _ & _ & ->).
    destruct (request_run B file md (featuresSent B file)) as (_ & _ & _ & Hr).
    destruct (Hfetch (formFor B file (featuresSent B file) md))
      as (response & Hresp & Hnone).
    rewrite (Hr response Hresp), (readAnswer_withoutVerdict response Hnone).
    reflexivity. }
  destruct Htype as [Himg|Hpdf].
  - destruct (processFile_image B file Himg) as (l & ocr & _ & ->).
    specialize (Hreq (imageMetadata B file ocr)).
    destruct (Uploader.analyzeWithGemini B file _) as [l' [g|m|]];
      simpl in Hreq; try discriminate Hreq.
    injection Hreq as ->.
    eexists. split; [reflexivity|]. split; [left; reflexivity|].
    repeat split; reflexivity.
  - rewrite (processFile_pdf B file Hpdf), (proj2 Hdec Hpdf).
    specialize (Hreq (Uploader.foundMetadata (pdfFound B file))).
    destruct (Uploader.analyzeWithGemini B file _) as [l' [g|m|]];
      simpl in Hreq; try discriminate Hreq.
    injection Hreq as ->.
    eexists. split; [reflexivity|]. split; [right; reflexivity|].
    repeat split; reflexivity.
Qed.

Lemma missing_verdict_counts_as_genuine_witness :
  exists u,
    result (Uploader.processFile Cases.unansweredBrowser Samples.photo) = Returns u
    /\ Uploader.moderationStatus u = Uploader.Safe
    /\ obj_get (str "confidenceScore") (Uploader.verificationDetails u)
       = Some (JNum 1).
Proof.
  destruct (missing_verdict_counts_as_genuine Cases.unansweredBrowser Samples.photo)
    as (u & Hrun & _ & Hsafe & _ & Hscore & _).
  - left. reflexivity.
  - split; intros H; discriminate H.
  - intros form. eexists. split; [reflexivity|].
    split; [reflexivity|]. eexists. split; [reflexivity|].
    split; [discriminate|]. left. reflexivity.
  - exists u. repeat split; assumption.
Defined.

(** A text of ASCII characters has one byte per code unit. *)
Lemma utf8Length_ascii (s : jsstring) :
  Forall (fun c => (c < 128)%N) s -> utf8Length s = length s.
Proof.
  induction 1 as [|c s' Hc _ IH]; [reflexivity|].
  cbn [utf8Length length]. apply N.ltb_lt in Hc. rewrite Hc, IH. reflexivity.
Qed.

(** X10.  A PDF whose header cannot be read is never sent: its processing
    takes no step and does not settle.  A PDF whose header is read is sent
    without image features, the request being the first external step of
    its processing; above 500000 bytes the file itself is not sent: the
    request carries, under the file's name and with the type
    application/json, the JSON description of the file, whose size is the
    number of bytes of that text in UTF-8 (its length when the text is
    ASCII). *)
Theorem large_pdf_is_sent_as_a_description (B : Uploader.Browser) (file : File) :
  type file = pdfType ->
  (Uploader.headerLoads B file = false ->
   Uploader.processFile B file = ([], Hangs))
  /\ (Uploader.headerLoads B file = true ->
      exists form,
        steps (Uploader.processFile B file)
        = Fetch form :: steps (Uploader.fetch B form)
        /\ features form = None
        /\ ((size file <= 500000)%Z -> image form = Some file)
        /\ ((500000 < size file)%Z ->
            exists description,
              image form = Some description
              /\ name description = name file
              /\ type description = str "application/json"
              /\ content description = Some (Uploader.stringifyFileInfo file)
              /\ size description
                 = Z.of_nat (utf8Length (Uploader.stringifyFileInfo file))
              /\ (Forall (fun c => (c < 128)%N) (Uploader.stringifyFileInfo file) ->
                  size description
                  = Z.of_nat (length (Uploader.stringifyFileInfo file))))).
Proof.
  intros Hpdf.
  assert (Epdf : jsstring_eqb (type file) pdfType = true)
    by (apply jsstring_eqb_eq; exact Hpdf).
  assert (Himg : startsWith (type file) (str "image/") = false)
    by (rewrite Hpdf; reflexivity).
  rewrite (processFile_pdf B file Hpdf).
  split; intros Hloads; rewrite Hloads; [reflexivity|].
  set (md := Uploader.foundMetadata (pdfFound B file)).
  destruct (analyzeWithGemini_document B file md Himg) as (Hsteps & _ & _).
  exists (formFor B file [] md).
  split.
  - rewrite <- Hsteps.
    destruct (Uploader.analyzeWithGemini B file md) as [l [g|m|]]; reflexivity.
  - split; [reflexivity|]. unfold formFor. cbn [image]. rewrite Epdf. split.
    + intros Hle. apply Z.ltb_ge in Hle. rewrite Hle. reflexivity.
    + intros Hgt. apply Z.ltb_lt in Hgt. rewrite Hgt.
      eexists. split; [reflexivity|].
      repeat (split; [reflexivity|]).
      intros Hascii. unfold Uploader.metadataFile. cbn [size].
      rewrite (utf8Length_ascii _ Hascii). reflexivity.
Qed.

Lemma large_pdf_is_sent_as_a_description_witness :
  exists form description,
    steps (Uploader.processFile Samples.browser Cases.accentedPdf)
    = Fetch form :: steps (Uploader.fetch Samples.browser form)
    /\ image form = Some description
    /\ type description = str "application/json"
    /\ length (Uploader.stringifyFileInfo Cases.accentedPdf) = 85
    /\ size description = 87%Z.
Proof.
  destruct (large_pdf_is_sent_as_a_description Samples.browser Cases.accentedPdf)
    as (_ & Hsent).
  - reflexivity.
  - destruct Hsent as (form & Hsteps & _ & _ & Hlarge).
    + reflexivity.
    + destruct Hlarge as (description & Himage & _ & Htype & _ & Hsize & _).
      * vm_compute. reflexivity.
      * exists form, description.
        split; [exact Hsteps|]. split; [exact Himage|]. split; [exact Htype|].
        split; [vm_compute; reflexivity|].
        rewrite Hsize. vm_compute. reflexivity.
Defined.

(* ================================================================== *)
(** * Text patterns *)
(* ================================================================== *)

(** The request of a file that is verified with the route is one of the
    steps of its processing. *)
Lemma verified_request_is_sent (B : Uploader.Browser) (file : File) :
  decodable B file ->
  (startsWith (type file) (str "image/") = true ->
   forall l ocr,
     Uploader.extractTextFromImage B file = (l, Returns ocr) ->
     In (Fetch (formFor B file (featuresSent B file) (imageMetadata B file ocr)))
        (steps (Uploader.processFile B file)))
  /\ (type file = pdfType ->
      In (Fetch (formFor B file (featuresSent B file)
                   (Uploader.foundMetadata (pdfFound B file))))
         (steps (Uploader.processFile B file))).
Proof.
  intros Hdec.
  assert (Hsent : forall md,
             In (Fetch (formFor B file (featuresSent B file) md))
                (steps (Uploader.analyzeWithGemini B file md))).
  { intros md.
    destruct (analyzeWithGemini_run B file md Hdec) as (pre & _ & -> & _).
    apply in_or_app. right. unfold request. apply in_steps_bind. left. reflexivity. }
  split.
  - intros Himg l ocr Hocr.
    destruct (processFile_image B file Himg) as (l0 & ocr0 & Hocr0 & ->).
    rewrite Hocr in Hocr0. injection Hocr0 as <- <-.
    specialize (Hsent (imageMetadata B file ocr)).
    destruct (Uploader.analyzeWithGemini B file (imageMetadata B file ocr))
      as [l' [g|msg|]]; cbn [steps fst] in *; apply in_or_app; right; exact Hsent.
  - intros Hpdf. rewrite (processFile_pdf B file Hpdf), (proj2 Hdec Hpdf).
    specialize (Hsent (Uploader.foundMetadata (pdfFound B file))).
    destruct (Uploader.analyzeWithGemini B file _) as [l' [g|msg|]]; exact Hsent.
Qed.

(** C7.  The two text patterns are checked in turn and each match records
    its fixed description.  The image branch collects the descriptions of
    the matching patterns in that order; for an image the browser decodes
    they are, when there is one, joined into the entry [Text Anomalies] of
    the metadata, which is sent to the route in every such run and is
    recorded with the verdict whenever the request yields one.  The PDF
    branch appends them to the anomalies of the metadata analysis and
    takes 0.2 off the score for each match; the text it checks in a run is
    the fixed text the uploader has for every PDF, which matches neither
    pattern. *)
Theorem text_patterns_are_recorded (B : Uploader.Browser) :
  let descriptions (t : jsstring) : list jsstring :=
    (if testTerms t
     then [str "Contains terms like 'fake', 'copy', 'specimen'"] else [])
    ++ (if testDisclaimer t
        then [str "Contains disclaimers like 'not valid'"] else []) in
  (forall t, Uploader.textAnomalies t = descriptions t)
  /\ (forall file,
         startsWith (type file) (str "image/") = true ->
         decodable B file ->
         exists l ocr,
           Uploader.extractTextFromImage B file = (l, Returns ocr)
           /\ exists md,
               obj_get (str "Text Anomalies") md
               = match descriptions (Uploader.text ocr) with
                 | [] => None
                 | found => Some (join (str ", ") found)
                 end
               /\ (exists form,
                      In (Fetch form) (steps (Uploader.processFile B file))
                      /\ metadata form = Some (stringifyRecord md))
               /\ (forall g,
                      result (Uploader.analyzeWithGemini B file md) = Returns g ->
                      exists u,
                        result (Uploader.processFile B file) = Returns u
                        /\ Uploader.site u = Uploader.ImageVerified
                        /\ obj_get (str "metadata") (Uploader.verificationDetails u)
                           = Some (jsonOfRecord md)))
  /\ (forall (a : Uploader.PdfAnalysis) (t : jsstring) (c : float),
         Uploader.foundAnomalies (Uploader.pdfFindings B a t c)
         = Uploader.anomalies a ++ descriptions t
         /\ Uploader.score (Uploader.pdfFindings B a t c)
            = penalise (testDisclaimer t) 0.2
                (penalise (testTerms t) 0.2 (Uploader.confidenceScore a)))
  /\ (forall file,
         type file = pdfType ->
         Uploader.extractTextFromImage B file
         = ([], Returns
                  {| Uploader.text :=
                       str "PDF text extraction requires server-side processing.";
                     Uploader.confidence := 0.5 |})
         /\ descriptions (str "PDF text extraction requires server-side processing.")
            = []).
Proof.
  intros descriptions.
  assert (Hloop : forall t, Uploader.textAnomalies t = descriptions t)
    by exact textAnomalies_unrolled.
  split; [exact Hloop|]. split; [|split].
  - intros file Himg Hdec.
    destruct (processFile_image B file Himg) as (l & ocr & Hocr & Hrun).
    exists l, ocr. split; [exact Hocr|].
    exists (imageMetadata B file ocr).
    assert (Hmd : imageMetadata B file ocr
                  = let metadata :=
                      [(str "File Name", name file);
                       (str "File Size", Uploader.sizeLabel file);
                       (str "File Type", type file);
                       (str "OCR Text Length",
                        Uploader.charactersLabel (Uploader.text ocr));
                       (str "OCR Confidence",
                        Uploader.percentLabel B (Uploader.confidence ocr))] in
                    match descriptions (Uploader.text ocr) with
                    | [] => metadata
                    | found =>
                        metadata ++ [(str "Text Anomalies", join (str ", ") found)]
                    end).
    { unfold imageMetadata. cbv zeta. rewrite Hloop.
      destruct (descriptions (Uploader.text ocr)); reflexivity. }
    split; [|split].
    + rewrite Hmd. cbv zeta.
      destruct (descriptions (Uploader.text ocr)); reflexivity.
    + exists (formFor B file (featuresSent B file) (imageMetadata B file ocr)).
      split.
      * apply (proj1 (verified_request_is_sent B file Hdec) Himg l ocr Hocr).
      * unfold formFor. cbn [metadata]. rewrite Hmd. cbv zeta.
        destruct (descriptions (Uploader.text ocr)); reflexivity.
    + intros g Hg. rewrite Hrun.
      destruct (Uploader.analyzeWithGemini B file (imageMetadata B file ocr))
        as [l' [g'|msg|]]; simpl in Hg; try discriminate Hg.
      injection Hg as ->.
      eexists. split; [reflexivity|]. split; [reflexivity|].
      unfold verified. cbn [Uploader.verificationDetails].
      unfold obj_extend. cbn [fold_left fst snd].
      rewrite !obj_get_set_other by reflexivity.
      apply obj_get_set_same.
  - intros a t c. unfold Uploader.pdfFindings. destruct t as [|ch t].
    + cbn [Uploader.foundAnomalies Uploader.score]. unfold descriptions.
      cbn. rewrite app_nil_r. split; reflexivity.
    + rewrite applyTextPatterns_unrolled.
      cbn [Uploader.foundAnomalies Uploader.score]. split; reflexivity.
  - intros file Hpdf. split; [|reflexivity].
    unfold Uploader.extractTextFromImage, Uploader.extractTextFromImage_try.
    rewrite Hpdf. reflexivity.
Qed.

(** On the sample photograph the OCR engine reads a specimen notice, which
    matches both patterns: both descriptions are recorded with the verdict,
    in the order of the pattern table. *)
Lemma text_patterns_are_recorded_witness :
  exists u md,
    result (Uploader.processFile Cases.specimenBrowser Samples.photo) = Returns u
    /\ Uploader.site u = Uploader.ImageVerified
    /\ obj_get (str "metadata") (Uploader.verificationDetails u)
       = Some (jsonOfRecord md)
    /\ obj_get (str "Text Anomalies") md
       = Some (str "Contains terms like 'fake', 'copy', 'specimen', Contains disclaimers like 'not valid'").
Proof.
  destruct (text_patterns_are_recorded Cases.specimenBrowser)
    as (_ & Himage & _ & _).
  destruct (Himage Samples.photo) as (l & ocr & Hocr & md & Hentry & _ & Hrecorded).
  - reflexivity.
  - split; intros H; try discriminate H. intros _. reflexivity.
  - vm_compute in Hocr. injection Hocr as <- <-.
    cbn [Uploader.text] in Hentry.
    assert (Hg : exists g,
               result (Uploader.analyzeWithGemini Cases.specimenBrowser Samples.photo md)
               = Returns g).
    { destruct (analyzeWithGemini_run Cases.specimenBrowser Samples.photo md)
        as (pre & _ & _ & ->).
      - split; intros H; try discriminate H. intros _. reflexivity.
      - unfold request. cbn [Uploader.fetch Cases.specimenBrowser].
        unfold Pipeline.routeFetch. rewrite POST_run.
        cbn. eexists. reflexivity. }
    destruct Hg as (g & Hg).
    destruct (Hrecorded g Hg) as (u & Hrun & Hsite & Hmeta).
    exists u, md. split; [exact Hrun|]. split; [exact Hsite|].
    split; [exact Hmeta|]. exact Hentry.
Defined.

(* ================================================================== *)
(** * The uploader served by the route: verdicts without the model *)
(* ================================================================== *)






Lemma timed_out_call_is_reported_as_connection_issue_witness :
  exists v,
    result (GeminiRoute.analyzeWithGemini Cases.slowServer (str "image/png")
              (str "Sample extracted text from document") [] []) = Returns v
    /\ obj_get (str "analysisExplanation") v
       = Some (JStr (GeminiRoute.mockPrefix ++ str "API connection issue")).
Proof.
  destruct (timed_out_call_is_reported_as_connection_issue Cases.slowServer
              (str "image/png") (str "Sample extracted text from document") [] [])
    as (v & Hrun & Hwhy & _); try reflexivity.
  exists v. split; assumption.
Defined.




(* ================================================================== *)
(** * The admin routes: grants, failures and the listing *)
(* ================================================================== *)

(** The [make-admin] route once the caller is a verified administrator. *)
Lemma POST_of_admin (F : AdminRoutes.Firebase) (request : AdminRoutes.Request)
      (userId : jsstring) :
  headerAccepted request = true ->
  AdminRoutes.verifyIdToken F (bearerToken request) = inr userId ->
  recordedAdmin F userId = true ->
  let checks := [AdminRoutes.VerifyIdToken (bearerToken request);
                 AdminRoutes.ReadUserDocument userId] in
  AdminRoutes.POST F request
  = match AdminRoutes.jsonBody request with
    | inl _ => (checks, Returns AdminRoutes.internalError)
    | inr parsed =>
        match AdminRoutes.targetOf parsed with
        | inl _ => (checks, Returns AdminRoutes.internalError)
        | inr None =>
            (checks, Returns (AdminRoutes.respond 400 (str "Target user ID is required")))
        | inr (Some target) =>
            if truthy target then
              match AdminRoutes.getUser F target with
              | inl _ =>
                  (checks ++ [AdminRoutes.GetUser target],
                   Returns (AdminRoutes.respond 404 (str "User not found")))
              | inr _ =>
                  (checks ++ [AdminRoutes.GetUser target;
                              AdminRoutes.GrantAdmin target
                                (AdminRoutes.isoTime request) userId],
                   Returns
                     match AdminRoutes.setAdmin F target with
                     | inl _ => AdminRoutes.internalError
                     | inr _ =>
                         {| AdminRoutes.statusCode := 200;
                            AdminRoutes.payload :=
                              AdminRoutes.SuccessPayload
                                (str "User has been granted admin privileges") |}
                     end)
              end
            else
              (checks, Returns (AdminRoutes.respond 400 (str "Target user ID is required")))
        end
    end.
Proof.
  intros Hh Hv Hadm checks. subst checks.
  unfold AdminRoutes.POST.
  rewrite (authorize_checks_token F request Hh), Hv, Hadm.
  destruct (AdminRoutes.jsonBody request) as [e|parsed]; [reflexivity|].
  cbn [lift bind ret app].
  destruct (AdminRoutes.targetOf parsed) as [e|[target|]]; try reflexivity.
  cbn [lift bind ret app].
  destruct (truthy target); [|reflexivity].
  destruct (AdminRoutes.getUser F target) as [e|account]; [reflexivity|].
  destruct (AdminRoutes.setAdmin F target) as [e|[]]; reflexivity.
Qed.

(** The [make-admin] route before that: a header that is not accepted, a
    token that is not verified, a caller who is not an administrator. *)
Lemma POST_of_others (F : AdminRoutes.Firebase) (request : AdminRoutes.Request) :
  (headerAccepted request = false ->
   AdminRoutes.POST F request = ([], Returns unauthorized))
  /\ (forall e,
         headerAccepted request = true ->
         AdminRoutes.verifyIdToken F (bearerToken request) = inl e ->
         AdminRoutes.POST F request
         = ([AdminRoutes.VerifyIdToken (bearerToken request)],
            Returns AdminRoutes.internalError))
  /\ (forall userId,
         headerAccepted request = true ->
         AdminRoutes.verifyIdToken F (bearerToken request) = inr userId ->
         recordedAdmin F userId = false ->
         AdminRoutes.POST F request
         = ([AdminRoutes.VerifyIdToken (bearerToken request);
             AdminRoutes.ReadUserDocument userId],
            Returns forbidden)).
Proof.
  unfold AdminRoutes.POST. split; [|split].
  - intros Hh. rewrite (authorize_rejects_header F request Hh). reflexivity.
  - intros e Hh Hv. rewrite (authorize_checks_token F request Hh), Hv. reflexivity.
  - intros userId Hh Hv Hadm.
    rewrite (authorize_checks_token F request Hh), Hv, Hadm. reflexivity.
Qed.

(** X13.  The [make-admin] route answers 200 exactly when every check passes: the
    header is accepted, the token is verified, the caller is a recorded
    administrator, the body names a truthy target that the identity
    provider knows, and the write succeeds.  Its steps are then the four
    calls in order, and the grant carries the target, the time of the
    request and the caller's user id. *)
Theorem grant_is_made_exactly_when_every_check_passes
        (F : AdminRoutes.Firebase) (request : AdminRoutes.Request) :
  ((exists r, result (AdminRoutes.POST F request) = Returns r
              /\ AdminRoutes.statusCode r = 200)
   <-> exists userId target, grantPasses F request userId target)
  /\ forall userId target,
      grantPasses F request userId target ->
      AdminRoutes.POST F request
      = ([AdminRoutes.VerifyIdToken (bearerToken request);
          AdminRoutes.ReadUserDocument userId;
          AdminRoutes.GetUser target;
          AdminRoutes.GrantAdmin target (AdminRoutes.isoTime request) userId],
         Returns {| AdminRoutes.statusCode := 200;
                    AdminRoutes.payload :=
                      AdminRoutes.SuccessPayload
                        (str "User has been granted admin privileges") |}).
Proof.
  assert (Hrun : forall userId target,
             grantPasses F request userId target ->
             AdminRoutes.POST F request
             = ([AdminRoutes.VerifyIdToken (bearerToken request);
                 AdminRoutes.ReadUserDocument userId;
                 AdminRoutes.GetUser target;
                 AdminRoutes.GrantAdmin target (AdminRoutes.isoTime request) userId],
                Returns {| AdminRoutes.statusCode := 200;
                           AdminRoutes.payload :=
                             AdminRoutes.SuccessPayload
                               (str "User has been granted admin privileges") |})).
  { intros userId target (Hh & Hv & Hadm & (parsed & Hbody & Ht) & Htruthy
                          & (account & Hget) & Hset).
    rewrite (POST_of_admin F request userId Hh Hv Hadm).
    rewrite Hbody, Ht, Htruthy, Hget, Hset. reflexivity. }
  split; [|exact Hrun]. split.
  - intros (r & Hres & H200).
    destruct (POST_of_others F request) as (H401 & H500 & H403).
    destruct (headerAccepted request) eqn:Hh;
      [|rewrite (H401 eq_refl) in Hres; injection Hres as <-; discriminate H200].
    destruct (AdminRoutes.verifyIdToken F (bearerToken request)) as [e|userId] eqn:Hv;
      [rewrite (H500 e eq_refl eq_refl) in Hres; injection Hres as <-;
       discriminate H200|].
    destruct (recordedAdmin F userId) eqn:Hadm;
      [|rewrite (H403 userId eq_refl eq_refl Hadm) in Hres; injection Hres as <-;
        discriminate H200].
    rewrite (POST_of_admin F request userId Hh Hv Hadm) in Hres.
    destruct (AdminRoutes.jsonBody request) as [e|parsed] eqn:Hbody;
      [injection Hres as <-; discriminate H200|].
    destruct (AdminRoutes.targetOf parsed) as [e|[target|]] eqn:Ht;
      try (injection Hres as <-; discriminate H200).
    destruct (truthy target) eqn:Htruthy;
      [|injection Hres as <-; discriminate H200].
    destruct (AdminRoutes.getUser F target) as [e|account] eqn:Hget;
      [injection Hres as <-; discriminate H200|].
    destruct (AdminRoutes.setAdmin F target) as [e|[]] eqn:Hset;
      [injection Hres as <-; discriminate H200|].
    exists userId, target. unfold grantPasses.
    repeat split; eauto.
  - intros (userId & target & Hpass).
    rewrite (Hrun userId target Hpass). eexists. split; reflexivity.
Qed.

(** X14.  A call that fails is answered with 500 [Internal server error],
    whatever failed: a token the identity provider rejects is not answered
    with 401, and a body that is not JSON, or is [null], not with 400.  A
    failed write is answered 500 after the grant has been attempted. *)
Theorem failed_calls_are_internal_errors
        (F : AdminRoutes.Firebase) (request : AdminRoutes.Request) :
  (forall e,
      headerAccepted request = true ->
      AdminRoutes.verifyIdToken F (bearerToken request) = inl e ->
      AdminRoutes.GET F request
      = ([AdminRoutes.VerifyIdToken (bearerToken request)],
         Returns AdminRoutes.internalError)
      /\ AdminRoutes.POST F request
         = ([AdminRoutes.VerifyIdToken (bearerToken request)],
            Returns AdminRoutes.internalError))
  /\ (forall userId,
         headerAccepted request = true ->
         AdminRoutes.verifyIdToken F (bearerToken request) = inr userId ->
         recordedAdmin F userId = true ->
         ((exists e, AdminRoutes.listUsers F = inl e)
          \/ (exists e, AdminRoutes.usersCollection F = inl e) ->
          result (AdminRoutes.GET F request) = Returns AdminRoutes.internalError)
         /\ ((exists e, AdminRoutes.jsonBody request = inl e)
             \/ AdminRoutes.jsonBody request = inr JNull ->
             AdminRoutes.POST F request
             = ([AdminRoutes.VerifyIdToken (bearerToken request);
                 AdminRoutes.ReadUserDocument userId],
                Returns AdminRoutes.internalError))
         /\ (forall parsed target account e,
                AdminRoutes.jsonBody request = inr parsed ->
                AdminRoutes.targetOf parsed = inr (Some target) ->
                truthy target = true ->
                AdminRoutes.getUser F target = inr account ->
                AdminRoutes.setAdmin F target = inl e ->
                result (AdminRoutes.POST F request) = Returns AdminRoutes.internalError
                /\ In (AdminRoutes.GrantAdmin target (AdminRoutes.isoTime request) userId)
                      (steps (AdminRoutes.POST F request)))).
Proof.
  split.
  - intros e Hh Hv. split.
    + unfold AdminRoutes.GET.
      rewrite (authorize_checks_token F request Hh), Hv. reflexivity.
    + destruct (POST_of_others F request) as (_ & H500 & _). exact (H500 e Hh Hv).
  - intros userId Hh Hv Hadm. split; [|split].
    + intros Hfail. unfold AdminRoutes.GET.
      rewrite (authorize_checks_token F request Hh), Hv, Hadm.
      cbn [bind ret emit app].
      destruct (AdminRoutes.listUsers F) as [e|accounts].
      * reflexivity.
      * destruct Hfail as [[e He]|[e He]]; [discriminate He|].
        rewrite He. reflexivity.
    + intros Hbody. rewrite (POST_of_admin F request userId Hh Hv Hadm).
      destruct Hbody as [[e ->]| ->]; reflexivity.
    + intros parsed target account e Hbody Ht Htruthy Hget Hset.
      rewrite (POST_of_admin F request userId Hh Hv Hadm).
      rewrite Hbody, Ht, Htruthy, Hget, Hset. split; [reflexivity|].
      simpl. auto.
Qed.

Lemma grant_is_made_exactly_when_every_check_passes_witness :
  AdminRoutes.POST Samples.firebase
    (Samples.adminRequest (Some (str "Bearer token-of-admin1"))
       (Samples.target (str "user1")))
  = ([AdminRoutes.VerifyIdToken (str "token-of-admin1");
      AdminRoutes.ReadUserDocument (str "admin1");
      AdminRoutes.GetUser (JStr (str "user1"));
      AdminRoutes.GrantAdmin (JStr (str "user1")) (str "2024-01-01T00:00:00.000Z")
        (str "admin1")],
     Returns {| AdminRoutes.statusCode := 200;
                AdminRoutes.payload :=
                  AdminRoutes.SuccessPayload
                    (str "User has been granted admin privileges") |}).
Proof.
  apply (proj2 (grant_is_made_exactly_when_every_check_passes Samples.firebase
                  (Samples.adminRequest (Some (str "Bearer token-of-admin1"))
                     (Samples.target (str "user1"))))
           (str "admin1") (JStr (str "user1"))).
  unfold grantPasses.
  split; [reflexivity|]. split; [reflexivity|]. split; [reflexivity|].
  split; [eexists; split; reflexivity|]. split; [reflexivity|].
  split; [eexists; reflexivity|reflexivity].
Defined.

(** X15.  The [users] route lists the accounts of the identity provider, in its
    order and each exactly once, whatever the database holds: an account
    comes with the data of a Firestore document with its user id, or with
    none when there is no such document, and a document without account is
    not listed. *)
Theorem users_are_listed_with_their_documents
        (F : AdminRoutes.Firebase) (request : AdminRoutes.Request)
        (userId : jsstring) (accounts : list AdminRoutes.UserRecord)
        (documents : list (jsstring * object json)) :
  headerAccepted request = true ->
  AdminRoutes.verifyIdToken F (bearerToken request) = inr userId ->
  recordedAdmin F userId = true ->
  AdminRoutes.listUsers F = inr accounts ->
  AdminRoutes.usersCollection F = inr documents ->
  exists listed,
    AdminRoutes.GET F request
    = ([AdminRoutes.VerifyIdToken (bearerToken request);
        AdminRoutes.ReadUserDocument userId;
        AdminRoutes.ListUsers;
        AdminRoutes.ReadUsersCollection],
       Returns {| AdminRoutes.statusCode := 200;
                  AdminRoutes.payload := AdminRoutes.UsersPayload listed |})
    /\ map fst listed = accounts
    /\ forall account data,
        In (account, data) listed ->
        In (AdminRoutes.uid account, data) documents
        \/ (data = []
            /\ forall document,
                In document documents -> fst document <> AdminRoutes.uid account).
Proof.
  intros Hh Hv Hadm Hlist Hdocs.
  unfold AdminRoutes.GET.
  rewrite (authorize_checks_token F request Hh), Hv, Hadm, Hlist, Hdocs.
  eexists. split; [reflexivity|]. split.
  - rewrite map_map. simpl. apply map_id.
  - intros account data Hin. apply in_map_iff in Hin.
    destruct Hin as (user & Heq & _). injection Heq as <- <-.
    destruct (find _ documents) as [document|] eqn:Hfind.
    + left. apply find_some in Hfind. destruct Hfind as [Hin Hid].
      apply jsstring_eqb_eq in Hid. rewrite <- Hid.
      destruct document. exact Hin.
    + right. split; [reflexivity|].
      intros document Hin Hid.
      pose proof (find_none _ _ Hfind document Hin) as Hno.
      simpl in Hno. rewrite Hid, jsstring_eqb_refl in Hno. discriminate Hno.
Qed.

Lemma users_are_listed_with_their_documents_witness :
  exists listed,
    result (AdminRoutes.GET Samples.firebase
              (Samples.adminRequest (Some (str "Bearer token-of-admin1")) JNull))
    = Returns {| AdminRoutes.statusCode := 200;
                 AdminRoutes.payload := AdminRoutes.UsersPayload listed |}
    /\ map fst listed = [Samples.account (str "admin1"); Samples.account (str "user1")].
Proof.
  destruct (users_are_listed_with_their_documents Samples.firebase
              (Samples.adminRequest (Some (str "Bearer token-of-admin1")) JNull)
              (str "admin1")
              [Samples.account (str "admin1"); Samples.account (str "user1")]
              [(str "admin1", [(str "isAdmin", JBool true)]);
               (str "user1", [(str "email", JStr (str "user1@example.org"))])])
    as (listed & Hrun & Hmap & _); try reflexivity.
  exists listed. split; [rewrite Hrun; reflexivity|exact Hmap].
Defined.

Lemma beforeSep_absent (sep s : jsstring) :
  includes s sep = false -> beforeSep sep s = s.
Proof.
  induction s as [|c s IH]; intros H.
  - simpl. destruct sep; reflexivity.
  - simpl in H. apply orb_false_iff in H. destruct H as [Hs Hi].
    simpl. rewrite Hs. rewrite (IH Hi). reflexivity.
Qed.

Lemma dropHttpSpaces_app (a b : jsstring) :
  dropHttpSpaces (a ++ b)
  = match dropHttpSpaces a with
    | [] => dropHttpSpaces b
    | c :: rest => (c :: rest) ++ b
    end.
Proof.
  induction a as [|c a IH]; [reflexivity|].
  cbn [app dropHttpSpaces]. destruct (isHttpSpace c); [exact IH|reflexivity].
Qed.

(** The header of the pages as it reaches the routes: the token loses the
    HTTP white space at its end, and the space after [Bearer] with it when
    nothing else is left. *)
Lemma stripHttpSpaces_bearer (token : jsstring) :
  stripHttpSpaces (str "Bearer " ++ token)
  = match rev (dropHttpSpaces (rev token)) with
    | [] => str "Bearer"
    | c :: kept => str "Bearer " ++ c :: kept
    end.
Proof.
  unfold stripHttpSpaces.
  change (dropHttpSpaces (str "Bearer " ++ token)) with (str "Bearer " ++ token).
  rewrite rev_app_distr, dropHttpSpaces_app.
  destruct (dropHttpSpaces (rev token)) as [|c rest] eqn:E; [reflexivity|].
  rewrite rev_app_distr.
  change (rev (rev (str "Bearer "))) with (str "Bearer ").
  destruct (rev (c :: rest)) as [|d kept] eqn:Er; [|reflexivity].
  apply (f_equal (@length N)) in Er. rewrite length_rev in Er. discriminate Er.
Qed.

Lemma dropHttpSpaces_last (s : jsstring) :
  isHttpSpace (last s 32%N) = false -> dropHttpSpaces (rev s) = rev s.
Proof.
  destruct s as [|c s] using rev_ind; [reflexivity|].
  rewrite last_last, rev_app_distr. intros Hc. cbn [rev app dropHttpSpaces].
  rewrite Hc. reflexivity.
Qed.

(** X16.  The token of the admin pages reaches the routes through the
    Authorization header [`Bearer ${token}`], which [fetch] sends without
    the HTTP white space at its ends (tab, line feed, carriage return,
    space).  With [kept] the token without such white space at its end:
    no request is sent when [kept] holds a code unit above 255, a NUL, a
    line feed or a carriage return; the routes answer 401 without
    verifying anything when [kept] is empty, the header being [Bearer]
    alone; otherwise the routes accept the header and verify the text of
    [kept] before its first occurrence of [Bearer ], which is the page's
    own token whenever that token does not end in HTTP white space and
    does not contain [Bearer ]. *)
Theorem page_token_reaches_the_routes (F : AdminRoutes.Firebase)
        (token : jsstring) (body : jsstring + json) (time : jsstring) :
  let kept := rev (dropHttpSpaces (rev token)) in
  (forallb isHeaderByte kept = false -> pageRequest token body time = None)
  /\ (forallb isHeaderByte kept = true ->
      exists request,
        pageRequest token body time = Some request
        /\ AdminRoutes.jsonBody request = body
        /\ AdminRoutes.isoTime request = time
        /\ (kept = [] ->
            AdminRoutes.authorization request = Some (str "Bearer")
            /\ headerAccepted request = false
            /\ AdminRoutes.GET F request = ([], Returns unauthorized)
            /\ AdminRoutes.POST F request = ([], Returns unauthorized))
        /\ (kept <> [] ->
            AdminRoutes.authorization request = Some (str "Bearer " ++ kept)
            /\ headerAccepted request = true
            /\ bearerToken request = beforeSep (str "Bearer ") kept
            /\ (exists rest,
                   steps (AdminRoutes.GET F request)
                   = AdminRoutes.VerifyIdToken (beforeSep (str "Bearer ") kept) :: rest)
            /\ (exists rest,
                   steps (AdminRoutes.POST F request)
                   = AdminRoutes.VerifyIdToken (beforeSep (str "Bearer ") kept) :: rest)))
  /\ (isHttpSpace (last token 32%N) = false ->
      kept = token
      /\ (includes token (str "Bearer ") = false ->
          beforeSep (str "Bearer ") kept = token)).
Proof.
  intros kept.
  assert (Hvalue : stripHttpSpaces (str "Bearer " ++ token)
                   = match kept with
                     | [] => str "Bearer"
                     | c :: rest => str "Bearer " ++ c :: rest
                     end)
    by apply stripHttpSpaces_bearer.
  assert (Hbytes : forallb isHeaderByte (stripHttpSpaces (str "Bearer " ++ token))
                   = forallb isHeaderByte kept).
  { rewrite Hvalue. destruct kept; reflexivity. }
  split; [|split].
  - intros Hbad. unfold pageRequest, headerValue. cbv zeta.
    rewrite Hbytes, Hbad. reflexivity.
  - intros Hgood. unfold pageRequest, headerValue. cbv zeta.
    rewrite Hbytes, Hgood, Hvalue. clear Hvalue Hbytes Hgood. clearbody kept.
    destruct kept as [|c rest].
    + eexists. split; [reflexivity|]. split; [reflexivity|]. split; [reflexivity|].
      split; [intros _; repeat split; reflexivity|intros Hne; now elim Hne].
    + set (request := {| AdminRoutes.authorization := Some (str "Bearer " ++ c :: rest);
                         AdminRoutes.jsonBody := body;
                         AdminRoutes.isoTime := time |}).
      exists request.
      split; [reflexivity|]. split; [reflexivity|]. split; [reflexivity|].
      split; [intros H; discriminate H|]. intros _.
      assert (Hh : headerAccepted request = true) by reflexivity.
      assert (Hb : bearerToken request = beforeSep (str "Bearer ") (c :: rest))
        by reflexivity.
      split; [reflexivity|]. split; [exact Hh|]. split; [exact Hb|].
      unfold AdminRoutes.GET, AdminRoutes.POST.
      rewrite (authorize_checks_token F request Hh), Hb.
      destruct (AdminRoutes.verifyIdToken F _) as [e|userId].
      * split; eexists; reflexivity.
      * split.
        -- destruct (recordedAdmin F userId); [|eexists; reflexivity].
           cbn [bind ret emit app].
           destruct (AdminRoutes.listUsers F); [eexists; reflexivity|].
           destruct (AdminRoutes.usersCollection F); eexists; reflexivity.
        -- destruct (recordedAdmin F userId); [|eexists; reflexivity].
           cbn [bind ret emit app].
           destruct (AdminRoutes.jsonBody request) as [e|parsed];
             [eexists; reflexivity|].
           cbn [lift bind ret app].
           destruct (AdminRoutes.targetOf parsed) as [e|[target|]];
             try (eexists; reflexivity).
           cbn [lift bind ret app].
           destruct (truthy target); [|eexists; reflexivity].
           destruct (AdminRoutes.getUser F target); [eexists; reflexivity|].
           destruct (AdminRoutes.setAdmin F target) as [e|[]]; eexists; reflexivity.
  - intros Hlast.
    assert (Hkept : kept = token).
    { unfold kept. rewrite (dropHttpSpaces_last _ Hlast). apply rev_involutive. }
    split; [exact Hkept|].
    intros Hno. rewrite Hkept. apply beforeSep_absent. exact Hno.
Qed.

(** Two tokens that do not reach the routes as the page has them: with an
    empty token the routes answer 401 and verify nothing; of a token that
    ends in a line feed the routes verify the text before it. *)
Lemma tokens_that_change_on_the_way :
  (exists request,
      pageRequest [] (inr JNull) [] = Some request
      /\ AdminRoutes.POST Samples.firebase request = ([], Returns unauthorized))
  /\ (exists request,
         pageRequest (str "token-of-admin1" ++ [10%N]) (inr JNull) [] = Some request
         /\ bearerToken request = str "token-of-admin1").
Proof.
  split; eexists; split; reflexivity.
Qed.

(* ================================================================== *)
(** * The [register] route *)
(* ================================================================== *)

(** The run of the route, call by call. *)
Lemma register_run (D : Registration.Database) (request : Registration.Request) :
  Registration.POST D request
  = match Registration.dbConnect D with
    | inl e => ([Registration.Connect], Returns (Registration.failed e))
    | inr _ =>
        match Registration.jsonBody request with
        | inl e => ([Registration.Connect], Returns (Registration.failed e))
        | inr parsed =>
            match Registration.destructure parsed with
            | inl e => ([Registration.Connect], Returns (Registration.failed e))
            | inr body =>
                match Registration.property (str "uid") body,
                      Registration.property (str "email") body with
                | Some uid, Some email =>
                    if truthy uid && truthy email then
                      match Registration.findOne D uid with
                      | inl e =>
                          ([Registration.Connect; Registration.FindOne uid],
                           Returns (Registration.failed e))
                      | inr found =>
                          let document :=
                            match found with
                            | Some stored =>
                                Registration.recordLogin (Registration.date request)
                                  (Registration.property (str "displayName") body)
                                  (Registration.property (str "photoURL") body) stored
                            | None =>
                                Registration.newUser uid email
                                  (Registration.property (str "displayName") body)
                                  (Registration.property (str "photoURL") body)
                            end in
                          ([Registration.Connect; Registration.FindOne uid;
                            Registration.Save document],
                           Returns
                             match Registration.save D document with
                             | inl e => Registration.failed e
                             | inr _ =>
                                 Registration.succeeded
                                   (match found with
                                    | Some _ => str "User login recorded"
                                    | None => str "User registered successfully"
                                    end) document
                             end)
                      end
                    else ([Registration.Connect], Returns Registration.missingFields)
                | _, _ => ([Registration.Connect], Returns Registration.missingFields)
                end
            end
        end
    end.
Proof.
  unfold Registration.POST.
  destruct (Registration.dbConnect D) as [e|[]]; [reflexivity|].
  destruct (Registration.jsonBody request) as [e|parsed]; [reflexivity|].
  cbn [lift bind ret emit app].
  destruct (Registration.destructure parsed) as [e|body]; [reflexivity|].
  cbn [lift bind ret emit app]. cbv zeta.
  destruct (Registration.property (str "uid") body) as [uid|]; [|reflexivity].
  destruct (Registration.property (str "email") body) as [email|]; [|reflexivity].
  destruct (truthy uid); [|reflexivity].
  destruct (truthy email); [|reflexivity].
  cbn [negb orb andb].
  destruct (Registration.findOne D uid) as [e|[stored|]]; [reflexivity| |].
  - cbn [lift bind ret emit app].
    destruct (Registration.save D _) as [e|[]]; reflexivity.
  - cbn [lift bind ret emit app].
    destruct (Registration.save D _) as [e|[]]; reflexivity.
Qed.



Lemma setIfGiven_other (k k' : jsstring) (v : option json) (o : object json) :
  jsstring_eqb k k' = false ->
  obj_get k (Registration.setIfGiven k' v o) = obj_get k o.
Proof.
  intros H. unfold Registration.setIfGiven.
  destruct v as [x|]; [|reflexivity].
  destruct (truthy x); [|reflexivity].
  apply obj_get_set_other. exact H.
Qed.

(** X18.  A registration for a user id the database knows records a login: the
    document found is saved with the time of the request, with the
    request's display name and photo URL when they are truthy, and with
    its own otherwise.  The stored [uid] and [email] are kept, whatever
    e-mail address the request gives. *)
Theorem login_keeps_the_stored_identity
        (D : Registration.Database) (request : Registration.Request)
        (body uid email : json) (stored : object json) :
  Registration.dbConnect D = inr tt ->
  Registration.jsonBody request = inr body ->
  Registration.property (str "uid") body = Some uid ->
  Registration.property (str "email") body = Some email ->
  truthy uid = true ->
  truthy email = true ->
  Registration.findOne D uid = inr (Some stored) ->
  exists updated,
    steps (Registration.POST D request)
    = [Registration.Connect; Registration.FindOne uid; Registration.Save updated]
    /\ obj_get (str "uid") updated = obj_get (str "uid") stored
    /\ obj_get (str "email") updated = obj_get (str "email") stored
    /\ obj_get (str "lastLoginAt") updated = Some (Registration.date request)
    /\ (forall field,
           field = str "displayName" \/ field = str "photoURL" ->
           obj_get field updated
           = match Registration.property field body with
             | Some v => if truthy v then Some v else obj_get field stored
             | None => obj_get field stored
             end)
    /\ result (Registration.POST D request)
       = Returns match Registration.save D updated with
                 | inl e => Registration.failed e
                 | inr _ => Registration.succeeded (str "User login recorded") updated
                 end.
Proof.
  intros Hc Hb Hu He Htu Hte Hfind.
  rewrite register_run, Hc, Hb.
  assert (Hd : Registration.destructure body = inr body)
    by (destruct body; try reflexivity; discriminate Hu).
  rewrite Hd, Hu, He, Htu, Hte, Hfind. cbn [andb]. cbv zeta.
  eexists. split; [reflexivity|].
  unfold Registration.recordLogin.
  split; [rewrite !setIfGiven_other by reflexivity;
          apply obj_get_set_other; reflexivity|].
  split; [rewrite !setIfGiven_other by reflexivity;
          apply obj_get_set_other; reflexivity|].
  split; [rewrite !setIfGiven_other by reflexivity; apply obj_get_set_same|].
  split; [|reflexivity].
  intros field [-> | ->].
  - rewrite setIfGiven_other by reflexivity.
    unfold Registration.setIfGiven.
    destruct (Registration.property (str "displayName") body) as [v|];
      [destruct (truthy v)|];
      try (apply obj_get_set_other; reflexivity).
    apply obj_get_set_same.
  - unfold Registration.setIfGiven at 1.
    destruct (Registration.property (str "photoURL") body) as [v|];
      [destruct (truthy v)|];
      try (rewrite setIfGiven_other by reflexivity;
           apply obj_get_set_other; reflexivity).
    apply obj_get_set_same.
Qed.

Lemma login_keeps_the_stored_identity_witness :
  exists updated,
    steps (Registration.POST Cases.database Cases.loginRequest)
    = [Registration.Connect; Registration.FindOne (JStr (str "u1"));
       Registration.Save updated]
    /\ obj_get (str "email") updated = Some (JStr (str "first@example.org"))
    /\ obj_get (str "displayName") updated = Some (JStr (str "First Name")).
Proof.
  destruct (login_keeps_the_stored_identity Cases.database Cases.loginRequest
              (JObj [(str "uid", JStr (str "u1"));
                     (str "email", JStr (str "second@example.org"));
                     (str "displayName", JStr [])])
              (JStr (str "u1")) (JStr (str "second@example.org")) Cases.storedUser)
    as (updated & Hsteps & _ & Hemail & _ & Hprofile & _); try reflexivity.
  exists updated. split; [exact Hsteps|]. split; [exact Hemail|].
  rewrite (Hprofile (str "displayName")) by (left; reflexivity). reflexivity.
Defined.

(** X19.  Whatever the database and the request do, the route answers, with 200,
    400 or 500; it makes its calls in the order connection, lookup, write,
    and writes at most once, the document it looked up or a new one when
    there is none.  It answers 200 exactly when the write succeeds, and a
    500 carries the message of the error. *)
Theorem registration_writes_once_after_the_lookup
        (D : Registration.Database) (request : Registration.Request) :
  exists r,
    result (Registration.POST D request) = Returns r
    /\ (steps (Registration.POST D request) = [Registration.Connect]
        \/ (exists uid,
               steps (Registration.POST D request)
               = [Registration.Connect; Registration.FindOne uid]
               /\ exists e, Registration.findOne D uid = inl e
                            /\ r = Registration.failed e)
        \/ (exists uid found document,
               steps (Registration.POST D request)
               = [Registration.Connect; Registration.FindOne uid;
                  Registration.Save document]
               /\ Registration.findOne D uid = inr found
               /\ (Registration.statusCode r = 200
                   <-> Registration.save D document = inr tt)))
    /\ (Registration.statusCode r = 200 ->
        exists document, In (Registration.Save document)
                            (steps (Registration.POST D request)))
    /\ (Registration.statusCode r = 200 \/ Registration.statusCode r = 400
        \/ (Registration.statusCode r = 500
            /\ exists e, r = Registration.failed e)).
Proof.
  rewrite register_run.
  destruct (Registration.dbConnect D) as [e|[]];
    [eexists; split; [reflexivity|]; split; [left; reflexivity|];
     split; [discriminate|right; right; split; eauto]|].
  destruct (Registration.jsonBody request) as [e|parsed];
    [eexists; split; [reflexivity|]; split; [left; reflexivity|];
     split; [discriminate|right; right; split; eauto]|].
  destruct (Registration.destructure parsed) as [e|body];
    [eexists; split; [reflexivity|]; split; [left; reflexivity|];
     split; [discriminate|right; right; split; eauto]|].
  destruct (Registration.property (str "uid") body) as [uid|];
    [|eexists; split; [reflexivity|]; split; [left; reflexivity|];
      split; [discriminate|right; left; reflexivity]].
  destruct (Registration.property (str "email") body) as [email|];
    [|eexists; split; [reflexivity|]; split; [left; reflexivity|];
      split; [discriminate|right; left; reflexivity]].
  destruct (truthy uid && truthy email);
    [|eexists; split; [reflexivity|]; split; [left; reflexivity|];
      split; [discriminate|right; left; reflexivity]].
  destruct (Registration.findOne D uid) as [e|found] eqn:Hfind.
  - eexists. split; [reflexivity|].
    split; [right; left; exists uid; split; [reflexivity|]; exists e; split;
            [exact Hfind|reflexivity]|].
    split; [discriminate|right; right; split; eauto].
  - cbv zeta.
    match goal with
    | |- context [Registration.save D ?d] =>
        set (document := d); destruct (Registration.save D document) as [e|[]] eqn:Hsave
    end.
    + eexists. split; [reflexivity|]. split.
      * right. right. exists uid, found, document.
        split; [reflexivity|]. split; [exact Hfind|].
        split; [discriminate|]. intros H. rewrite H in Hsave. discriminate Hsave.
      * split; [discriminate|right; right; split; eauto].
    + eexists. split; [reflexivity|]. split.
      * right. right. exists uid, found, document.
        split; [reflexivity|]. split; [exact Hfind|].
        split; [intros _; exact Hsave|reflexivity].
      * split; [|left; reflexivity].
        intros _. exists document. simpl. auto.
Qed.

(* ================================================================== *)
(** * The uploader's list of files *)
(* ================================================================== *)

Lemma str_inj (a b : String.string) : str a = str b -> a = b.
Proof.
  unfold str. intros H.
  apply (f_equal (map Ascii.ascii_of_N)) in H.
  rewrite !map_map in H.
  rewrite (map_ext _ (fun x => x) Ascii.ascii_N_embedding) in H.
  rewrite (map_ext _ (fun x => x) Ascii.ascii_N_embedding) in H.
  rewrite !map_id in H.
  apply (f_equal String.string_of_list_ascii) in H.
  now rewrite !String.string_of_list_ascii_of_string in H.
Qed.

Lemma nat_to_string_inj (a b : nat) : nat_to_string a = nat_to_string b -> a = b.
Proof.
  unfold nat_to_string. intros H. apply str_inj in H.
  apply (f_equal DecimalString.NilEmpty.uint_of_string) in H.
  rewrite !DecimalString.NilEmpty.usu in H. injection H as H.
  now apply DecimalNat.Unsigned.to_uint_inj.
Qed.

Lemma nat_to_string_digits (n : nat) : ~ In 45%N (nat_to_string n).
Proof.
  unfold nat_to_string. generalize (Nat.to_uint n). intros d.
  induction d; simpl; intros H; try (destruct H as [H|H]; [discriminate H|auto]).
  exact H.
Qed.

(** Two texts that end with a dash and a dash-free suffix agree on the
    suffix. *)
Lemma suffix_after_last_dash (a b n m : jsstring) :
  a ++ 45%N :: n = b ++ 45%N :: m -> ~ In 45%N n -> ~ In 45%N m -> n = m.
Proof.
  revert b. induction a as [|x a IH]; intros [|y b] H Hn Hm; simpl in H.
  - now injection H.
  - injection H as _ H. subst n. elim Hn. apply in_or_app. right. left. reflexivity.
  - injection H as _ H. subst m. elim Hm. apply in_or_app. right. left. reflexivity.
  - injection H as _ H. eapply IH; eauto.
Qed.

(** The ids of one batch are pairwise distinct, whatever the clock shows. *)
Lemma fileId_inj (now : nat -> Z) (i j : nat) :
  Batch.fileId now i = Batch.fileId now j -> i = j.
Proof.
  unfold Batch.fileId. intros H.
  apply app_inv_head in H.
  change (str "-") with [45%N] in H. simpl in H.
  apply suffix_after_last_dash in H; try apply nat_to_string_digits.
  now apply nat_to_string_inj.
Qed.

Lemma steps_emit {E B : Type} (e : E) (k : unit -> run E B) :
  steps (bind (emit e) k) = e :: steps (k tt).
Proof. unfold emit. rewrite steps_bind. reflexivity. Qed.

Lemma after_app (l l' : list Batch.Effect) (v : Batch.View) :
  Batch.after (l ++ l') v = Batch.after l' (Batch.after l v).
Proof. apply fold_left_app. Qed.

Lemma after_external (l : list Step) (v : Batch.View) :
  Batch.after (map Batch.External l) v = v.
Proof. induction l as [|s l IH]; [reflexivity|exact IH]. Qed.

Lemma processFile_no_throw (B : Uploader.Browser) (f : File) (msg : jsstring) :
  result (Uploader.processFile B f) <> Throws msg.
Proof.
  unfold Uploader.processFile.
  match goal with
  | |- context [tryCatch ?m _] => destruct m as [l [u|e|]]
  end; discriminate.
Qed.

(** The second loop: the verdicts of the turns it completes are recorded in
    order; it ends when the files are exhausted, or never when the
    processing of a file hangs. *)
Lemma analyzeFrom_effects (B : nat -> Uploader.Browser) (now : nat -> Z)
      (uploaded : list File) (i : nat) :
  exists updates,
    (forall k u,
        nth_error updates k = Some u ->
        exists f, nth_error uploaded k = Some f
                  /\ result (Uploader.processFile (B (i + k)) f) = Returns u)
    /\ (forall v,
           Batch.files (Batch.after (steps (Batch.analyzeFrom B now i uploaded)) v)
           = recordAll now i updates (Batch.files v)
           /\ Batch.isUploading (Batch.after (steps (Batch.analyzeFrom B now i uploaded)) v)
              = Batch.isUploading v
           /\ Batch.isAnalyzing (Batch.after (steps (Batch.analyzeFrom B now i uploaded)) v)
              = Batch.isAnalyzing v)
    /\ ((result (Batch.analyzeFrom B now i uploaded) = Returns tt
         /\ length updates = length uploaded)
        \/ (result (Batch.analyzeFrom B now i uploaded) = Hangs
            /\ exists f, nth_error uploaded (length updates) = Some f
                         /\ result (Uploader.processFile (B (i + length updates)) f)
                            = Hangs)).
Proof.
  revert i. induction uploaded as [|f rest IH]; intros i.
  - exists []. split; [intros [|k] u H; discriminate H|].
    split; [intros v; repeat split|]. left. split; reflexivity.
  - cbn [Batch.analyzeFrom]. unfold Batch.external.
    pose proof (processFile_no_throw (B i) f) as Hno.
    destruct (Uploader.processFile (B i) f) as [l [u|msg|]] eqn:Hrun.
    + simpl (steps (l, Returns u)). simpl (result (l, Returns u)).
      destruct (IH (S i)) as (updates & Hturns & Hview & Hend).
      exists (u :: updates). split; [|split].
      * intros [|k] u' H.
        -- injection H as <-. exists f. split; [reflexivity|].
           rewrite Nat.add_0_r, Hrun. reflexivity.
        -- destruct (Hturns k u' H) as (g & Hg & Hres).
           exists g. split; [exact Hg|]. rewrite Nat.add_succ_r. exact Hres.
      * intros v.
        rewrite steps_bind.
        assert (Hsteps : forall (m : run Batch.Effect unit)
                                (k : unit -> run Batch.Effect unit),
                   steps m = [] \/ (exists e, steps m = [Batch.SetModerationError e]) ->
                   (exists a, result m = Returns a) ->
                   steps (bind m k) = steps m ++ steps (k tt)).
        { intros [lm [[]|e|]] k _ [a Ha]; try discriminate Ha.
          apply steps_bind. }
        rewrite Hsteps;
          [|destruct (Uploader.site u); [left; reflexivity..|right; eexists; reflexivity]
           |destruct (Uploader.site u); eexists; reflexivity].
        cbv beta. rewrite steps_emit.
        change (Batch.SetFiles (Batch.Verified (Batch.fileId now i) u)
                :: steps (Batch.analyzeFrom B now (S i) rest))
          with ([Batch.SetFiles (Batch.Verified (Batch.fileId now i) u)]
                ++ steps (Batch.analyzeFrom B now (S i) rest)).
        rewrite !after_app, after_external.
        destruct (Hview
                    (Batch.after [Batch.SetFiles (Batch.Verified (Batch.fileId now i) u)]
                       (Batch.after
                          (steps match Uploader.site u with
                                 | Uploader.AnalysisFailed =>
                                     emit (Batch.SetModerationError
                                             (Some (str "Failed to analyze " ++ name f
                                                    ++ str ". Please try again.")))
                                 | _ => ret tt
                                 end) v)))
          as (Hf & Hu & Ha).
        rewrite Hf, Hu, Ha.
        destruct (Uploader.site u); repeat split; reflexivity.
      * assert (Hres : result (bind (map Batch.External l, Returns u)
                                 (fun update =>
                                    bind match Uploader.site update with
                                         | Uploader.AnalysisFailed =>
                                             emit (Batch.SetModerationError
                                                     (Some (str "Failed to analyze " ++ name f
                                                            ++ str ". Please try again.")))
                                         | _ => ret tt
                                         end
                                      (fun _ =>
                                         bind (emit (Batch.SetFiles
                                                       (Batch.Verified (Batch.fileId now i)
                                                          update)))
                                           (fun _ => Batch.analyzeFrom B now (S i) rest))))
                        = result (Batch.analyzeFrom B now (S i) rest)).
        { rewrite result_bind.
          destruct (Uploader.site u); unfold emit, ret; rewrite !result_bind;
            reflexivity. }
        rewrite Hres.
        destruct Hend as [[Hret Hlen]|[Hhang (g & Hg & Hgh)]].
        -- left. split; [exact Hret|]. simpl. now rewrite Hlen.
        -- right. split; [exact Hhang|]. exists g. split; [exact Hg|].
           simpl length. rewrite Nat.add_succ_r. exact Hgh.
    + now elim (Hno msg).
    + simpl (steps (l, Hangs)). simpl (result (l, Hangs)).
      exists []. split; [intros [|k] u H; discriminate H|]. split.
      * intros v. cbn [steps fst bind].
        rewrite after_external. repeat split.
      * right. split; [reflexivity|]. exists f. split; [reflexivity|].
        rewrite Nat.add_0_r, Hrun. reflexivity.
Qed.

Lemma recordAll_length (now : nat -> Z) (updates : list Uploader.FileUpdate) :
  forall i l, length (recordAll now i updates l) = length l.
Proof.
  induction updates as [|u rest IH]; intros i l; [reflexivity|].
  simpl. rewrite IH. apply length_map.
Qed.

(** An entry with the id of index [k] is touched by the verdict of turn
    [k] alone. *)
Lemma recordAll_entry (now : nat -> Z) (updates : list Uploader.FileUpdate) :
  forall i l n e k,
    nth_error l n = Some e ->
    Batch.id e = Batch.fileId now k ->
    nth_error (recordAll now i updates l) n
    = Some match (if i <=? k then nth_error updates (k - i) else None) with
           | Some u => Batch.withVerdict u e
           | None => e
           end.
Proof.
  induction updates as [|u rest IH]; intros i l n e k Hn Hid.
  - simpl. rewrite Hn. destruct (i <=? k); [destruct (k - i)|]; reflexivity.
  - simpl recordAll.
    match goal with
    | |- context [map ?g l] => pose proof (map_nth_error g n l Hn) as Hmap
    end.
    cbv beta in Hmap.
    destruct (Nat.eq_dec i k) as [->|Hne].
    + rewrite Hid, jsstring_eqb_refl in Hmap.
      rewrite (IH (S k) _ n _ k Hmap Hid).
      rewrite Nat.leb_refl, Nat.sub_diag.
      replace (S k <=? k) with false by (symmetry; apply Nat.leb_gt; lia).
      reflexivity.
    + assert (Hneq : jsstring_eqb (Batch.id e) (Batch.fileId now i) = false).
      { apply jsstring_eqb_neq. rewrite Hid. intros H. apply fileId_inj in H.
        congruence. }
      rewrite Hneq in Hmap.
      rewrite (IH (S i) _ n _ k Hmap Hid).
      destruct (i <=? k) eqn:Hle.
      * apply Nat.leb_le in Hle.
        replace (S i <=? k) with true by (symmetry; apply Nat.leb_le; lia).
        replace (k - i) with (S (k - S i)) by lia. reflexivity.
      * apply Nat.leb_gt in Hle.
        replace (S i <=? k) with false by (symmetry; apply Nat.leb_gt; lia).
        reflexivity.
Qed.

Lemma newFiles_nth (now : nat -> Z) (createObjectURL : nat -> File -> jsstring)
      (uploaded : list File) :
  forall i k f,
    nth_error uploaded k = Some f ->
    nth_error (Batch.newFiles now createObjectURL i uploaded) k
    = Some (newEntry now createObjectURL (i + k) f).
Proof.
  induction uploaded as [|g rest IH]; intros i [|k] f H; try discriminate H.
  - injection H as <-. simpl. rewrite Nat.add_0_r. reflexivity.
  - simpl. rewrite (IH (S i) k f H). rewrite Nat.add_succ_r. reflexivity.
Qed.

Lemma newFiles_length (now : nat -> Z) (createObjectURL : nat -> File -> jsstring)
      (uploaded : list File) :
  forall i, length (Batch.newFiles now createObjectURL i uploaded) = length uploaded.
Proof.
  induction uploaded as [|g rest IH]; intros i; [reflexivity|].
  simpl. now rewrite IH.
Qed.

Lemma result_emit {E B : Type} (e : E) (k : unit -> run E B) :
  result (bind (emit e) k) = result (k tt).
Proof. unfold emit. apply result_bind. Qed.

(** [handleFileUpload] on a list that is not empty: the four effects before
    the second loop, the loop, and the two of [finally] when the loop
    ends. *)
Lemma handleFileUpload_run (B : nat -> Uploader.Browser) (now : nat -> Z)
      (createObjectURL : nat -> File -> jsstring) (uploaded : list File) :
  uploaded <> [] ->
  let before :=
    [Batch.SetModerationError None;
     Batch.SetIsUploading true;
     Batch.SetFiles (Batch.Append (Batch.newFiles now createObjectURL 0 uploaded));
     Batch.SetIsAnalyzing true] in
  (result (Batch.analyzeFrom B now 0 uploaded) = Returns tt ->
   Batch.handleFileUpload B now createObjectURL (Some uploaded)
   = (before ++ steps (Batch.analyzeFrom B now 0 uploaded)
      ++ [Batch.SetIsUploading false; Batch.SetIsAnalyzing false],
      Returns tt))
  /\ (result (Batch.analyzeFrom B now 0 uploaded) = Hangs ->
      Batch.handleFileUpload B now createObjectURL (Some uploaded)
      = (before ++ steps (Batch.analyzeFrom B now 0 uploaded), Hangs)).
Proof.
  intros Hne before. destruct uploaded as [|f rest]; [now elim Hne|].
  unfold Batch.handleFileUpload.
  set (loop := Batch.analyzeFrom B now 0 (f :: rest)).
  assert (Hbody : forall o,
             result loop = o ->
             bind (emit (Batch.SetModerationError None))
               (fun _ =>
                  bind (emit (Batch.SetIsUploading true))
                    (fun _ =>
                       bind (emit (Batch.SetFiles
                                     (Batch.Append
                                        (Batch.newFiles now createObjectURL 0 (f :: rest)))))
                         (fun _ => bind (emit (Batch.SetIsAnalyzing true)) (fun _ => loop))))
             = (before ++ steps loop, o)).
  { intros o Ho. destruct loop as [l o']. simpl in Ho. subst o'. reflexivity. }
  split; intros Hres; rewrite (Hbody _ Hres).
  - cbn [tryCatch bind emit]. rewrite <- app_assoc. reflexivity.
  - reflexivity.
Qed.

(** X20.  When [handleFileUpload] returns for a list of files, every file of the
    list has its entry, in the order of the list and after the entries
    there were, and the entry of the file at index [k] carries the verdict
    of that file's processing: no verdict is lost or lands on another
    entry of the batch, whatever the clock shows.  Both busy flags are
    down. *)
Theorem verdicts_land_on_their_own_entries
        (B : nat -> Uploader.Browser) (now : nat -> Z)
        (createObjectURL : nat -> File -> jsstring)
        (uploaded : list File) (v : Batch.View) :
  uploaded <> [] ->
  result (Batch.handleFileUpload B now createObjectURL (Some uploaded)) = Returns tt ->
  let v' :=
    Batch.after (steps (Batch.handleFileUpload B now createObjectURL (Some uploaded))) v in
  Batch.isUploading v' = false
  /\ Batch.isAnalyzing v' = false
  /\ length (Batch.files v') = length (Batch.files v) + length uploaded
  /\ forall k f,
      nth_error uploaded k = Some f ->
      exists u,
        result (Uploader.processFile (B k) f) = Returns u
        /\ nth_error (Batch.files v') (length (Batch.files v) + k)
           = Some (Batch.withVerdict u (newEntry now createObjectURL k f)).
Proof.
  intros Hne Hret v'.
  destruct (analyzeFrom_effects B now uploaded 0) as (updates & Hturns & Hview & Hend).
  destruct (handleFileUpload_run B now createObjectURL uploaded Hne) as [Hdone Hhang].
  destruct Hend as [[Hloop Hlen]|[Hloop _]];
    [|rewrite (Hhang Hloop) in Hret; discriminate Hret].
  subst v'. rewrite (Hdone Hloop). cbn [steps fst].
  rewrite !after_app.
  match goal with
  | |- context [Batch.after (steps (Batch.analyzeFrom B now 0 uploaded)) ?w] =>
      destruct (Hview w) as (Hf & Hu & Ha); set (w' := w) in *
  end.
  assert (Hfiles : Batch.files
                     (Batch.after [Batch.SetIsUploading false; Batch.SetIsAnalyzing false]
                        (Batch.after (steps (Batch.analyzeFrom B now 0 uploaded)) w'))
                   = recordAll now 0 updates
                       (Batch.files v ++ Batch.newFiles now createObjectURL 0 uploaded)).
  { cbn [Batch.after fold_left Batch.perform Batch.files]. rewrite Hf. reflexivity. }
  split; [reflexivity|]. split; [reflexivity|]. rewrite Hfiles. split.
  - rewrite recordAll_length, length_app, newFiles_length. reflexivity.
  - intros k f Hk.
    assert (Hentry : nth_error (Batch.files v
                                ++ Batch.newFiles now createObjectURL 0 uploaded)
                               (length (Batch.files v) + k)
                     = Some (newEntry now createObjectURL k f)).
    { rewrite nth_error_app2 by lia.
      replace (length (Batch.files v) + k - length (Batch.files v)) with k by lia.
      apply (newFiles_nth now createObjectURL uploaded 0 k f Hk). }
    rewrite (recordAll_entry now updates 0 _ _ _ k Hentry eq_refl).
    cbn [Nat.leb]. rewrite Nat.sub_0_r.
    assert (Hlt : k < length updates).
    { rewrite Hlen. apply nth_error_Some. rewrite Hk. discriminate. }
    destruct (nth_error updates k) as [u|] eqn:Hu';
      [|apply nth_error_None in Hu'; lia].
    destruct (Hturns k u Hu') as (g & Hg & Hres).
    rewrite Hk in Hg. injection Hg as <-.
    exists u. split; [exact Hres|reflexivity].
Qed.

Lemma verdicts_land_on_their_own_entries_witness :
  let v' :=
    Batch.after
      (steps (Batch.handleFileUpload (fun _ => Samples.faintBrowser)
                (fun _ => 1700000000000%Z) (fun _ _ => str "blob:1")
                (Some [Samples.wordFile; Samples.renamedPdf])))
      {| Batch.files := [];
         Batch.moderationError := None;
         Batch.isUploading := false;
         Batch.isAnalyzing := false |} in
  Batch.isAnalyzing v' = false /\ length (Batch.files v') = 2.
Proof.
  destruct (verdicts_land_on_their_own_entries (fun _ => Samples.faintBrowser)
              (fun _ => 1700000000000%Z) (fun _ _ => str "blob:1")
              [Samples.wordFile; Samples.renamedPdf]
              {| Batch.files := [];
                 Batch.moderationError := None;
                 Batch.isUploading := false;
                 Batch.isAnalyzing := false |})
    as (_ & Ha & Hl & _).
  - discriminate.
  - vm_compute. reflexivity.
  - split; [exact Ha|exact Hl].
Defined.

(** X21.  A file whose processing never settles blocks the batch: the handler
    never returns, both busy flags stay up, and the file and every file
    after it in the list keep their pending entries, so that the files
    behind an image the browser cannot decode are never verified. *)
Theorem hanging_file_blocks_the_batch
        (B : nat -> Uploader.Browser) (now : nat -> Z)
        (createObjectURL : nat -> File -> jsstring)
        (uploaded : list File) (v : Batch.View) (k : nat) (f : File) :
  nth_error uploaded k = Some f ->
  result (Uploader.processFile (B k) f) = Hangs ->
  let v' :=
    Batch.after (steps (Batch.handleFileUpload B now createObjectURL (Some uploaded))) v in
  result (Batch.handleFileUpload B now createObjectURL (Some uploaded)) = Hangs
  /\ Batch.isUploading v' = true
  /\ Batch.isAnalyzing v' = true
  /\ forall j g,
      k <= j ->
      nth_error uploaded j = Some g ->
      nth_error (Batch.files v') (length (Batch.files v) + j)
      = Some (newEntry now createObjectURL j g).
Proof.
  intros Hk Hhangs v'.
  assert (Hne : uploaded <> []) by (intros ->; destruct k; discriminate Hk).
  destruct (analyzeFrom_effects B now uploaded 0) as (updates & Hturns & Hview & Hend).
  destruct (handleFileUpload_run B now createObjectURL uploaded Hne) as [Hdone Hhang].
  assert (Hshort : length updates <= k).
  { destruct (le_lt_dec (length updates) k) as [Hle|Hlt]; [exact Hle|].
    destruct (nth_error updates k) as [u|] eqn:Hu;
      [|apply nth_error_None in Hu; lia].
    destruct (Hturns k u Hu) as (g & Hg & Hres).
    rewrite Hk in Hg. injection Hg as <-. simpl in Hres.
    rewrite Hhangs in Hres. discriminate Hres. }
  destruct Hend as [[_ Hlen]|[Hloop _]].
  { assert (k < length uploaded) by (apply nth_error_Some; rewrite Hk; discriminate).
    lia. }
  subst v'. rewrite (Hhang Hloop). cbn [steps fst result snd].
  rewrite !after_app.
  match goal with
  | |- context [Batch.after (steps (Batch.analyzeFrom B now 0 uploaded)) ?w] =>
      destruct (Hview w) as (Hf & Hu & Ha); set (w' := w) in *
  end.
  split; [reflexivity|]. rewrite Hu, Ha, Hf.
  split; [reflexivity|]. split; [reflexivity|].
  intros j g Hj Hg.
  assert (Hentry : nth_error (Batch.files w') (length (Batch.files v) + j)
                   = Some (newEntry now createObjectURL j g)).
  { subst w'. cbn [Batch.after fold_left Batch.perform Batch.files Batch.apply].
    rewrite nth_error_app2 by lia.
    replace (length (Batch.files v) + j - length (Batch.files v)) with j by lia.
    apply (newFiles_nth now createObjectURL uploaded 0 j g Hg). }
  rewrite (recordAll_entry now updates 0 _ _ _ j Hentry eq_refl).
  cbn [Nat.leb]. rewrite Nat.sub_0_r.
  replace (nth_error updates j) with (@None Uploader.FileUpdate)
    by (symmetry; apply nth_error_None; lia).
  reflexivity.
Qed.

Lemma hanging_file_blocks_the_batch_witness :
  result (Batch.handleFileUpload (fun _ => Cases.blindBrowser)
            (fun _ => 1700000000000%Z) (fun _ _ => str "blob:1")
            (Some [Samples.photo; Samples.wordFile])) = Hangs.
Proof.
  apply (hanging_file_blocks_the_batch (fun _ => Cases.blindBrowser)
           (fun _ => 1700000000000%Z) (fun _ _ => str "blob:1")
           [Samples.photo; Samples.wordFile]
           {| Batch.files := [];
              Batch.moderationError := None;
              Batch.isUploading := false;
              Batch.isAnalyzing := false |} 0 Samples.photo).
  - reflexivity.
  - vm_compute. reflexivity.
Defined.

(** X22.  A file deleted from the list does not come back: after [deleteFile]
    the list holds the other entries, a verdict that arrives for the
    deleted id afterwards changes nothing, and deleting commutes with the
    verdicts of the other files. *)
Theorem deleted_file_stays_deleted (fileId : jsstring) (v : Batch.View) :
  let deleted := Batch.after (steps (Batch.deleteFile fileId)) v in
  (forall e, In e (Batch.files deleted) <->
             In e (Batch.files v) /\ Batch.id e <> fileId)
  /\ (forall u,
         Batch.files (Batch.perform deleted
                        (Batch.SetFiles (Batch.Verified fileId u)))
         = Batch.files deleted)
  /\ (forall other u,
         Batch.files
           (Batch.after (steps (Batch.deleteFile fileId))
              (Batch.perform v (Batch.SetFiles (Batch.Verified other u))))
         = Batch.files
             (Batch.perform deleted (Batch.SetFiles (Batch.Verified other u)))).
Proof.
  intros deleted. subst deleted.
  cbn [Batch.deleteFile emit steps fst Batch.after fold_left Batch.perform
       Batch.files Batch.apply].
  generalize (Batch.files v). intros prev.
  split; [|split].
  - intros e. rewrite filter_In. split.
    + intros [Hin Hid]. split; [exact Hin|].
      apply negb_true_iff, jsstring_eqb_neq in Hid. exact Hid.
    + intros [Hin Hid]. split; [exact Hin|].
      apply negb_true_iff, jsstring_eqb_neq. exact Hid.
  - intros u. induction prev as [|e prev IH]; [reflexivity|].
    simpl. destruct (jsstring_eqb (Batch.id e) fileId) eqn:E; simpl.
    + exact IH.
    + rewrite E, IH. reflexivity.
  - intros other u. induction prev as [|e prev IH]; [reflexivity|].
    simpl.
    destruct (jsstring_eqb (Batch.id e) other) eqn:Eo;
      destruct (jsstring_eqb (Batch.id e) fileId) eqn:Ef; simpl;
      rewrite ?Ef; simpl; rewrite ?Eo, IH; reflexivity.
Qed.

(* ================================================================== *)
(** * The fields of the PDF information dictionary *)
(* ================================================================== *)

Lemma replaceHexEscapes_cons (c : N) (s : jsstring) :
  c <> 92%N -> replaceHexEscapes (c :: s) = c :: replaceHexEscapes s.
Proof.
  intros Hc. apply N.eqb_neq in Hc.
  destruct s as [|h1 [|h2 rest]]; simpl; rewrite ?Hc; reflexivity.
Qed.

Lemma replaceHexEscapes_plain (s : jsstring) :
  ~ In 92%N s -> replaceHexEscapes s = s.
Proof.
  induction s as [|c s IH]; intros H; [reflexivity|].
  rewrite replaceHexEscapes_cons by (intros ->; apply H; left; reflexivity).
  rewrite IH; [reflexivity|]. intros Hin. apply H. right. exact Hin.
Qed.

Lemma decodeURIComponent_plain (s : jsstring) :
  ~ In 37%N s -> decodeURIComponent s = Some s.
Proof.
  unfold decodeURIComponent. induction s as [|c s IH]; intros H; [reflexivity|].
  simpl. assert (Hc : N.eqb c 37 = false).
  { apply N.eqb_neq. intros ->. apply H. left. reflexivity. }
  rewrite Hc, IH; [reflexivity|]. intros Hin. apply H. right. exact Hin.
Qed.

(** A per cent sign that no hexadecimal digit follows makes the decoder
    throw, wherever it stands and whatever precedes it. *)
Lemma decodeFrom_stray (a b : jsstring) :
  match b with [] => True | c :: _ => hexval c = None end ->
  forall e u, decodeFrom e u (a ++ 37%N :: b) = None.
Proof.
  intros Hb. induction a as [|x a IH]; intros e u.
  - simpl. destruct e; simpl.
    + destruct b as [|c b]; [destruct u; reflexivity|].
      simpl. rewrite Hb. reflexivity.
    + reflexivity.
    + reflexivity.
  - simpl. destruct e.
    + destruct (N.eqb x 37); [apply IH|].
      destruct u; [reflexivity|]. rewrite IH. reflexivity.
    + destruct (hexval x); [apply IH|reflexivity].
    + destruct (hexval x) as [l|]; [|reflexivity].
      cbv zeta. destruct u as [[[k acc] least]|].
      * destruct (_ && _); [|reflexivity].
        destruct k as [|[|k]]; [reflexivity| |apply IH].
        destruct (validCodePoint _ _); [|reflexivity].
        rewrite IH. reflexivity.
      * repeat match goal with
               | |- context [if ?c then _ else _] => destruct c
               end; rewrite ?IH; reflexivity.
Qed.

(** The replacement of hexadecimal escapes keeps a stray per cent sign
    stray. *)
Lemma replaceHexEscapes_stray (s : jsstring) :
  strayPercent s -> strayPercent (replaceHexEscapes s).
Proof.
  intros (a & b & -> & Hb).
  assert (Htail : exists b',
             replaceHexEscapes (37%N :: b) = 37%N :: b'
             /\ match b' with [] => True | c :: _ => hexval c = None end).
  { rewrite replaceHexEscapes_cons by discriminate.
    exists (replaceHexEscapes b). split; [reflexivity|].
    destruct b as [|c b]; [exact I|].
    destruct b as [|h1 [|h2 rest]]; simpl; try exact Hb.
    destruct (N.eqb c 92 && is_lower_hex h1 && is_lower_hex h2);
      [reflexivity|exact Hb]. }
  destruct Htail as (b' & Hb' & Hstray).
  assert (Hgo : forall n a, length a <= n ->
                  exists a', replaceHexEscapes (a ++ 37%N :: b) = a' ++ 37%N :: b').
  { induction n as [|n IH]; intros a0 Hlen.
    - destruct a0; [|simpl in Hlen; lia]. exists []. exact Hb'.
    - destruct a0 as [|c a0]; [exists []; exact Hb'|].
      destruct a0 as [|h1 a0].
      + exists [c]. simpl app.
        change (replaceHexEscapes (c :: 37%N :: b))
          with (match b with
                | h2 :: rest =>
                    if N.eqb c 92 && is_lower_hex 37 && is_lower_hex h2
                    then 37%N :: 37%N :: h2 :: replaceHexEscapes rest
                    else c :: replaceHexEscapes (37%N :: b)
                | [] => c :: replaceHexEscapes (37%N :: b)
                end).
        replace (is_lower_hex 37) with false by reflexivity.
        rewrite andb_false_r. simpl andb.
        destruct b; rewrite Hb'; reflexivity.
      + destruct a0 as [|h2 a0].
        * destruct (IH [h1]) as (a' & Ha'); [simpl in *; lia|].
          exists (c :: a'). simpl app in *.
          change (replaceHexEscapes (c :: h1 :: 37%N :: b))
            with (if N.eqb c 92 && is_lower_hex h1 && is_lower_hex 37
                  then 37%N :: h1 :: 37%N :: replaceHexEscapes b
                  else c :: replaceHexEscapes (h1 :: 37%N :: b)).
          replace (is_lower_hex 37) with false by reflexivity.
          rewrite andb_false_r, Ha'. reflexivity.
        * simpl app.
          change (replaceHexEscapes (c :: h1 :: h2 :: a0 ++ 37%N :: b))
            with (if N.eqb c 92 && is_lower_hex h1 && is_lower_hex h2
                  then 37%N :: h1 :: h2 :: replaceHexEscapes (a0 ++ 37%N :: b)
                  else c :: replaceHexEscapes ((h1 :: h2 :: a0) ++ 37%N :: b)).
          destruct (N.eqb c 92 && is_lower_hex h1 && is_lower_hex h2).
          -- destruct (IH a0) as (a' & Ha'); [simpl in *; lia|].
             exists (37%N :: h1 :: h2 :: a'). rewrite Ha'. reflexivity.
          -- destruct (IH (h1 :: h2 :: a0)) as (a' & Ha'); [simpl in *; lia|].
             exists (c :: a'). rewrite Ha'. reflexivity. }
  destruct (Hgo (length a) a (le_n _)) as (a' & Ha').
  exists a', b'. split; assumption.
Qed.

Lemma decode_stray (s : jsstring) :
  strayPercent s -> decodeURIComponent (replaceHexEscapes s) = None.
Proof.
  intros H. destruct (replaceHexEscapes_stray s H) as (a & b & -> & Hb).
  apply decodeFrom_stray. exact Hb.
Qed.

Lemma strayPercent_nonempty (s : jsstring) : strayPercent s -> s <> [].
Proof. intros (a & b & -> & _). destruct a; discriminate. Qed.

Lemma extractField_stopped (pattern key pdfContent : jsstring)
      (state : object jsstring * bool) :
  snd state = false -> Uploader.extractField pattern key pdfContent state = state.
Proof. destruct state as [m b]. simpl. intros ->. reflexivity. Qed.

Lemma extractField_stray (pattern key pdfContent value : jsstring)
      (state : object jsstring * bool) :
  matchField pattern pdfContent = Some value ->
  strayPercent value ->
  Uploader.extractField pattern key pdfContent state = (fst state, false).
Proof.
  intros Hm Hs. destruct state as [m [|]]; [|reflexivity].
  unfold Uploader.extractField. rewrite Hm.
  pose proof (strayPercent_nonempty _ Hs) as Hne.
  destruct value as [|c g]; [now elim Hne|].
  rewrite (decode_stray _ Hs). reflexivity.
Qed.

Lemma extractField_other (pattern key pdfContent k : jsstring)
      (state : object jsstring * bool) :
  jsstring_eqb k key = false ->
  obj_get k (fst (Uploader.extractField pattern key pdfContent state))
  = obj_get k (fst state).
Proof.
  intros Hk. destruct state as [m [|]]; [|reflexivity].
  unfold Uploader.extractField.
  destruct (matchField pattern pdfContent) as [[|c g]|]; try reflexivity.
  destruct (decodeURIComponent _); [|reflexivity].
  simpl. apply obj_get_set_other. exact Hk.
Qed.

(** X23.  How a field of the information dictionary is stored.  A captured text
    without backslash and per cent sign is stored as written; a field that
    is absent or empty leaves the metadata as it is; and a captured text
    with a per cent sign that no hexadecimal digit follows stores nothing
    and stops the extraction, for this field and the fields after it. *)
Theorem fields_are_stored_as_written_or_stop_the_extraction
        (pattern key pdfContent : jsstring) (md : object jsstring) :
  (forall value,
      matchField pattern pdfContent = Some value ->
      value <> [] -> ~ In 92%N value -> ~ In 37%N value ->
      Uploader.extractField pattern key pdfContent (md, true)
      = (obj_set key value md, true))
  /\ (matchField pattern pdfContent = None
      \/ matchField pattern pdfContent = Some [] ->
      Uploader.extractField pattern key pdfContent (md, true) = (md, true))
  /\ (forall value,
         matchField pattern pdfContent = Some value ->
         strayPercent value ->
         Uploader.extractField pattern key pdfContent (md, true) = (md, false))
  /\ (forall pattern' key',
         Uploader.extractField pattern' key' pdfContent (md, false) = (md, false)).
Proof.
  split; [|split; [|split]].
  - intros value Hm Hne Hb Hp. unfold Uploader.extractField. rewrite Hm.
    destruct value as [|c g]; [now elim Hne|].
    rewrite (replaceHexEscapes_plain _ Hb), (decodeURIComponent_plain _ Hp).
    reflexivity.
  - intros [Hm|Hm]; unfold Uploader.extractField; rewrite Hm; reflexivity.
  - intros value Hm Hs.
    exact (extractField_stray pattern key pdfContent value (md, true) Hm Hs).
  - intros pattern' key'. reflexivity.
Qed.

(** X24.  A per cent sign that no hexadecimal digit follows, in the title, the
    author, the creator or the producer of a PDF, ends the checks on its
    content: the metadata is marked as limited, the field is not stored,
    and the anomalies and the score are those of the checks on the file
    itself, so that neither a suspicious creator or producer nor missing
    metadata is ever reported for such a PDF. *)
Theorem undecodable_field_ends_the_content_checks
        (B : Uploader.Browser) (file : File)
        (pdfContent pattern key value : jsstring) :
  header file = str "%PDF-" ->
  content file = Some pdfContent ->
  In (pattern, key) infoFields ->
  matchField pattern pdfContent = Some value ->
  strayPercent value ->
  snd (fst (Uploader.pdfHeuristic B file)) = snd (fst (Uploader.fileChecks B file))
  /\ snd (Uploader.pdfHeuristic B file) = snd (Uploader.fileChecks B file)
  /\ obj_get (str "Status") (fst (fst (Uploader.pdfHeuristic B file)))
     = Some (str "Limited metadata extraction")
  /\ obj_get key (fst (fst (Uploader.pdfHeuristic B file))) = None.
Proof.
  intros Hheader Hcontent Hin Hm Hs.
  unfold Uploader.pdfHeuristic, Uploader.contentChecks.
  rewrite Hheader, jsstring_eqb_refl, Hcontent.
  destruct (Uploader.fileChecks B file) as [[md0 anomalies0] score0] eqn:Hchecks.
  assert (Hmd0 : forall k, In k (map snd infoFields) -> obj_get k md0 = None).
  { unfold Uploader.fileChecks in Hchecks. injection Hchecks as <- _ _.
    intros k Hk. simpl in Hk.
    destruct Hk as [<-|[<-|[<-|[<-|[]]]]]; reflexivity. }
  set (s1 := Uploader.extractField (str "/Title") (str "Title") pdfContent (md0, true)).
  set (s2 := Uploader.extractField (str "/Author") (str "Author") pdfContent s1).
  set (s3 := Uploader.extractField (str "/Creator") (str "Creator") pdfContent s2).
  set (s4 := Uploader.extractField (str "/Producer") (str "Producer") pdfContent s3).
  assert (Hend : snd s4 = false /\ obj_get key (fst s4) = None).
  { simpl in Hin. destruct Hin as [H|[H|[H|[H|[]]]]]; injection H as <- <-.
    - assert (H1 : s1 = (md0, false)) by (apply (extractField_stray _ _ _ value); assumption).
      assert (H2 : s2 = (md0, false))
        by (unfold s2; rewrite H1; reflexivity).
      assert (H3 : s3 = (md0, false))
        by (unfold s3; rewrite H2; reflexivity).
      assert (H4 : s4 = (md0, false))
        by (unfold s4; rewrite H3; reflexivity).
      rewrite H4. split; [reflexivity|]. apply Hmd0. simpl. auto.
    - assert (H2 : s2 = (fst s1, false))
        by (apply (extractField_stray _ _ _ value); assumption).
      assert (H3 : s3 = (fst s1, false))
        by (unfold s3; rewrite H2; reflexivity).
      assert (H4 : s4 = (fst s1, false))
        by (unfold s4; rewrite H3; reflexivity).
      rewrite H4. split; [reflexivity|]. simpl fst. unfold s1.
      rewrite extractField_other by reflexivity. apply Hmd0. simpl. auto.
    - assert (H3 : s3 = (fst s2, false))
        by (apply (extractField_stray _ _ _ value); assumption).
      assert (H4 : s4 = (fst s2, false))
        by (unfold s4; rewrite H3; reflexivity).
      rewrite H4. split; [reflexivity|]. simpl fst. unfold s2, s1.
      rewrite !extractField_other by reflexivity. apply Hmd0. simpl. auto.
    - assert (H4 : s4 = (fst s3, false))
        by (apply (extractField_stray _ _ _ value); assumption).
      rewrite H4. split; [reflexivity|]. simpl fst. unfold s3, s2, s1.
      rewrite !extractField_other by reflexivity. apply Hmd0. simpl. auto. }
  destruct Hend as [Hstop Hkey].
  destruct s4 as [m completed]. simpl in Hstop, Hkey. subst completed.
  cbn [fst snd]. split; [reflexivity|]. split; [reflexivity|].
  unfold Uploader.limitedExtraction. split; [apply obj_get_set_same|].
  rewrite obj_get_set_other; [exact Hkey|].
  simpl in Hin. destruct Hin as [H|[H|[H|[H|[]]]]]; injection H as _ <-; reflexivity.
Qed.

Lemma undecodable_field_ends_the_content_checks_witness :
  snd (fst (Uploader.pdfHeuristic Samples.browser Samples.producerPdf))
  = snd (fst (Uploader.fileChecks Samples.browser Samples.producerPdf))
  /\ obj_get (str "Producer")
             (fst (fst (Uploader.pdfHeuristic Samples.browser Samples.producerPdf)))
     = None.
Proof.
  destruct (undecodable_field_ends_the_content_checks Samples.browser
              Samples.producerPdf Samples.producerPdfText
              (str "/Producer") (str "Producer") (str "100% Pure PDF"))
    as (Ha & _ & _ & Hk).
  - reflexivity.
  - reflexivity.
  - simpl. auto.
  - vm_compute. reflexivity.
  - exists (str "100"), (str " Pure PDF"). split; reflexivity.
  - split; assumption.
Defined.

Lemma fields_are_stored_as_written_or_stop_the_extraction_witness :
  Uploader.extractField (str "/Creator") (str "Creator") Samples.producerPdfText
    ([], true)
  = ([(str "Creator", str "AI Writer")], true).
Proof.
  apply (proj1 (fields_are_stored_as_written_or_stop_the_extraction
                  (str "/Creator") (str "Creator") Samples.producerPdfText [])
           (str "AI Writer")).
  - vm_compute. reflexivity.
  - discriminate.
  - vm_compute. intuition discriminate.
  - vm_compute. intuition discriminate.
Defined.

(* ================================================================== *)
(** * The text kept from the OCR engine *)
(* ================================================================== *)

Lemma collapseSpaces_collapsed (s : jsstring) :
  forall inRun, spacesCollapsed inRun (collapseSpaces inRun s) = true.
Proof.
  induction s as [|c s IH]; intros inRun; [reflexivity|].
  simpl. destruct (is_space c) eqn:Hc.
  - destruct inRun; [apply IH|].
    simpl. rewrite IH. reflexivity.
  - simpl. rewrite Hc. apply IH.
Qed.

Lemma spacesCollapsed_weaken (p : bool) (s : jsstring) :
  spacesCollapsed p s = true -> spacesCollapsed false s = true.
Proof.
  destruct s as [|c s]; [reflexivity|]. simpl.
  destruct (is_space c); [|auto].
  intros H. apply andb_prop in H. destruct H as [H Hs].
  apply andb_prop in H. destruct H as [H32 _]. rewrite H32, Hs. reflexivity.
Qed.

Lemma spacesCollapsed_app (a b : jsstring) :
  forall p, spacesCollapsed p (a ++ b) = true ->
            spacesCollapsed p a = true /\ spacesCollapsed false b = true.
Proof.
  induction a as [|c a IH]; intros p H.
  - split; [reflexivity|]. exact (spacesCollapsed_weaken p b H).
  - simpl in *. destruct (is_space c).
    + apply andb_prop in H. destruct H as [H Hs].
      destruct (IH true Hs) as [Ha Hb]. rewrite H, Ha. split; [reflexivity|exact Hb].
    + apply IH. exact H.
Qed.

Lemma spacesCollapsed_space (s : jsstring) :
  forall p c, spacesCollapsed p s = true -> In c s -> is_space c = true -> c = 32%N.
Proof.
  induction s as [|d s IH]; intros p c H Hin Hc; [destruct Hin|].
  simpl in H. destruct Hin as [->|Hin].
  - rewrite Hc in H. apply andb_prop in H. destruct H as [H _].
    apply andb_prop in H. destruct H as [H _]. now apply N.eqb_eq in H.
  - destruct (is_space d).
    + apply andb_prop in H. destruct H as [_ H]. exact (IH true c H Hin Hc).
    + exact (IH false c H Hin Hc).
Qed.

Lemma spacesCollapsed_adjacent (a : jsstring) :
  forall p c d b,
    spacesCollapsed p (a ++ c :: d :: b) = true ->
    is_space c = true -> is_space d = false.
Proof.
  induction a as [|x a IH]; intros p c d b H Hc.
  - simpl in H. rewrite Hc in H.
    apply andb_prop in H. destruct H as [_ H].
    destruct (is_space d); [|reflexivity].
    apply andb_prop in H. destruct H as [H _].
    apply andb_prop in H. destruct H as [_ H]. discriminate H.
  - simpl in H. destruct (is_space x).
    + apply andb_prop in H. destruct H as [_ H]. exact (IH true c d b H Hc).
    + exact (IH false c d b H Hc).
Qed.

Lemma collapseSpaces_fixed (s : jsstring) :
  forall p, spacesCollapsed p s = true -> collapseSpaces p s = s.
Proof.
  induction s as [|c s IH]; intros p H; [reflexivity|].
  simpl in *. destruct (is_space c).
  - apply andb_prop in H. destruct H as [H Hs].
    apply andb_prop in H. destruct H as [H32 Hp].
    apply N.eqb_eq in H32. apply negb_true_iff in Hp. subst c p.
    rewrite (IH true Hs). reflexivity.
  - rewrite (IH false H). reflexivity.
Qed.

(** [dropSpaces] takes a run of white space off the front. *)
Lemma dropSpaces_split (s : jsstring) :
  exists pre, s = pre ++ dropSpaces s /\ startsWithText (dropSpaces s).
Proof.
  induction s as [|c s (pre & Hpre & Hstart)].
  - exists []. split; [reflexivity|exact I].
  - simpl. destruct (is_space c) eqn:Hc.
    + exists (c :: pre). split; [simpl; now rewrite <- Hpre|exact Hstart].
    + exists []. split; [reflexivity|exact Hc].
Qed.

Lemma dropSpaces_fixed (s : jsstring) : startsWithText s -> dropSpaces s = s.
Proof. destruct s as [|c s]; [reflexivity|]. simpl. intros ->. reflexivity. Qed.

(** [trim] cuts its argument down to a part that neither starts nor ends
    with white space. *)
Lemma trim_split (s : jsstring) :
  exists pre post,
    s = pre ++ trim s ++ post
    /\ startsWithText (trim s)
    /\ startsWithText (rev (trim s)).
Proof.
  unfold trim.
  destruct (dropSpaces_split s) as (pre & Hpre & Hstart).
  destruct (dropSpaces_split (rev (dropSpaces s))) as (pre' & Hpre' & Hstart').
  set (w := dropSpaces (rev (dropSpaces s))) in *.
  assert (Hz : dropSpaces s = rev w ++ rev pre').
  { rewrite <- (rev_involutive (dropSpaces s)), Hpre', rev_app_distr. reflexivity. }
  exists pre, (rev pre'). split; [rewrite <- Hz; exact Hpre|]. split.
  - rewrite Hz in Hstart. destruct (rev w) as [|c r]; [exact I|exact Hstart].
  - rewrite rev_involutive. exact Hstart'.
Qed.

Lemma normalised_intro (s : jsstring) :
  spacesCollapsed false s = true ->
  startsWithText s ->
  startsWithText (rev s) ->
  normalised s.
Proof.
  intros Hs Hhead Hlast. split; [|split].
  - intros c Hin Hc. exact (spacesCollapsed_space s false c Hs Hin Hc).
  - intros a b Hab. split.
    + intros ->. rewrite Hab in Hhead. simpl in Hhead. discriminate Hhead.
    + destruct b as [|c b'].
      * rewrite Hab, rev_app_distr in Hlast. simpl in Hlast. discriminate Hlast.
      * exists c, b'. split; [reflexivity|].
        rewrite Hab in Hs. exact (spacesCollapsed_adjacent a false 32%N c b' Hs eq_refl).
  - unfold cleanedText.
    assert (Ho : orElse (Some s) [] = s) by (destruct s; reflexivity).
    rewrite Ho, (collapseSpaces_fixed s false Hs).
    unfold trim. rewrite (dropSpaces_fixed s Hhead), (dropSpaces_fixed _ Hlast).
    apply rev_involutive.
Qed.

Lemma cleanedText_normalised (t : option jsstring) : normalised (cleanedText t).
Proof.
  unfold cleanedText.
  set (y := collapseSpaces false (orElse t [])).
  pose proof (collapseSpaces_collapsed (orElse t []) false) as Hy. fold y in Hy.
  destruct (trim_split y) as (pre & post & Hsplit & Hhead & Hlast).
  apply normalised_intro; [|exact Hhead|exact Hlast].
  rewrite Hsplit in Hy. apply spacesCollapsed_app in Hy. destruct Hy as [_ Hy].
  apply spacesCollapsed_app in Hy. apply Hy.
Qed.

(** X25.  Whatever the browser and the OCR engine do, the text that
    [extractTextFromImage] resolves with is normalised: its only white
    space are single spaces between other code units, none of them first
    or last, be it the text read from an image, cleaned, or one of the
    three fixed texts. *)
Theorem extracted_text_is_normalised (B : Uploader.Browser) (file : File) :
  exists r,
    result (Uploader.extractTextFromImage B file) = Returns r
    /\ normalised (Uploader.text r).
Proof.
  assert (Hfixed : normalised (Uploader.text Uploader.pdfPlaceholder)
                   /\ normalised (Uploader.text Uploader.noMeaningfulText)
                   /\ normalised (Uploader.text Uploader.extractionFailed)).
  { split; [|split]; apply normalised_intro; vm_compute; reflexivity. }
  destruct Hfixed as (Hpdf & Hnone & Hfailed).
  unfold Uploader.extractTextFromImage, Uploader.extractTextFromImage_try.
  destruct (jsstring_eqb (type file) pdfType);
    [eexists; split; [reflexivity|exact Hpdf]|].
  destruct (Uploader.imageLoads B file);
    [|eexists; split; [reflexivity|exact Hfailed]].
  cbn [bind ret emit app tryCatch].
  destruct (Uploader.recognize B file) as [msg|t c];
    [eexists; split; [reflexivity|exact Hfailed]|].
  cbv zeta. fold (cleanedText t).
  destruct ((length (cleanedText t) <? 5)%nat && PrimFloat.ltb (c / 100) 0.3).
  - eexists. split; [reflexivity|exact Hnone].
  - eexists. split; [reflexivity|]. apply cleanedText_normalised.
Qed.

(* ================================================================== *)
(** * The optimised prompt *)
(* ================================================================== *)

Lemma filter_all {A : Type} (f : A -> bool) (l : list A) :
  (forall x, In x l -> f x = true) -> filter f l = l.
Proof.
  induction l as [|a l IH]; intros H; [reflexivity|].
  simpl. rewrite (H a (or_introl eq_refl)), IH; [reflexivity|].
  intros x Hx. apply H. right. exact Hx.
Qed.

Lemma filter_none {A : Type} (f : A -> bool) (l : list A) :
  (forall x, In x l -> f x = false) -> filter f l = [].
Proof.
  induction l as [|a l IH]; intros H; [reflexivity|].
  simpl. rewrite (H a (or_introl eq_refl)). apply IH.
  intros x Hx. apply H. right. exact Hx.
Qed.

Lemma in_firstn {A : Type} (n : nat) (l : list A) (x : A) :
  In x (firstn n l) -> In x l.
Proof.
  revert l. induction n as [|n IH]; intros [|a l] H; simpl in *; try contradiction.
  destruct H as [->|H]; [left; reflexivity|right; exact (IH l H)].
Qed.

(** The prioritised metadata, split into its important entries and the
    others. *)
Lemma prioritizedMetadata_parts (md : object jsstring) :
  exists important others,
    prioritizedMetadata md = important ++ others
    /\ important = firstn 10 (filter GeminiRoute.isImportant md)
    /\ (forall e, In e important -> GeminiRoute.isImportant e = true /\ In e md)
    /\ (forall e, In e others -> GeminiRoute.isImportant e = false /\ In e md)
    /\ length others <= 5
    /\ length (important ++ others) <= 10.
Proof.
  unfold prioritizedMetadata.
  set (I := filter GeminiRoute.isImportant md).
  set (N5 := firstn 5 (filter (fun e => negb (GeminiRoute.isImportant e)) md)).
  exists (firstn 10 I), (firstn (10 - length I) N5).
  split; [apply firstn_app|]. split; [reflexivity|]. split; [|split; [|split]].
  - intros e He. apply in_firstn in He. apply filter_In in He.
    destruct He as [Hin Himp]. split; assumption.
  - intros e He. apply in_firstn in He. apply in_firstn in He.
    apply filter_In in He. destruct He as [Hin Himp].
    apply negb_true_iff in Himp. split; assumption.
  - rewrite length_firstn. subst N5. rewrite length_firstn. lia.
  - rewrite <- firstn_app. rewrite length_firstn. lia.
Qed.

Lemma prioritizedMetadata_fixed (md : object jsstring) :
  prioritizedMetadata (prioritizedMetadata md) = prioritizedMetadata md.
Proof.
  destruct (prioritizedMetadata_parts md)
    as (I & N & Hp & _ & HI & HN & HlenN & Hlen).
  rewrite Hp. unfold prioritizedMetadata.
  rewrite !filter_app.
  rewrite (filter_all _ I) by (intros e He; apply HI; exact He).
  rewrite (filter_none GeminiRoute.isImportant N) by (intros e He; apply HN; exact He).
  rewrite (filter_none _ I)
    by (intros e He; apply negb_false_iff; apply HI; exact He).
  rewrite (filter_all _ N)
    by (intros e He; apply negb_true_iff; apply HN; exact He).
  rewrite app_nil_r. change ([] ++ N) with N.
  rewrite (firstn_all2 (n:=5) N) by lia.
  apply firstn_all2. exact Hlen.
Qed.

(** With distinct keys, at most seven entries are important. *)
Lemma important_entries_are_few (md : object jsstring) :
  NoDup (map fst md) -> length (filter GeminiRoute.isImportant md) <= 7.
Proof.
  intros Hnd.
  assert (Hnd' : NoDup (map fst (filter GeminiRoute.isImportant md))).
  { induction md as [|e md IH]; [constructor|].
    simpl in Hnd. inversion Hnd as [|? ? Hnotin Hrest]; subst.
    simpl. destruct (GeminiRoute.isImportant e); [|exact (IH Hrest)].
    simpl. constructor; [|exact (IH Hrest)].
    intros Hin. apply Hnotin. apply in_map_iff in Hin.
    destruct Hin as (x & Hx & Hin). apply filter_In in Hin.
    apply in_map_iff. exists x. split; [exact Hx|apply Hin]. }
  assert (Hincl : incl (map fst (filter GeminiRoute.isImportant md))
                       GeminiRoute.importantMetadataFields).
  { intros k Hk. apply in_map_iff in Hk. destruct Hk as (e & <- & He).
    apply filter_In in He. destruct He as [_ Himp].
    unfold GeminiRoute.isImportant in Himp. apply existsb_exists in Himp.
    destruct Himp as (k & Hk & Heq). apply jsstring_eqb_eq in Heq.
    rewrite Heq. exact Hk. }
  pose proof (NoDup_incl_length Hnd' Hincl) as Hlen.
  rewrite length_map in Hlen. exact Hlen.
Qed.

(** X26.  What the hosted model is told about a document.  The prompt is the one
    for the first five image features and for the prioritised metadata
    alone: at most ten entries of the metadata, of which at most five are
    not important, and, when the keys are distinct, every important entry.
    Of a text of more than 1000 code units only the first 1000 reach the
    prompt. *)
Theorem prompt_carries_a_bounded_part_of_the_input
        (S : GeminiRoute.Server) (imageType extractedText : jsstring)
        (imageFeatures : list float) (documentMetadata : object jsstring) :
  GeminiRoute.createOptimizedPrompt S imageType extractedText imageFeatures
    documentMetadata
  = GeminiRoute.createOptimizedPrompt S imageType extractedText
      (firstn 5 imageFeatures) (prioritizedMetadata documentMetadata)
  /\ length (prioritizedMetadata documentMetadata) <= 10
  /\ length (filter (fun e => negb (GeminiRoute.isImportant e))
               (prioritizedMetadata documentMetadata)) <= 5
  /\ (forall e, In e (prioritizedMetadata documentMetadata) -> In e documentMetadata)
  /\ (NoDup (map fst documentMetadata) ->
      forall e, In e documentMetadata -> GeminiRoute.isImportant e = true ->
                In e (prioritizedMetadata documentMetadata))
  /\ (forall otherText,
         1000 < length extractedText ->
         1000 < length otherText ->
         firstn 1000 otherText = firstn 1000 extractedText ->
         GeminiRoute.createOptimizedPrompt S imageType otherText imageFeatures
           documentMetadata
         = GeminiRoute.createOptimizedPrompt S imageType extractedText imageFeatures
             documentMetadata).
Proof.
  destruct (prioritizedMetadata_parts documentMetadata)
    as (I & N & Hp & HIdef & HI & HN & HlenN & Hlen).
  split; [|split; [|split; [|split; [|split]]]].
  - unfold GeminiRoute.createOptimizedPrompt, GeminiRoute.promptWith. cbv zeta.
    fold (prioritizedMetadata documentMetadata).
    fold (prioritizedMetadata (prioritizedMetadata documentMetadata)).
    rewrite prioritizedMetadata_fixed.
    rewrite firstn_firstn, Nat.min_id.
    assert (Hf : (0 <? length (firstn 5 imageFeatures))
                 = (0 <? length imageFeatures)).
    { destruct imageFeatures; reflexivity. }
    rewrite Hf. reflexivity.
  - rewrite Hp. exact Hlen.
  - rewrite Hp, filter_app.
    rewrite (filter_none _ I)
      by (intros e He; apply negb_false_iff; apply HI; exact He).
    simpl. etransitivity; [apply filter_length_le|exact HlenN].
  - intros e He. rewrite Hp in He. apply in_app_or in He.
    destruct He as [He|He]; [apply HI|apply HN]; exact He.
  - intros Hnd e Hin Himp. rewrite Hp. apply in_or_app. left.
    rewrite HIdef, firstn_all2.
    + apply filter_In. split; assumption.
    + pose proof (important_entries_are_few documentMetadata Hnd). lia.
  - intros otherText Hlong Hlong' Hsame.
    unfold GeminiRoute.createOptimizedPrompt, GeminiRoute.promptWith. cbv zeta.
    apply Nat.ltb_lt in Hlong, Hlong'. rewrite Hlong, Hlong'.
    unfold substring0. rewrite Hsame. reflexivity.
Qed.

(* ================================================================== *)
(** * The description of a large PDF, from the uploader to the route *)
(* ================================================================== *)

(** Writing a string under a key of a record of strings gives a record of
    strings. *)
Lemma obj_set_record (k v : jsstring) (md : object jsstring) :
  obj_set k (JStr v) (map (fun kv => (fst kv, JStr (snd kv))) md)
  = map (fun kv => (fst kv, JStr (snd kv))) (obj_set k v md).
Proof.
  induction md as [|[k' v'] md IH]; [reflexivity|].
  cbn [map obj_set fst snd]. destruct (jsstring_eqb k k'); [reflexivity|].
  cbn [map fst snd]. rewrite IH. reflexivity.
Qed.

Lemma setIfMissing_record (k v : jsstring) (md : object jsstring) :
  exists md',
    GeminiRoute.setIfMissing k (JStr v) (map (fun kv => (fst kv, JStr (snd kv))) md)
    = map (fun kv => (fst kv, JStr (snd kv))) md'.
Proof.
  unfold GeminiRoute.setIfMissing.
  destruct (truthyField k _).
  - exists md. reflexivity.
  - exists (obj_set k v md). apply obj_set_record.
Qed.

Lemma obj_get_setIfMissing (k : jsstring) (v : json) (m : object json) :
  obj_get k (GeminiRoute.setIfMissing k v m)
  = if truthyField k m then obj_get k m else Some v.
Proof.
  unfold GeminiRoute.setIfMissing.
  destruct (truthyField k m); [reflexivity|apply obj_get_set_same].
Qed.

Lemma obj_get_setIfMissing_other (k k' : jsstring) (v : json) (m : object json) :
  jsstring_eqb k k' = false ->
  obj_get k (GeminiRoute.setIfMissing k' v m) = obj_get k m.
Proof.
  intros Hk. unfold GeminiRoute.setIfMissing.
  destruct (truthyField k' m); [reflexivity|].
  apply obj_get_set_other. exact Hk.
Qed.

(** X27.  The route recognises the description the uploader sends in place of a
    large PDF, unless the file's name is empty.  When the metadata sent
    parse to an object or to an array, it marks them as optimised,
    completes them with the name, the size and the type from the
    description where the uploader gave none or an empty one, and keeps
    the uploader's entries otherwise; when they parse to [null], to a
    string, to a number or to a boolean, the description is recognised all
    the same and the metadata stay as they are, without the mark.  The
    route then reads no text, and the prompt, when one is built, is the
    one for a document of type [application/pdf], a fixed text and the
    metadata so completed; for features and metadata of the declared
    types it is the prompt of [createOptimizedPrompt]. *)
Theorem large_pdf_is_analysed_from_its_description
        (S : GeminiRoute.Server) (B : Uploader.Browser)
        (st0 : GeminiRoute.State) (req : GeminiRoute.Request)
        (form : FormData) (file : File) :
  type file = pdfType ->
  readsDescription S file ->
  GeminiRoute.formData req = inr form ->
  image form = Some (Uploader.metadataFile B file) ->
  let sent := GeminiRoute.parsedOr (GeminiRoute.parse S) (JObj []) (metadata form) in
  let imageFeatures :=
    GeminiRoute.parsedOr (GeminiRoute.parse S) (JArr []) (features form) in
  let recognised := GeminiRoute.optimizedPdf S (Uploader.metadataFile B file) sent in
  let fixedText := str "Large PDF document - metadata-only analysis" in
  (name file = [] -> recognised = (false, sent))
  /\ (name file <> [] ->
      fst recognised = true
      /\ (forall fields,
             sent = JObj fields
             \/ (exists items, sent = JArr items /\ fields = indexed items) ->
             exists md,
               snd recognised = JObj md
               /\ obj_get (str "Optimized") md
                  = Some (JStr (str "Yes - Large PDF file"))
               /\ obj_get (str "File Name") md
                  = (if truthyField (str "File Name") fields
                     then obj_get (str "File Name") fields
                     else Some (JStr (name file)))
               /\ obj_get (str "File Type") md
                  = (if truthyField (str "File Type") fields
                     then obj_get (str "File Type") fields
                     else Some (JStr (str "application/pdf"))))
      /\ (sent = JNull \/ (exists s, sent = JStr s) \/ (exists x, sent = JNum x)
          \/ (exists b, sent = JBool b) ->
          snd recognised = sent)
      /\ (forall f, ~ In (TextStub f) (steps (snd (GeminiRoute.POST S st0 req))))
      /\ (forall p,
             In (BuildPrompt p) (steps (snd (GeminiRoute.POST S st0 req))) ->
             promptError S imageFeatures (snd recognised) = None
             /\ p = promptFor S pdfType fixedText imageFeatures (snd recognised))
      /\ (forall fs record,
             imageFeatures = JArr (map JNum fs) ->
             sent = jsonOfRecord record ->
             exists md,
               snd recognised = jsonOfRecord md
               /\ promptFor S pdfType fixedText imageFeatures (snd recognised)
                  = GeminiRoute.createOptimizedPrompt S pdfType fixedText fs md)).
Proof.
  intros Htype (fileSize & Hparse) Hform Himage sent imageFeatures recognised
         fixedText.
  assert (Hopt : recognised
                 = if nonEmpty (Some (name file))
                   then (true,
                         match GeminiRoute.describeFile S (JStr (name file))
                                 (Some (JNum fileSize)) pdfType sent with
                         | Some described => described
                         | None => sent
                         end)
                   else (false, sent)).
  { subst recognised. unfold GeminiRoute.optimizedPdf.
    change (type (Uploader.metadataFile B file)) with jsonType.
    change (content (Uploader.metadataFile B file))
      with (Some (Uploader.stringifyFileInfo file)).
    rewrite jsstring_eqb_refl, Hparse. unfold field.
    change (obj_get (str "isPdf") _) with (Some (JBool true)).
    change (obj_get (str "fileName") _) with (Some (JStr (name file))).
    change (obj_get (str "fileType") _) with (Some (JStr (type file))).
    change (obj_get (str "fileSize") _) with (Some (JNum fileSize)).
    rewrite Htype, jsstring_eqb_refl. cbn [truthy andb].
    destruct (name file); reflexivity. }
  split.
  - intros Hname. rewrite Hopt, Hname. reflexivity.
  - intros Hname.
    assert (Hne : nonEmpty (Some (name file)) = true)
      by (destruct (name file); [now elim Hname|reflexivity]).
    rewrite Hne in Hopt. clear Hne.
    assert (Hmarked : forall fields,
               exists md,
                 JObj (obj_set (str "Optimized") (JStr (str "Yes - Large PDF file"))
                         (GeminiRoute.setIfMissing (str "File Type") (JStr pdfType)
                            (GeminiRoute.setIfMissing (str "File Size")
                               (JStr (GeminiRoute.toFixed2 S
                                        (GeminiRoute.toNumber S (Some (JNum fileSize))
                                         / 1024)%float ++ str " KB"))
                               (GeminiRoute.setIfMissing (str "File Name")
                                  (JStr (name file)) fields))))
                 = JObj md
                 /\ obj_get (str "Optimized") md
                    = Some (JStr (str "Yes - Large PDF file"))
                 /\ obj_get (str "File Name") md
                    = (if truthyField (str "File Name") fields
                       then obj_get (str "File Name") fields
                       else Some (JStr (name file)))
                 /\ obj_get (str "File Type") md
                    = (if truthyField (str "File Type") fields
                       then obj_get (str "File Type") fields
                       else Some (JStr (str "application/pdf")))).
    { intros fields. eexists. split; [reflexivity|].
      split; [apply obj_get_set_same|]. split.
      - rewrite obj_get_set_other by reflexivity.
        rewrite !obj_get_setIfMissing_other by reflexivity.
        apply obj_get_setIfMissing.
      - rewrite obj_get_set_other by reflexivity.
        rewrite obj_get_setIfMissing.
        unfold truthyField.
        rewrite !obj_get_setIfMissing_other by reflexivity. reflexivity. }
    split; [rewrite Hopt; reflexivity|].
    split.
    { intros fields [->|(items & -> & ->)]; rewrite Hopt; cbn [snd];
        unfold GeminiRoute.describeFile; apply Hmarked. }
    split.
    { intros [->|[(s & ->)|[(x & ->)|(b & ->)]]]; rewrite Hopt; reflexivity. }
    assert (Hsteps :
              steps (snd (GeminiRoute.POST S st0 req)) = []
              \/ promptError S imageFeatures (snd recognised) = None
                 /\ exists rest,
                     steps (snd (GeminiRoute.POST S st0 req))
                     = BuildPrompt
                         (promptFor S pdfType fixedText imageFeatures (snd recognised))
                       :: rest
                     /\ forall s, In s rest ->
                                  (exists p, s = Generate p)
                                  \/ exists t, s = MatchReply t).
    { rewrite POST_run. cbv zeta.
      destruct (jsstring_eqb (GeminiRoute.GEMINI_API_KEY S) []); [left; reflexivity|].
      rewrite Hform, Himage.
      fold sent. fold imageFeatures. fold recognised.
      destruct (10 <? _)%Z; [left; reflexivity|].
      assert (Hfst : fst recognised = true) by (rewrite Hopt; reflexivity).
      rewrite Hfst. cbn [steps fst].
      destruct (analyzeWithGemini_any_outcome S pdfType fixedText imageFeatures
                  (snd recognised))
        as (l & Hrun & [(_ & _ & [->|(_ & _ & Hok & Hl)])
                       |(_ & _ & Hok & text & m & _ & -> & _)]).
      - left. fold fixedText. rewrite Hrun. reflexivity.
      - right. split; [exact Hok|]. fold fixedText. rewrite Hrun. cbn [steps fst].
        destruct Hl as [->|(text & ->)].
        + eexists. split; [reflexivity|].
          intros s [<-|[]]. left. eexists. reflexivity.
        + eexists. split; [reflexivity|].
          intros s [<-|[<-|[]]]; [left|right]; eexists; reflexivity.
      - right. split; [exact Hok|]. fold fixedText. rewrite Hrun. cbn [steps fst].
        eexists. split; [reflexivity|].
        intros s [<-|[<-|[]]]; [left|right]; eexists; reflexivity. }
    split.
    { intros f Hin.
      destruct Hsteps as [Hs|(_ & rest & Hs & Hrest)]; rewrite Hs in Hin.
      - destruct Hin.
      - destruct Hin as [Hin|Hin]; [discriminate Hin|].
        destruct (Hrest _ Hin) as [[p Hp]|[t Ht]]; discriminate. }
    split.
    { intros p Hin.
      destruct Hsteps as [Hs|(Hok & rest & Hs & Hrest)]; rewrite Hs in Hin.
      - destruct Hin.
      - split; [exact Hok|].
        destruct Hin as [Hin|Hin]; [now injection Hin|].
        destruct (Hrest _ Hin) as [[q Hq]|[t Ht]]; discriminate. }
    intros fs record Hfs Hrecord.
    assert (Hmd : exists md, snd recognised = jsonOfRecord md).
    { rewrite Hopt, Hrecord. cbn [snd]. unfold jsonOfRecord, GeminiRoute.describeFile.
      destruct (setIfMissing_record (str "File Name") (name file) record) as (m1 & ->).
      destruct (setIfMissing_record (str "File Size")
                  (GeminiRoute.toFixed2 S
                     (GeminiRoute.toNumber S (Some (JNum fileSize)) / 1024)%float
                   ++ str " KB") m1) as (m2 & ->).
      destruct (setIfMissing_record (str "File Type") pdfType m2) as (m3 & ->).
      rewrite obj_set_record. eexists. reflexivity. }
    destruct Hmd as (md & Hmd). exists md. split; [exact Hmd|].
    rewrite Hmd, Hfs. apply promptFor_typed.
Qed.

Lemma large_pdf_is_analysed_from_its_description_witness :
  fst (GeminiRoute.optimizedPdf Cases.readingServer
         (Uploader.metadataFile Samples.browser Cases.largePdf) (JObj []))
  = true
  /\ (exists md,
         snd (GeminiRoute.optimizedPdf Cases.readingServer
                (Uploader.metadataFile Samples.browser Cases.largePdf) (JObj []))
         = JObj md
         /\ obj_get (str "Optimized") md = Some (JStr (str "Yes - Large PDF file"))
         /\ obj_get (str "File Name") md = Some (JStr (str "manual.pdf")))
  /\ forall f,
      ~ In (TextStub f)
           (steps (snd (GeminiRoute.POST Cases.readingServer Samples.freshState
                          Cases.largePdfRequest))).
Proof.
  destruct (large_pdf_is_analysed_from_its_description Cases.readingServer
              Samples.browser Samples.freshState Cases.largePdfRequest
              {| image := Some (Uploader.metadataFile Samples.browser Cases.largePdf);
                 features := None;
                 metadata := None |}
              Cases.largePdf)
    as [_ H]; try reflexivity.
  - exists 600000%float. vm_compute. reflexivity.
  - destruct H as (Hfst & Hmarked & _ & Hstub & _); [discriminate|].
    destruct (Hmarked [] (or_introl eq_refl)) as (md & Hmd & Hopt & Hname & _).
    split; [exact Hfst|]. split; [|exact Hstub].
    exists md. split; [exact Hmd|]. split; [exact Hopt|exact Hname].
Defined.

(* ================================================================== *)
(** * The admin route [documents] *)
(* ================================================================== *)

Lemma withUser_run (S : DocumentsRoute.Store) (doc : jsstring * object json) :
  DocumentsRoute.withUser S doc
  = (match ownerOf doc with
     | Some userId => [DocumentsRoute.LookUpUser userId]
     | None => []
     end,
     Returns (listedAs S doc)).
Proof.
  unfold DocumentsRoute.withUser, listedAs, ownerOf.
  destruct (obj_get (str "userId") (snd doc)) as [userId|]; [|reflexivity].
  destruct (truthy userId); [|reflexivity].
  destruct (AdminRoutes.getUser (DocumentsRoute.firebase S) userId) as [e|userRecord];
    reflexivity.
Qed.

Lemma listAll_run (S : DocumentsRoute.Store) (docs : list (jsstring * object json)) :
  DocumentsRoute.listAll S docs = (lookups docs, Returns (map (listedAs S) docs)).
Proof.
  induction docs as [|doc rest IH]; [reflexivity|].
  cbn [DocumentsRoute.listAll lookups map]. rewrite withUser_run, IH.
  destruct (ownerOf doc); cbn [bind ret app]; rewrite ?app_nil_r; reflexivity.
Qed.

(** The route, case by case. *)
Lemma documents_run (S : DocumentsRoute.Store) (request : DocumentsRoute.Request) :
  let F := DocumentsRoute.firebase S in
  let h := DocumentsRoute.headers request in
  let limit := limitOf S request in
  let page := pageOf S request in
  let offset := ((page - 1) * limit)%float in
  let query := DocumentsRoute.QueryDocuments (filterOf request) limit offset in
  DocumentsRoute.GET S request
  = if headerAccepted h then
      match AdminRoutes.verifyIdToken F (bearerToken h) with
      | inl _ =>
          ([DocumentsRoute.Guard (AdminRoutes.VerifyIdToken (bearerToken h))],
           Returns (DocumentsRoute.respond 500 (str "Internal server error")))
      | inr userId =>
          let checks :=
            [DocumentsRoute.Guard (AdminRoutes.VerifyIdToken (bearerToken h));
             DocumentsRoute.Guard (AdminRoutes.ReadUserDocument userId)] in
          if recordedAdmin F userId then
            match DocumentsRoute.queryDocuments S (filterOf request) limit offset with
            | inl _ =>
                (checks ++ [query],
                 Returns (DocumentsRoute.respond 500 (str "Internal server error")))
            | inr docs =>
                (checks ++ query :: lookups docs
                 ++ [DocumentsRoute.CountDocuments (filterOf request)],
                 Returns
                   match DocumentsRoute.countDocuments S (filterOf request) with
                   | inl _ => DocumentsRoute.respond 500 (str "Internal server error")
                   | inr totalCount =>
                       {| DocumentsRoute.statusCode := 200;
                          DocumentsRoute.payload :=
                            DocumentsRoute.DocumentsPayload (map (listedAs S) docs)
                              {| DocumentsRoute.total := totalCount;
                                 DocumentsRoute.pages :=
                                   DocumentsRoute.ceil S (totalCount / limit)%float;
                                 DocumentsRoute.currentPage := page;
                                 DocumentsRoute.limit := limit |} |}
                   end)
            end
          else (checks, Returns (DocumentsRoute.respond 403 (str "Forbidden")))
      end
    else ([], Returns (DocumentsRoute.respond 401 (str "Unauthorized"))).
Proof.
  intros F h limit page offset query.
  unfold DocumentsRoute.GET. fold F h. cbv zeta.
  fold (filterOf request) (limitOf S request) (pageOf S request).
  fold limit page. fold offset. fold query.
  destruct (headerAccepted h) eqn:Hh.
  - rewrite (authorize_checks_token F h Hh).
    destruct (AdminRoutes.verifyIdToken F (bearerToken h)) as [e|userId];
      [reflexivity|].
    destruct (recordedAdmin F userId); [|reflexivity].
    unfold DocumentsRoute.guarded. cbn [steps result fst snd map].
    cbn [bind].
    destruct (DocumentsRoute.queryDocuments S (filterOf request) limit offset)
      as [e|docs]; [reflexivity|].
    cbn [lift bind ret emit app]. rewrite listAll_run.
    cbn [bind ret emit app].
    destruct (DocumentsRoute.countDocuments S (filterOf request)) as [e|totalCount];
      cbn [lift bind ret emit app tryCatch throw]; rewrite ?app_nil_r;
      reflexivity.
  - rewrite (authorize_rejects_header F h Hh). reflexivity.
Qed.

(** X28.  The [documents] route is guarded like the other admin routes: it
    answers 401 to a header that is missing or does not start with
    [Bearer ], 403 to a verified user who is no recorded administrator and
    500 to a token the identity provider rejects, and it queries or counts
    the documents and looks users up only for a recorded administrator. *)
Theorem documents_route_is_guarded
        (S : DocumentsRoute.Store) (request : DocumentsRoute.Request) :
  let F := DocumentsRoute.firebase S in
  let h := DocumentsRoute.headers request in
  (headerAccepted h = false ->
   DocumentsRoute.GET S request
   = ([], Returns (DocumentsRoute.respond 401 (str "Unauthorized"))))
  /\ (forall e,
         headerAccepted h = true ->
         AdminRoutes.verifyIdToken F (bearerToken h) = inl e ->
         result (DocumentsRoute.GET S request)
         = Returns (DocumentsRoute.respond 500 (str "Internal server error"))
         /\ existsb readsDocuments (steps (DocumentsRoute.GET S request)) = false)
  /\ (forall userId,
         headerAccepted h = true ->
         AdminRoutes.verifyIdToken F (bearerToken h) = inr userId ->
         recordedAdmin F userId = false ->
         result (DocumentsRoute.GET S request)
         = Returns (DocumentsRoute.respond 403 (str "Forbidden"))
         /\ existsb readsDocuments (steps (DocumentsRoute.GET S request)) = false)
  /\ (existsb readsDocuments (steps (DocumentsRoute.GET S request)) = true ->
      headerAccepted h = true
      /\ exists userId,
          AdminRoutes.verifyIdToken F (bearerToken h) = inr userId
          /\ recordedAdmin F userId = true).
Proof.
  intros F h. rewrite documents_run. fold F h. cbv zeta.
  destruct (headerAccepted h).
  - split; [discriminate|].
    destruct (AdminRoutes.verifyIdToken F (bearerToken h)) as [e|userId].
    + split; [intros e' _ _; split; reflexivity|].
      split; [intros userId _ H; discriminate H|]. simpl. discriminate.
    + split; [intros e _ H; discriminate H|].
      destruct (recordedAdmin F userId) eqn:Hadm.
      * split; [intros u _ [= <-] H; congruence|].
        intros _. split; [reflexivity|]. exists userId. split; [reflexivity|exact Hadm].
      * split; [intros u _ _ _; split; reflexivity|]. simpl. discriminate.
  - split; [reflexivity|]. split; [discriminate|]. split; [discriminate|].
    simpl. discriminate.
Qed.

(** X29.  For an administrator the [documents] route lists every document of the
    page the query returns, in the query's order and once each, whether or
    not its user is found: a document that names no user, or a user whose
    lookup fails, is listed with the user [Unknown], and the failed lookup
    does not fail the request.  The route queries once, with the offset
    [(page - 1) * limit], looks up one user per document that names one,
    and counts once, in this order. *)
Theorem documents_are_listed_whether_or_not_their_users_are_found
        (S : DocumentsRoute.Store) (request : DocumentsRoute.Request)
        (userId : jsstring) (docs : list (jsstring * object json))
        (totalCount : float) :
  let F := DocumentsRoute.firebase S in
  let h := DocumentsRoute.headers request in
  let limit := limitOf S request in
  let page := pageOf S request in
  headerAccepted h = true ->
  AdminRoutes.verifyIdToken F (bearerToken h) = inr userId ->
  recordedAdmin F userId = true ->
  DocumentsRoute.queryDocuments S (filterOf request) limit ((page - 1) * limit)%float
  = inr docs ->
  DocumentsRoute.countDocuments S (filterOf request) = inr totalCount ->
  result (DocumentsRoute.GET S request)
  = Returns {| DocumentsRoute.statusCode := 200;
               DocumentsRoute.payload :=
                 DocumentsRoute.DocumentsPayload (map (listedAs S) docs)
                   {| DocumentsRoute.total := totalCount;
                      DocumentsRoute.pages :=
                        DocumentsRoute.ceil S (totalCount / limit)%float;
                      DocumentsRoute.currentPage := page;
                      DocumentsRoute.limit := limit |} |}
  /\ map DocumentsRoute.id (map (listedAs S) docs) = map fst docs
  /\ map DocumentsRoute.data (map (listedAs S) docs) = map snd docs
  /\ (forall doc,
         In doc docs ->
         ownerOf doc = None
         \/ (exists owner e,
                ownerOf doc = Some owner /\ AdminRoutes.getUser F owner = inl e) ->
         DocumentsRoute.user (listedAs S doc) = DocumentsRoute.Unknown)
  /\ filter readsDocuments (steps (DocumentsRoute.GET S request))
     = DocumentsRoute.QueryDocuments (filterOf request) limit ((page - 1) * limit)%float
       :: lookups docs ++ [DocumentsRoute.CountDocuments (filterOf request)].
Proof.
  intros F h limit page Hh Hv Hadm Hquery Hcount.
  rewrite documents_run. fold F h limit page. cbv zeta.
  rewrite Hh, Hv, Hadm, Hquery, Hcount.
  split; [reflexivity|].
  split; [rewrite map_map; reflexivity|].
  split; [rewrite map_map; reflexivity|]. split.
  - intros doc _ [Hnone|(owner & e & Howner & Hget)]; unfold listedAs; simpl.
    + rewrite Hnone. reflexivity.
    + rewrite Howner. fold F. rewrite Hget. reflexivity.
  - cbn [steps fst app filter readsDocuments]. f_equal.
    rewrite filter_app. cbn [filter readsDocuments]. f_equal.
    apply filter_all. intros a Ha.
    clear - Ha. induction docs as [|doc rest IH]; [destruct Ha|].
    simpl in Ha. destruct (ownerOf doc).
    + destruct Ha as [<-|Ha]; [reflexivity|exact (IH Ha)].
    + exact (IH Ha).
Qed.

Lemma documents_are_listed_whether_or_not_their_users_are_found_witness :
  exists known,
    result (DocumentsRoute.GET Cases.store
              (Cases.documentsRequest (Some (str "Bearer token-of-admin1"))))
    = Returns {| DocumentsRoute.statusCode := 200;
                 DocumentsRoute.payload :=
                   DocumentsRoute.DocumentsPayload
                     [{| DocumentsRoute.id := str "d1";
                         DocumentsRoute.data :=
                           [(str "name", JStr (str "a.pdf"));
                            (str "userId", JStr (str "user1"))];
                         DocumentsRoute.user := known |};
                      {| DocumentsRoute.id := str "d2";
                         DocumentsRoute.data :=
                           [(str "name", JStr (str "b.pdf"));
                            (str "userId", JStr (str "ghost"))];
                         DocumentsRoute.user := DocumentsRoute.Unknown |}]
                     {| DocumentsRoute.total := 2;
                        DocumentsRoute.pages := 1;
                        DocumentsRoute.currentPage := 1;
                        DocumentsRoute.limit := 50 |} |}.
Proof.
  eexists.
  apply (documents_are_listed_whether_or_not_their_users_are_found Cases.store
           (Cases.documentsRequest (Some (str "Bearer token-of-admin1")))
           (str "admin1")
           [(str "d1", [(str "name", JStr (str "a.pdf"));
                        (str "userId", JStr (str "user1"))]);
            (str "d2", [(str "name", JStr (str "b.pdf"));
                        (str "userId", JStr (str "ghost"))])]
           2%float); reflexivity.
Defined.

(* ================================================================== *)
(** * The admin page of users, served by the [make-admin] route *)
(* ================================================================== *)

(** The [make-admin] route always answers, with 200 or with an error
    status that is not a success. *)
Lemma make_admin_answers (F : AdminRoutes.Firebase) (request : AdminRoutes.Request) :
  exists l r,
    AdminRoutes.POST F request = (l, Returns r)
    /\ ((AdminRoutes.statusCode r = 200 /\ UsersPage.ok r = true)
        \/ (AdminRoutes.statusCode r <> 200 /\ UsersPage.ok r = false)).
Proof.
  destruct (POST_of_others F request) as (H401 & H500 & H403).
  destruct (headerAccepted request) eqn:Hh;
    [|rewrite (H401 eq_refl); do 2 eexists; split; [reflexivity|];
      right; split; [discriminate|reflexivity]].
  destruct (AdminRoutes.verifyIdToken F (bearerToken request)) as [e|userId] eqn:Hv;
    [rewrite (H500 e eq_refl eq_refl); do 2 eexists; split; [reflexivity|];
     right; split; [discriminate|reflexivity]|].
  destruct (recordedAdmin F userId) eqn:Hadm;
    [|rewrite (H403 userId eq_refl eq_refl Hadm); do 2 eexists; split; [reflexivity|];
      right; split; [discriminate|reflexivity]].
  rewrite (POST_of_admin F request userId Hh Hv Hadm).
  destruct (AdminRoutes.jsonBody request) as [e|parsed];
    [do 2 eexists; split; [reflexivity|]; right; split; [discriminate|reflexivity]|].
  destruct (AdminRoutes.targetOf parsed) as [e|[target|]];
    try (do 2 eexists; split; [reflexivity|]; right; split; [discriminate|reflexivity]).
  destruct (truthy target);
    [|do 2 eexists; split; [reflexivity|]; right; split; [discriminate|reflexivity]].
  destruct (AdminRoutes.getUser F target);
    [do 2 eexists; split; [reflexivity|]; right; split; [discriminate|reflexivity]|].
  destruct (AdminRoutes.setAdmin F target) as [e|[]];
    do 2 eexists; (split; [reflexivity|]);
    [right; split; [discriminate|reflexivity]|left; split; reflexivity].
Qed.

Lemma after_calls (l : list AdminRoutes.Action) (v : UsersPage.View) :
  UsersPage.after (map UsersPage.Call l) v = v.
Proof. induction l as [|a l IH]; [reflexivity|exact IH]. Qed.

Lemma page_after_app (l l' : list UsersPage.Effect) (v : UsersPage.View) :
  UsersPage.after (l ++ l') v = UsersPage.after l' (UsersPage.after l v).
Proof. apply fold_left_app. Qed.

(** X30.  The page shows what the route did.  When the page, served by the
    route, asks to make a user an administrator, the handler returns with
    the busy flag down, and the calls made are those of the route.  The
    user is marked as administrator in the page's list, with the success
    message, exactly when the route answers 200; otherwise the list is as
    it was and the page shows the error text of the route's answer. *)
Theorem page_shows_what_the_route_did
        (B : UsersPage.Browser) (F : AdminRoutes.Firebase) (time token : jsstring)
        (user : UsersPage.User) (v : UsersPage.View) :
  pageServedBy B F time ->
  UsersPage.currentUser B = Some (inr token) ->
  let answer := AdminRoutes.POST F (makeAdminRequest token user time) in
  let m := UsersPage.handleMakeAdmin B user in
  let v' := UsersPage.after (steps m) v in
  result m = Returns tt
  /\ UsersPage.actionLoading v' = false
  /\ (forall a, In (UsersPage.Call a) (steps m) <-> In a (steps answer))
  /\ exists r,
      result answer = Returns r
      /\ (AdminRoutes.statusCode r = 200 ->
          UsersPage.users v' = UsersPage.markAdmin (UsersPage.uid user) (UsersPage.users v)
          /\ UsersPage.actionSuccess v'
             = Some (orElse (UsersPage.email user) (UsersPage.uid user)
                     ++ str " is now an admin")
          /\ UsersPage.actionError v' = None
          /\ UsersPage.showModal v' = false)
      /\ (AdminRoutes.statusCode r <> 200 ->
          UsersPage.users v' = UsersPage.users v
          /\ UsersPage.actionSuccess v' = None
          /\ UsersPage.actionError v'
             = Some (orElse (UsersPage.errorOf r) UsersPage.failure)
          /\ UsersPage.showModal v' = UsersPage.showModal v).
Proof.
  intros Hserved Hcur answer m v'.
  destruct (make_admin_answers F (makeAdminRequest token user time))
    as (l & r & Hrun & Hstatus).
  assert (Hm : m = ([UsersPage.SetActionLoading true;
                     UsersPage.SetActionError None;
                     UsersPage.SetActionSuccess None]
                    ++ map UsersPage.Call l
                    ++ (if UsersPage.ok r
                        then [UsersPage.MarkAdmin (UsersPage.uid user);
                              UsersPage.SetActionSuccess
                                (Some (orElse (UsersPage.email user) (UsersPage.uid user)
                                       ++ str " is now an admin"));
                              UsersPage.SetShowModal false]
                        else [UsersPage.SetActionError
                                (Some (orElse (UsersPage.errorOf r) UsersPage.failure))])
                    ++ [UsersPage.SetActionLoading false],
                    Returns tt)).
  { subst m. unfold UsersPage.handleMakeAdmin. rewrite Hcur.
    unfold UsersPage.called. cbn [lift bind emit ret]. rewrite !(Hserved _ _).
    change {| AdminRoutes.authorization := Some (str "Bearer " ++ token);
              AdminRoutes.jsonBody :=
                inr (JObj [(str "targetUserId", JStr (UsersPage.uid user))]);
              AdminRoutes.isoTime := time |}
      with (makeAdminRequest token user time).
    rewrite Hrun. cbn [steps result fst snd].
    destruct (UsersPage.ok r).
    - cbn [negb bind ret emit tryCatch throw app]. rewrite ?app_nil_r.
      rewrite <- ?app_assoc. reflexivity.
    - cbn [negb bind ret emit tryCatch throw app]. rewrite ?app_nil_r.
      assert (Hne : orElse (Some (orElse (UsersPage.errorOf r) UsersPage.failure))
                      UsersPage.failure
                    = orElse (UsersPage.errorOf r) UsersPage.failure).
      { destruct (UsersPage.errorOf r) as [[|c e]|]; reflexivity. }
      rewrite Hne, <- ?app_assoc. reflexivity. }
  subst v'. rewrite Hm. cbn [steps result fst snd].
  split; [reflexivity|].
  rewrite !page_after_app, after_calls.
  split; [reflexivity|]. split.
  - intros a. subst answer. rewrite Hrun. cbn [steps fst]. split.
    + intros Hin. apply in_app_or in Hin. destruct Hin as [Hin|Hin].
      * simpl in Hin. destruct Hin as [H|[H|[H|[]]]]; discriminate H.
      * apply in_app_or in Hin. destruct Hin as [Hin|Hin].
        -- apply in_map_iff in Hin. destruct Hin as (x & [= <-] & Hx). exact Hx.
        -- apply in_app_or in Hin. destruct Hin as [Hin|Hin].
           ++ destruct (UsersPage.ok r); simpl in Hin;
                repeat (destruct Hin as [Hin|Hin]; try discriminate Hin);
                contradiction.
           ++ simpl in Hin. destruct Hin as [Hin|[]]. discriminate Hin.
    + intros Hin. apply in_or_app. right. apply in_or_app. left.
      apply in_map. exact Hin.
  - exists r. subst answer. rewrite Hrun. split; [reflexivity|]. split.
    + intros H200. destruct Hstatus as [[_ Hok]|[Hno _]]; [|contradiction].
      rewrite Hok. repeat split.
    + intros Hno. destruct Hstatus as [[H200 _]|[_ Hok]]; [contradiction|].
      rewrite Hok. repeat split.
Qed.

Lemma page_shows_what_the_route_did_witness :
  let v' :=
    UsersPage.after (steps (UsersPage.handleMakeAdmin Cases.adminBrowser Cases.listedUser))
      Cases.usersView in
  UsersPage.actionLoading v' = false
  /\ map UsersPage.isAdmin (UsersPage.users v') = [Some true].
Proof.
  destruct (page_shows_what_the_route_did Cases.adminBrowser Samples.firebase
              (str "2024-01-01T00:00:00.000Z") (str "token-of-admin1")
              Cases.listedUser Cases.usersView)
    as (_ & Hloading & _ & r & Hr & H200 & _).
  - intros header body. reflexivity.
  - reflexivity.
  - split; [exact Hloading|].
    vm_compute in Hr. injection Hr as <-.
    destruct (H200 eq_refl) as (Husers & _).
    cbv zeta. rewrite Husers. reflexivity.
Defined.
